(** * tcpy_scanner: a shallow embedding of [src/tcpy_scanner.py]

    The development follows the source file top to bottom: the Python
    primitives the scanner relies on, the port list ([set_probes],
    [expand_port_list]), the target enumerator ([TargetGenerator]), the probe
    registry ([ProbeStateContainer], [ProbeStateTcp]), the rate governor
    ([wait_for_quotas]) and the scan driver ([start_scan], [receive_packets]).

    Conventions.
    - Python [int] is [Z]; Python [float] is idealised as an exact rational
      [Q] (comparisons and sums are the exact ones); [None] is [option];
      a [str] is the [string] of its UTF-8 encoding.
    - A call that can end the process returns a [result]: [Ok] for a normal
      return, [Exit] for [sys.exit] (with the line printed just before it)
      and [Raise] for an exception nobody catches.
    - [ProbeStateTcp] objects are shared between the deque, the descriptor
      index and the local variables of the driver; they live in a store
      addressed by [probe_id], and every alias holds the id. *)

From Stdlib Require Import ZArith QArith Qround Lia Lqa Bool Ascii String List.
From Stdlib Require Import Sorting.Sorted Sorting.Permutation.
From stdpp Require Import base option list gmap strings.

Local Open Scope string_scope.
Local Open Scope list_scope.
Local Open Scope Z_scope.

(** ** Outcomes of a call *)

Inductive exception : Type :=
  | ValueError          (* int() on a malformed literal, ip_network on a bad token *)
  | TypeError           (* arithmetic on None *)
  | AttributeError      (* attribute access on None *)
  | KeyError            (* missing dict key *)
  | IndexError          (* list index out of range *)
  | ZeroDivisionError   (* float division by zero *)
  | OverflowError       (* connect() to a port outside 0..65535 *)
  | OSError (errno : Z) (* socket errors that the driver re-raises *)
  | GenericException.   (* raise Exception(...) *)

(** Lines the program prints.  Each constructor is one [print] site of the
    source; the arguments are the values interpolated in its format. *)
Inductive message : Type :=
  | E_invalid_blocklist_ip (ip : string)
  | E_not_valid_target (target : string)
  | E_range_format (ip_range : string)
  | E_cidr_format (cidr : string)
  | E_netmask_gt_32 (cidr : string)
  | E_netmask_lt_8 (cidr : string)
  | E_port_range_format (port : string)
  | E_port_out_of_range (p : Z)
  | E_file_does_not_exist (file : string)
  | E_no_probes
  | E_unknown_target_source
  | E_too_many_open_files
  | W_rtt_low (rtt recv_interval : Q)
  | W_select_max_sockets (limit max_sockets : Z)
  | W_max_sockets_above_ulimit (max_sockets soft_limit : Z)
  | W_max_sockets_high (max_sockets suggestion : Z)
  | W_max_sockets_low (max_sockets suggestion : Z)
  | I_try_lower_rtt
  | I_try_no_retries
  | I_skipping_blocklisted (ip : string) (port : Z)
  | I_network_unreachable (ip : string) (port : Z)
  | W_unexpected_event (event : Z)
  | Received_RST (ip : string) (port : Z)
  | Received_SYN_ACK (ip : string) (port : Z).

Inductive result (A : Type) : Type :=
  | Ok (a : A)
  | Exit (msg : message) (status : Z)
  | Raise (e : exception).
Arguments Ok {A} a.
Arguments Exit {A} msg status.
Arguments Raise {A} e.

Definition bind {A B : Type} (r : result A) (k : A -> result B) : result B :=
  match r with
  | Ok a => k a
  | Exit m c => Exit m c
  | Raise e => Raise e
  end.

Declare Scope result_scope.
Delimit Scope result_scope with result.
Notation "x <- r ;; k" := (bind r (fun x => k))
  (at level 100, r at next level, right associativity) : result_scope.
Local Open Scope result_scope.

Definition is_exit {A : Type} (r : result A) : option Z :=
  match r with Exit _ c => Some c | _ => None end.

(** ** Python primitives *)

Module Py.

(** [sorted(l, key=key)]: a stable sort that compares keys with [<] only.
    Insertion from the right moves an element past the keys strictly below
    its own and no further, so elements with equal keys keep their order. *)
Section Sorted.
Context {A K : Type} (lt : K -> K -> bool) (key : A -> K).

Fixpoint insert_by (x : A) (l : list A) : list A :=
  match l with
  | [] => [x]
  | y :: ys => if lt (key y) (key x) then y :: insert_by x ys else x :: y :: ys
  end.

Fixpoint sorted (l : list A) : list A :=
  match l with
  | [] => []
  | x :: xs => insert_by x (sorted xs)
  end.
End Sorted.

(** [a] may stand before [b] in a list sorted by [key]. *)
Definition in_order {A K : Type} (lt : K -> K -> bool) (key : A -> K) (a b : A) : Prop :=
  lt (key b) (key a) = false.

(** [range(a, b)] over the integers. *)
Definition range (a b : Z) : list Z :=
  map (fun i => a + Z.of_nat i) (seq 0 (Z.to_nat (b - a))).

(** [s.split(sep)] for a one-character separator. *)
Fixpoint split (sep : ascii) (s : string) : list string :=
  match s with
  | EmptyString => [EmptyString]
  | String c s' =>
      if Ascii.eqb c sep then EmptyString :: split sep s'
      else match split sep s' with
           | h :: t => String c h :: t
           | [] => [String c EmptyString]
           end
  end.

(** [c in s] for a one-character [c]. *)
Fixpoint contains (c : ascii) (s : string) : bool :=
  match s with
  | EmptyString => false
  | String c' s' => Ascii.eqb c c' || contains c s'
  end.

(** *** Text

    A [str] is represented by its UTF-8 encoding, so a character of an
    ASCII text is one byte and any other code point is two to four. *)

Definition byte_value (c : ascii) : Z := Z.of_nat (nat_of_ascii c).

Fixpoint is_ascii (s : string) : bool :=
  match s with
  | EmptyString => true
  | String c s' => (byte_value c <? 128) && is_ascii s'
  end.

Definition continuation (s : string) : option (Z * string) :=
  match s with
  | String c s' =>
      let n := byte_value c in
      if (128 <=? n) && (n <=? 191) then Some (n - 128, s') else None
  | EmptyString => None
  end.

(** The first code point of a text, and the text after it. *)
Definition decode (s : string) : option (Z * string) :=
  match s with
  | EmptyString => None
  | String c s1 =>
      let n := byte_value c in
      if n <? 128 then Some (n, s1)
      else if (192 <=? n) && (n <=? 223) then
        '(a, s2) ← continuation s1;
        Some ((n - 192) * 64 + a, s2)
      else if (224 <=? n) && (n <=? 239) then
        '(a, s2) ← continuation s1; '(b, s3) ← continuation s2;
        Some (((n - 224) * 64 + a) * 64 + b, s3)
      else if (240 <=? n) && (n <=? 247) then
        '(a, s2) ← continuation s1; '(b, s3) ← continuation s2; '(d, s4) ← continuation s3;
        Some ((((n - 240) * 64 + a) * 64 + b) * 64 + d, s4)
      else None
  end.

(** The code points [str.isspace] accepts. *)
Definition is_unicode_space (cp : Z) : bool :=
  (9 <=? cp) && (cp <=? 13) || (28 <=? cp) && (cp <=? 32) || (cp =? 133) || (cp =? 160)
  || (cp =? 5760) || (8192 <=? cp) && (cp <=? 8202) || (cp =? 8232) || (cp =? 8233)
  || (cp =? 8239) || (cp =? 8287) || (cp =? 12288).

(** White space for the C library ([isspace] in the C locale) and for the
    parser behind [int]: tab to carriage return, and the space. *)
Definition is_c_space (c : ascii) : bool :=
  let n := nat_of_ascii c in
  ((9 <=? n) && (n <=? 13) || (n =? 32))%nat.

(** The code points of the digit zero in the scripts that have decimal
    digits (Unicode 14.0, the database of Python 3.11); the nine code
    points after each are its digits 1 to 9. *)
Definition decimal_zeros : list Z :=
  [48; 1632; 1776; 1984; 2406; 2534; 2662; 2790; 2918; 3046; 3174; 3302; 3430; 3558; 3664;
   3792; 3872; 4160; 4240; 6112; 6160; 6470; 6608; 6784; 6800; 6992; 7088; 7232; 7248;
   42528; 43216; 43264; 43472; 43504; 43600; 44016; 65296; 66720; 68912; 69734; 69872;
   69942; 70096; 70384; 70736; 70864; 71248; 71360; 71472; 71904; 72016; 72784; 73040;
   73120; 92768; 92864; 93008; 120782; 120792; 120802; 120812; 120822; 123200;
   123632; 125264; 130032].

(** The value of a decimal digit of any script. *)
Definition decimal_value (cp : Z) : option Z :=
  match List.find (fun z => (z <=? cp) && (cp <=? z + 9)) decimal_zeros with
  | Some z => Some (cp - z)
  | None => None
  end.

(** The items of a text: a byte together with the continuation bytes that
    follow it, which is one code point in a well-formed text. *)
Definition continues (s : string) : bool :=
  match s with
  | String c _ => (128 <=? byte_value c) && (byte_value c <=? 191)
  | EmptyString => false
  end.

Fixpoint code_points (s : string) : list string :=
  match s with
  | EmptyString => []
  | String c s' =>
      match code_points s' with
      | h :: t => if continues s' then String c h :: t else String c EmptyString :: h :: t
      | [] => [String c EmptyString]
      end
  end.

Definition is_space_item (item : string) : bool :=
  match decode item with
  | Some (cp, EmptyString) => is_unicode_space cp
  | _ => false
  end.

Fixpoint drop_spaces (items : list string) : list string :=
  match items with
  | item :: rest => if is_space_item item then drop_spaces rest else items
  | [] => []
  end.

Definition join (items : list string) : string :=
  fold_right String.append EmptyString items.

(** [s.lstrip()], [s.rstrip()] and [s.strip()] *)
Definition lstrip (s : string) : string := join (drop_spaces (code_points s)).

Definition rstrip (s : string) : string :=
  join (List.rev (drop_spaces (List.rev (code_points s)))).

Definition strip (s : string) : string :=
  join (List.rev (drop_spaces (List.rev (drop_spaces (code_points s))))).

Definition digit_of (c : ascii) : option Z :=
  let n := nat_of_ascii c in
  if ((48 <=? n) && (n <=? 57))%nat then Some (Z.of_nat n - 48) else None.

Definition is_digit (c : ascii) : bool :=
  match digit_of c with Some _ => true | None => false end.

(** The digits of a decimal literal; an underscore is accepted between two
    digits only. *)
Fixpoint int_digits (acc : Z) (after_digit : bool) (s : string) : option Z :=
  match s with
  | EmptyString => if after_digit then Some acc else None
  | String c s' =>
      match digit_of c with
      | Some d => int_digits (10 * acc + d) true s'
      | None =>
          if Ascii.eqb c "_"%char && after_digit then int_digits acc false s' else None
      end
  end.

(** What [int] does with a text that is not ASCII before it parses it:
    white space of any kind becomes a space, a decimal digit of any script
    becomes the ASCII digit of its value, and the first code point that is
    neither ends the text with a question mark, which no number contains. *)
Fixpoint to_ascii (fuel : nat) (s : string) : string :=
  match fuel with
  | O => EmptyString
  | S fuel' =>
      match s with
      | EmptyString => EmptyString
      | String _ _ =>
          match decode s with
          | None => "?"
          | Some (cp, rest) =>
              if cp <? 127 then String (ascii_of_nat (Z.to_nat cp)) (to_ascii fuel' rest)
              else if is_unicode_space cp then String " " (to_ascii fuel' rest)
              else
                match decimal_value cp with
                | Some d => String (ascii_of_nat (Z.to_nat (48 + d))) (to_ascii fuel' rest)
                | None => "?"
                end
          end
      end
  end.

(** White space skipped before and after the number. *)
Fixpoint skip_left (s : string) : string :=
  match s with
  | String c s' => if is_c_space c then skip_left s' else s
  | EmptyString => EmptyString
  end.

Fixpoint skip_right (s : string) : string :=
  match s with
  | EmptyString => EmptyString
  | String c s' =>
      match skip_right s' with
      | EmptyString => if is_c_space c then EmptyString else String c EmptyString
      | t => String c t
      end
  end.

(** [int(s)] on a string (Python 3): surrounding white space, an optional
    sign, decimal digits.  Anything else is a [ValueError]. *)
Definition int (s : string) : result Z :=
  let a := if is_ascii s then s else to_ascii (String.length s) s in
  let t := skip_right (skip_left a) in
  let r :=
    match t with
    | String "+"%char t' => int_digits 0 false t'
    | String "-"%char t' => Z.opp <$> int_digits 0 false t'
    | _ => int_digits 0 false t
    end in
  match r with
  | Some z => Ok z
  | None => Raise ValueError
  end.

(** [l[i]] for a non-negative literal index. *)
Definition index {A : Type} (l : list A) (i : nat) : result A :=
  match l !! i with
  | Some x => Ok x
  | None => Raise IndexError
  end.

(** [int(x)] on a float: truncation towards zero. *)
Definition int_of_float (q : Q) : Z := Z.quot (Qnum q) (Z.pos (Qden q)).

(** Decimal rendering of a non-negative integer, [str(n)]. *)
Definition digit_char (d : Z) : ascii := ascii_of_nat (Z.to_nat (48 + d)).

Fixpoint str_of_nat_aux (fuel : nat) (n : Z) (acc : string) : string :=
  match fuel with
  | O => acc
  | S fuel' =>
      let acc' := String (digit_char (n mod 10)) acc in
      if n / 10 =? 0 then acc' else str_of_nat_aux fuel' (n / 10) acc'
  end.

Definition str_of_Z (n : Z) : string :=
  if n <? 0 then String "-" (str_of_nat_aux (S (Z.to_nat (Z.log2 (- n)))) (- n) EmptyString)
  else str_of_nat_aux (S (Z.to_nat (Z.log2 n))) n EmptyString.

End Py.

(** ** The popularity table (source line 721)

    Most common TCP ports, most popular first, as taken by the source from
    the nmap-services file.  The table lists some ports more than once. *)

Module Popularity.

Definition port_popularity_nmap : list Z :=
  [80; 23; 443; 21; 22; 25; 3389; 110; 445; 139; 143; 53; 135; 3306; 8080; 1723;
   111; 995; 993; 5900; 1025; 587; 8888; 199; 1720; 465; 548; 113; 81; 6001; 10000; 514;
   5060; 179; 1026; 2000; 8443; 8000; 32768; 554; 26; 1433; 49152; 2001; 515; 8008; 49154; 1027;
   5666; 646; 5000; 5631; 631; 49153; 8081; 2049; 88; 79; 5800; 106; 2121; 1110; 49155; 6000;
   513; 990; 5357; 427; 49156; 543; 544; 5101; 144; 7; 389; 8009; 3128; 444; 9999; 5009;
   7070; 5190; 3000; 5432; 1900; 3986; 13; 1029; 9; 5051; 6646; 49157; 1028; 873; 1755; 2717;
   4899; 9100; 119; 37; 1000; 3001; 5001; 82; 10010; 1030; 9090; 2107; 1024; 2103; 6004; 1801;
   5050; 19; 8031; 1041; 255; 1049; 1048; 2967; 1053; 3703; 1056; 1065; 1064; 1054; 17; 808;
   3689; 1031; 1044; 1071; 5901; 100; 9102; 8010; 2869; 1039; 5120; 4001; 9000; 2105; 636; 1038;
   2601; 1; 7000; 1066; 1069; 625; 311; 280; 254; 4000; 1993; 1761; 5003; 2002; 2005; 1998;
   1032; 1050; 6112; 3690; 1521; 2161; 6002; 1080; 2401; 4045; 902; 7937; 787; 1058; 2383; 32771;
   1033; 1040; 1059; 50000; 5555; 10001; 1494; 593; 2301; 3; 1; 3268; 7938; 1234; 1022; 1074;
   8002; 1036; 1035; 9001; 1037; 464; 497; 1935; 6666; 2003; 6543; 1352; 24; 3269; 1111; 407;
   500; 20; 2006; 3260; 15000; 1218; 1034; 4444; 264; 2004; 33; 1042; 42510; 999; 3052; 1023;
   1068; 222; 7100; 888; 4827; 1999; 563; 1717; 2008; 992; 32770; 32772; 7001; 8082; 2007; 740;
   5550; 2009; 5801; 1043; 512; 2701; 7019; 50001; 1700; 4662; 2065; 2010; 42; 9535; 2602; 3333;
   161; 5100; 5002; 2604; 4002; 6059; 1047; 8192; 8193; 2702; 6789; 9595; 1051; 9594; 9593; 16993;
   16992; 5226; 5225; 32769; 3283; 1052; 8194; 1055; 1062; 9415; 8701; 8652; 8651; 8089; 65389; 65000;
   64680; 64623; 55600; 55555; 52869; 35500; 33354; 23502; 20828; 1311; 1060; 4443; 730; 731; 709; 1067;
   13782; 5902; 366; 9050; 1002; 85; 5500; 5431; 1864; 1863; 8085; 51103; 49999; 45100; 10243; 49;
   3495; 6667; 90; 475; 27000; 1503; 6881; 1500; 8021; 340; 78; 5566; 8088; 2222; 9071; 8899;
   6005; 9876; 1501; 5102; 32774; 32773; 9101; 5679; 163; 648; 146; 1666; 901; 83; 9207; 8001;
   8083; 5004; 3476; 8084; 5214; 14238; 12345; 912; 30; 2605; 2030; 6; 541; 8007; 3005; 4;
   1248; 2500; 880; 306; 4242; 1097; 9009; 2525; 1086; 1088; 8291; 52822; 6101; 900; 7200; 2809;
   395; 800; 32775; 12000; 1083; 211; 987; 705; 20005; 711; 13783; 6969; 3071; 5269; 5222; 1085;
   1046; 5987; 5989; 5988; 2190; 11967; 8600; 3766; 7627; 8087; 30000; 9010; 7741; 14000; 3367; 1099;
   1098; 3031; 2718; 6580; 15002; 4129; 6901; 3827; 3580; 2144; 9900; 8181; 3801; 1718; 2811; 9080;
   2135; 1045; 2399; 3017; 10002; 1148; 9002; 8873; 2875; 9011; 5718; 8086; 3998; 2607; 11110; 4126;
   5911; 5910; 9618; 2381; 1096; 3300; 3351; 1073; 8333; 3784; 5633; 15660; 6123; 3211; 1078; 3659;
   3551; 2260; 2160; 2100; 16001; 3325; 3323; 1104; 9968; 9503; 9502; 9485; 9290; 9220; 8994; 8649;
   8222; 7911; 7625; 7106; 65129; 63331; 6156; 6129; 60020; 5962; 5961; 5960; 5959; 5925; 5877; 5825;
   5810; 58080; 57294; 50800; 50006; 50003; 49160; 49159; 49158; 48080; 40193; 34573; 34572; 34571; 3404; 33899;
   3301; 32782; 32781; 31038; 30718; 28201; 27715; 25734; 24800; 22939; 21571; 20221; 20031; 19842; 19801; 19101;
   17988; 1783; 16018; 16016; 15003; 14442; 13456; 10629; 10628; 10626; 10621; 10617; 10616; 10566; 10025; 10024;
   10012; 1169; 5030; 5414; 1057; 6788; 1947; 1094; 1075; 1108; 4003; 1081; 1093; 4449; 1687; 1840;
   1100; 1063; 1061; 1107; 1106; 9500; 20222; 7778; 1077; 1310; 2119; 2492; 1070; 20000; 8400; 1272;
   6389; 7777; 1072; 1079; 1082; 8402; 89; 691; 1001; 32776; 1999; 212; 2020; 6003; 7002; 2998;
   50002; 3372; 898; 5510; 32; 2033; 4165; 3061; 5903; 99; 749; 425; 43; 5405; 6106; 13722;
   6502; 7007; 458; 9666; 8100; 3737; 5298; 1152; 8090; 2191; 3011; 1580; 5200; 3851; 3371; 3370;
   3369; 7402; 5054; 3918; 3077; 7443; 3493; 3828; 1186; 2179; 1183; 19315; 19283; 3995; 5963; 1124;
   8500; 1089; 10004; 2251; 1087; 5280; 3871; 3030; 62078; 9091; 4111; 1334; 3261; 2522; 5859; 1247;
   9944; 9943; 9877; 9110; 8654; 8254; 8180; 8011; 7512; 7435; 7103; 61900; 61532; 5922; 5915; 5904;
   5822; 56738; 55055; 51493; 50636; 50389; 49175; 49165; 49163; 3546; 32784; 27355; 27353; 27352; 24444; 19780;
   18988; 16012; 15742; 10778; 4006; 2126; 4446; 3880; 1782; 1296; 9998; 9040; 32779; 1021; 32777; 2021;
   32778; 616; 666; 700; 5802; 4321; 545; 1524; 1112; 49400; 84; 38292; 2040; 32780; 3006; 2111;
   1084; 1600; 2048; 2638; 6699; 9111; 16080; 6547; 6007; 1533; 5560; 2106; 1443; 667; 720; 2034;
   555; 801; 6025; 3221; 3826; 9200; 2608; 4279; 7025; 11111; 3527; 1151; 8200; 8300; 6689; 9878;
   10009; 8800; 5730; 2394; 2393; 2725; 5061; 6566; 9081; 5678; 3800; 4550; 5080; 1201; 3168; 3814;
   1862; 1114; 6510; 3905; 8383; 3914; 3971; 3809; 5033; 7676; 3517; 4900; 3869; 9418; 2909; 3878;
   8042; 1091; 1090; 3920; 6567; 1138; 3945; 1175; 10003; 3390; 3889; 1131; 8292; 5087; 1119; 1117;
   4848; 7800; 16000; 3324; 3322; 5221; 4445; 9917; 9575; 9099; 9003; 8290; 8099; 8093; 8045; 7921;
   7920; 7496; 6839; 6792; 6779; 6692; 6565; 60443; 5952; 5950; 5907; 5906; 5862; 5850; 5815; 5811;
   57797; 56737; 5544; 55056; 5440; 54328; 54045; 52848; 52673; 50500; 50300; 49176; 49167; 49161; 44501; 44176;
   41511; 40911; 32785; 32783; 30951; 27356; 26214; 25735; 19350; 18101; 18040; 17877; 16113; 15004; 14441; 12265;
   12174; 10215; 10180; 4567; 6100; 4004; 4005; 8022; 9898; 7999; 1271; 1199; 3003; 1122; 2323; 4224;
   2022; 617; 777; 417; 714; 6346; 981; 722; 1009; 4998; 70; 1076; 5999; 10082; 765; 301;
   524; 668; 2041; 6009; 1417; 1434; 259; 44443; 1984; 2068; 7004; 1007; 4343; 416; 2038; 6006;
   109; 4125; 1461; 9103; 911; 726; 1010; 2046; 2035; 7201; 687; 2013; 481; 125; 6669; 6668;
   903; 1455; 683; 1011; 2043; 2047; 31337; 256; 9929; 5998; 406; 44442; 783; 843; 2042; 2045;
   4040; 6060; 6051; 1145; 3916; 9443; 9444; 1875; 7272; 4252; 4200; 7024; 1556; 13724; 1141; 1233;
   8765; 1137; 3963; 5938; 9191; 3808; 8686; 3981; 2710; 3852; 3849; 3944; 3853; 9988; 1163; 4164;
   3820; 6481; 3731; 5081; 40000; 8097; 4555; 3863; 1287; 4430; 7744; 1812; 7913; 1166; 1164; 1165;
   8019; 10160; 4658; 7878; 3304; 3307; 1259; 1092; 7278; 3872; 10008; 7725; 3410; 1971; 3697; 3859;
   3514; 4949; 4147; 7900; 5353; 3931; 8675; 1277; 3957; 1213; 2382; 6600; 3700; 3007; 4080; 1113;
   3969; 1132; 1309; 3848; 7281; 3907; 3972; 3968; 1126; 5223; 1217; 3870; 3941; 8293; 1719; 1300;
   2099; 6068; 3013; 3050; 1174; 3684; 2170; 3792; 1216; 5151; 7080; 22222; 4143; 5868; 8889; 12006;
   1121; 3119; 8015; 10023; 3824; 1154; 20002; 3888; 4009; 5063; 3376; 1185; 1198; 1192; 1972; 1130;
   1149; 4096; 6500; 8294; 3990; 3993; 8016; 3846; 3929; 1187; 5074; 8766; 1102; 2800; 9941; 9914;
   9815; 9673; 9643; 9621; 9501; 9409; 9198; 9197; 9098; 8996; 8987; 8877; 8676; 8648; 8540; 8481;
   8385; 8189; 8098; 8095; 8050; 7929; 7770; 7749; 7438; 7241; 7123; 7051; 7050; 6896; 6732; 6711;
   65310; 6520; 6504; 6247; 6203; 61613; 60642; 60146; 60123; 5981; 5940; 59202; 59201; 59200; 5918; 5914;
   59110; 5909; 5905; 5899; 58838; 5869; 58632; 58630; 5823; 5818; 5812; 5807; 58002; 58001; 57665; 55576;
   55020; 53535; 5339; 53314; 53313; 53211; 52853; 52851; 52850; 52849; 52847; 5279; 52735; 52710; 52660; 5242;
   5212; 51413; 51191; 5040; 50050; 49401; 49236; 49195; 49186; 49171; 49168; 49164; 4875; 47544; 46996; 46200;
   44709; 41523; 41064; 40811; 3994; 39659; 39376; 39136; 38188; 38185; 37839; 35513; 33554; 33453; 32835; 32822;
   32816; 32803; 32792; 32791; 30704; 30005; 29831; 29672; 28211; 27357; 26470; 23796; 23052; 2196; 21792; 19900;
   18264; 18018; 17595; 16851; 16800; 16705; 15402; 15001; 12452; 12380; 12262; 12215; 12059; 12021; 10873; 10058;
   10034; 10022; 10011; 2910; 1594; 1658; 1583; 3162; 2920; 26000; 2366; 4600; 1688; 1322; 2557; 1095;
   1839; 2288; 1123; 5968; 9600; 1244; 1641; 2200; 1105; 6550; 5501; 1328; 2968; 1805; 1914; 1974;
   31727; 3400; 1301; 1147; 1721; 1236; 2501; 2012; 6222; 1220; 1109; 1347; 502; 701; 2232; 2241;
   4559; 710; 10005; 5680; 623; 913; 1103; 780; 930; 803; 725; 639; 540; 102; 5010; 1222;
   953; 8118; 9992; 1270; 27; 123; 86; 447; 1158; 442; 18000; 419; 931; 874; 856; 250;
   475; 2044; 441; 210; 6008; 7003; 5803; 1008; 556; 6103; 829; 3299; 55; 713; 1550; 709;
   2628; 223; 3025; 87; 57; 10083; 5520; 980; 251; 1013; 9152; 1212; 2433; 1516; 333; 2011;
   748; 1350; 1526; 7010; 1241; 127; 157; 220; 1351; 2067; 684; 77; 4333; 674; 943; 904;
   840; 825; 792; 732; 1020; 1006; 657; 557; 610; 1547; 523; 996; 2025; 602; 3456; 862;
   600; 2903; 257; 1522; 1353; 6662; 998; 660; 729; 730; 731; 782; 1357; 3632; 3399; 6050;
   2201; 971; 969; 905; 846; 839; 823; 822; 795; 790; 778; 757; 659; 225; 1015; 1014;
   1012; 655; 786; 6017; 6670; 690; 388; 44334; 754; 5011; 98; 411; 1525; 3999; 740; 12346;
   802; 1337; 1127; 2112; 1414; 2600; 621; 606; 59; 928; 924; 922; 921; 918; 878; 864;
   859; 806; 805; 728; 252; 1005; 1004; 641; 758; 669; 38037; 715; 1413; 2104; 1229; 3817;
   6063; 6062; 6055; 6052; 6030; 6021; 6015; 6010; 3220; 6115; 3940; 2340; 8006; 4141; 3810; 1565;
   3511; 5986; 5985; 2723; 9202; 4036; 4035; 2312; 3652; 3280; 4243; 4298; 4297; 4294; 4262; 4234;
   4220; 4206; 22555; 9300; 7121; 1927; 4433; 5070; 2148; 1168; 9979; 7998; 4414; 1823; 3653; 1223;
   8201; 4876; 3240; 2644; 4020; 2436; 3906; 4375; 4024; 5581; 5580; 9694; 6251; 7345; 7325; 7320;
   7300; 3121; 5473; 5475; 3600; 3943; 4912; 2142; 1976; 1975; 5202; 5201; 4016; 5111; 9911; 10006;
   3923; 3930; 1221; 2973; 3909; 5814; 14001; 3080; 4158; 3526; 1911; 5066; 2711; 2187; 3788; 3796;
   3922; 2292; 16161; 3102; 4881; 3979; 3670; 4174; 3483; 2631; 1750; 3897; 7500; 5553; 5554; 9875;
   4570; 3860; 3712; 8052; 2083; 8883; 2271; 1208; 3319; 3935; 3430; 1215; 3962; 3368; 3964; 1128;
   5557; 4010; 9400; 1605; 3291; 7400; 5005; 1699; 1195; 5053; 3813; 1712; 3002; 3765; 3806; 43000;
   2371; 3532; 3799; 3790; 3599; 3850; 4355; 4358; 4357; 4356; 5433; 3928; 4713; 4374; 3961; 9022;
   3911; 3396; 7628; 3200; 1753; 3967; 2505; 5133; 3658; 8471; 1314; 2558; 6161; 4025; 3089; 9021;
   30001; 8472; 5014; 9990; 1159; 1157; 1308; 5723; 3443; 4161; 1135; 9211; 9210; 4090; 7789; 6619;
   9628; 12121; 4454; 3680; 3167; 3902; 3901; 3890; 3842; 16900; 4700; 4687; 8980; 1196; 4407; 3520;
   3812; 5012; 10115; 1615; 2902; 4118; 2706; 2095; 2096; 3363; 5137; 3795; 8005; 10007; 3515; 8003;
   3847; 3503; 5252; 27017; 2197; 4120; 1180; 5722; 1134; 1883; 1249; 3311; 3837; 2804; 4558; 4190;
   2463; 1204; 4056; 1184; 19333; 9333; 3913; 3672; 4342; 4877; 3586; 8282; 1861; 1752; 9592; 1701;
   6085; 2081; 4058; 2115; 8900; 4328; 2958; 2957; 7071; 3899; 2531; 2691; 5052; 1638; 3419; 2551;
   4029; 3603; 1336; 2082; 1143; 3602; 1176; 4100; 3486; 6077; 4800; 2062; 1918; 12001; 12002; 9084;
   7072; 1156; 2313; 3952; 4999; 5023; 2069; 28017; 27019; 27018; 3439; 6324; 1188; 1125; 3908; 7501;
   8232; 1722; 2988; 10500; 1136; 1162; 10020; 22128; 1211; 3530; 12009; 9005; 3057; 3956; 1191; 3519;
   5235; 1144; 4745; 1901; 1807; 2425; 5912; 3210; 32767; 5015; 5013; 3622; 4039; 10101; 5233; 5152;
   3983; 3982; 9616; 4369; 3728; 3621; 2291; 5114; 7101; 1315; 2087; 5234; 1635; 3263; 4121; 4602;
   2224; 3949; 9131; 3310; 3937; 2253; 3882; 3831; 2376; 2375; 3876; 3362; 3663; 3334; 47624; 1825;
   3868; 4302; 5721; 1279; 2606; 1173; 22125; 17500; 12005; 6113; 1973; 3793; 3637; 8954; 3742; 9667;
   41795; 41794; 4300; 8445; 12865; 3365; 4665; 3190; 3577; 3823; 2261; 2262; 2812; 1190; 22350; 3374;
   4135; 2598; 2567; 1167; 8470; 8116; 3830; 8880; 2734; 3505; 3388; 3669; 1871; 4325; 8025; 1958;
   3681; 3014; 8999; 4415; 3414; 4101; 6503; 9700; 3683; 1150; 18333; 4376; 3991; 3989; 3992; 2302;
   3415; 1179; 3946; 2203; 4192; 4418; 2712; 25565; 4065; 3915; 2080; 3103; 2265; 8202; 2304; 8060;
   4119; 4401; 1560; 3904; 4534; 1835; 1116; 8023; 8474; 3879; 4087; 4112; 6350; 9950; 3506; 3948;
   3825; 2325; 1800; 1153; 6379; 3839; 5672; 4689; 47806; 3975; 3980; 4113; 2847; 2070; 3425; 6628;
   3997; 3513; 3656; 2335; 1182; 1954; 3996; 4599; 2391; 3479; 5021; 5020; 1558; 1924; 4545; 2991;
   6065; 1290; 1559; 1317; 5423; 1707; 5055; 9975; 9971; 9919; 9915; 9912; 9910; 9908; 9901; 9844;
   9830; 9826; 9825; 9823; 9814; 9812; 9777; 9745; 9683; 9680; 9679; 9674; 9665; 9661; 9654; 9648;
   9620; 9619; 9613; 9583; 9527; 9513; 9493; 9478; 9464; 9454; 9364; 9351; 9183; 9170; 9133; 9130;
   9128; 9125; 9065; 9061; 9044; 9037; 9013; 9004; 8925; 8898; 8887; 8882; 8879; 8878; 8865; 8843;
   8801; 8798; 8790; 8772; 8756; 8752; 8736; 8680; 8673; 8658; 8655; 8644; 8640; 8621; 8601; 8562;
   8539; 8531; 8530; 8515; 8484; 8479; 8477; 8455; 8454; 8453; 8452; 8451; 8409; 8339; 8308; 8295;
   8273; 8268; 8255; 8248; 8245; 8144; 8133; 8110; 8092; 8064; 8037; 8029; 8018; 8014; 7975; 7895;
   7854; 7853; 7852; 7830; 7813; 7788; 7780; 7772; 7771; 7688; 7685; 7654; 7637; 7600; 7555; 7553;
   7456; 7451; 7231; 7218; 7184; 7119; 7104; 7102; 7092; 7068; 7067; 7043; 7033; 6973; 6972; 6956;
   6942; 6922; 6920; 6897; 6877; 6780; 6734; 6725; 6710; 6709; 6650; 6647; 6644; 6606; 65514; 65488;
   6535; 65311; 65048; 64890; 64727; 64726; 64551; 64507; 64438; 64320; 6412; 64127; 64080; 63803; 63675; 6349;
   63423; 6323; 63156; 6310; 63105; 6309; 62866; 6274; 6273; 62674; 6259; 62570; 62519; 6250; 62312; 62188;
   62080; 62042; 62006; 61942; 61851; 61827; 61734; 61722; 61669; 61617; 61616; 61516; 61473; 61402; 6126; 6120;
   61170; 61169; 61159; 60989; 6091; 6090; 60794; 60789; 60783; 60782; 60753; 60743; 60728; 60713; 6067; 60628;
   60621; 60612; 60579; 60544; 60504; 60492; 60485; 60403; 60401; 60377; 60279; 60243; 60227; 60177; 60111; 60086;
   60055; 60003; 60002; 60000; 59987; 59841; 59829; 59810; 59778; 5975; 5974; 5971; 59684; 5966; 5958; 59565;
   5954; 5953; 59525; 59510; 59509; 59504; 5949; 59499; 5948; 5945; 5939; 5936; 5934; 59340; 5931; 5927;
   5926; 5924; 5923; 59239; 5921; 5920; 59191; 5917; 59160; 59149; 59122; 59107; 5908; 59087; 58991; 58970;
   58908; 5888; 5887; 5881; 5878; 5875; 5874; 58721; 5871; 58699; 58634; 58622; 58610; 5860; 5858; 58570;
   58562; 5854; 5853; 5852; 5849; 58498; 5848; 58468; 5845; 58456; 58446; 58430; 5840; 5839; 5838; 58374;
   5836; 5834; 5831; 58310; 58305; 5827; 5826; 58252; 5824; 5821; 5820; 5817; 58164; 58109; 58107; 5808;
   58072; 5806; 5804; 57999; 57988; 57928; 57923; 57896; 57891; 57733; 57730; 57702; 57681; 57678; 57576; 57479;
   57398; 57387; 5737; 57352; 57350; 5734; 57347; 57335; 5732; 57325; 57123; 5711; 57103; 57020; 56975; 56973;
   56827; 56822; 56810; 56725; 56723; 56681; 5667; 56668; 5665; 56591; 56535; 56507; 56293; 56259; 5622; 5621;
   5620; 5612; 5611; 56055; 56016; 55948; 55910; 55907; 55901; 55781; 55773; 55758; 55721; 55684; 55652; 55635;
   55579; 55569; 55568; 55556; 5552; 55527; 55479; 55426; 55400; 55382; 55350; 55312; 55227; 55187; 55183; 55000;
   54991; 54987; 54907; 54873; 54741; 54722; 54688; 54658; 54605; 5458; 5457; 54551; 54514; 5444; 5442; 5441;
   54323; 54321; 54276; 54263; 54235; 54127; 54101; 54075; 53958; 53910; 53852; 53827; 53782; 5377; 53742; 5370;
   53690; 53656; 53639; 53633; 53491; 5347; 53469; 53460; 53370; 53361; 53319; 53240; 53212; 53189; 53178; 53085;
   52948; 5291; 52893; 52675; 52665; 5261; 5259; 52573; 52506; 52477; 52391; 52262; 52237; 52230; 52226; 52225;
   5219; 52173; 52071; 52046; 52025; 52003; 52002; 52001; 52000; 51965; 51961; 51909; 51906; 51809; 51800; 51772;
   51771; 51658; 51582; 51515; 51488; 51485; 51484; 5147; 51460; 51423; 51366; 51351; 51343; 51300; 5125; 51240;
   51235; 51234; 51233; 5122; 5121; 51139; 51118; 51067; 51037; 51020; 51011; 50997; 5098; 5096; 5095; 50945;
   5090; 50903; 5088; 50887; 50854; 50849; 50836; 50835; 50834; 50833; 50831; 50815; 50809; 50787; 50733; 50692;
   50585; 50577; 50576; 50545; 50529; 50513; 50356; 50277; 50258; 50246; 50224; 50205; 50202; 50198; 50189; 5017;
   5016; 50101; 50040; 50019; 50016; 49927; 49803; 49765; 49762; 49751; 49678; 49603; 49597; 49522; 49521; 49520;
   49519; 49500; 49498; 49452; 49398; 49372; 49352; 4931; 49302; 49275; 49241; 49235; 49232; 49228; 49216; 49213;
   49211; 49204; 49203; 49202; 49201; 49197; 49196; 49191; 49190; 49189; 49179; 49173; 49172; 49170; 49169; 49166;
   49132; 49048; 4903; 49002; 48973; 48967; 48966; 48925; 48813; 48783; 48682; 48648; 48631; 4860; 4859; 48434;
   48356; 4819; 48167; 48153; 48127; 48083; 48067; 48009; 47969; 47966; 4793; 47860; 47858; 47850; 4778; 47777;
   4771; 4770; 47700; 4767; 47634; 4760; 47595; 47581; 47567; 47448; 47372; 47348; 47267; 47197; 4712; 47119;
   47029; 47012; 46992; 46813; 46593; 4649; 4644; 46436; 46418; 46372; 46310; 46182; 46171; 46115; 4609; 4606;
   46069; 46034; 45960; 45864; 45777; 45697; 45624; 45602; 45463; 45438; 45413; 4530; 45226; 45220; 4517; 4516;
   45164; 45136; 45050; 45038; 44981; 44965; 4476; 4471; 44711; 44704; 4464; 44628; 44616; 44541; 44505; 44479;
   44431; 44410; 44380; 44200; 44119; 44101; 44004; 4388; 43868; 4384; 43823; 43734; 43690; 43654; 43425; 43242;
   43231; 43212; 43143; 43139; 43103; 43027; 43018; 43002; 42990; 42906; 42735; 42685; 42679; 42675; 42632; 42590;
   42575; 42560; 42559; 42452; 42449; 42322; 42276; 42251; 42158; 42127; 42035; 42001; 41808; 41773; 41632; 41551;
   41442; 41398; 41348; 41345; 41342; 41318; 41281; 41250; 41142; 41123; 40951; 40834; 40812; 40754; 40732; 40712;
   40628; 40614; 40513; 40489; 40457; 40400; 40393; 40306; 40011; 40005; 40003; 40002; 40001; 39917; 39895; 39883;
   39869; 39795; 39774; 39763; 39732; 39630; 39489; 39482; 39433; 39380; 39293; 39265; 39117; 39067; 38936; 38805;
   38780; 38764; 38761; 38570; 38561; 38546; 38481; 38446; 38358; 38331; 38313; 38270; 38224; 38205; 38194; 38029;
   37855; 37789; 37777; 37674; 37647; 37614; 37607; 37522; 37393; 37218; 37185; 37174; 37151; 37121; 36983; 36962;
   36950; 36914; 36824; 36823; 36748; 36710; 36694; 36677; 36659; 36552; 36530; 36508; 36436; 36368; 36275; 36256;
   36105; 36104; 36046; 35986; 35929; 35906; 35901; 35900; 35879; 35731; 35593; 35553; 35506; 35401; 35393; 35392;
   35349; 35272; 35217; 35131; 35116; 35050; 35033; 34875; 34833; 34783; 34765; 34728; 34683; 34510; 34507; 34401;
   34381; 34341; 34317; 34189; 34096; 34036; 34021; 33895; 33889; 33882; 33879; 33841; 33605; 33604; 33550; 33523;
   33522; 33444; 33395; 33367; 33337; 33335; 33327; 33277; 33203; 33200; 33192; 33175; 33124; 33087; 33070; 33017;
   33011; 33000; 32976; 32961; 32960; 32944; 32932; 32911; 32910; 32908; 32905; 32904; 32898; 32897; 32888; 32871;
   32869; 32868; 32858; 32842; 32837; 32820; 32815; 32814; 32807; 32799; 32798; 32797; 32790; 32789; 32788; 32765;
   32764; 32261; 32260; 32219; 32200; 32102; 32088; 32031; 32022; 32006; 31728; 31657; 31522; 31438; 31386; 31339;
   31072; 31058; 31033; 30896; 30705; 30659; 30644; 30599; 30519; 30299; 30195; 30087; 29810; 29507; 29243; 29152;
   29045; 28967; 28924; 28851; 28850; 28717; 28567; 28374; 28142; 28114; 27770; 27537; 27521; 27372; 27351; 27350;
   27316; 27204; 27087; 27075; 27074; 27055; 27016; 27015; 26972; 26669; 26417; 26340; 26007; 26001; 25847; 25717;
   25703; 25486; 25473; 25445; 25327; 25288; 25262; 25260; 25174; 24999; 24616; 24552; 24416; 24392; 24218; 23953;
   23887; 23723; 23451; 23430; 23382; 23342; 23296; 23270; 23228; 23219; 23040; 23017; 22969; 22959; 22882; 22769;
   22727; 22719; 22711; 22563; 22341; 22290; 22223; 22200; 22177; 22100; 22063; 22022; 21915; 21891; 21728; 21634;
   21631; 21473; 21078; 21011; 20990; 20940; 20934; 20883; 20734; 20473; 20280; 20228; 20227; 20226; 20225; 20224;
   20223; 20180; 20179; 20147; 20127; 20125; 20118; 20111; 20106; 20102; 20089; 20085; 20080; 20076; 20052; 20039;
   20032; 20021; 20017; 20011; 19996; 19995; 19852; 19715; 19634; 19612; 19501; 19464; 19403; 19353; 19201; 19200;
   19130; 19010; 18962; 18910; 18887; 18874; 18669; 18569; 18517; 18505; 18439; 18380; 18337; 18336; 18231; 18148;
   18080; 18015; 18012; 17997; 17985; 17969; 17867; 17860; 17802; 17801; 17715; 17702; 17701; 17700; 17413; 17409;
   17255; 17251; 17129; 17089; 17070; 17017; 17016; 16901; 16845; 16797; 16725; 16724; 16723; 16464; 16372; 16349;
   16297; 16286; 16283; 16273; 16270; 16048; 15915; 15758; 15730; 15722; 15677; 15670; 15646; 15645; 15631; 15550;
   15448; 15344; 15317; 15275; 15191; 15190; 15145; 15050; 15005; 14916; 14891; 14827; 14733; 14693; 14545; 14534;
   14444; 14443; 14418; 14254; 14237; 14218; 14147; 13899; 13846; 13784; 13766; 13730; 13723; 13695; 13580; 13502;
   13359; 13340; 13318; 13306; 13265; 13264; 13261; 13250; 13229; 13194; 13193; 13192; 13188; 13167; 13149; 13142;
   13140; 13132; 13130; 13093; 13017; 12962; 12955; 12892; 12891; 12766; 12702; 12699; 12414; 12340; 12296; 12275;
   12271; 12251; 12243; 12240; 12225; 12192; 12171; 12156; 12146; 12137; 12132; 12097; 12096; 12090; 12080; 12077;
   12034; 12031; 12019; 11940; 11863; 11862; 11813; 11735; 11697; 11552; 11401; 11296; 11288; 11250; 11224; 11200;
   11180; 11100; 11089; 11033; 11032; 11031; 11026; 11019; 11007; 11003; 10900; 10878; 10852; 10842; 10754; 10699;
   10602; 10601; 10567; 10565; 10556; 10555; 10554; 10553; 10552; 10551; 10550; 10535; 10529; 10509; 10494; 10443;
   10414; 10387; 10357; 10347; 10338; 10280; 10255; 10246; 10245; 10238; 10093; 10064; 10045; 10042; 10035; 10019;
   10018; 1327; 2330; 2580; 2700; 1584; 9020; 3281; 2439; 1250; 1607; 1736; 1330; 2270; 2728; 2888;
   3803; 5250; 1645; 1303; 3636; 1251; 1243; 1291; 1297; 1200; 1811; 4442; 1118; 8401; 2101; 2889;
   1694; 1730; 1912; 1745; 2250; 1306; 2997; 2449; 1262; 4007; 1101; 1268; 1735; 1858; 1264; 1711;
   3118; 4601; 1321; 1598; 1305; 1632; 9995; 1307; 1981; 2532; 1808; 2435; 1194; 1622; 1239; 1799;
   2882; 1683; 3063; 3062; 1340; 4447; 1806; 6888; 2438; 1261; 5969; 9343; 2583; 2031; 3798; 2269;
   20001; 2622; 11001; 1207; 2850; 21201; 2908; 3936; 3023; 2280; 2623; 7099; 2372; 1318; 1339; 1276;
   11000; 48619; 3497; 1209; 1331; 1240; 3856; 2987; 2326; 25001; 25000; 1792; 3919; 1299; 2984; 1715;
   1703; 1677; 2086; 1708; 1228; 3787; 5502; 1620; 1316; 1569; 1210; 1691; 1282; 2124; 1791; 2150;
   9909; 4022; 1324; 2584; 2300; 9287; 2806; 1566; 1713; 1592; 3749; 1302; 1709; 3485; 2418; 2472;
   24554; 3146; 2134; 2898; 9161; 9160; 2930; 1319; 3811; 2456; 2901; 6579; 2550; 8403; 31416; 22273;
   7005; 66; 32786; 32787; 706; 635; 6105; 400; 47; 830; 4008; 5977; 1989; 1444; 3985; 678;
   27001; 591; 642; 446; 1441; 54320; 11; 769; 983; 979; 973; 967; 965; 961; 942; 935;
   926; 925; 914; 863; 858; 844; 834; 817; 815; 811; 809; 789; 779; 743; 1019; 1507;
   1492; 509; 762; 5632; 578; 1495; 5308; 52; 219; 525; 1420; 665; 620; 3064; 3045; 653;
   158; 716; 861; 9991; 3049; 1366; 1364; 833; 91; 1680; 3398; 750; 615; 603; 6110; 101;
   989; 27010; 510; 810; 1139; 4199; 76; 847; 649; 707; 68; 449; 664; 75; 104; 629;
   1652; 682; 577; 985; 984; 974; 958; 952; 949; 946; 923; 916; 899; 897; 894; 889;
   835; 824; 814; 807; 804; 798; 733; 727; 237; 12; 10; 501; 122; 440; 771; 1663;
   828; 860; 695; 634; 538; 1359; 1358; 1517; 1370; 3900; 492; 268; 27374; 605; 8076; 1651;
   1178; 6401; 761; 5145; 50; 2018; 1349; 2014; 7597; 2120; 1445; 1402; 1465; 9104; 627; 4660;
   7273; 950; 1384; 1388; 760; 92; 831; 5978; 4557; 45; 112; 456; 1214; 3086; 702; 6665;
   1404; 651; 5300; 6347; 5400; 1389; 647; 448; 1356; 5232; 1484; 450; 1991; 1988; 1523; 1400;
   1399; 221; 1385; 5191; 1346; 2024; 2430; 988; 962; 948; 945; 941; 938; 936; 929; 927;
   919; 906; 883; 881; 875; 872; 870; 866; 855; 851; 850; 841; 836; 826; 820; 819;
   816; 813; 791; 745; 736; 735; 724; 719; 343; 334; 300; 28; 249; 230; 16; 1018;
   1016; 658; 1474; 696; 630; 663; 2307; 1552; 609; 741; 353; 638; 1551; 661; 491; 640;
   507; 673; 632; 1354; 9105; 6143; 676; 214; 14141; 182; 69; 27665; 1475; 97; 633; 560;
   799; 7009; 2015; 628; 751; 4480; 1403; 8123; 1527; 723; 1466; 1486; 1650; 991; 832; 137;
   1348; 685; 1762; 6701; 994; 4500; 194; 180; 1539; 1379; 51; 886; 2064; 1405; 1435; 11371;
   1401; 1369; 402; 103; 1372; 704; 854; 8892; 47557; 624; 1387; 3397; 1996; 1995; 1997; 18182;
   18184; 3264; 3292; 13720; 9107; 9106; 201; 1381; 35; 6588; 5530; 3141; 670; 970; 968; 964;
   963; 960; 959; 951; 947; 944; 939; 933; 909; 895; 891; 879; 869; 868; 867; 837;
   821; 812; 797; 796; 794; 788; 756; 734; 721; 718; 708; 703; 60; 40; 253; 231;
   14; 1017; 1003; 656; 975; 2026; 1497; 553; 511; 611; 689; 1668; 1664; 15; 561; 997;
   505; 1496; 637; 213; 1412; 1515; 692; 694; 681; 680; 644; 675; 1467; 454; 622; 1476;
   1373; 770; 262; 654; 1535; 58; 177; 26208; 677; 1519; 1398; 3457; 401; 412; 493; 13713;
   94; 1498; 871; 1390; 6145; 133; 362; 118; 193; 115; 1549; 7008; 608; 1426; 1436; 38;
   74; 73; 71; 601; 136; 4144; 129; 16444; 1446; 4132; 308; 1528; 1365; 1393; 1394; 1493;
   138; 5997; 397; 29; 31; 44; 2627; 6147; 1510; 568; 350; 2053; 6146; 6544; 1763; 3531;
   399; 1537; 1992; 1355; 1454; 261; 887; 200; 1376; 1424; 6111; 1410; 1409; 686; 5301; 5302;
   1513; 747; 9051; 1499; 7006; 1439; 1438; 8770; 853; 196; 93; 410; 462; 619; 1529; 1990;
   1994; 1986; 1386; 18183; 18181; 6700; 1442; 95; 6400; 1432; 1548; 486; 1422; 114; 1397; 6142;
   1827; 626; 422; 688; 206; 202; 204; 1483; 7634; 774; 699; 2023; 776; 672; 1545; 2431;
   697; 982; 978; 972; 966; 957; 956; 934; 920; 915; 908; 907; 892; 890; 885; 884;
   882; 877; 876; 865; 857; 852; 849; 842; 838; 827; 818; 793; 785; 784; 755; 746;
   738; 737; 717; 34; 336; 325; 303; 276; 273; 236; 235; 233; 181; 604; 1362; 712;
   1437; 2027; 1368; 1531; 645; 65301; 260; 536; 764; 698; 607; 1667; 1662; 1661; 404; 224;
   418; 176; 848; 315; 466; 403; 1456; 1479; 355; 763; 1472; 453; 759; 437; 2432; 120;
   415; 1544; 1511; 1538; 346; 173; 54; 56; 265; 1462; 13701; 1518; 1457; 117; 1470; 13715;
   13714; 267; 1419; 1418; 1407; 380; 518; 65; 391; 392; 413; 1391; 614; 1408; 162; 108;
   4987; 1502; 598; 582; 487; 530; 1509; 72; 4672; 189; 209; 270; 7464; 408; 191; 1459;
   5714; 5717; 5713; 564; 767; 583; 1395; 192; 1448; 428; 4133; 1416; 773; 1458; 526; 1363;
   742; 1464; 1427; 1482; 569; 571; 6141; 351; 3984; 5490; 2; 13718; 373; 17300; 910; 148;
   7326; 271; 423; 1451; 480; 1430; 1429; 781; 383; 2564; 613; 612; 652; 5303; 1383; 128;
   19150; 1453; 190; 1505; 1371; 533; 27009; 27007; 27005; 27003; 27002; 744; 1423; 1374; 141; 1440;
   1396; 352; 96; 48; 552; 570; 217; 528; 452; 451; 2766; 2108; 132; 1993; 1987; 130;
   18187; 216; 3421; 142; 13721; 67; 15151; 364; 1411; 205; 6548; 124; 116; 5193; 258; 485;
   599; 149; 1469; 775; 2019; 516; 986; 977; 976; 955; 954; 937; 932; 8; 896; 893;
   845; 768; 766; 739; 337; 329; 326; 305; 295; 294; 293; 289; 288; 277; 238; 234;
   229; 228; 226; 522; 2028; 150; 572; 596; 420; 460; 1543; 358; 361; 470; 360; 457;
   643; 322; 168; 753; 369; 185; 43188; 1541; 1540; 752; 496; 662; 1449; 1480; 1473; 184;
   1672; 1671; 1670; 435; 434; 1532; 1360; 174; 472; 1361; 17007; 414; 535; 432; 479; 473;
   151; 1542; 438; 1488; 1508; 618; 316; 1367; 439; 284; 542; 370; 2016; 248; 1491; 44123;
   41230; 7173; 5670; 18136; 3925; 7088; 1425; 17755; 17756; 4072; 5841; 2102; 4123; 2989; 10051; 10050;
   31029; 3726; 9978; 9925; 6061; 6058; 6057; 6056; 6054; 6053; 6049; 6048; 6047; 6046; 6045; 6044;
   6043; 6042; 6041; 6040; 6039; 6038; 6037; 6036; 6035; 6034; 6033; 6032; 6031; 6029; 6028; 6027;
   6026; 6024; 6023; 6022; 6020; 6019; 6018; 6016; 6014; 6013; 6012; 6011; 36462; 5793; 3423; 3424;
   4095; 3646; 3510; 3722; 3651; 14500; 3865; 15345; 3763; 38422; 3877; 9092; 5344; 2341; 6116; 2157;
   165; 6936; 8041; 4888; 4889; 3074; 2165; 4389; 5770; 5769; 16619; 11876; 11877; 3741; 3633; 3840;
   3717; 3716; 3590; 2805; 4537; 9762; 5007; 5006; 5358; 4879; 6114; 4185; 2784; 3724; 2596; 2595;
   4417; 4845; 22321; 22289; 3219; 1338; 36411; 3861; 5166; 3674; 1785; 534; 6602; 47001; 5363; 8912;
   2231; 5747; 5748; 11208; 7236; 4049; 4050; 22347; 63; 3233; 3359; 4177; 48050; 3111; 3427; 5321;
   5320; 3702; 2907; 8991; 8990; 2054; 4847; 9802; 9800; 4368; 5990; 3563; 5744; 5743; 12321; 12322;
   9206; 9204; 9205; 9201; 9203; 2949; 2948; 6626; 8199; 4145; 3482; 2216; 13708; 3786; 3375; 7566;
   2539; 2387; 3317; 2410; 2255; 3883; 4299; 4296; 4295; 4293; 4292; 4291; 4290; 4289; 4288; 4287;
   4286; 4285; 4284; 4283; 4282; 4281; 4280; 4278; 4277; 4276; 4275; 4274; 4273; 4272; 4271; 4270;
   4269; 4268; 4267; 4266; 4265; 4264; 4263; 4261; 4260; 4259; 4258; 4257; 4256; 4255; 4254; 4253;
   4251; 4250; 4249; 4248; 4247; 4246; 4245; 4244; 4241; 4240; 4239; 4238; 4237; 4236; 4235; 4233;
   4232; 4231; 4230; 4229; 4228; 4227; 4226; 4225; 4223; 4222; 4221; 4219; 4218; 4217; 4216; 4215;
   4214; 4213; 4212; 4211; 4210; 4209; 4208; 4207; 4205; 4204; 4203; 4202; 4201; 2530; 5164; 28200;
   3845; 3541; 4052; 21590; 1796; 25793; 8699; 8182; 4991; 2474; 5780; 3676; 24249; 1631; 6672; 6673;
   3601; 5046; 3509; 1852; 2386; 8473; 7802; 4789; 3555; 12013; 12012; 3752; 3245; 3231; 16666; 6678;
   17184; 9086; 9598; 3073; 2074; 1956; 2610; 3738; 2994; 2993; 2802; 1885; 14149; 13786; 10100; 9284;
   14150; 10107; 4032; 2821; 3207; 14154; 24323; 2771; 5646; 2426; 18668; 2554; 4188; 3654; 8034; 5675;
   15118; 4031; 2529; 2248; 1142; 19194; 433; 3534; 3664; 2537; 519; 2655; 4184; 1506; 3098; 7887;
   37654; 1979; 9629; 2357; 1889; 3314; 3313; 4867; 2696; 3217; 6306; 1189; 5281; 8953; 1910; 13894;
   372; 3720; 1382; 2542; 3584; 4034; 145; 27999; 3791; 21800; 2670; 3492; 24678; 34249; 39681; 1846;
   5197; 5462; 5463; 2862; 2977; 2978; 3468; 2675; 3474; 4422; 12753; 13709; 2573; 3012; 4307; 4725;
   3346; 3686; 4070; 9555; 4711; 4323; 4322; 10200; 7727; 3608; 3959; 2405; 3858; 3857; 24322; 6118;
   4176; 6442; 8937; 17224; 17225; 33434; 1906; 22351; 2158; 5153; 3885; 24465; 3040; 20167; 8066; 474;
   2739; 3308; 590; 3309; 7902; 7901; 7903; 20046; 5582; 5583; 7872; 13716; 13717; 13705; 6252; 2915;
   1965; 3459; 3160; 3754; 3243; 10261; 7932; 7933; 5450; 11971; 379; 7548; 1832; 3805; 3805; 16789;
   8320; 8321; 4423; 2296; 7359; 7358; 7357; 7356; 7355; 7354; 7353; 7352; 7351; 7350; 7349; 7348;
   7347; 7346; 7344; 7343; 7342; 7341; 7340; 7339; 7338; 7337; 7336; 7335; 7334; 7333; 7332; 7331;
   7330; 7329; 7328; 7327; 7324; 7323; 7322; 7321; 7319; 7318; 7317; 7316; 7315; 7314; 7313; 7312;
   7311; 7310; 7309; 7308; 7307; 7306; 7305; 7304; 7303; 7302; 7301; 8140; 5196; 5195; 6130; 5474;
   5471; 5472; 5470; 4146; 3713; 5048; 31457; 7631; 3544; 41121; 11600; 3696; 3696; 3549; 1380; 22951;
   22800; 3521; 2060; 6083; 9668; 3552; 1814; 1977; 2576; 2729; 24680; 13710; 13712; 25900; 2403; 2402;
   2470; 5203; 3579; 2306; 1450; 7015; 7012; 7011; 22763; 2156; 2493; 4019; 4018; 4017; 4015; 2392;
   3175; 32249; 1627; 10104; 2609; 5406; 3251; 4094; 3241; 6514; 6418; 3734; 2679; 4953; 5008; 2880;
   8243; 8280; 26133; 8555; 5629; 3547; 5639; 5638; 5637; 5115; 3723; 4950; 3895; 3894; 3491; 3318;
   6419; 3185; 243; 3212; 9536; 1925; 11171; 8404; 8405; 8989; 6787; 6483; 3867; 3866; 1860; 1870;
   5306; 3816; 7588; 6786; 2084; 11165; 11161; 11163; 11162; 11164; 3708; 4850; 7677; 16959; 247; 3478;
   5349; 3854; 5397; 7411; 9612; 11173; 9293; 5027; 5026; 5705; 8778; 527; 1312; 8808; 6144; 4157;
   4156; 3249; 7471; 3615; 2154; 45966; 17235; 3018; 38800; 2737; 156; 3807; 2876; 1759; 7981; 3606;
   3647; 3438; 4683; 9306; 9312; 7016; 33334; 3413; 3834; 3835; 2440; 6121; 2568; 17185; 7982; 2290;
   2569; 2863; 1964; 4738; 2132; 17777; 16162; 6551; 3230; 4538; 3884; 9282; 9281; 4882; 5146; 580;
   1967; 2659; 2409; 5416; 2657; 3380; 5417; 2658; 5161; 5162; 10162; 10161; 33656; 7560; 2599; 2704;
   2703; 4170; 7734; 9522; 3158; 4426; 4786; 2721; 1608; 3516; 4988; 4408; 1847; 36423; 2826; 2827;
   3556; 6456; 6455; 3874; 3611; 2629; 2630; 166; 5059; 3110; 1733; 40404; 2257; 2278; 4750; 4303;
   3688; 4751; 5794; 4752; 7626; 16950; 3273; 3896; 3635; 1959; 4753; 2857; 4163; 1659; 2905; 2904;
   2733; 4936; 5032; 3048; 28240; 2320; 4742; 22335; 5043; 4105; 1257; 3841; 43210; 4366; 5163; 11106;
   5434; 6444; 6445; 5634; 5636; 5635; 6343; 4546; 3242; 5568; 4057; 24666; 21221; 6488; 6484; 6486;
   6485; 6487; 6443; 6480; 6489; 2603; 4787; 2367; 9212; 9213; 5445; 45824; 8351; 13711; 4076; 5099;
   2316; 3588; 5093; 9450; 8056; 8055; 8054; 8059; 8058; 8057; 8053; 3090; 3255; 2254; 2479; 2477;
   2478; 3496; 3495; 2089; 38865; 9026; 9025; 9024; 9023; 3480; 1905; 3550; 7801; 2189; 5361; 32635;
   3782; 3432; 3978; 6629; 3143; 7784; 2342; 2309; 2705; 2310; 2384; 6315; 5343; 9899; 5168; 5167;
   3927; 266; 2577; 5307; 3838; 19007; 7708; 37475; 7701; 5435; 3499; 2719; 3352; 25576; 3942; 1644;
   3755; 5574; 5573; 7542; 1129; 4079; 3038; 4033; 9401; 9402; 20012; 20013; 30832; 1606; 5410; 5422;
   5409; 9801; 7743; 14034; 14033; 4952; 3452; 2760; 3153; 23272; 2578; 5156; 8554; 7401; 3771; 3138;
   3137; 3500; 6900; 363; 3455; 1698; 13217; 2752; 3863; 3864; 10201; 6568; 2377; 3677; 520; 2258;
   4124; 8051; 2223; 3194; 4041; 48653; 8270; 5693; 25471; 2416; 9208; 7810; 7870; 2249; 7473; 4664;
   4590; 2777; 2776; 2057; 6148; 3296; 4410; 4684; 8230; 5842; 1431; 12109; 4756; 4336; 324; 323;
   3019; 39; 2225; 4733; 30100; 2999; 3422; 107; 1232; 3418; 3537; 5; 8184; 3789; 5231; 4731;
   4373; 45045; 3974; 12302; 2373; 6084; 16665; 16385; 18635; 18634; 10253; 7227; 3572; 3032; 5786; 2346;
   2348; 2347; 2349; 45002; 3553; 43191; 5313; 3707; 3706; 3736; 32811; 1942; 44553; 35001; 35002; 35005;
   35006; 35003; 35004; 532; 2214; 5569; 3142; 2332; 3768; 2774; 2773; 6099; 2167; 2714; 2713; 3533;
   4037; 2457; 1953; 9345; 21553; 2408; 2736; 2188; 18104; 1813; 469; 1596; 3178; 5430; 5676; 2177;
   4841; 5028; 7980; 3166; 3554; 3566; 3843; 5677; 7040; 2589; 8153; 10055; 5464; 2497; 4354; 9222;
   5083; 5082; 45825; 2612; 5689; 6209; 2523; 2490; 2468; 3543; 7794; 4193; 4951; 3951; 4093; 7747;
   7997; 8117; 6140; 4329; 320; 319; 597; 3453; 4457; 2303; 5360; 4487; 409; 344; 1460; 5716;
   5715; 9640; 7663; 7798; 7797; 4352; 15999; 34962; 34963; 34964; 4749; 8032; 4182; 4182; 1283; 1778;
   3248; 2722; 2039; 3650; 3133; 2618; 4168; 10631; 1392; 3910; 6716; 47809; 4690; 9280; 6163; 2315;
   3607; 5630; 4455; 4456; 1587; 28001; 5134; 13224; 13223; 5507; 2443; 4150; 7172; 3710; 9889; 6464;
   7787; 6771; 6770; 3055; 2487; 16310; 16311; 3540; 34379; 34378; 2972; 7633; 6355; 188; 2790; 32400;
   4351; 3934; 3933; 4659; 1819; 5586; 5863; 9318; 318; 5318; 2634; 4416; 5078; 3189; 3010; 15740;
   1603; 2787; 4390; 468; 4869; 4868; 3177; 3347; 6124; 2350; 3208; 2520; 2441; 3109; 3557; 281;
   1916; 4313; 5312; 4066; 345; 9630; 9631; 6817; 3582; 9279; 9278; 3587; 4747; 2178; 5112; 3135;
   5443; 7880; 1980; 6086; 3254; 4012; 9597; 3253; 2274; 2299; 8444; 6655; 44322; 44321; 5351; 5350;
   5172; 4172; 1332; 2256; 8129; 8128; 4097; 8161; 2665; 2664; 6162; 4189; 1333; 3735; 586; 6581;
   6582; 4681; 4312; 4989; 7216; 3348; 7680; 8276; 3095; 6657; 30002; 7237; 3435; 2246; 1675; 31400;
   4311; 6671; 6679; 3034; 40853; 11103; 3274; 3355; 3078; 3075; 3076; 8070; 2484; 2483; 3891; 1571;
   1830; 1630; 8997; 8102; 2482; 2481; 5155; 5575; 3718; 22005; 22004; 22003; 22002; 2524; 1829; 2237;
   3977; 3976; 3303; 19191; 3433; 5724; 2400; 7629; 6640; 2389; 30999; 2447; 3673; 7430; 7429; 7426;
   7431; 7428; 7427; 9390; 35357; 7728; 8004; 5045; 8688; 1258; 5757; 5729; 5767; 5766; 5755; 5768;
   4743; 9008; 9007; 3187; 20014; 4089; 3434; 4840; 4843; 3100; 314; 3154; 9994; 9993; 4304; 2428;
   2199; 2198; 2185; 4428; 4429; 4162; 4395; 2056; 5402; 3340; 3339; 3341; 3338; 7275; 7274; 7277;
   7276; 4359; 2077; 9966; 4732; 3320; 11175; 11174; 11172; 13706; 3523; 429; 2697; 18186; 3442; 3441;
   29167; 36602; 7030; 1894; 28000; 126; 4420; 2184; 3780; 49001; 4128; 8711; 10810; 45001; 5415; 4453;
   359; 3266; 36424; 2868; 7724; 396; 2645; 23402; 23400; 23401; 3016; 21010; 5215; 4663; 4803; 2338;
   15126; 5209; 3406; 3405; 5627; 4088; 2210; 2244; 2817; 10111; 10110; 1242; 5299; 2252; 3649; 6421;
   6420; 1617; 48001; 48002; 48003; 48005; 48004; 48000; 61; 4134; 38412; 20048; 7393; 4021; 178; 8457;
   550; 2058; 2075; 2076; 3165; 6133; 2614; 2585; 4702; 4701; 2586; 3203; 3204; 16361; 16367; 16360;
   16368; 4159; 170; 2293; 4703; 8981; 3409; 7549; 171; 20049; 1155; 537; 3196; 3195; 2411; 2788;
   4127; 6777; 6778; 1879; 5421; 3440; 2128; 21846; 21849; 21847; 21848; 395; 154; 155; 4425; 2328;
   3129; 3641; 3640; 1970; 2486; 2485; 6842; 6841; 3149; 3148; 3150; 3151; 1406; 218; 10116; 10114;
   2219; 2735; 10117; 10113; 2220; 3725; 5229; 4350; 6513; 4335; 4334; 5681; 1676; 2971; 4409; 3131;
   4441; 1612; 1616; 1613; 1614; 13785; 11104; 11105; 3829; 11095; 3507; 3213; 7474; 3886; 4043; 2730;
   377; 378; 3024; 2738; 2738; 2528; 4844; 4842; 5979; 1888; 2093; 2094; 20034; 2163; 3159; 6317;
   4361; 2895; 3753; 2343; 3015; 1790; 3950; 6363; 9286; 9285; 7282; 6446; 2273; 33060; 2388; 9119;
   3733; 32801; 4421; 7420; 9903; 6622; 5354; 7742; 2305; 2791; 8115; 3122; 2855; 2871; 4554; 2171;
   2172; 2173; 2174; 3343; 7392; 3958; 3358; 46; 6634; 8503; 3924; 2488; 10544; 10543; 10541; 10540;
   10542; 4691; 8666; 1576; 4986; 6997; 3732; 4688; 7871; 9632; 7869; 2593; 3764; 5237; 4668; 4173;
   4667; 8077; 4310; 7606; 5136; 4069; 21554; 7391; 9445; 2180; 3180; 2621; 4551; 3008; 7013; 7014;
   5362; 6601; 1512; 5356; 6074; 5726; 5364; 5725; 6076; 6075; 2175; 3132; 5359; 2176; 5022; 4679;
   4680; 6509; 2266; 6382; 2230; 6390; 6370; 6360; 393; 2311; 8787; 18; 8786; 47000; 19788; 1960;
   9596; 4603; 4151; 4552; 11211; 3569; 4883; 3571; 2944; 2945; 2272; 7720; 5157; 3445; 2427; 2727;
   2363; 46999; 2789; 13930; 3232; 2688; 3235; 5598; 3115; 3117; 3116; 3331; 3332; 3302; 3330; 3558;
   8809; 3570; 4153; 2591; 4179; 4171; 3276; 4360; 4458; 7421; 49000; 7073; 3836; 5282; 8384; 36700;
   4686; 269; 9255; 6201; 2544; 2516; 2864; 5092; 2243; 4902; 313; 3691; 2453; 4345; 44900; 36444;
   3565; 36443; 4894; 3747; 3746; 5044; 6471; 3079; 4913; 4741; 10805; 3487; 3068; 8162; 4083; 4082;
   4081; 7026; 1983; 2289; 1629; 1628; 1634; 8101; 6482; 5254; 5058; 4044; 3591; 3592; 1903; 5062;
   6087; 2090; 2465; 2466; 6200; 8208; 8207; 8204; 31620; 8205; 8206; 3278; 2145; 2143; 2147; 2146;
   3767; 46336; 10933; 4341; 1969; 10809; 12300; 8191; 517; 4670; 7365; 3028; 3027; 3029; 1203; 1886;
   11430; 374; 2212; 3407; 2816; 2779; 2815; 2780; 3373; 3739; 3815; 4347; 11796; 3970; 4547; 1764;
   2395; 4372; 4432; 9747; 4371; 3360; 3361; 4331; 40023; 27504; 2294; 5253; 7697; 35354; 186; 30260;
   4566; 584; 5696; 6623; 6620; 6621; 2502; 3112; 36865; 2918; 4661; 31016; 26262; 26263; 3642; 48048;
   5309; 3155; 4166; 27442; 6583; 3215; 3214; 8901; 19020; 4160; 3094; 3093; 3777; 1937; 1938; 1939;
   1940; 2097; 1936; 1810; 6244; 6243; 6242; 6241; 4107; 19541; 3529; 3528; 5230; 4327; 5883; 2205;
   7095; 3794; 3473; 3472; 7181; 5034; 3627; 8091; 1578; 5673; 5049; 4880; 3258; 2828; 3719; 7478;
   7280; 1636; 1637; 3775; 24321; 499; 3205; 1950; 1949; 3226; 8148; 5047; 4075; 17223; 21000; 3504;
   3206; 2632; 529; 4073; 32034; 18769; 2527; 4593; 4791; 7031; 33435; 4740; 4739; 4068; 20202; 4737;
   9214; 2215; 3743; 2088; 7410; 5728; 45054; 3614; 8020; 11751; 2202; 6697; 4744; 1884; 3699; 6714;
   1611; 7202; 4569; 3508; 24386; 16995; 16994; 16994; 1674; 1673; 7128; 4746; 17234; 9215; 4486; 484;
   5057; 5056; 7624; 2980; 4109; 49150; 215; 23005; 23004; 23003; 23002; 23001; 23000; 2716; 3560; 5597;
   134; 38001; 38000; 4067; 1428; 2480; 5029; 8067; 5069; 3156; 3139; 244; 7675; 7673; 7672; 7674;
   2637; 4139; 3783; 3657; 11320; 8615; 585; 48128; 2239; 3596; 2055; 3186; 19000; 5165; 3420; 17220;
   17221; 19998; 2404; 2079; 4152; 4604; 25604; 5742; 5741; 4553; 2799; 4801; 4802; 2063; 14143; 14142;
   4061; 4062; 4063; 4064; 31948; 31949; 2276; 2275; 1881; 2078; 3660; 3661; 1920; 1919; 9085; 424;
   1933; 1934; 9089; 9088; 3667; 3666; 12003; 12004; 3539; 3538; 3267; 385; 3494; 4594; 4595; 4596;
   3898; 9614; 4169; 5674; 2374; 5105; 8313; 44323; 5628; 2570; 2113; 4591; 4592; 5228; 5224; 5227;
   2207; 4484; 3037; 2209; 2448; 3101; 382; 381; 3209; 7510; 2206; 2690; 2208; 7738; 5565; 5317;
   3329; 3612; 5316; 3449; 2029; 1985; 10125; 2597; 3634; 8231; 3250; 43438; 4884; 4117; 2467; 4148;
   7397; 22370; 8807; 3921; 4306; 10860; 3740; 1161; 2641; 7630; 3804; 4197; 11108; 9954; 6791; 3623;
   3769; 3036; 5315; 5305; 3542; 5304; 11720; 2517; 3179; 2979; 2356; 3745; 18262; 2186; 35356; 3436;
   2152; 2123; 1452; 4729; 3761; 3136; 9339; 30400; 6267; 6269; 6268; 3757; 4755; 4754; 4026; 5117;
   9277; 2947; 3386; 2217; 37483; 16002; 5687; 2072; 1909; 9122; 9123; 4131; 3912; 3229; 1880; 5688;
   4332; 10800; 4985; 3108; 3475; 6080; 4790; 23053; 6081; 8190; 7017; 7283; 4730; 2159; 3429; 2660;
   14145; 3484; 3762; 3222; 8322; 1421; 1859; 31765; 2914; 3051; 38201; 8881; 4340; 8074; 2678; 2677;
   4110; 2731; 286; 3402; 3272; 1514; 3382; 1904; 1902; 3648; 2975; 574; 8502; 3488; 9217; 4130;
   7726; 5556; 7244; 41111; 4411; 4084; 2242; 4396; 4901; 7545; 7544; 27008; 27006; 27004; 5579; 2884;
   3035; 1193; 5618; 7018; 2673; 4086; 8043; 8044; 3192; 3729; 1855; 1856; 1784; 24922; 1887; 7164;
   4349; 7394; 16021; 16020; 6715; 4915; 4122; 3216; 14250; 3152; 1776; 36524; 4320; 4727; 3225; 2819;
   4038; 6417; 347; 3047; 2495; 10081; 38202; 2515; 2514; 4353; 38472; 10102; 4085; 3953; 4788; 3088;
   3134; 3639; 4309; 2755; 1928; 5075; 26486; 5401; 3759; 43440; 1926; 1982; 1798; 9981; 4536; 4535;
   1504; 592; 1267; 6935; 2036; 6316; 2221; 44818; 34980; 2380; 2379; 6107; 1772; 8416; 8417; 8266;
   4023; 3629; 9617; 3679; 3727; 4942; 4941; 4940; 43439; 3628; 3620; 5116; 3259; 4666; 4669; 3819;
   37601; 5084; 5085; 3383; 5599; 5600; 5601; 3665; 1818; 3044; 1295; 7962; 7117; 121; 17754; 6636;
   6635; 20480; 23333; 3585; 6322; 6321; 4091; 4092; 140; 6656; 3693; 11623; 11723; 13218; 3682; 3218;
   9083; 3197; 3198; 394; 2526; 7700; 7707; 2916; 2917; 4370; 6515; 12010; 5398; 3564; 4346; 1378;
   1893; 3525; 3638; 2228; 6632; 3392; 3671; 6159; 3462; 3461; 3464; 3465; 3460; 3463; 3123; 34567;
   8149; 6703; 6702; 2263; 3477; 3524; 6160; 17729; 3711; 45678; 2168; 3328; 38462; 3932; 3295; 2164;
   3395; 2874; 3246; 3247; 4191; 4028; 3489; 4556; 5684; 13929; 31685; 9987; 4060; 13819; 13820; 13821;
   13818; 13822; 2420; 7547; 3685; 2193; 4427; 1930; 8913; 7021; 7020; 5719; 5245; 6326; 6320; 6325;
   3522; 44544; 13400; 6088; 3568; 8567; 3567; 5567; 7165; 4142; 3161; 5352; 195; 1172; 5993; 3199;
   3574; 4059; 1177; 3624; 19999; 21212; 246; 5107; 14002; 7171; 3448; 3336; 3335; 3337; 198; 197;
   3447; 5031; 4605; 2464; 2227; 3223; 1335; 2226; 33333; 2762; 2761; 3227; 3228; 33331; 2861; 2860;
   2098; 4301; 3252; 547; 546; 6785; 8750; 4330; 3776; 24850; 8805; 2763; 4167; 2092; 3444; 8415;
   3714; 1278; 5700; 3668; 7569; 365; 8894; 8893; 8891; 8890; 11202; 3988; 1160; 3938; 6117; 6624;
   6625; 2073; 461; 3578; 11109; 2229; 1775; 2764; 3678; 6511; 1133; 29999; 2594; 3881; 3498; 8732;
   5777; 3394; 3393; 2298; 2297; 9388; 9387; 3120; 3297; 1898; 8442; 9888; 4183; 4673; 3778; 5271;
   3127; 1932; 4451; 2563; 4452; 9346; 7022; 3631; 3630; 105; 3271; 2699; 3004; 2129; 4187; 3113;
   2314; 8380; 8377; 8376; 8379; 8378; 3818; 41797; 41796; 38002; 3364; 3366; 2824; 2823; 3609; 4055;
   4054; 4053; 2654; 19220; 9093; 3183; 2565; 4078; 4774; 2153; 17222; 7551; 7563; 3072; 4047; 9695;
   4846; 5992; 5683; 4692; 3191; 3417; 7169; 3973; 46998; 16384; 3947; 47100; 6970; 2491; 7023; 10321;
   42508; 3822; 2417; 2555; 3257; 3256; 22343; 64; 7215; 20003; 4450; 3751; 3605; 2534; 3490; 4419;
   7689; 7574; 3377; 3779; 44444; 3039; 2415; 2183; 26257; 3576; 3575; 2976; 7168; 8501; 164; 3384;
   7550; 45514; 356; 2617; 3730; 6688; 6687; 6690; 7683; 2052; 3481; 4136; 4137; 9087; 172; 1729;
   4980; 7229; 7228; 24754; 2897; 7279; 2512; 2513; 4870; 22305; 5787; 6633; 131; 15555; 4051; 4785;
   43441; 5784; 7546; 3887; 5194; 1743; 2891; 3770; 1377; 4316; 4314; 3099; 1572; 1891; 1892; 3349;
   18241; 18243; 18242; 18185; 5505; 562; 531; 3772; 5065; 5064; 2182; 3893; 2921; 2922; 4074; 4140;
   4115; 3056; 3616; 3559; 4970; 4969; 3114; 3157; 3750; 12168; 2122; 7129; 7162; 7167; 5270; 1197;
   9060; 3106; 5247; 5246; 3290; 4728; 8998; 8610; 8609; 3756; 8614; 8613; 8612; 8611; 1872; 3583;
   24676; 4377; 5079; 4378; 1734; 3545; 7262; 3675; 2552; 22537; 3709; 14414; 5251; 1882; 42509; 2318;
   4326; 1563; 7163; 1554; 7161; 595; 348; 282; 8026; 5249; 5248; 5154; 10880; 3626; 4990; 3107;
   6410; 6409; 6408; 6407; 6406; 6405; 6404; 4677; 581; 4671; 2964; 2965; 28589; 47808; 3966; 2446;
   1854; 1961; 2444; 2277; 4175; 3188; 3043; 9380; 3692; 5682; 2155; 4104; 4103; 4102; 3593; 2845;
   2844; 4186; 2218; 4678; 2017; 2913; 7648; 4914; 7687; 6501; 9750; 3344; 1896; 4568; 10128; 6768;
   6767; 3182; 1313; 3181; 2059; 3604; 6300; 10129; 3695; 6301; 2494; 2625; 48129; 8195; 2574; 5750;
   13823; 13216; 4027; 5068; 25955; 25954; 6946; 3411; 24577; 5429; 4621; 6784; 4676; 4675; 4784; 3785;
   5425; 5424; 4305; 3960; 3408; 5584; 5585; 1943; 3124; 6508; 6507; 4155; 1120; 1929; 4324; 10439;
   6506; 6505; 6122; 4971; 3387; 152; 2635; 2169; 6696; 2204; 3512; 2071; 10260; 35100; 3277; 3502;
   2066; 2238; 4413; 20057; 2992; 2050; 3965; 10990; 31020; 4685; 1140; 7508; 16003; 5913; 4071; 3104;
   3437; 5067; 33123; 1146; 44600; 2264; 7543; 2419; 32896; 2317; 3821; 4937; 1520; 11367; 4154; 3617;
   20999; 1170; 1171; 27876; 4485; 4704; 7235; 3087; 45000; 4405; 4404; 4406; 4402; 4403; 4400; 5727;
   11489; 2192; 4077; 4448; 3581; 5150; 13702; 3863; 3864; 3451; 386; 8211; 7166; 3518; 27782; 3176;
   9292; 3174; 9295; 9294; 3426; 8423; 3140; 7570; 421; 2114; 6344; 2581; 2582; 11321; 384; 23546;
   1834; 1115; 4165; 1557; 3758; 7847; 5086; 4849; 2037; 1447; 3312; 187; 4488; 2336; 387; 208;
   207; 203; 3454; 10548; 4674; 38203; 3239; 3236; 3237; 3238; 4573; 2758; 10252; 2759; 8121; 2754;
   8122; 3184; 539; 6082; 18888; 9952; 9951; 7846; 7845; 6549; 5456; 5455; 5454; 4851; 5072; 3939;
   2247; 1206; 3715; 2646; 3054; 5671; 8040; 376; 2640; 30004; 30003; 5192; 4393; 4392; 4391; 4394;
   1931; 5506; 8301; 4563; 35355; 4011; 7799; 3265; 9209; 693; 36001; 9956; 9955; 6627; 3234; 2667;
   2668; 3613; 4804; 2887; 3416; 3833; 9216; 2846; 17555; 2786; 3316; 3021; 3026; 4878; 3917; 4362;
   7775; 3224; 23457; 23456; 4549; 4431; 2295; 3573; 5073; 3760; 3357; 3954; 3705; 3704; 2692; 6769;
   7170; 2521; 2085; 3096; 2810; 2859; 3431; 9389; 3655; 5106; 5103; 7509; 6801; 4013; 5540; 2476;
   2475; 2334; 12007; 12008; 6868; 4046; 18463; 32483; 4030; 8793; 2259; 62; 1955; 3781; 3619; 3618;
   28119; 4726; 4502; 4597; 4598; 3598; 3597; 3125; 4149; 9953; 23294; 2933; 2934; 5783; 5782; 5785;
   5781; 15363; 48049; 2339; 5265; 5264; 1181; 3446; 3428; 15998; 3091; 2133; 3774; 317; 3832; 508;
   3721; 1619; 1716; 2279; 3412; 2327; 6558; 2130; 1760; 5413; 2396; 2923; 3378; 3466; 2504; 2720;
   4871; 7395; 3926; 1727; 1326; 2518; 1890; 2781; 565; 4984; 3342; 21845; 1963; 2851; 3748; 1739;
   1269; 2455; 2547; 2548; 2546; 13882; 7779; 2695; 312; 2996; 2893; 1589; 2649; 1224; 1345; 3625;
   2538; 3321; 175; 1868; 4344; 1853; 3058; 3802; 78; 2770; 3270; 575; 1771; 4839; 4838; 4837;
   671; 430; 431; 2745; 2648; 3356; 1957; 2820; 1978; 2927; 2499; 2437; 2138; 2110; 1797; 1737;
   483; 390; 1867; 1624; 1833; 2879; 2767; 2768; 2943; 1568; 2489; 1237; 2741; 2742; 8804; 1588;
   6069; 1869; 2642; 20670; 594; 2885; 2669; 476; 2798; 3083; 3082; 3081; 2361; 5104; 1758; 7491;
   1728; 5428; 1946; 559; 1610; 3144; 1922; 2726; 6149; 1838; 4014; 1274; 2647; 4106; 6102; 4548;
   19540; 1866; 6965; 6966; 6964; 6963; 1751; 1625; 5453; 2709; 7967; 3354; 566; 4178; 2986; 1226;
   1836; 1654; 2838; 1692; 3644; 6071; 477; 478; 2507; 1923; 3193; 2653; 2636; 1621; 3379; 2533;
   2892; 2452; 1684; 2333; 22000; 1553; 3536; 11201; 2775; 2942; 2941; 2940; 2939; 2938; 2613; 426;
   4116; 4412; 1966; 3065; 1225; 1705; 1618; 1660; 2545; 2676; 3687; 2756; 1599; 2832; 2831; 2830;
   2829; 5461; 2974; 498; 1626; 3595; 160; 153; 3326; 1714; 3172; 3173; 3171; 3170; 3169; 2235;
   6108; 169; 5399; 2471; 558; 2308; 1681; 2385; 3562; 5024; 5025; 5427; 3391; 3744; 1646; 3275;
   3698; 2390; 1793; 1647; 1697; 1693; 1695; 1696; 2919; 9599; 2423; 3844; 2959; 2818; 1817; 521;
   3147; 3163; 2886; 283; 2837; 2543; 2928; 2240; 1343; 2321; 3467; 9753; 1530; 2872; 1595; 2900;
   1341; 2935; 3059; 2724; 3385; 2765; 368; 2461; 2462; 1253; 2680; 3009; 2434; 2694; 2351; 2353;
   2354; 1788; 2352; 3662; 2355; 2091; 1732; 8183; 1678; 2588; 2924; 2687; 5071; 1777; 2899; 494;
   3875; 2937; 5437; 5436; 3469; 3285; 1293; 5272; 2865; 321; 1280; 1779; 6432; 1230; 2843; 3033;
   2566; 1562; 3085; 3892; 1246; 1564; 8160; 1633; 9997; 9996; 7511; 5236; 3955; 2956; 2954; 2953;
   5310; 2951; 2936; 6951; 2413; 2407; 1597; 1570; 2398; 1809; 1575; 1754; 1748; 22001; 3855; 2368;
   8764; 6653; 5314; 2267; 3244; 2661; 2364; 506; 2322; 2498; 3305; 183; 650; 2329; 5991; 1463;
   159; 8450; 1917; 1921; 2839; 2503; 25903; 25901; 25902; 2556; 2672; 1690; 2360; 2671; 1669; 1665;
   1286; 4138; 2592; 61441; 61439; 61440; 2983; 5465; 1843; 1842; 1841; 2061; 1329; 2451; 3701; 3066;
   2442; 5771; 2450; 489; 8834; 1285; 3262; 2881; 2883; 43189; 6064; 1591; 1744; 405; 2397; 2683;
   3062; 2162; 1288; 2286; 2236; 167; 1685; 1831; 2981; 467; 1574; 2743; 19398; 2469; 2460; 1477;
   1478; 5720; 3535; 1582; 1731; 679; 2684; 2686; 2681; 2685; 1952; 9397; 9344; 2952; 2579; 2561;
   1235; 367; 8665; 471; 2926; 1815; 7786; 8033; 1581; 7979; 1534; 490; 3070; 349; 1824; 2511;
   1897; 6070; 2118; 2117; 1231; 24003; 24004; 24006; 24000; 3594; 24002; 24001; 24005; 5418; 2698; 8763;
   1820; 1899; 2587; 8911; 8910; 1593; 2535; 4181; 2559; 3069; 2620; 1298; 2540; 2541; 2125; 1487;
   2283; 2284; 2285; 2281; 2282; 2813; 5355; 2814; 2795; 1555; 1968; 2611; 245; 4042; 1682; 1485;
   2560; 2841; 2370; 2842; 2840; 398; 2424; 1773; 1649; 287; 2656; 2213; 2822; 1289; 3471; 3470;
   3042; 4114; 6962; 6961; 1567; 2808; 1706; 2406; 2508; 2506; 1623; 13160; 2166; 2866; 2982; 1275;
   1573; 4348; 1828; 3084; 1609; 2853; 3589; 147; 3501; 1643; 1642; 1245; 43190; 2962; 2963; 576;
   2549; 1579; 1585; 503; 1907; 3202; 3548; 3060; 2652; 2633; 16991; 495; 1602; 1490; 2793; 18881;
   2854; 2319; 2233; 3345; 2454; 8130; 8131; 2127; 2970; 2932; 3164; 1710; 11319; 27345; 2801; 1284;
   2995; 3797; 2966; 2590; 549; 1725; 2337; 3130; 5813; 25008; 25007; 25006; 25005; 25004; 25003; 25002;
   25009; 6850; 1344; 1604; 8733; 2572; 1260; 1586; 1726; 6999; 6998; 2140; 2139; 2141; 1577; 4180;
   4827; 1877; 2715; 19412; 19410; 19411; 5404; 5403; 2985; 1803; 2744; 6790; 2575; 12172; 1789; 35000;
   1281; 14937; 14936; 263; 375; 5094; 1816; 2245; 1238; 2778; 9321; 2643; 2421; 488; 1850; 2458;
   41; 2519; 6109; 1774; 2833; 3862; 3381; 1590; 2626; 1738; 2732; 19539; 2849; 2358; 1786; 1787;
   1657; 2429; 1747; 1746; 5408; 5407; 2359; 24677; 1874; 2946; 2509; 1873; 2747; 2751; 2750; 2748;
   2749; 9396; 3067; 1848; 9374; 2510; 2615; 1689; 4682; 3350; 24242; 3401; 3294; 3293; 5503; 5504;
   5746; 5745; 2344; 7437; 3353; 2689; 3873; 1561; 1915; 2792; 10103; 26260; 26261; 589; 1948; 2666;
   26489; 26487; 2769; 2674; 6066; 1876; 2835; 2834; 2782; 16309; 2969; 2867; 2797; 2950; 1822; 1342;
   5135; 2650; 2109; 2051; 2912; 309; 1865; 3289; 1804; 3286; 1740; 2211; 2707; 1273; 2181; 2553;
   2896; 2858; 3610; 2651; 1325; 2445; 1265; 3053; 1292; 1878; 4098; 1780; 1795; 4099; 1821; 2151;
   1227; 436; 2287; 32636; 1489; 1263; 5419; 3041; 2496; 3287; 6073; 2234; 242; 1844; 2362; 11112;
   1941; 3046; 1945; 6072; 2960; 5426; 2753; 3298; 1702; 1256; 1254; 1266; 2562; 1656; 1655; 579;
   1255; 1415; 2365; 2345; 6104; 8132; 1908; 3282; 1857; 1679; 2870; 3458; 5420; 772; 3645; 551;
   1686; 3773; 4379; 1851; 3022; 2807; 2890; 1837; 2955; 3145; 1471; 1468; 40841; 40842; 40843; 1724;
   2422; 6253; 455; 2746; 3201; 5984; 2324; 3288; 5412; 2137; 1648; 1802; 4308; 2459; 48556; 2757;
   1757; 1294; 7174; 1944; 371; 504; 1741; 2931; 3020; 17219; 3903; 1768; 1767; 1766; 1765; 2856;
   1640; 1639; 1794; 3987; 2571; 2412; 3315; 2116; 3061; 2836; 3450; 3105; 1756; 9283; 2906; 588;
   1202; 1375; 2803; 2536; 1252; 2619; 1323; 2990; 1304; 2961; 6402; 6403; 3561; 1770; 1769; 2877;
   10288; 2911; 2032; 2663; 2662; 1962; 310; 357; 354; 482; 2414; 2852; 1951; 1704; 3327; 573;
   567; 2708; 2131; 2772; 3643; 2812; 1749; 5042; 1913; 2624; 1826; 2136; 2616; 9164; 9163; 9162;
   1781; 2929; 1320; 2848; 2268; 459; 1536; 2639; 6831; 10080; 1845; 1653; 1849; 463; 2740; 2473;
   2783; 1481; 2785; 2331; 7107; 1219; 3279; 5411; 2796; 2149; 7781; 1205; 4108; 4885; 1546; 2894;
   1601; 2878; 5605; 5604; 5602; 5603; 3284; 1742].

End Popularity.

(** ** Port lists: [ScannerTCP.set_probes], [expand_port_list] *)

Module Ports.

(** [popularity_dict]: the loop [for port in port_popularity_nmap:
    popularity_dict[port] = index; index += 1].  A port listed twice keeps
    its last index. *)
Fixpoint build_popularity_dict (table : list Z) (index : Z) (d : gmap Z Z) : gmap Z Z :=
  match table with
  | [] => d
  | port :: rest => build_popularity_dict rest (index + 1) (<[port := index]> d)
  end.

Definition popularity_dict : gmap Z Z :=
  build_popularity_dict Popularity.port_popularity_nmap 0 ∅.

(** The sort key [port_sort] of [set_probes]. *)
Definition port_sort_in (d : gmap Z Z) (port : Z) : Z :=
  match d !! port with
  | Some index => index
  | None => 100000
  end.

Definition port_sort : Z -> Z := port_sort_in popularity_dict.

(** One comma-separated item of the port spec, as the body of the first loop
    of [set_probes] treats it. *)
Definition ports_of_item (ports_str : string) : result (list Z) :=
  if Py.contains "-" ports_str then
    let port_range := Py.split "-" ports_str in
    p0 <- Py.index port_range 0 ;;
    lo <- Py.int p0 ;;
    p1 <- Py.index port_range 1 ;;
    hi <- Py.int p1 ;;
    Ok (Py.range lo (hi + 1))
  else
    p <- Py.int ports_str ;;
    Ok [p].

Fixpoint ports_of_items (items : list string) (probes : list Z) : result (list Z) :=
  match items with
  | [] => Ok probes
  | ports_str :: rest =>
      ps <- ports_of_item ports_str ;;
      ports_of_items rest (probes ++ ps)
  end.

(** The list [self.probes] that [set_probes(port_list_str)] leaves. *)
Definition set_probes_list (port_list_str : string) : result (list Z) :=
  probes <- ports_of_items (Py.split "," port_list_str) [] ;;
  Ok (Py.sorted Z.ltb port_sort probes).

(** [expand_port_list(ports)], the helper at the end of the source. *)
Fixpoint check_range (port_list : list Z) (ports_list : list Z) : result (list Z) :=
  match port_list with
  | [] => Ok ports_list
  | p :: rest =>
      if (0 <? p) && (p <? 65536) then check_range rest (ports_list ++ [p])
      else Exit (E_port_out_of_range p) 0
  end.

Definition expand_item (port : string) (ports_list : list Z) : result (list Z) :=
  if Py.contains "-" port then
    let port_range := Py.split "-" port in
    if negb (length port_range =? 2)%nat then Exit (E_port_range_format port) 0
    else
      p0 <- Py.index port_range 0 ;;
      lo <- Py.int p0 ;;
      p1 <- Py.index port_range 1 ;;
      hi <- Py.int p1 ;;
      check_range (Py.range lo (hi + 1)) ports_list
  else
    p <- Py.int port ;;
    if (0 <? p) && (p <? 65536) then Ok (ports_list ++ [p])
    else Exit (E_port_out_of_range p) 0.

Fixpoint expand_items (items : list string) (ports_list : list Z) : result (list Z) :=
  match items with
  | [] => Ok ports_list
  | port :: rest =>
      l <- expand_item port ports_list ;;
      expand_items rest l
  end.

Definition expand_port_list (ports : string) : result (list Z) :=
  expand_items (Py.split "," ports) [].

End Ports.


(** ** Generators

    A generator is modelled by what a full iteration observes: the values it
    yields, in order, and how it ends.  A generator that calls [sys.exit] or
    raises after some yields keeps the yields made before. *)

Inductive gen_end : Type :=
  | GenDone
  | GenExit (msg : message) (status : Z)
  | GenRaise (e : exception).

Definition gen (A : Type) : Type := (list A * gen_end)%type.

Definition gen_yield_all {A : Type} (l : list A) : gen A := (l, GenDone).
Definition gen_exit {A : Type} (msg : message) (status : Z) : gen A := ([], GenExit msg status).
Definition gen_raise {A : Type} (e : exception) : gen A := ([], GenRaise e).

(** [for x in g1: yield x] followed by the rest of the body, [g2]. *)
Definition gen_seq {A : Type} (g1 g2 : gen A) : gen A :=
  match g1 with
  | (l1, GenDone) => (l1 ++ fst g2, snd g2)
  | (l1, stop) => (l1, stop)
  end.

(** [for x in xs: for t in body(x): yield t]. *)
Fixpoint gen_for {A B : Type} (xs : list A) (body : A -> gen B) : gen B :=
  match xs with
  | [] => gen_yield_all []
  | x :: rest => gen_seq (body x) (gen_for rest body)
  end.

(** ** The target patterns [ip_regex] and [cidr_regex] *)

Module Re.

Definition newline : ascii := ascii_of_nat 10.

Fixpoint take_digits (s : string) : string * string :=
  match s with
  | String c s' =>
      if Py.is_digit c then let (ds, rest) := take_digits s' in (String c ds, rest)
      else (EmptyString, s)
  | EmptyString => (EmptyString, EmptyString)
  end.

Fixpoint digits_value (acc : Z) (ds : string) : Z :=
  match ds with
  | String c ds' =>
      digits_value (10 * acc + match Py.digit_of c with Some d => d | None => 0 end) ds'
  | EmptyString => acc
  end.

(** One octet, [[0-9]|[1-9][0-9]|1[0-9]{2}|2[0-4][0-9]|25[0-5]].  In both
    patterns an octet is followed by a character that is not a digit or by
    the end of the string, so a match takes the whole run of digits: one
    digit, two digits not starting with 0, or three digits from 100 to 255. *)
Definition octet_of_digits (ds : string) : option Z :=
  let v := digits_value 0 ds in
  match String.length ds with
  | 1%nat => Some v
  | 2%nat => if 10 <=? v then Some v else None
  | 3%nat => if (100 <=? v) && (v <=? 255) then Some v else None
  | _ => None
  end.

Definition octet (s : string) : option (Z * string) :=
  let (ds, rest) := take_digits s in
  match octet_of_digits ds with
  | Some v => Some (v, rest)
  | None => None
  end.

Definition literal (c : ascii) (s : string) : option string :=
  match s with
  | String c' s' => if Ascii.eqb c c' then Some s' else None
  | EmptyString => None
  end.

(** [$]: the end of the string, or the position before a final newline. *)
Definition at_end (s : string) : bool :=
  match s with
  | EmptyString => true
  | String c EmptyString => Ascii.eqb c newline
  | _ => false
  end.

Definition ipv4 : Type := (Z * Z * Z * Z)%type.

(** [ip_regex] as a prefix of [s]. *)
Definition ip (s : string) : option (ipv4 * string) :=
  '(a, s1) ← octet s; s1' ← literal "." s1;
  '(b, s2) ← octet s1'; s2' ← literal "." s2;
  '(c, s3) ← octet s2'; s3' ← literal "." s3;
  '(d, s4) ← octet s3';
  Some ((a, b, c, d), s4).

(** [re.match(r"^%s$" % ip_regex, s)]. *)
Definition match_ip (s : string) : option (ipv4 * string) :=
  '(x, rest) ← ip s;
  if at_end rest then Some (x, rest) else None.

(** [re.match(r"^%s-%s$" % (ip_regex, ip_regex), s)]. *)
Definition match_ip_range (s : string) : option (ipv4 * ipv4 * string) :=
  '(x, s1) ← ip s; s1' ← literal "-" s1;
  '(y, rest) ← ip s1';
  if at_end rest then Some (x, y, rest) else None.

(** [re.match(cidr_regex, s)]: the address, [group(1)] (one or two digits)
    and what [$] left unmatched (nothing, or a final newline). *)
Definition match_cidr (s : string) : option (ipv4 * string * string) :=
  '(x, s1) ← ip s; s1' ← literal "/" s1;
  let (ds, rest) := take_digits s1' in
  if ((1 <=? String.length ds) && (String.length ds <=? 2))%nat && at_end rest
  then Some (x, ds, rest) else None.

(** The truth value of a match object. *)
Definition matches {A : Type} (m : option A) : bool :=
  match m with Some _ => true | None => false end.

End Re.

(** ** The [ipaddress] module, IPv4 part *)

Module Ipaddress.

Definition int_of_ip (x : Re.ipv4) : Z :=
  let '(a, b, c, d) := x in
  Z.lor (Z.lor (Z.lor (Z.shiftl a 24) (Z.shiftl b 16)) (Z.shiftl c 8)) d.

(** [str(ipaddress.ip_address(ip_int))]. *)
Definition str_of_ip (ip_int : Z) : string :=
  let oct (k : Z) := Py.str_of_Z (Z.land (Z.shiftr ip_int k) 255) in
  (oct 24 ++ "." ++ oct 16 ++ "." ++ oct 8 ++ "." ++ oct 0)%string.

(** [int(ipaddress.ip_address(s))] for a string: the whole string has to be
    a dotted quad. *)
Definition ip_address (s : string) : result Z :=
  match Re.ip s with
  | Some (x, EmptyString) => Ok (int_of_ip x)
  | _ => Raise ValueError
  end.

(** The text [A.B.C.D/N]. *)
Definition cidr_token (a b c d n : Z) : string :=
  (Py.str_of_Z a ++ "." ++ Py.str_of_Z b ++ "." ++ Py.str_of_Z c ++ "." ++ Py.str_of_Z d
   ++ "/" ++ Py.str_of_Z n)%string.

Definition netmask (prefixlen : Z) : Z :=
  Z.lxor (Z.ones 32) (Z.ones (32 - prefixlen)).

Definition hostmask (prefixlen : Z) : Z := Z.ones (32 - prefixlen).

(** [ipaddress.ip_network(address/prefixlen, False)]: host bits are masked
    off.  The pair is ([network_address], [broadcast_address]) as integers. *)
Definition ip_network (address prefixlen : Z) : Z * Z :=
  let network_address := Z.land address (netmask prefixlen) in
  (network_address, Z.lor network_address (hostmask prefixlen)).

End Ipaddress.

(** ** [TargetGenerator] *)

Module TargetGenerator.

(** [_get_targets_from_ip_range(ip_range)] *)
Definition _get_targets_from_ip_range (ip_range : string) : gen string :=
  match Re.match_ip_range ip_range with
  | None => gen_exit (E_range_format ip_range) 0
  | Some _ =>
      let parts := Py.split "-" ip_range in
      match Py.index parts 0, Py.index parts 1 with
      | Ok start_ip, Ok end_ip =>
          match Ipaddress.ip_address start_ip with
          | Ok ip_range_start =>
              match Ipaddress.ip_address end_ip with
              | Ok ip_range_end =>
                  gen_yield_all
                    (map Ipaddress.str_of_ip (Py.range ip_range_start (ip_range_end + 1)))
              | _ => gen_raise ValueError
              end
          | _ => gen_raise ValueError
          end
      | _, _ => gen_raise IndexError
      end
  end.

(** [_get_target_ips_from_cidr(cidr)] *)
Definition _get_target_ips_from_cidr (cidr : string) : gen string :=
  match Re.match_cidr cidr with
  | None => gen_exit (E_cidr_format cidr) 0
  | Some (address, group1, rest) =>
      match Py.int group1 with
      | Ok n =>
          if 32 <? n then gen_exit (E_netmask_gt_32 cidr) 0
          else if n <? 8 then gen_exit (E_netmask_lt_8 cidr) 0
          else
            match rest with
            | EmptyString =>
                let '(network_address, broadcast_address) :=
                  Ipaddress.ip_network (Ipaddress.int_of_ip address) n in
                gen_yield_all
                  (map Ipaddress.str_of_ip (Py.range network_address (broadcast_address + 1)))
            | _ => gen_raise ValueError    (* ip_network refuses the final newline *)
            end
      | Exit m c => gen_exit m c
      | Raise e => gen_raise e
      end
  end.

(** [_get_targets_from_string(target)] *)
Definition _get_targets_from_string (target : string) : gen string :=
  if Re.matches (Re.match_ip_range target) then _get_targets_from_ip_range target
  else if Re.matches (Re.match_ip target) then gen_yield_all [target]
  else if Re.matches (Re.match_cidr target) then _get_target_ips_from_cidr target
  else gen_exit (E_not_valid_target target) 0.

(** [_get_targets_from_list(targets)] *)
Definition _get_targets_from_list (targets : list string) : gen string :=
  gen_for targets _get_targets_from_string.

End TargetGenerator.


(** ** The state of the program *)

Inductive target_source_kind : Type := SourceList | SourceFile.

(** [ProbeStateTcp]: one attempt series against a single (ip, port). *)
Record ProbeStateTcp : Type := Build_ProbeStateTcp {
  target_ip : string;
  probe_index : nat;
  probe_sent_time : option Q;  (* None until the first connect *)
  probes_sent : Z;
  target_port : Z;
  socket : option Z;  (* the descriptor of the open socket *)
  deleted : bool;  (* tombstone *)
  probe_id : nat
}.

(** [ProbeStateContainer], a process-wide singleton.  [objects] is the store
    of the [ProbeStateTcp] objects created so far; the deque and the
    descriptor index refer to them by [probe_id].  A socket object is
    identified with its descriptor. *)
Record ProbeStateContainer : Type := Build_ProbeStateContainer {
  objects : gmap nat ProbeStateTcp;  (* the ProbeStateTcp objects, by probe_id *)
  probe_states : list nat;  (* the deque, left end first *)
  socket_list : list Z;
  probe_states_by_fd : gmap Z nat;
  count : Z;
  next_probe_id : nat;
  poller : list Z;  (* descriptors registered with the poller *)
  poll_type : string
}.

(** The fields of [ScannerBase] and [ScannerTCP] that take part in a scan. *)
Record ScannerTCP : Type := Build_ScannerTCP {
  _sleep_total : Q;
  bandwidth_bits_per_second : option Z;
  max_probes : Z;
  probes : list Z;
  target_ports_unprocessed : string;
  inter_packet_interval : Q;
  inter_packet_interval_per_host : option Q;
  bytes_sent : Z;
  target_source : option target_source_kind;
  target_list_unprocessed : list string;
  target_filename : option string;
  scan_start_time_internal : option Q;
  probes_sent_count : Z;
  replies : Z;
  packet_rate : option Z;
  host_count : Z;
  next_recv_time : Q;
  recv_interval : Q;
  blocklist : list string;
  count_in_queue : gmap nat Z;
  sleep_reasons : gmap string Z;
  packet_overhead : Z;
  payload_len_estimate : Z;
  host_count_high_water : Z;
  host_count_low_water : Z;
  show_closed_ports : bool;
  probe_state_ready_last_result : option bool;
  poll_result_count : Z;
  poll_deleted_packet_count : Z;
  scanner_poll_type : string;  (* self.poll_type *)
  warned_about_unreachable_network : list string;
  warned_about_socket_events : list Z;
  soft_open_files_limit : option Z;
  hard_open_files_limit : option Z
}.

(** The scanner, the registry singleton, the terminal, and how far the
    program has read each of its inputs (see [Env] below). *)
Record World : Type := Build_World {
  scanner : ScannerTCP;  (* the ScannerTCP object *)
  container : ProbeStateContainer;  (* the ProbeStateContainer singleton *)
  stdout : list message;  (* lines printed so far, oldest first *)
  time_calls : nat;  (* calls of time.time() made so far *)
  poll_calls : nat;  (* calls of poller.poll made so far *)
  socket_calls : nat;  (* calls of socket.socket made so far *)
  connect_calls : nat  (* calls of sock.connect made so far *)
}.

(** Field updates. *)

Definition with_probe_sent_time (v : option Q) (ps : ProbeStateTcp) : ProbeStateTcp :=
  {| target_ip := target_ip ps; probe_index := probe_index ps; probe_sent_time := v;
     probes_sent := probes_sent ps; target_port := target_port ps; socket := socket ps;
     deleted := deleted ps; probe_id := probe_id ps |}.

Definition with_probes_sent (v : Z) (ps : ProbeStateTcp) : ProbeStateTcp :=
  {| target_ip := target_ip ps; probe_index := probe_index ps;
     probe_sent_time := probe_sent_time ps; probes_sent := v; target_port := target_port ps;
     socket := socket ps; deleted := deleted ps; probe_id := probe_id ps |}.

Definition with_socket (v : option Z) (ps : ProbeStateTcp) : ProbeStateTcp :=
  {| target_ip := target_ip ps; probe_index := probe_index ps;
     probe_sent_time := probe_sent_time ps; probes_sent := probes_sent ps;
     target_port := target_port ps; socket := v; deleted := deleted ps;
     probe_id := probe_id ps |}.

Definition with_deleted (v : bool) (ps : ProbeStateTcp) : ProbeStateTcp :=
  {| target_ip := target_ip ps; probe_index := probe_index ps;
     probe_sent_time := probe_sent_time ps; probes_sent := probes_sent ps;
     target_port := target_port ps; socket := socket ps; deleted := v;
     probe_id := probe_id ps |}.

Definition with_objects (v : gmap nat ProbeStateTcp) (c : ProbeStateContainer) : ProbeStateContainer :=
  {| objects := v; probe_states := probe_states c; socket_list := socket_list c;
     probe_states_by_fd := probe_states_by_fd c; count := count c;
     next_probe_id := next_probe_id c; poller := poller c; poll_type := poll_type c |}.

Definition with_probe_states (v : list nat) (c : ProbeStateContainer) : ProbeStateContainer :=
  {| objects := objects c; probe_states := v; socket_list := socket_list c;
     probe_states_by_fd := probe_states_by_fd c; count := count c;
     next_probe_id := next_probe_id c; poller := poller c; poll_type := poll_type c |}.

Definition with_socket_list (v : list Z) (c : ProbeStateContainer) : ProbeStateContainer :=
  {| objects := objects c; probe_states := probe_states c; socket_list := v;
     probe_states_by_fd := probe_states_by_fd c; count := count c;
     next_probe_id := next_probe_id c; poller := poller c; poll_type := poll_type c |}.

Definition with_probe_states_by_fd (v : gmap Z nat) (c : ProbeStateContainer) : ProbeStateContainer :=
  {| objects := objects c; probe_states := probe_states c; socket_list := socket_list c;
     probe_states_by_fd := v; count := count c; next_probe_id := next_probe_id c;
     poller := poller c; poll_type := poll_type c |}.

Definition with_count (v : Z) (c : ProbeStateContainer) : ProbeStateContainer :=
  {| objects := objects c; probe_states := probe_states c; socket_list := socket_list c;
     probe_states_by_fd := probe_states_by_fd c; count := v; next_probe_id := next_probe_id c;
     poller := poller c; poll_type := poll_type c |}.

Definition with_next_probe_id (v : nat) (c : ProbeStateContainer) : ProbeStateContainer :=
  {| objects := objects c; probe_states := probe_states c; socket_list := socket_list c;
     probe_states_by_fd := probe_states_by_fd c; count := count c; next_probe_id := v;
     poller := poller c; poll_type := poll_type c |}.

Definition with_poller (v : list Z) (c : ProbeStateContainer) : ProbeStateContainer :=
  {| objects := objects c; probe_states := probe_states c; socket_list := socket_list c;
     probe_states_by_fd := probe_states_by_fd c; count := count c;
     next_probe_id := next_probe_id c; poller := v; poll_type := poll_type c |}.

Definition with_poll_type (v : string) (c : ProbeStateContainer) : ProbeStateContainer :=
  {| objects := objects c; probe_states := probe_states c; socket_list := socket_list c;
     probe_states_by_fd := probe_states_by_fd c; count := count c;
     next_probe_id := next_probe_id c; poller := poller c; poll_type := v |}.

Definition with__sleep_total (v : Q) (s : ScannerTCP) : ScannerTCP :=
  {| _sleep_total := v; bandwidth_bits_per_second := bandwidth_bits_per_second s;
     max_probes := max_probes s; probes := probes s;
     target_ports_unprocessed := target_ports_unprocessed s;
     inter_packet_interval := inter_packet_interval s;
     inter_packet_interval_per_host := inter_packet_interval_per_host s;
     bytes_sent := bytes_sent s; target_source := target_source s;
     target_list_unprocessed := target_list_unprocessed s;
     target_filename := target_filename s;
     scan_start_time_internal := scan_start_time_internal s;
     probes_sent_count := probes_sent_count s; replies := replies s;
     packet_rate := packet_rate s; host_count := host_count s;
     next_recv_time := next_recv_time s; recv_interval := recv_interval s;
     blocklist := blocklist s; count_in_queue := count_in_queue s;
     sleep_reasons := sleep_reasons s; packet_overhead := packet_overhead s;
     payload_len_estimate := payload_len_estimate s;
     host_count_high_water := host_count_high_water s;
     host_count_low_water := host_count_low_water s; show_closed_ports := show_closed_ports s;
     probe_state_ready_last_result := probe_state_ready_last_result s;
     poll_result_count := poll_result_count s;
     poll_deleted_packet_count := poll_deleted_packet_count s;
     scanner_poll_type := scanner_poll_type s;
     warned_about_unreachable_network := warned_about_unreachable_network s;
     warned_about_socket_events := warned_about_socket_events s;
     soft_open_files_limit := soft_open_files_limit s;
     hard_open_files_limit := hard_open_files_limit s |}.

Definition with_max_probes (v : Z) (s : ScannerTCP) : ScannerTCP :=
  {| _sleep_total := _sleep_total s; bandwidth_bits_per_second := bandwidth_bits_per_second s;
     max_probes := v; probes := probes s;
     target_ports_unprocessed := target_ports_unprocessed s;
     inter_packet_interval := inter_packet_interval s;
     inter_packet_interval_per_host := inter_packet_interval_per_host s;
     bytes_sent := bytes_sent s; target_source := target_source s;
     target_list_unprocessed := target_list_unprocessed s;
     target_filename := target_filename s;
     scan_start_time_internal := scan_start_time_internal s;
     probes_sent_count := probes_sent_count s; replies := replies s;
     packet_rate := packet_rate s; host_count := host_count s;
     next_recv_time := next_recv_time s; recv_interval := recv_interval s;
     blocklist := blocklist s; count_in_queue := count_in_queue s;
     sleep_reasons := sleep_reasons s; packet_overhead := packet_overhead s;
     payload_len_estimate := payload_len_estimate s;
     host_count_high_water := host_count_high_water s;
     host_count_low_water := host_count_low_water s; show_closed_ports := show_closed_ports s;
     probe_state_ready_last_result := probe_state_ready_last_result s;
     poll_result_count := poll_result_count s;
     poll_deleted_packet_count := poll_deleted_packet_count s;
     scanner_poll_type := scanner_poll_type s;
     warned_about_unreachable_network := warned_about_unreachable_network s;
     warned_about_socket_events := warned_about_socket_events s;
     soft_open_files_limit := soft_open_files_limit s;
     hard_open_files_limit := hard_open_files_limit s |}.

Definition with_probes (v : list Z) (s : ScannerTCP) : ScannerTCP :=
  {| _sleep_total := _sleep_total s; bandwidth_bits_per_second := bandwidth_bits_per_second s;
     max_probes := max_probes s; probes := v;
     target_ports_unprocessed := target_ports_unprocessed s;
     inter_packet_interval := inter_packet_interval s;
     inter_packet_interval_per_host := inter_packet_interval_per_host s;
     bytes_sent := bytes_sent s; target_source := target_source s;
     target_list_unprocessed := target_list_unprocessed s;
     target_filename := target_filename s;
     scan_start_time_internal := scan_start_time_internal s;
     probes_sent_count := probes_sent_count s; replies := replies s;
     packet_rate := packet_rate s; host_count := host_count s;
     next_recv_time := next_recv_time s; recv_interval := recv_interval s;
     blocklist := blocklist s; count_in_queue := count_in_queue s;
     sleep_reasons := sleep_reasons s; packet_overhead := packet_overhead s;
     payload_len_estimate := payload_len_estimate s;
     host_count_high_water := host_count_high_water s;
     host_count_low_water := host_count_low_water s; show_closed_ports := show_closed_ports s;
     probe_state_ready_last_result := probe_state_ready_last_result s;
     poll_result_count := poll_result_count s;
     poll_deleted_packet_count := poll_deleted_packet_count s;
     scanner_poll_type := scanner_poll_type s;
     warned_about_unreachable_network := warned_about_unreachable_network s;
     warned_about_socket_events := warned_about_socket_events s;
     soft_open_files_limit := soft_open_files_limit s;
     hard_open_files_limit := hard_open_files_limit s |}.

Definition with_target_ports_unprocessed (v : string) (s : ScannerTCP) : ScannerTCP :=
  {| _sleep_total := _sleep_total s; bandwidth_bits_per_second := bandwidth_bits_per_second s;
     max_probes := max_probes s; probes := probes s; target_ports_unprocessed := v;
     inter_packet_interval := inter_packet_interval s;
     inter_packet_interval_per_host := inter_packet_interval_per_host s;
     bytes_sent := bytes_sent s; target_source := target_source s;
     target_list_unprocessed := target_list_unprocessed s;
     target_filename := target_filename s;
     scan_start_time_internal := scan_start_time_internal s;
     probes_sent_count := probes_sent_count s; replies := replies s;
     packet_rate := packet_rate s; host_count := host_count s;
     next_recv_time := next_recv_time s; recv_interval := recv_interval s;
     blocklist := blocklist s; count_in_queue := count_in_queue s;
     sleep_reasons := sleep_reasons s; packet_overhead := packet_overhead s;
     payload_len_estimate := payload_len_estimate s;
     host_count_high_water := host_count_high_water s;
     host_count_low_water := host_count_low_water s; show_closed_ports := show_closed_ports s;
     probe_state_ready_last_result := probe_state_ready_last_result s;
     poll_result_count := poll_result_count s;
     poll_deleted_packet_count := poll_deleted_packet_count s;
     scanner_poll_type := scanner_poll_type s;
     warned_about_unreachable_network := warned_about_unreachable_network s;
     warned_about_socket_events := warned_about_socket_events s;
     soft_open_files_limit := soft_open_files_limit s;
     hard_open_files_limit := hard_open_files_limit s |}.

Definition with_inter_packet_interval_per_host (v : option Q) (s : ScannerTCP) : ScannerTCP :=
  {| _sleep_total := _sleep_total s; bandwidth_bits_per_second := bandwidth_bits_per_second s;
     max_probes := max_probes s; probes := probes s;
     target_ports_unprocessed := target_ports_unprocessed s;
     inter_packet_interval := inter_packet_interval s; inter_packet_interval_per_host := v;
     bytes_sent := bytes_sent s; target_source := target_source s;
     target_list_unprocessed := target_list_unprocessed s;
     target_filename := target_filename s;
     scan_start_time_internal := scan_start_time_internal s;
     probes_sent_count := probes_sent_count s; replies := replies s;
     packet_rate := packet_rate s; host_count := host_count s;
     next_recv_time := next_recv_time s; recv_interval := recv_interval s;
     blocklist := blocklist s; count_in_queue := count_in_queue s;
     sleep_reasons := sleep_reasons s; packet_overhead := packet_overhead s;
     payload_len_estimate := payload_len_estimate s;
     host_count_high_water := host_count_high_water s;
     host_count_low_water := host_count_low_water s; show_closed_ports := show_closed_ports s;
     probe_state_ready_last_result := probe_state_ready_last_result s;
     poll_result_count := poll_result_count s;
     poll_deleted_packet_count := poll_deleted_packet_count s;
     scanner_poll_type := scanner_poll_type s;
     warned_about_unreachable_network := warned_about_unreachable_network s;
     warned_about_socket_events := warned_about_socket_events s;
     soft_open_files_limit := soft_open_files_limit s;
     hard_open_files_limit := hard_open_files_limit s |}.

Definition with_bytes_sent (v : Z) (s : ScannerTCP) : ScannerTCP :=
  {| _sleep_total := _sleep_total s; bandwidth_bits_per_second := bandwidth_bits_per_second s;
     max_probes := max_probes s; probes := probes s;
     target_ports_unprocessed := target_ports_unprocessed s;
     inter_packet_interval := inter_packet_interval s;
     inter_packet_interval_per_host := inter_packet_interval_per_host s; bytes_sent := v;
     target_source := target_source s; target_list_unprocessed := target_list_unprocessed s;
     target_filename := target_filename s;
     scan_start_time_internal := scan_start_time_internal s;
     probes_sent_count := probes_sent_count s; replies := replies s;
     packet_rate := packet_rate s; host_count := host_count s;
     next_recv_time := next_recv_time s; recv_interval := recv_interval s;
     blocklist := blocklist s; count_in_queue := count_in_queue s;
     sleep_reasons := sleep_reasons s; packet_overhead := packet_overhead s;
     payload_len_estimate := payload_len_estimate s;
     host_count_high_water := host_count_high_water s;
     host_count_low_water := host_count_low_water s; show_closed_ports := show_closed_ports s;
     probe_state_ready_last_result := probe_state_ready_last_result s;
     poll_result_count := poll_result_count s;
     poll_deleted_packet_count := poll_deleted_packet_count s;
     scanner_poll_type := scanner_poll_type s;
     warned_about_unreachable_network := warned_about_unreachable_network s;
     warned_about_socket_events := warned_about_socket_events s;
     soft_open_files_limit := soft_open_files_limit s;
     hard_open_files_limit := hard_open_files_limit s |}.

Definition with_target_source (v : option target_source_kind) (s : ScannerTCP) : ScannerTCP :=
  {| _sleep_total := _sleep_total s; bandwidth_bits_per_second := bandwidth_bits_per_second s;
     max_probes := max_probes s; probes := probes s;
     target_ports_unprocessed := target_ports_unprocessed s;
     inter_packet_interval := inter_packet_interval s;
     inter_packet_interval_per_host := inter_packet_interval_per_host s;
     bytes_sent := bytes_sent s; target_source := v;
     target_list_unprocessed := target_list_unprocessed s;
     target_filename := target_filename s;
     scan_start_time_internal := scan_start_time_internal s;
     probes_sent_count := probes_sent_count s; replies := replies s;
     packet_rate := packet_rate s; host_count := host_count s;
     next_recv_time := next_recv_time s; recv_interval := recv_interval s;
     blocklist := blocklist s; count_in_queue := count_in_queue s;
     sleep_reasons := sleep_reasons s; packet_overhead := packet_overhead s;
     payload_len_estimate := payload_len_estimate s;
     host_count_high_water := host_count_high_water s;
     host_count_low_water := host_count_low_water s; show_closed_ports := show_closed_ports s;
     probe_state_ready_last_result := probe_state_ready_last_result s;
     poll_result_count := poll_result_count s;
     poll_deleted_packet_count := poll_deleted_packet_count s;
     scanner_poll_type := scanner_poll_type s;
     warned_about_unreachable_network := warned_about_unreachable_network s;
     warned_about_socket_events := warned_about_socket_events s;
     soft_open_files_limit := soft_open_files_limit s;
     hard_open_files_limit := hard_open_files_limit s |}.

Definition with_target_list_unprocessed (v : list string) (s : ScannerTCP) : ScannerTCP :=
  {| _sleep_total := _sleep_total s; bandwidth_bits_per_second := bandwidth_bits_per_second s;
     max_probes := max_probes s; probes := probes s;
     target_ports_unprocessed := target_ports_unprocessed s;
     inter_packet_interval := inter_packet_interval s;
     inter_packet_interval_per_host := inter_packet_interval_per_host s;
     bytes_sent := bytes_sent s; target_source := target_source s;
     target_list_unprocessed := v; target_filename := target_filename s;
     scan_start_time_internal := scan_start_time_internal s;
     probes_sent_count := probes_sent_count s; replies := replies s;
     packet_rate := packet_rate s; host_count := host_count s;
     next_recv_time := next_recv_time s; recv_interval := recv_interval s;
     blocklist := blocklist s; count_in_queue := count_in_queue s;
     sleep_reasons := sleep_reasons s; packet_overhead := packet_overhead s;
     payload_len_estimate := payload_len_estimate s;
     host_count_high_water := host_count_high_water s;
     host_count_low_water := host_count_low_water s; show_closed_ports := show_closed_ports s;
     probe_state_ready_last_result := probe_state_ready_last_result s;
     poll_result_count := poll_result_count s;
     poll_deleted_packet_count := poll_deleted_packet_count s;
     scanner_poll_type := scanner_poll_type s;
     warned_about_unreachable_network := warned_about_unreachable_network s;
     warned_about_socket_events := warned_about_socket_events s;
     soft_open_files_limit := soft_open_files_limit s;
     hard_open_files_limit := hard_open_files_limit s |}.

Definition with_target_filename (v : option string) (s : ScannerTCP) : ScannerTCP :=
  {| _sleep_total := _sleep_total s; bandwidth_bits_per_second := bandwidth_bits_per_second s;
     max_probes := max_probes s; probes := probes s;
     target_ports_unprocessed := target_ports_unprocessed s;
     inter_packet_interval := inter_packet_interval s;
     inter_packet_interval_per_host := inter_packet_interval_per_host s;
     bytes_sent := bytes_sent s; target_source := target_source s;
     target_list_unprocessed := target_list_unprocessed s; target_filename := v;
     scan_start_time_internal := scan_start_time_internal s;
     probes_sent_count := probes_sent_count s; replies := replies s;
     packet_rate := packet_rate s; host_count := host_count s;
     next_recv_time := next_recv_time s; recv_interval := recv_interval s;
     blocklist := blocklist s; count_in_queue := count_in_queue s;
     sleep_reasons := sleep_reasons s; packet_overhead := packet_overhead s;
     payload_len_estimate := payload_len_estimate s;
     host_count_high_water := host_count_high_water s;
     host_count_low_water := host_count_low_water s; show_closed_ports := show_closed_ports s;
     probe_state_ready_last_result := probe_state_ready_last_result s;
     poll_result_count := poll_result_count s;
     poll_deleted_packet_count := poll_deleted_packet_count s;
     scanner_poll_type := scanner_poll_type s;
     warned_about_unreachable_network := warned_about_unreachable_network s;
     warned_about_socket_events := warned_about_socket_events s;
     soft_open_files_limit := soft_open_files_limit s;
     hard_open_files_limit := hard_open_files_limit s |}.

Definition with_scan_start_time_internal (v : option Q) (s : ScannerTCP) : ScannerTCP :=
  {| _sleep_total := _sleep_total s; bandwidth_bits_per_second := bandwidth_bits_per_second s;
     max_probes := max_probes s; probes := probes s;
     target_ports_unprocessed := target_ports_unprocessed s;
     inter_packet_interval := inter_packet_interval s;
     inter_packet_interval_per_host := inter_packet_interval_per_host s;
     bytes_sent := bytes_sent s; target_source := target_source s;
     target_list_unprocessed := target_list_unprocessed s;
     target_filename := target_filename s; scan_start_time_internal := v;
     probes_sent_count := probes_sent_count s; replies := replies s;
     packet_rate := packet_rate s; host_count := host_count s;
     next_recv_time := next_recv_time s; recv_interval := recv_interval s;
     blocklist := blocklist s; count_in_queue := count_in_queue s;
     sleep_reasons := sleep_reasons s; packet_overhead := packet_overhead s;
     payload_len_estimate := payload_len_estimate s;
     host_count_high_water := host_count_high_water s;
     host_count_low_water := host_count_low_water s; show_closed_ports := show_closed_ports s;
     probe_state_ready_last_result := probe_state_ready_last_result s;
     poll_result_count := poll_result_count s;
     poll_deleted_packet_count := poll_deleted_packet_count s;
     scanner_poll_type := scanner_poll_type s;
     warned_about_unreachable_network := warned_about_unreachable_network s;
     warned_about_socket_events := warned_about_socket_events s;
     soft_open_files_limit := soft_open_files_limit s;
     hard_open_files_limit := hard_open_files_limit s |}.

Definition with_probes_sent_count (v : Z) (s : ScannerTCP) : ScannerTCP :=
  {| _sleep_total := _sleep_total s; bandwidth_bits_per_second := bandwidth_bits_per_second s;
     max_probes := max_probes s; probes := probes s;
     target_ports_unprocessed := target_ports_unprocessed s;
     inter_packet_interval := inter_packet_interval s;
     inter_packet_interval_per_host := inter_packet_interval_per_host s;
     bytes_sent := bytes_sent s; target_source := target_source s;
     target_list_unprocessed := target_list_unprocessed s;
     target_filename := target_filename s;
     scan_start_time_internal := scan_start_time_internal s; probes_sent_count := v;
     replies := replies s; packet_rate := packet_rate s; host_count := host_count s;
     next_recv_time := next_recv_time s; recv_interval := recv_interval s;
     blocklist := blocklist s; count_in_queue := count_in_queue s;
     sleep_reasons := sleep_reasons s; packet_overhead := packet_overhead s;
     payload_len_estimate := payload_len_estimate s;
     host_count_high_water := host_count_high_water s;
     host_count_low_water := host_count_low_water s; show_closed_ports := show_closed_ports s;
     probe_state_ready_last_result := probe_state_ready_last_result s;
     poll_result_count := poll_result_count s;
     poll_deleted_packet_count := poll_deleted_packet_count s;
     scanner_poll_type := scanner_poll_type s;
     warned_about_unreachable_network := warned_about_unreachable_network s;
     warned_about_socket_events := warned_about_socket_events s;
     soft_open_files_limit := soft_open_files_limit s;
     hard_open_files_limit := hard_open_files_limit s |}.

Definition with_replies (v : Z) (s : ScannerTCP) : ScannerTCP :=
  {| _sleep_total := _sleep_total s; bandwidth_bits_per_second := bandwidth_bits_per_second s;
     max_probes := max_probes s; probes := probes s;
     target_ports_unprocessed := target_ports_unprocessed s;
     inter_packet_interval := inter_packet_interval s;
     inter_packet_interval_per_host := inter_packet_interval_per_host s;
     bytes_sent := bytes_sent s; target_source := target_source s;
     target_list_unprocessed := target_list_unprocessed s;
     target_filename := target_filename s;
     scan_start_time_internal := scan_start_time_internal s;
     probes_sent_count := probes_sent_count s; replies := v; packet_rate := packet_rate s;
     host_count := host_count s; next_recv_time := next_recv_time s;
     recv_interval := recv_interval s; blocklist := blocklist s;
     count_in_queue := count_in_queue s; sleep_reasons := sleep_reasons s;
     packet_overhead := packet_overhead s; payload_len_estimate := payload_len_estimate s;
     host_count_high_water := host_count_high_water s;
     host_count_low_water := host_count_low_water s; show_closed_ports := show_closed_ports s;
     probe_state_ready_last_result := probe_state_ready_last_result s;
     poll_result_count := poll_result_count s;
     poll_deleted_packet_count := poll_deleted_packet_count s;
     scanner_poll_type := scanner_poll_type s;
     warned_about_unreachable_network := warned_about_unreachable_network s;
     warned_about_socket_events := warned_about_socket_events s;
     soft_open_files_limit := soft_open_files_limit s;
     hard_open_files_limit := hard_open_files_limit s |}.

Definition with_host_count (v : Z) (s : ScannerTCP) : ScannerTCP :=
  {| _sleep_total := _sleep_total s; bandwidth_bits_per_second := bandwidth_bits_per_second s;
     max_probes := max_probes s; probes := probes s;
     target_ports_unprocessed := target_ports_unprocessed s;
     inter_packet_interval := inter_packet_interval s;
     inter_packet_interval_per_host := inter_packet_interval_per_host s;
     bytes_sent := bytes_sent s; target_source := target_source s;
     target_list_unprocessed := target_list_unprocessed s;
     target_filename := target_filename s;
     scan_start_time_internal := scan_start_time_internal s;
     probes_sent_count := probes_sent_count s; replies := replies s;
     packet_rate := packet_rate s; host_count := v; next_recv_time := next_recv_time s;
     recv_interval := recv_interval s; blocklist := blocklist s;
     count_in_queue := count_in_queue s; sleep_reasons := sleep_reasons s;
     packet_overhead := packet_overhead s; payload_len_estimate := payload_len_estimate s;
     host_count_high_water := host_count_high_water s;
     host_count_low_water := host_count_low_water s; show_closed_ports := show_closed_ports s;
     probe_state_ready_last_result := probe_state_ready_last_result s;
     poll_result_count := poll_result_count s;
     poll_deleted_packet_count := poll_deleted_packet_count s;
     scanner_poll_type := scanner_poll_type s;
     warned_about_unreachable_network := warned_about_unreachable_network s;
     warned_about_socket_events := warned_about_socket_events s;
     soft_open_files_limit := soft_open_files_limit s;
     hard_open_files_limit := hard_open_files_limit s |}.

Definition with_next_recv_time (v : Q) (s : ScannerTCP) : ScannerTCP :=
  {| _sleep_total := _sleep_total s; bandwidth_bits_per_second := bandwidth_bits_per_second s;
     max_probes := max_probes s; probes := probes s;
     target_ports_unprocessed := target_ports_unprocessed s;
     inter_packet_interval := inter_packet_interval s;
     inter_packet_interval_per_host := inter_packet_interval_per_host s;
     bytes_sent := bytes_sent s; target_source := target_source s;
     target_list_unprocessed := target_list_unprocessed s;
     target_filename := target_filename s;
     scan_start_time_internal := scan_start_time_internal s;
     probes_sent_count := probes_sent_count s; replies := replies s;
     packet_rate := packet_rate s; host_count := host_count s; next_recv_time := v;
     recv_interval := recv_interval s; blocklist := blocklist s;
     count_in_queue := count_in_queue s; sleep_reasons := sleep_reasons s;
     packet_overhead := packet_overhead s; payload_len_estimate := payload_len_estimate s;
     host_count_high_water := host_count_high_water s;
     host_count_low_water := host_count_low_water s; show_closed_ports := show_closed_ports s;
     probe_state_ready_last_result := probe_state_ready_last_result s;
     poll_result_count := poll_result_count s;
     poll_deleted_packet_count := poll_deleted_packet_count s;
     scanner_poll_type := scanner_poll_type s;
     warned_about_unreachable_network := warned_about_unreachable_network s;
     warned_about_socket_events := warned_about_socket_events s;
     soft_open_files_limit := soft_open_files_limit s;
     hard_open_files_limit := hard_open_files_limit s |}.

Definition with_recv_interval (v : Q) (s : ScannerTCP) : ScannerTCP :=
  {| _sleep_total := _sleep_total s; bandwidth_bits_per_second := bandwidth_bits_per_second s;
     max_probes := max_probes s; probes := probes s;
     target_ports_unprocessed := target_ports_unprocessed s;
     inter_packet_interval := inter_packet_interval s;
     inter_packet_interval_per_host := inter_packet_interval_per_host s;
     bytes_sent := bytes_sent s; target_source := target_source s;
     target_list_unprocessed := target_list_unprocessed s;
     target_filename := target_filename s;
     scan_start_time_internal := scan_start_time_internal s;
     probes_sent_count := probes_sent_count s; replies := replies s;
     packet_rate := packet_rate s; host_count := host_count s;
     next_recv_time := next_recv_time s; recv_interval := v; blocklist := blocklist s;
     count_in_queue := count_in_queue s; sleep_reasons := sleep_reasons s;
     packet_overhead := packet_overhead s; payload_len_estimate := payload_len_estimate s;
     host_count_high_water := host_count_high_water s;
     host_count_low_water := host_count_low_water s; show_closed_ports := show_closed_ports s;
     probe_state_ready_last_result := probe_state_ready_last_result s;
     poll_result_count := poll_result_count s;
     poll_deleted_packet_count := poll_deleted_packet_count s;
     scanner_poll_type := scanner_poll_type s;
     warned_about_unreachable_network := warned_about_unreachable_network s;
     warned_about_socket_events := warned_about_socket_events s;
     soft_open_files_limit := soft_open_files_limit s;
     hard_open_files_limit := hard_open_files_limit s |}.

Definition with_blocklist (v : list string) (s : ScannerTCP) : ScannerTCP :=
  {| _sleep_total := _sleep_total s; bandwidth_bits_per_second := bandwidth_bits_per_second s;
     max_probes := max_probes s; probes := probes s;
     target_ports_unprocessed := target_ports_unprocessed s;
     inter_packet_interval := inter_packet_interval s;
     inter_packet_interval_per_host := inter_packet_interval_per_host s;
     bytes_sent := bytes_sent s; target_source := target_source s;
     target_list_unprocessed := target_list_unprocessed s;
     target_filename := target_filename s;
     scan_start_time_internal := scan_start_time_internal s;
     probes_sent_count := probes_sent_count s; replies := replies s;
     packet_rate := packet_rate s; host_count := host_count s;
     next_recv_time := next_recv_time s; recv_interval := recv_interval s; blocklist := v;
     count_in_queue := count_in_queue s; sleep_reasons := sleep_reasons s;
     packet_overhead := packet_overhead s; payload_len_estimate := payload_len_estimate s;
     host_count_high_water := host_count_high_water s;
     host_count_low_water := host_count_low_water s; show_closed_ports := show_closed_ports s;
     probe_state_ready_last_result := probe_state_ready_last_result s;
     poll_result_count := poll_result_count s;
     poll_deleted_packet_count := poll_deleted_packet_count s;
     scanner_poll_type := scanner_poll_type s;
     warned_about_unreachable_network := warned_about_unreachable_network s;
     warned_about_socket_events := warned_about_socket_events s;
     soft_open_files_limit := soft_open_files_limit s;
     hard_open_files_limit := hard_open_files_limit s |}.

Definition with_count_in_queue (v : gmap nat Z) (s : ScannerTCP) : ScannerTCP :=
  {| _sleep_total := _sleep_total s; bandwidth_bits_per_second := bandwidth_bits_per_second s;
     max_probes := max_probes s; probes := probes s;
     target_ports_unprocessed := target_ports_unprocessed s;
     inter_packet_interval := inter_packet_interval s;
     inter_packet_interval_per_host := inter_packet_interval_per_host s;
     bytes_sent := bytes_sent s; target_source := target_source s;
     target_list_unprocessed := target_list_unprocessed s;
     target_filename := target_filename s;
     scan_start_time_internal := scan_start_time_internal s;
     probes_sent_count := probes_sent_count s; replies := replies s;
     packet_rate := packet_rate s; host_count := host_count s;
     next_recv_time := next_recv_time s; recv_interval := recv_interval s;
     blocklist := blocklist s; count_in_queue := v; sleep_reasons := sleep_reasons s;
     packet_overhead := packet_overhead s; payload_len_estimate := payload_len_estimate s;
     host_count_high_water := host_count_high_water s;
     host_count_low_water := host_count_low_water s; show_closed_ports := show_closed_ports s;
     probe_state_ready_last_result := probe_state_ready_last_result s;
     poll_result_count := poll_result_count s;
     poll_deleted_packet_count := poll_deleted_packet_count s;
     scanner_poll_type := scanner_poll_type s;
     warned_about_unreachable_network := warned_about_unreachable_network s;
     warned_about_socket_events := warned_about_socket_events s;
     soft_open_files_limit := soft_open_files_limit s;
     hard_open_files_limit := hard_open_files_limit s |}.

Definition with_sleep_reasons (v : gmap string Z) (s : ScannerTCP) : ScannerTCP :=
  {| _sleep_total := _sleep_total s; bandwidth_bits_per_second := bandwidth_bits_per_second s;
     max_probes := max_probes s; probes := probes s;
     target_ports_unprocessed := target_ports_unprocessed s;
     inter_packet_interval := inter_packet_interval s;
     inter_packet_interval_per_host := inter_packet_interval_per_host s;
     bytes_sent := bytes_sent s; target_source := target_source s;
     target_list_unprocessed := target_list_unprocessed s;
     target_filename := target_filename s;
     scan_start_time_internal := scan_start_time_internal s;
     probes_sent_count := probes_sent_count s; replies := replies s;
     packet_rate := packet_rate s; host_count := host_count s;
     next_recv_time := next_recv_time s; recv_interval := recv_interval s;
     blocklist := blocklist s; count_in_queue := count_in_queue s; sleep_reasons := v;
     packet_overhead := packet_overhead s; payload_len_estimate := payload_len_estimate s;
     host_count_high_water := host_count_high_water s;
     host_count_low_water := host_count_low_water s; show_closed_ports := show_closed_ports s;
     probe_state_ready_last_result := probe_state_ready_last_result s;
     poll_result_count := poll_result_count s;
     poll_deleted_packet_count := poll_deleted_packet_count s;
     scanner_poll_type := scanner_poll_type s;
     warned_about_unreachable_network := warned_about_unreachable_network s;
     warned_about_socket_events := warned_about_socket_events s;
     soft_open_files_limit := soft_open_files_limit s;
     hard_open_files_limit := hard_open_files_limit s |}.

Definition with_host_count_high_water (v : Z) (s : ScannerTCP) : ScannerTCP :=
  {| _sleep_total := _sleep_total s; bandwidth_bits_per_second := bandwidth_bits_per_second s;
     max_probes := max_probes s; probes := probes s;
     target_ports_unprocessed := target_ports_unprocessed s;
     inter_packet_interval := inter_packet_interval s;
     inter_packet_interval_per_host := inter_packet_interval_per_host s;
     bytes_sent := bytes_sent s; target_source := target_source s;
     target_list_unprocessed := target_list_unprocessed s;
     target_filename := target_filename s;
     scan_start_time_internal := scan_start_time_internal s;
     probes_sent_count := probes_sent_count s; replies := replies s;
     packet_rate := packet_rate s; host_count := host_count s;
     next_recv_time := next_recv_time s; recv_interval := recv_interval s;
     blocklist := blocklist s; count_in_queue := count_in_queue s;
     sleep_reasons := sleep_reasons s; packet_overhead := packet_overhead s;
     payload_len_estimate := payload_len_estimate s; host_count_high_water := v;
     host_count_low_water := host_count_low_water s; show_closed_ports := show_closed_ports s;
     probe_state_ready_last_result := probe_state_ready_last_result s;
     poll_result_count := poll_result_count s;
     poll_deleted_packet_count := poll_deleted_packet_count s;
     scanner_poll_type := scanner_poll_type s;
     warned_about_unreachable_network := warned_about_unreachable_network s;
     warned_about_socket_events := warned_about_socket_events s;
     soft_open_files_limit := soft_open_files_limit s;
     hard_open_files_limit := hard_open_files_limit s |}.

Definition with_host_count_low_water (v : Z) (s : ScannerTCP) : ScannerTCP :=
  {| _sleep_total := _sleep_total s; bandwidth_bits_per_second := bandwidth_bits_per_second s;
     max_probes := max_probes s; probes := probes s;
     target_ports_unprocessed := target_ports_unprocessed s;
     inter_packet_interval := inter_packet_interval s;
     inter_packet_interval_per_host := inter_packet_interval_per_host s;
     bytes_sent := bytes_sent s; target_source := target_source s;
     target_list_unprocessed := target_list_unprocessed s;
     target_filename := target_filename s;
     scan_start_time_internal := scan_start_time_internal s;
     probes_sent_count := probes_sent_count s; replies := replies s;
     packet_rate := packet_rate s; host_count := host_count s;
     next_recv_time := next_recv_time s; recv_interval := recv_interval s;
     blocklist := blocklist s; count_in_queue := count_in_queue s;
     sleep_reasons := sleep_reasons s; packet_overhead := packet_overhead s;
     payload_len_estimate := payload_len_estimate s;
     host_count_high_water := host_count_high_water s; host_count_low_water := v;
     show_closed_ports := show_closed_ports s;
     probe_state_ready_last_result := probe_state_ready_last_result s;
     poll_result_count := poll_result_count s;
     poll_deleted_packet_count := poll_deleted_packet_count s;
     scanner_poll_type := scanner_poll_type s;
     warned_about_unreachable_network := warned_about_unreachable_network s;
     warned_about_socket_events := warned_about_socket_events s;
     soft_open_files_limit := soft_open_files_limit s;
     hard_open_files_limit := hard_open_files_limit s |}.

Definition with_probe_state_ready_last_result (v : option bool) (s : ScannerTCP) : ScannerTCP :=
  {| _sleep_total := _sleep_total s; bandwidth_bits_per_second := bandwidth_bits_per_second s;
     max_probes := max_probes s; probes := probes s;
     target_ports_unprocessed := target_ports_unprocessed s;
     inter_packet_interval := inter_packet_interval s;
     inter_packet_interval_per_host := inter_packet_interval_per_host s;
     bytes_sent := bytes_sent s; target_source := target_source s;
     target_list_unprocessed := target_list_unprocessed s;
     target_filename := target_filename s;
     scan_start_time_internal := scan_start_time_internal s;
     probes_sent_count := probes_sent_count s; replies := replies s;
     packet_rate := packet_rate s; host_count := host_count s;
     next_recv_time := next_recv_time s; recv_interval := recv_interval s;
     blocklist := blocklist s; count_in_queue := count_in_queue s;
     sleep_reasons := sleep_reasons s; packet_overhead := packet_overhead s;
     payload_len_estimate := payload_len_estimate s;
     host_count_high_water := host_count_high_water s;
     host_count_low_water := host_count_low_water s; show_closed_ports := show_closed_ports s;
     probe_state_ready_last_result := v; poll_result_count := poll_result_count s;
     poll_deleted_packet_count := poll_deleted_packet_count s;
     scanner_poll_type := scanner_poll_type s;
     warned_about_unreachable_network := warned_about_unreachable_network s;
     warned_about_socket_events := warned_about_socket_events s;
     soft_open_files_limit := soft_open_files_limit s;
     hard_open_files_limit := hard_open_files_limit s |}.

Definition with_poll_result_count (v : Z) (s : ScannerTCP) : ScannerTCP :=
  {| _sleep_total := _sleep_total s; bandwidth_bits_per_second := bandwidth_bits_per_second s;
     max_probes := max_probes s; probes := probes s;
     target_ports_unprocessed := target_ports_unprocessed s;
     inter_packet_interval := inter_packet_interval s;
     inter_packet_interval_per_host := inter_packet_interval_per_host s;
     bytes_sent := bytes_sent s; target_source := target_source s;
     target_list_unprocessed := target_list_unprocessed s;
     target_filename := target_filename s;
     scan_start_time_internal := scan_start_time_internal s;
     probes_sent_count := probes_sent_count s; replies := replies s;
     packet_rate := packet_rate s; host_count := host_count s;
     next_recv_time := next_recv_time s; recv_interval := recv_interval s;
     blocklist := blocklist s; count_in_queue := count_in_queue s;
     sleep_reasons := sleep_reasons s; packet_overhead := packet_overhead s;
     payload_len_estimate := payload_len_estimate s;
     host_count_high_water := host_count_high_water s;
     host_count_low_water := host_count_low_water s; show_closed_ports := show_closed_ports s;
     probe_state_ready_last_result := probe_state_ready_last_result s; poll_result_count := v;
     poll_deleted_packet_count := poll_deleted_packet_count s;
     scanner_poll_type := scanner_poll_type s;
     warned_about_unreachable_network := warned_about_unreachable_network s;
     warned_about_socket_events := warned_about_socket_events s;
     soft_open_files_limit := soft_open_files_limit s;
     hard_open_files_limit := hard_open_files_limit s |}.

Definition with_poll_deleted_packet_count (v : Z) (s : ScannerTCP) : ScannerTCP :=
  {| _sleep_total := _sleep_total s; bandwidth_bits_per_second := bandwidth_bits_per_second s;
     max_probes := max_probes s; probes := probes s;
     target_ports_unprocessed := target_ports_unprocessed s;
     inter_packet_interval := inter_packet_interval s;
     inter_packet_interval_per_host := inter_packet_interval_per_host s;
     bytes_sent := bytes_sent s; target_source := target_source s;
     target_list_unprocessed := target_list_unprocessed s;
     target_filename := target_filename s;
     scan_start_time_internal := scan_start_time_internal s;
     probes_sent_count := probes_sent_count s; replies := replies s;
     packet_rate := packet_rate s; host_count := host_count s;
     next_recv_time := next_recv_time s; recv_interval := recv_interval s;
     blocklist := blocklist s; count_in_queue := count_in_queue s;
     sleep_reasons := sleep_reasons s; packet_overhead := packet_overhead s;
     payload_len_estimate := payload_len_estimate s;
     host_count_high_water := host_count_high_water s;
     host_count_low_water := host_count_low_water s; show_closed_ports := show_closed_ports s;
     probe_state_ready_last_result := probe_state_ready_last_result s;
     poll_result_count := poll_result_count s; poll_deleted_packet_count := v;
     scanner_poll_type := scanner_poll_type s;
     warned_about_unreachable_network := warned_about_unreachable_network s;
     warned_about_socket_events := warned_about_socket_events s;
     soft_open_files_limit := soft_open_files_limit s;
     hard_open_files_limit := hard_open_files_limit s |}.

Definition with_scanner_poll_type (v : string) (s : ScannerTCP) : ScannerTCP :=
  {| _sleep_total := _sleep_total s; bandwidth_bits_per_second := bandwidth_bits_per_second s;
     max_probes := max_probes s; probes := probes s;
     target_ports_unprocessed := target_ports_unprocessed s;
     inter_packet_interval := inter_packet_interval s;
     inter_packet_interval_per_host := inter_packet_interval_per_host s;
     bytes_sent := bytes_sent s; target_source := target_source s;
     target_list_unprocessed := target_list_unprocessed s;
     target_filename := target_filename s;
     scan_start_time_internal := scan_start_time_internal s;
     probes_sent_count := probes_sent_count s; replies := replies s;
     packet_rate := packet_rate s; host_count := host_count s;
     next_recv_time := next_recv_time s; recv_interval := recv_interval s;
     blocklist := blocklist s; count_in_queue := count_in_queue s;
     sleep_reasons := sleep_reasons s; packet_overhead := packet_overhead s;
     payload_len_estimate := payload_len_estimate s;
     host_count_high_water := host_count_high_water s;
     host_count_low_water := host_count_low_water s; show_closed_ports := show_closed_ports s;
     probe_state_ready_last_result := probe_state_ready_last_result s;
     poll_result_count := poll_result_count s;
     poll_deleted_packet_count := poll_deleted_packet_count s; scanner_poll_type := v;
     warned_about_unreachable_network := warned_about_unreachable_network s;
     warned_about_socket_events := warned_about_socket_events s;
     soft_open_files_limit := soft_open_files_limit s;
     hard_open_files_limit := hard_open_files_limit s |}.

Definition with_warned_about_unreachable_network (v : list string) (s : ScannerTCP) : ScannerTCP :=
  {| _sleep_total := _sleep_total s; bandwidth_bits_per_second := bandwidth_bits_per_second s;
     max_probes := max_probes s; probes := probes s;
     target_ports_unprocessed := target_ports_unprocessed s;
     inter_packet_interval := inter_packet_interval s;
     inter_packet_interval_per_host := inter_packet_interval_per_host s;
     bytes_sent := bytes_sent s; target_source := target_source s;
     target_list_unprocessed := target_list_unprocessed s;
     target_filename := target_filename s;
     scan_start_time_internal := scan_start_time_internal s;
     probes_sent_count := probes_sent_count s; replies := replies s;
     packet_rate := packet_rate s; host_count := host_count s;
     next_recv_time := next_recv_time s; recv_interval := recv_interval s;
     blocklist := blocklist s; count_in_queue := count_in_queue s;
     sleep_reasons := sleep_reasons s; packet_overhead := packet_overhead s;
     payload_len_estimate := payload_len_estimate s;
     host_count_high_water := host_count_high_water s;
     host_count_low_water := host_count_low_water s; show_closed_ports := show_closed_ports s;
     probe_state_ready_last_result := probe_state_ready_last_result s;
     poll_result_count := poll_result_count s;
     poll_deleted_packet_count := poll_deleted_packet_count s;
     scanner_poll_type := scanner_poll_type s; warned_about_unreachable_network := v;
     warned_about_socket_events := warned_about_socket_events s;
     soft_open_files_limit := soft_open_files_limit s;
     hard_open_files_limit := hard_open_files_limit s |}.

Definition with_warned_about_socket_events (v : list Z) (s : ScannerTCP) : ScannerTCP :=
  {| _sleep_total := _sleep_total s; bandwidth_bits_per_second := bandwidth_bits_per_second s;
     max_probes := max_probes s; probes := probes s;
     target_ports_unprocessed := target_ports_unprocessed s;
     inter_packet_interval := inter_packet_interval s;
     inter_packet_interval_per_host := inter_packet_interval_per_host s;
     bytes_sent := bytes_sent s; target_source := target_source s;
     target_list_unprocessed := target_list_unprocessed s;
     target_filename := target_filename s;
     scan_start_time_internal := scan_start_time_internal s;
     probes_sent_count := probes_sent_count s; replies := replies s;
     packet_rate := packet_rate s; host_count := host_count s;
     next_recv_time := next_recv_time s; recv_interval := recv_interval s;
     blocklist := blocklist s; count_in_queue := count_in_queue s;
     sleep_reasons := sleep_reasons s; packet_overhead := packet_overhead s;
     payload_len_estimate := payload_len_estimate s;
     host_count_high_water := host_count_high_water s;
     host_count_low_water := host_count_low_water s; show_closed_ports := show_closed_ports s;
     probe_state_ready_last_result := probe_state_ready_last_result s;
     poll_result_count := poll_result_count s;
     poll_deleted_packet_count := poll_deleted_packet_count s;
     scanner_poll_type := scanner_poll_type s;
     warned_about_unreachable_network := warned_about_unreachable_network s;
     warned_about_socket_events := v; soft_open_files_limit := soft_open_files_limit s;
     hard_open_files_limit := hard_open_files_limit s |}.

Definition with_scanner (v : ScannerTCP) (w : World) : World :=
  {| scanner := v; container := container w; stdout := stdout w; time_calls := time_calls w;
     poll_calls := poll_calls w; socket_calls := socket_calls w;
     connect_calls := connect_calls w |}.

Definition with_container (v : ProbeStateContainer) (w : World) : World :=
  {| scanner := scanner w; container := v; stdout := stdout w; time_calls := time_calls w;
     poll_calls := poll_calls w; socket_calls := socket_calls w;
     connect_calls := connect_calls w |}.

Definition with_stdout (v : list message) (w : World) : World :=
  {| scanner := scanner w; container := container w; stdout := v; time_calls := time_calls w;
     poll_calls := poll_calls w; socket_calls := socket_calls w;
     connect_calls := connect_calls w |}.

Definition with_time_calls (v : nat) (w : World) : World :=
  {| scanner := scanner w; container := container w; stdout := stdout w; time_calls := v;
     poll_calls := poll_calls w; socket_calls := socket_calls w;
     connect_calls := connect_calls w |}.

Definition with_poll_calls (v : nat) (w : World) : World :=
  {| scanner := scanner w; container := container w; stdout := stdout w;
     time_calls := time_calls w; poll_calls := v; socket_calls := socket_calls w;
     connect_calls := connect_calls w |}.

Definition with_socket_calls (v : nat) (w : World) : World :=
  {| scanner := scanner w; container := container w; stdout := stdout w;
     time_calls := time_calls w; poll_calls := poll_calls w; socket_calls := v;
     connect_calls := connect_calls w |}.

Definition with_connect_calls (v : nat) (w : World) : World :=
  {| scanner := scanner w; container := container w; stdout := stdout w;
     time_calls := time_calls w; poll_calls := poll_calls w; socket_calls := socket_calls w;
     connect_calls := v |}.

(** ** The environment

    What the program reads from outside, indexed by the number of earlier
    reads of the same kind. *)

Inductive sys_platform : Type := Linux | Darwin | Win32 | OtherPlatform.

(** How [sock.connect] ends on a non-blocking socket. *)
Inductive connect_outcome : Type :=
  | ConnectReturns                      (* no exception *)
  | ConnectBlockingIOError (errno : Z)  (* 115 and 10035 mean "in progress" *)
  | ConnectOSError (errno : Z).         (* 101 is "network is unreachable" *)

Record Env : Type := Build_Env {
  clock : nat -> Q;                       (* value of the k-th call of time.time() *)
  poll_events : nat -> list (Z * Z);      (* (fd, event) pairs of the k-th poll *)
  socket_errno : nat -> option Z;         (* errno if the k-th socket.socket() fails *)
  fresh_fd : list Z -> Z;                 (* descriptor of a new socket, given the open ones *)
  connect_result : nat -> connect_outcome;
  platform : sys_platform;
  python_major : Z;                       (* sys.version_info.major *)
  inet_aton_accepts : string -> bool;     (* false: socket.inet_aton raises socket.error *)
  read_file : string -> option (list string)  (* the lines of a file, None if there is none *)
}.

(** [time.time()] *)
Definition time_time (env : Env) (w : World) : Q * World :=
  (clock env (time_calls w), with_time_calls (S (time_calls w)) w).

Definition print (m : message) (w : World) : World :=
  with_stdout (stdout w ++ [m]) w.

Definition on_scanner (f : ScannerTCP -> ScannerTCP) (w : World) : World :=
  with_scanner (f (scanner w)) w.

Definition on_container (f : ProbeStateContainer -> ProbeStateContainer) (w : World) : World :=
  with_container (f (container w)) w.

(** ** [SelectPoller] registration, also used for the kernel pollers *)

(** [l.remove(x)]: drops the first occurrence; [None] when there is none
    (where Python raises [ValueError]). *)
Fixpoint list_remove (x : Z) (l : list Z) : option (list Z) :=
  match l with
  | [] => None
  | y :: ys => if x =? y then Some ys else cons y <$> list_remove x ys
  end.

Fixpoint list_remove_id (x : nat) (l : list nat) : option (list nat) :=
  match l with
  | [] => None
  | y :: ys => if (x =? y)%nat then Some ys else cons y <$> list_remove_id x ys
  end.

Definition mem_Z (x : Z) (l : list Z) : bool := existsb (Z.eqb x) l.

Definition mem_string (x : string) (l : list string) : bool := existsb (String.eqb x) l.

Module Poller.

(** [register(fd, event)].  An epoll object refuses a descriptor it already
    watches (EEXIST); the other two take it. *)
Definition register (poll_type : string) (fd : Z) (fds : list Z) : result (list Z) :=
  if String.eqb poll_type "epoll" && mem_Z fd fds then Raise (OSError 17)
  else Ok (fds ++ [fd]).

(** [unregister(fd)].  [SelectPoller] ignores a descriptor it does not
    watch; [select.poll] raises [KeyError] and [select.epoll] ENOENT. *)
Definition unregister (poll_type : string) (fd : Z) (fds : list Z) : result (list Z) :=
  match list_remove fd fds with
  | Some fds' => Ok fds'
  | None =>
      if String.eqb poll_type "select" then Ok fds
      else if String.eqb poll_type "poll" then Raise KeyError
      else Raise (OSError 2)
  end.

End Poller.

(** ** [ProbeStateContainer] and [ProbeStateTcp] *)

Module Registry.

(** The state [ProbeStateContainer.__new__] builds, before [set_poll_type]. *)
Definition empty : ProbeStateContainer :=
  {| objects := ∅; probe_states := []; socket_list := []; probe_states_by_fd := ∅;
     count := 0; next_probe_id := 0; poller := []; poll_type := "auto" |}.

(** [set_poll_type(poll_type)]: resolves "auto" by platform and installs a
    new poller object, which watches nothing. *)
Definition resolve_poll_type (p : sys_platform) (poll_type : string) : string :=
  if String.eqb poll_type "auto" then
    match p with
    | Linux => "poll"
    | Darwin => "poll"
    | Win32 => "select"
    | OtherPlatform => poll_type
    end
  else poll_type.

Definition known_poll_type (poll_type : string) : bool :=
  String.eqb poll_type "epoll" || String.eqb poll_type "poll" || String.eqb poll_type "select".

Definition set_poll_type (env : Env) (poll_type : string) (c : ProbeStateContainer)
  : result (string * ProbeStateContainer) :=
  let poll_type := resolve_poll_type (platform env) poll_type in
  let c := with_poll_type poll_type c in
  if known_poll_type poll_type then Ok (poll_type, with_poller [] c)
  else Raise GenericException.

(** Reading and writing an object through a reference. *)
Definition get (ps : nat) (c : ProbeStateContainer) : result ProbeStateTcp :=
  match objects c !! ps with
  | Some r => Ok r
  | None => Raise AttributeError
  end.

Definition put (ps : nat) (r : ProbeStateTcp) (c : ProbeStateContainer) : ProbeStateContainer :=
  with_objects (<[ps := r]> (objects c)) c.

(** [add_probe_state(probe_state)] *)
Definition add_probe_state (r : ProbeStateTcp) (c : ProbeStateContainer)
  : nat * ProbeStateContainer :=
  let id := next_probe_id c in
  let r := {| target_ip := target_ip r; probe_index := probe_index r;
              probe_sent_time := probe_sent_time r; probes_sent := probes_sent r;
              target_port := target_port r; socket := socket r; deleted := deleted r;
              probe_id := id |} in
  (id, with_probe_states (id :: probe_states c)
         (with_count (count c + 1)
            (with_next_probe_id (S id) (put id r c)))).

(** [ProbeStateTcp(ip, port, probe_index)]: the constructor registers the new
    object with the container.  The result is the reference to it. *)
Definition ProbeStateTcp_init (ip : string) (port : Z) (probe_index : nat)
    (c : ProbeStateContainer) : nat * ProbeStateContainer :=
  add_probe_state
    {| target_ip := ip; probe_index := probe_index; probe_sent_time := None;
       probes_sent := 0; target_port := port; socket := None; deleted := false;
       probe_id := 0 |} c.

(** [ProbeStateTcp.delete_socket()] *)
Definition delete_socket (ps : nat) (c : ProbeStateContainer) : result ProbeStateContainer :=
  r <- get ps c ;;
  match socket r with
  | None => Ok c
  | Some fd =>
      fds <- Poller.unregister (poll_type c) fd (poller c) ;;
      match list_remove fd (socket_list c) with
      | None => Raise ValueError
      | Some sl =>
          match probe_states_by_fd c !! fd with
          | None => Raise KeyError
          | Some _ =>
              Ok (put ps (with_socket None r)
                    (with_probe_states_by_fd (delete fd (probe_states_by_fd c))
                       (with_socket_list sl (with_poller fds c))))
          end
      end
  end.

(** [ProbeStateTcp.set_socket(socket)] *)
Definition set_socket (ps : nat) (fd : Z) (c : ProbeStateContainer) : result ProbeStateContainer :=
  r <- get ps c ;;
  c <- (match socket r with Some _ => delete_socket ps c | None => Ok c end) ;;
  r <- get ps c ;;
  let c := put ps (with_socket (Some fd) r) c in
  let c := with_socket_list (socket_list c ++ [fd]) c in
  let c := with_probe_states_by_fd (<[fd := ps]> (probe_states_by_fd c)) c in
  if known_poll_type (poll_type c) then
    fds <- Poller.register (poll_type c) fd (poller c) ;;
    Ok (with_poller fds c)
  else Raise GenericException.

(** [ProbeStateTcp.schedule_delete()] *)
Definition schedule_delete (ps : nat) (c : ProbeStateContainer) : result ProbeStateContainer :=
  c <- delete_socket ps c ;;
  r <- get ps c ;;
  Ok (put ps (with_deleted true r) c).

(** [delete_probe_state(probe_state)] *)
Definition delete_probe_state (ps : nat) (c : ProbeStateContainer) : result ProbeStateContainer :=
  c <- delete_socket ps c ;;
  match list_remove_id ps (probe_states c) with
  | Some q => Ok (with_probe_states q (with_count (count c - 1) c))
  | None => Raise ValueError
  end.

(** [popleft()] *)
Definition popleft (c : ProbeStateContainer) : option nat * ProbeStateContainer :=
  match probe_states c with
  | [] => (None, c)
  | ps :: q => (Some ps, with_probe_states q (with_count (count c - 1) c))
  end.

(** [pop()] *)
Definition pop (c : ProbeStateContainer) : option nat * ProbeStateContainer :=
  match List.rev (probe_states c) with
  | [] => (None, c)
  | ps :: q => (Some ps, with_probe_states (List.rev q) (with_count (count c - 1) c))
  end.

(** [next()]: the left-most element moves to the right end. *)
Definition next (c : ProbeStateContainer) : option nat * ProbeStateContainer :=
  match probe_states c with
  | [] => (None, c)
  | ps :: q => (Some ps, with_probe_states (q ++ [ps]) c)
  end.

(** [peekleft()] *)
Definition peekleft (c : ProbeStateContainer) : option nat :=
  match probe_states c with
  | [] => None
  | ps :: _ => Some ps
  end.

(** The key of [sort]: [(time_key, probe_id)]. *)
Definition sort_func (inter_packet_interval_per_host : option Q) (now : Q)
    (ps : ProbeStateTcp) : result (Q * nat) :=
  time_key <-
    match probe_sent_time ps with
    | None => Ok 0%Q
    | Some t =>
        match inter_packet_interval_per_host with
        | Some i => Ok (t + i - now)%Q
        | None => Raise TypeError
        end
    end ;;
  let time_key := if deleted ps then (-1000)%Q else time_key in
  Ok (time_key, probe_id ps).

(** [<] on the key tuples: the first components decide unless they are
    equal. *)
Definition key_lt (a b : Q * nat) : bool :=
  match (fst a ?= fst b)%Q with
  | Lt => true
  | Eq => (snd a <? snd b)%nat
  | Gt => false
  end.

(** The keys of the queued objects, computed left to right. *)
Fixpoint keyed (inter_packet_interval_per_host : option Q) (now : Q)
    (c : ProbeStateContainer) (q : list nat) : result (list ((Q * nat) * nat)) :=
  match q with
  | [] => Ok []
  | ps :: rest =>
      r <- get ps c ;;
      k <- sort_func inter_packet_interval_per_host now r ;;
      l <- keyed inter_packet_interval_per_host now c rest ;;
      Ok ((k, ps) :: l)
  end.

(** [sort(inter_packet_interval_per_host, now)] *)
Definition sort (inter_packet_interval_per_host : option Q) (now : Q)
    (c : ProbeStateContainer) : result ProbeStateContainer :=
  l <- keyed inter_packet_interval_per_host now c (probe_states c) ;;
  Ok (with_probe_states (map snd (Py.sorted key_lt fst l)) c).

End Registry.

(** ** [ScannerBase] and [ScannerTCP]: configuration *)

Module Scanner.

(** [ScannerTCP.__init__], with the defaults of [ScannerBase.__init__].
    [limits] is the "Max open files" line of /proc/self/limits, if any. *)
Definition packet_overhead_for (p : sys_platform) : Z :=
  match p with
  | Win32 => 54   (* 14 ethernet + 20 IP + 20 TCP, no TCP options *)
  | _ => 74       (* 14 ethernet + 20 IP + 20 TCP + 20 TCP options *)
  end.

Definition init_scanner (env : Env) (limits : option (Z * Z)) (now : Q) : ScannerTCP :=
  {| _sleep_total := 0; bandwidth_bits_per_second := Some 32000; max_probes := 3;
     probes := []; target_ports_unprocessed := "";
     inter_packet_interval := (8 * (0 + inject_Z (packet_overhead_for (platform env))) / 32000)%Q;
     inter_packet_interval_per_host := None; bytes_sent := 0;
     target_source := None; target_list_unprocessed := []; target_filename := None;
     scan_start_time_internal := None; probes_sent_count := 0; replies := 0;
     packet_rate := None; host_count := 0; next_recv_time := now;
     recv_interval := (1 # 10)%Q; blocklist := []; count_in_queue := ∅; sleep_reasons := ∅;
     packet_overhead := packet_overhead_for (platform env); payload_len_estimate := 0;
     host_count_high_water := 100; host_count_low_water := 90;
     show_closed_ports := false; probe_state_ready_last_result := None;
     poll_result_count := 0; poll_deleted_packet_count := 0; scanner_poll_type := "auto";
     warned_about_unreachable_network := []; warned_about_socket_events := [];
     soft_open_files_limit := fst <$> limits; hard_open_files_limit := snd <$> limits |}.

Definition init (env : Env) (limits : option (Z * Z)) : result World :=
  let now := clock env 0 in
  pc <- Registry.set_poll_type env "auto" Registry.empty ;;
  Ok {| scanner := init_scanner env limits now; container := snd pc; stdout := [];
        time_calls := 1; poll_calls := 0; socket_calls := 0; connect_calls := 0 |}.

(** [set_max_probes(n)] *)
Definition set_max_probes (n : Z) (w : World) : World :=
  on_scanner (with_max_probes n) w.

(** [add_targets(targets)] *)
Definition add_targets (targets : list string) (w : World) : World :=
  on_scanner
    (fun s => with_target_list_unprocessed targets (with_target_source (Some SourceList) s)) w.

(** [add_targets_from_file(file)] *)
Definition add_targets_from_file (file : string) (w : World) : World :=
  on_scanner
    (fun s => with_target_filename (Some file) (with_target_source (Some SourceFile) s)) w.

(** [add_to_blocklist(ip)] *)
Definition add_to_blocklist (env : Env) (ip : string) (w : World) : result World :=
  if inet_aton_accepts env ip then
    if mem_string ip (blocklist (scanner w)) then Ok w
    else Ok (on_scanner (fun s => with_blocklist (blocklist s ++ [ip]) s) w)
  else Exit (E_invalid_blocklist_ip ip) 1.

(** [set_blocklist(blocklist_ips)] *)
Fixpoint set_blocklist (env : Env) (blocklist_ips : list string) (w : World) : result World :=
  match blocklist_ips with
  | [] => Ok w
  | ip :: rest =>
      w <- add_to_blocklist env ip w ;;
      set_blocklist env rest w
  end.

(** [set_rtt(rtt)], on the float that [float(rtt)] gives. *)
Definition set_rtt (rtt : Q) (w : World) : World :=
  let w :=
    if Qlt_le_dec rtt (recv_interval (scanner w) * 4) then
      let w := on_scanner (with_recv_interval (rtt / 4)%Q) w in
      print (W_rtt_low rtt (recv_interval (scanner w))) w
    else w in
  on_scanner (with_inter_packet_interval_per_host (Some rtt)) w.

(** [set_probes(port_list_str)] *)
Definition set_probes (port_list_str : string) (w : World) : result World :=
  probes <- Ports.set_probes_list port_list_str ;;
  Ok (on_scanner (fun s => with_probes probes (with_target_ports_unprocessed port_list_str s)) w).

End Scanner.

(** ** The rate governor and the receive pass *)

Module Governor.

(** Truth value of an optional float: [None] and [0.0] are false. *)
Definition truthy (o : option Q) : option Q :=
  match o with
  | Some t => if Qeq_bool t 0 then None else Some t
  | None => None
  end.

(** The property [bytes_sent_target] *)
Definition bytes_sent_target (env : Env) (w : World) : result (Q * World) :=
  match truthy (scan_start_time_internal (scanner w)) with
  | Some t0 =>
      let (now, w) := time_time env w in
      match bandwidth_bits_per_second (scanner w) with
      | Some bw => Ok ((inject_Z bw * (now - t0) / 8)%Q, w)
      | None => Raise TypeError
      end
  | None => Ok (0%Q, w)
  end.

(** The property [probes_sent_target] *)
Definition probes_sent_target (env : Env) (w : World) : result (Q * World) :=
  match truthy (scan_start_time_internal (scanner w)) with
  | Some t0 =>
      let (now, w) := time_time env w in
      match packet_rate (scanner w) with
      | Some rate => Ok ((inject_Z rate * (now - t0))%Q, w)
      | None => Raise TypeError
      end
  | None => Ok (0%Q, w)
  end.

(** [get_available_bandwidth_quota_packets()] *)
Definition get_available_bandwidth_quota_packets (env : Env) (w : World) : result (Z * World) :=
  match bandwidth_bits_per_second (scanner w) with
  | None => Ok (100, w)
  | Some _ =>
      r <- bytes_sent_target env w ;;
      let (target, w) := r in
      let bytes_left := (target - inject_Z (bytes_sent (scanner w)))%Q in
      if Qle_bool bytes_left 0 then Ok (0, w)
      else if packet_overhead (scanner w) =? 0 then Raise ZeroDivisionError
      else Ok (Py.int_of_float (8 * bytes_left / inject_Z (packet_overhead (scanner w))), w)
  end.

(** [self.packet_rate is None or self.packet_rate == 0] *)
Definition no_packet_rate (rate : option Z) : bool :=
  match rate with
  | None => true
  | Some r => r =? 0
  end.

(** [get_available_packet_rate_quota_packets()]; the result is an int or a
    float. *)
Definition get_available_packet_rate_quota_packets (env : Env) (w : World) : result (Q * World) :=
  if no_packet_rate (packet_rate (scanner w)) then Ok (100%Q, w)
  else
    r <- probes_sent_target env w ;;
    let (target, w) := r in
    let packets_left := (target - inject_Z (probes_sent_count (scanner w)))%Q in
    if Qle_bool packets_left 0 then Ok (0%Q, w) else Ok (packets_left, w).

(** [min(a, b)] of Python: the first argument unless the second is smaller. *)
Definition py_min (a b : Q) : Q := if Qlt_le_dec b a then b else a.

(** [max(a, b)] of Python: the first argument unless the second is larger. *)
Definition py_max (a b : Q) : Q := if Qlt_le_dec a b then b else a.

(** [get_available_quota_packets()] *)
Definition get_available_quota_packets (env : Env) (w : World) : result (Z * World) :=
  r <- get_available_bandwidth_quota_packets env w ;;
  let (bw, w) := r in
  r <- get_available_packet_rate_quota_packets env w ;;
  let (rate, w) := r in
  Ok (Py.int_of_float (py_min (inject_Z bw) rate), w).

(** Event bits: [select.EPOLLRDHUP] (as [set_poll_type] defines it),
    [select.POLLHUP] and [select.POLLERR] (Linux), and the two constants of
    [SelectPoller]. *)
Definition EPOLLRDHUP : Z := 8192.
Definition POLLHUP : Z := 16.
Definition POLLERR : Z := 8.
Definition SelectPoller_POLLOUT : Z := 1.
Definition SelectPoller_POLLIN : Z := 4.

Definition has_bit (event mask : Z) : bool := negb (Z.land event mask =? 0).

(** What the classifier of [receive_packets] does with one event, before the
    object is tombstoned. *)
Definition report_open (r : ProbeStateTcp) (w : World) : World :=
  on_scanner (fun s => with_replies (replies s + 1) s)
    (print (Received_SYN_ACK (target_ip r) (target_port r)) w).

Definition report_closed (r : ProbeStateTcp) (w : World) : World :=
  if show_closed_ports (scanner w) then print (Received_RST (target_ip r) (target_port r)) w
  else w.

Definition classify (r : ProbeStateTcp) (event : Z) (w : World) : result World :=
  let poll_type := poll_type (container w) in
  if String.eqb poll_type "epoll" then
    if has_bit event EPOLLRDHUP then Ok (report_closed r w) else Ok (report_open r w)
  else if String.eqb poll_type "poll" then
    if has_bit event POLLHUP && has_bit event POLLERR then Ok (report_closed r w)
    else if negb (has_bit event POLLHUP) && negb (has_bit event POLLERR) then Ok (report_open r w)
    else if mem_Z event (warned_about_socket_events (scanner w)) then Ok w
    else Ok (print (W_unexpected_event event)
               (on_scanner (fun s => with_warned_about_socket_events
                                       (warned_about_socket_events s ++ [event]) s) w))
  else if String.eqb poll_type "select" then
    if has_bit event SelectPoller_POLLIN && has_bit event SelectPoller_POLLOUT
    then Ok (report_closed r w)
    else if has_bit event SelectPoller_POLLOUT && negb (has_bit event SelectPoller_POLLIN)
    then Ok (report_open r w)
    else Ok (print (W_unexpected_event event) w)
  else Raise GenericException.

(** The body of [for fd, event in fd_event_tuples]. *)
Fixpoint handle_events (events : list (Z * Z)) (w : World) : result World :=
  match events with
  | [] => Ok w
  | (fd, event) :: rest =>
      let w := on_scanner (fun s => with_poll_result_count (poll_result_count s + 1) s) w in
      match probe_states_by_fd (container w) !! fd with
      | None => Raise KeyError
      | Some ps =>
          r <- Registry.get ps (container w) ;;
          if deleted r then
            handle_events rest
              (on_scanner
                 (fun s => with_poll_deleted_packet_count (poll_deleted_packet_count s + 1) s) w)
          else
            w <- classify r event w ;;
            c <- Registry.schedule_delete ps (container w) ;;
            handle_events rest (with_container c w)
      end
  end.

(** [receive_packets(socket_list)] *)
Definition receive_packets (env : Env) (socket_list : list Z) (w : World) : result (bool * World) :=
  w <- (match socket_list with
        | [] => Ok w
        | _ :: _ =>
            let events := poll_events env (poll_calls w) in
            handle_events events (with_poll_calls (S (poll_calls w)) w)
        end) ;;
  Ok (negb (count (container w) =? 0), w).

(** [self.sleep_reasons[reason] += 1] *)
Definition count_sleep_reason (reason : string) (w : World) : result World :=
  match sleep_reasons (scanner w) !! reason with
  | Some n => Ok (on_scanner (fun s => with_sleep_reasons (<[reason := n + 1]> (sleep_reasons s)) s) w)
  | None => Raise KeyError
  end.

(** [time.sleep(d)]: the time that passes shows in later values of the clock. *)
Definition time_sleep (d : Q) (w : World) : result World :=
  if Qlt_le_dec d 0 then Raise ValueError else Ok w.

(** How one pass through the body of the [while] loop of [wait_for_quotas]
    ends. *)
Inductive wait_outcome : Type :=
  | Returns (value : option bool)   (* [return True], or the loop condition fails *)
  | Loops.

(** The local flags of one pass. *)
Record pass_flags : Type := Build_pass_flags {
  bandwidth_quota_ok : bool;
  packet_rate_quota_ok : bool;
  probe_send_ok : bool;
  force_bandwidth_quota_wait : bool;
  force_packet_quota_wait : bool;
  force_probe_state_wait : bool;
  wait_time : Q
}.

(** The checks of one pass, down to "update stats": the two quotas, then the
    left-most object of the deque.  [None] is the early [return True] on an
    empty queue. *)
Definition wait_checks (env : Env) (w : World) : result (option pass_flags * World) :=
  r <- get_available_bandwidth_quota_packets env w ;;
  let (bandwidth_quota_packets_left, w) := r in
  if 0 <? bandwidth_quota_packets_left then
    r <- get_available_packet_rate_quota_packets env w ;;
    let (packet_quota_packets_left, w) := r in
    if Qlt_le_dec 0 packet_quota_packets_left then
      if 0 <? count (container w) then
        match Registry.peekleft (container w) with
        | None => Raise AttributeError
        | Some next_probe_state =>
            r <- Registry.get next_probe_state (container w) ;;
            let last_probe_time := probe_sent_time r in
            let (now, w) := time_time env w in
            match last_probe_time with
            | None => Ok (Some (Build_pass_flags true true true false false false 0), w)
            | Some t =>
                match inter_packet_interval_per_host (scanner w) with
                | None => Raise TypeError
                | Some i =>
                    if Qlt_le_dec (t + i) now
                    then Ok (Some (Build_pass_flags true true true false false false 0), w)
                    else Ok (Some (Build_pass_flags true true false false false true
                                    (t + i - now)), w)
                end
            end
        end
      else
        Ok (None, on_scanner (with_probe_state_ready_last_result (Some true)) w)
    else Ok (Some (Build_pass_flags true false false false false true 0), w)
  else Ok (Some (Build_pass_flags false false false true true true 0), w).

(** One pass through the body of the [while] loop. *)
Definition wait_pass (env : Env) (w : World) : result (wait_outcome * World) :=
  r <- wait_checks env w ;;
  let w := snd r in
  match fst r with
  | None => Ok (Returns (Some true), w)
  | Some f =>
      w <- (if force_bandwidth_quota_wait f then count_sleep_reason "bandwidth_quota" w
            else if force_packet_quota_wait f then count_sleep_reason "packet_quota" w
            else if force_probe_state_wait f then count_sleep_reason "port_states" w
            else Ok w) ;;
      if packet_rate_quota_ok f && bandwidth_quota_ok f && probe_send_ok f
      then Ok (Returns None, w)
      else
        let wait_time := py_max (inter_packet_interval (scanner w)) (wait_time f) in
        if Qlt_le_dec (recv_interval (scanner w)) wait_time then
          r <- receive_packets env (socket_list (container w)) w ;;
          let w := snd r in
          let w := on_scanner
                     (fun s => with__sleep_total (_sleep_total s + recv_interval s)%Q s) w in
          w <- time_sleep (recv_interval (scanner w)) w ;;
          Ok (Loops, w)
        else
          let w := on_scanner (fun s => with__sleep_total (_sleep_total s + wait_time)%Q s) w in
          w <- time_sleep wait_time w ;;
          Ok (Loops, w)
  end.

(** [wait_for_quotas()], for at most [fuel] passes.  [None]: the loop is
    still running after [fuel] passes. *)
Fixpoint wait_for_quotas (env : Env) (fuel : nat) (w : World)
  : option (result (option bool * World)) :=
  match fuel with
  | O => None
  | S fuel' =>
      match wait_pass env w with
      | Ok (Returns v, w') => Some (Ok (v, w'))
      | Ok (Loops, w') => wait_for_quotas env fuel' w'
      | Exit m c => Some (Exit m c)
      | Raise e => Some (Raise e)
      end
  end.

End Governor.

(** ** The scan driver: [ScannerTCP.start_scan] *)

Module Driver.

(** [TargetGenerator._get_targets_from_file(file)]; it stands here because
    it reads the file system.  A line is stripped; comment lines and empty
    lines are skipped. *)
Definition starts_with_hash (s : string) : bool :=
  match s with
  | String c _ => Ascii.eqb c "#"
  | EmptyString => false
  end.

Definition targets_of_line (line : string) : gen string :=
  let target := Py.strip line in
  if starts_with_hash target then gen_yield_all []
  else if String.eqb target "" then gen_yield_all []
  else TargetGenerator._get_targets_from_string target.

Definition _get_targets_from_file (env : Env) (file : string) : gen string :=
  match read_file env file with
  | None => gen_exit (E_file_does_not_exist file) 0
  | Some lines => gen_for lines targets_of_line
  end.

(** [TargetGenerator.__init__] followed by [_get_targets()]: the constructor
    picks the list when it is not empty and the file name otherwise. *)
Definition _get_targets (env : Env) (s : ScannerTCP) : result (gen string) :=
  match target_source s with
  | Some SourceFile =>
      match target_filename s with
      | Some file =>
          if String.eqb file "" then Raise GenericException
          else Ok (_get_targets_from_file env file)
      | None => Raise GenericException
      end
  | Some SourceList =>
      match target_list_unprocessed s with
      | [] => Raise GenericException
      | targets => Ok (TargetGenerator._get_targets_from_list targets)
      end
  | None => Exit E_unknown_target_source 0
  end.

(** [get_probe_state_generator(probes)]: for each probe index, all targets.
    An item is the pair the callback turns into a [ProbeStateTcp]. *)
Definition get_probe_state_generator (targets : gen string) (probes : list Z) : gen (string * nat) :=
  gen_for (seq 0 (length probes))
    (fun probe_index => (map (fun t => (t, probe_index)) (fst targets), snd targets)).

(** [get_queue_length_suggestion()] *)
Definition get_queue_length_suggestion (s : ScannerTCP) : result Z :=
  match inter_packet_interval_per_host s with
  | None => Raise GenericException
  | Some rtt =>
      if Qeq_bool (inter_packet_interval s) 0 then Raise ZeroDivisionError
      else Ok (Py.int_of_float ((3 # 2) * rtt / inter_packet_interval s))
  end.

(** [set_max_sockets(param)] for an integer [param]. *)
Definition set_max_sockets (param : Z) (w : World) : result World :=
  let w := on_scanner (with_host_count_high_water param) w in
  let w :=
    match soft_open_files_limit (scanner w), hard_open_files_limit (scanner w) with
    | Some soft, Some hard =>
        if negb (soft =? 0) && negb (hard =? 0) && (soft <? host_count_high_water (scanner w))
        then on_scanner (with_host_count_high_water (soft - 10))
               (print (W_max_sockets_above_ulimit (host_count_high_water (scanner w)) soft) w)
        else w
    | _, _ => w
    end in
  suggestion <- get_queue_length_suggestion (scanner w) ;;
  let high := host_count_high_water (scanner w) in
  let w :=
    if Qlt_le_dec (inject_Z suggestion * (11 # 10)) (inject_Z high)
    then print (W_max_sockets_high high suggestion) w else w in
  let w :=
    if Qlt_le_dec (inject_Z high) (inject_Z suggestion * (7 # 10)) then
      let w := print (W_max_sockets_low high suggestion) w in
      let w :=
        match inter_packet_interval_per_host (scanner w) with
        | Some rtt => if Qlt_le_dec (1 # 10) rtt then print I_try_lower_rtt w else w
        | None => w
        end in
      if 1 <? max_probes (scanner w) then print I_try_no_retries w else w
    else w in
  Ok (on_scanner
        (with_host_count_low_water (Py.int_of_float ((9 # 10) * inject_Z high))) w).

(** [ScannerTCP.set_poll_type(poll_type)] *)
Definition max_sockets_on_windows : Z := 511.
Definition max_sockets_on_non_windows : Z := 1021.

Definition set_poll_type (env : Env) (poll_type : string) (w : World) : result World :=
  r <- Registry.set_poll_type env poll_type (container w) ;;
  let w := on_scanner (with_scanner_poll_type (fst r)) (with_container (snd r) w) in
  if String.eqb (fst r) "select" then
    let limit :=
      match platform env with
      | Win32 => max_sockets_on_windows
      | _ => max_sockets_on_non_windows
      end in
    if limit <? host_count_high_water (scanner w)
    then set_max_sockets limit
           (print (W_select_max_sockets limit (host_count_high_water (scanner w))) w)
    else Ok w
  else Ok w.

(** Where the driver is in [start_scan]. *)
Inductive program_point : Type :=
  | AtLoopHead                       (* the test of [while scan_running] *)
  | AtWait                           (* the test of the loop of [wait_for_quotas] *)
  | AtSend (remaining : nat)         (* the send loop, [remaining] passes to go *)
  | AtConnect (remaining : nat) (ps : nat)  (* the test of [while not sent], for object [ps] *)
  | AtRecv                           (* after the send loop *)
  | AtFinal                          (* after the [while] loop *)
  | Finished.

(** The scanner together with the local variables of [start_scan]. *)
Record Driver : Type := Build_Driver {
  world : World;
  pending : list (string * nat);     (* what the generator has still to yield *)
  generator_end : gen_end;           (* and how it ends after that *)
  more_hosts : bool;
  scan_running : bool;
  highest_probe_index_seen : Z;
  last_send_time : option Q;
  pc : program_point
}.

Definition with_world (v : World) (d : Driver) : Driver :=
  {| world := v; pending := pending d; generator_end := generator_end d;
     more_hosts := more_hosts d; scan_running := scan_running d;
     highest_probe_index_seen := highest_probe_index_seen d;
     last_send_time := last_send_time d; pc := pc d |}.

Definition with_pc (v : program_point) (d : Driver) : Driver :=
  {| world := world d; pending := pending d; generator_end := generator_end d;
     more_hosts := more_hosts d; scan_running := scan_running d;
     highest_probe_index_seen := highest_probe_index_seen d;
     last_send_time := last_send_time d; pc := v |}.

Definition with_scan_running (v : bool) (d : Driver) : Driver :=
  {| world := world d; pending := pending d; generator_end := generator_end d;
     more_hosts := more_hosts d; scan_running := v;
     highest_probe_index_seen := highest_probe_index_seen d;
     last_send_time := last_send_time d; pc := pc d |}.

Definition with_last_send_time (v : option Q) (d : Driver) : Driver :=
  {| world := world d; pending := pending d; generator_end := generator_end d;
     more_hosts := more_hosts d; scan_running := scan_running d;
     highest_probe_index_seen := highest_probe_index_seen d;
     last_send_time := v; pc := pc d |}.

(** [for probe_index in range(len(self.probes)): self.count_in_queue[probe_index] = 0] *)
Fixpoint init_count_in_queue (n : nat) (d : gmap nat Z) : gmap nat Z :=
  match n with
  | O => d
  | S n' => <[n' := 0]> (init_count_in_queue n' d)
  end.

(** [start_scan], up to the first test of [while scan_running].  The
    configuration dump, which only prints, is left out. *)
Definition start_scan_begin (env : Env) (w : World) : result Driver :=
  match probes (scanner w) with
  | [] => Exit E_no_probes 0
  | _ :: _ =>
      w <- set_poll_type env (scanner_poll_type (scanner w)) w ;;
      targets <- _get_targets env (scanner w) ;;
      let g := get_probe_state_generator targets (probes (scanner w)) in
      let w := on_scanner
                 (fun s => with_count_in_queue
                             (init_count_in_queue (length (probes s)) (count_in_queue s)) s) w in
      let (_, w) := time_time env w in
      let (t0, w) := time_time env w in
      let w := on_scanner (with_scan_start_time_internal (Some t0)) w in
      let w := on_scanner
                 (fun s => with_sleep_reasons
                             (<["port_states" := 0]>
                                (<["bandwidth_quota" := 0]>
                                   (<["packet_quota" := 0]> (sleep_reasons s)))) s) w in
      Ok {| world := w; pending := fst g; generator_end := snd g; more_hosts := true;
            scan_running := true; highest_probe_index_seen := -1; last_send_time := None;
            pc := AtLoopHead |}
  end.

(** The body of [for ps in probes_state_generator_function].  The result is
    what the generator has left, [more_hosts], the world and
    [highest_probe_index_seen]. *)
Fixpoint refill_loop (items : list (string * nat)) (stop : gen_end) (w : World) (highest : Z)
  : result (list (string * nat) * bool * World * Z) :=
  match items with
  | [] =>
      match stop with
      | GenDone => Ok ([], false, w, highest)
      | GenExit m c => Exit m c
      | GenRaise e => Raise e
      end
  | (target, probe_index) :: rest =>
      port <- Py.index (probes (scanner w)) probe_index ;;
      let (ps, c) := Registry.ProbeStateTcp_init target port probe_index (container w) in
      let w := with_container c w in
      if mem_string target (blocklist (scanner w)) then
        let w := print (I_skipping_blocklisted target port) w in
        c <- Registry.delete_probe_state ps (container w) ;;
        refill_loop rest stop (with_container c w) highest
      else
        let w := if (probe_index =? 0)%nat
                 then on_scanner (fun s => with_host_count (host_count s + 1) s) w else w in
        let highest := if highest <? Z.of_nat probe_index then Z.of_nat probe_index else highest in
        match count_in_queue (scanner w) !! probe_index with
        | None => Raise KeyError
        | Some n =>
            let w := on_scanner
                       (fun s => with_count_in_queue (<[probe_index := n + 1]> (count_in_queue s)) s)
                       w in
            if host_count_high_water (scanner w) <=? count (container w)
            then Ok (rest, true, w, highest)
            else refill_loop rest stop w highest
        end
  end.

(** "add probes to queue": the refill and the sort that follows it. *)
Definition refill (env : Env) (d : Driver) : result Driver :=
  if more_hosts d && (count (container (world d)) <? host_count_low_water (scanner (world d)))
  then
    r <- refill_loop (pending d) (generator_end d) (world d) (highest_probe_index_seen d) ;;
    let '(rest, more, w, highest) := r in
    let (now, w) := time_time env w in
    c <- Registry.sort (inter_packet_interval_per_host (scanner w)) now (container w) ;;
    Ok {| world := with_container c w; pending := rest; generator_end := generator_end d;
          more_hosts := more; scan_running := scan_running d;
          highest_probe_index_seen := highest; last_send_time := last_send_time d;
          pc := pc d |}
  else Ok d.

(** One pass through the body of the send loop, at the object [ps] that
    [peekleft] returned. *)
Definition send_pass (now : Q) (remaining : nat) (ps : nat) (d : Driver) : result Driver :=
  let w := world d in
  r <- Registry.get ps (container w) ;;
  expired <-
    (if negb (deleted r) && (max_probes (scanner w) <=? probes_sent r) then
       match probe_sent_time r, inter_packet_interval_per_host (scanner w) with
       | Some t, Some i => Ok (if Qlt_le_dec (t + i) now then true else false)
       | _, _ => Raise TypeError
       end
     else Ok false) ;;
  c <- (if expired : bool then Registry.schedule_delete ps (container w) else Ok (container w)) ;;
  let w := with_container c w in
  r <- Registry.get ps (container w) ;;
  if deleted r then
    Ok (with_pc (AtSend remaining) (with_world (with_container (snd (Registry.popleft c)) w) d))
  else if max_probes (scanner w) <=? probes_sent r then
    Ok (with_pc AtRecv (with_world w d))
  else
    match probe_sent_time r with
    | None => Ok (with_pc (AtConnect remaining ps) (with_world w d))
    | Some t =>
        match inter_packet_interval_per_host (scanner w) with
        | None => Raise TypeError
        | Some i =>
            if Qlt_le_dec now (t + i) then Ok (with_pc AtRecv (with_world w d))
            else Ok (with_pc (AtConnect remaining ps) (with_world w d))
        end
    end.

(** "Update stats", and the move of the object to the right end. *)
Definition update_stats (env : Env) (ps : nat) (w : World) : result World :=
  let w := on_scanner (fun s => with_probes_sent_count (probes_sent_count s + 1) s) w in
  r <- Registry.get ps (container w) ;;
  let (now, w) := time_time env w in
  let r := with_probe_sent_time (Some now) (with_probes_sent (probes_sent r + 1) r) in
  let w := on_container (Registry.put ps r) w in
  let w := on_scanner (fun s => with_bytes_sent (bytes_sent s + (0 + packet_overhead s)) s) w in
  Ok (on_container (fun c => snd (Registry.next c)) w).

(** One pass through the body of [while not sent].  The boolean is [sent]. *)
Definition connect_pass (env : Env) (ps : nat) (d : Driver) : result (bool * Driver) :=
  let w := world d in
  let (t, w) := time_time env w in
  let d := with_last_send_time (Some t) d in
  let k := socket_calls w in
  let w := with_socket_calls (S k) w in
  match socket_errno env k with
  | Some errno =>
      if errno =? 24 then Exit E_too_many_open_files 1
      else Raise AttributeError   (* the error is dropped and [sock] is still None *)
  | None =>
      let sock := fresh_fd env (socket_list (container w)) in
      r <- Registry.get ps (container w) ;;
      if negb ((0 <=? target_port r) && (target_port r <=? 65535)) then Raise OverflowError
      else
        let outcome := connect_result env (connect_calls w) in
        let w := with_connect_calls (S (connect_calls w)) w in
        r' <-
          (if python_major env =? 2 then
             match outcome with
             | ConnectReturns => Ok (false, w)
             | _ => Ok (true, w)
             end
           else
             match outcome with
             | ConnectReturns => Ok (false, w)
             | ConnectBlockingIOError errno =>
                 if (errno =? 115) || (errno =? 10035) then Ok (true, w)
                 else Raise (OSError errno)
             | ConnectOSError errno =>
                 if errno =? 101 then
                   if mem_string (target_ip r) (warned_about_unreachable_network (scanner w))
                   then Ok (true, w)
                   else Ok (true,
                            print (I_network_unreachable (target_ip r) (target_port r))
                              (on_scanner
                                 (fun s => with_warned_about_unreachable_network
                                             (warned_about_unreachable_network s ++ [target_ip r]) s)
                                 w))
                 else Raise (OSError errno)
             end) ;;
        let (sent, w) := r' : bool * World in
        c <- Registry.set_socket ps sock (container w) ;;
        Ok (sent, with_world (with_container c w) d)
  end.

(** One step of [start_scan]. *)
Definition step (env : Env) (d : Driver) : result Driver :=
  match pc d with
  | AtLoopHead =>
      if scan_running d then
        d <- refill env d ;;
        Ok (with_pc AtWait d)
      else Ok (with_pc AtFinal d)
  | AtWait =>
      r <- Governor.wait_pass env (world d) ;;
      match fst r with
      | Governor.Loops => Ok (with_world (snd r) d)
      | Governor.Returns _ =>
          r <- Governor.get_available_quota_packets env (snd r) ;;
          let (packet_count_to_send, w) := r in
          Ok (with_pc (AtSend (Z.to_nat (Z.min packet_count_to_send (count (container w)))))
                (with_world w d))
      end
  | AtSend O => Ok (with_pc AtRecv d)
  | AtSend (S remaining) =>
      let (now, w) := time_time env (world d) in
      let d := with_world w d in
      if 0 <? count (container w) then
        match Registry.peekleft (container w) with
        | None => Raise AttributeError
        | Some ps => send_pass now remaining ps d
        end
      else if negb (more_hosts d) then Ok (with_pc AtRecv (with_scan_running false d))
      else Ok (with_pc (AtSend remaining) d)
  | AtConnect remaining ps =>
      r <- connect_pass env ps d ;;
      let (sent, d) := r : bool * Driver in
      if sent then
        w <- update_stats env ps (world d) ;;
        Ok (with_pc (AtSend remaining) (with_world w d))
      else Ok d
  | AtRecv =>
      let (now, w) := time_time env (world d) in
      if Qlt_le_dec (next_recv_time (scanner w)) now then
        let w := on_scanner (fun s => with_next_recv_time (now + recv_interval s)%Q s) w in
        r <- Governor.receive_packets env (socket_list (container w)) w ;;
        Ok (with_pc AtLoopHead (with_scan_running (fst r || more_hosts d) (with_world (snd r) d)))
      else Ok (with_pc AtLoopHead (with_world w d))
  | AtFinal =>
      r <- Governor.receive_packets env (socket_list (container (world d))) (world d) ;;
      match last_send_time d with
      | None => Raise TypeError    (* scan_duration = last_send_time - scan_start_time *)
      | Some _ => Ok (with_pc Finished (with_world (snd r) d))
      end
  | Finished => Ok d
  end.

(** [n] steps of [start_scan] from [d]. *)
Fixpoint run (env : Env) (n : nat) (d : Driver) : result Driver :=
  match n with
  | O => Ok d
  | S n' =>
      d' <- step env d ;;
      run env n' d'
  end.

(** [start_scan()], observed after [n] steps of its loop. *)
Definition start_scan (env : Env) (n : nat) (w : World) : result Driver :=
  d <- start_scan_begin env w ;;
  run env n d.

End Driver.

(** ** The C library's [inet_aton]

    [socket.inet_aton] hands the string to the C library.  This is the
    numbers-and-dots notation of inet_aton(3): one to four numbers separated
    by dots, each decimal, octal (leading 0) or hexadecimal (leading 0x);
    all but the last number are single bytes and the last one fills the
    remaining bytes; white space may follow. *)

Module Libc.

Definition hex_digit_of (c : ascii) : option Z :=
  let n := nat_of_ascii c in
  if ((48 <=? n) && (n <=? 57))%nat then Some (Z.of_nat n - 48)
  else if ((97 <=? n) && (n <=? 102))%nat then Some (Z.of_nat n - 87)
  else if ((65 <=? n) && (n <=? 70))%nat then Some (Z.of_nat n - 55)
  else None.

Definition digit_in_base (base : Z) (c : ascii) : option Z :=
  match (if base =? 16 then hex_digit_of c else Py.digit_of c) with
  | Some d => if d <? base then Some d else None
  | None => None
  end.

(** The longest run of digits of [base] at the head of [s]: its value, its
    length and what follows. *)
Fixpoint digits (base : Z) (acc : Z) (len : nat) (s : string) : Z * nat * string :=
  match s with
  | String c s' =>
      match digit_in_base base c with
      | Some d => digits base (base * acc + d) (S len) s'
      | None => (acc, len, s)
      end
  | EmptyString => (acc, len, s)
  end.

(** One number, as [strtoul] with base 0 reads it; the string has to start
    with a digit. *)
Definition number (s : string) : option (Z * string) :=
  match s with
  | String c s' =>
      if negb (Py.is_digit c) then None
      else if Ascii.eqb c "0" then
        match s' with
        | String x s'' =>
            if Ascii.eqb x "x" || Ascii.eqb x "X" then
              match digits 16 0 0 s'' with
              | (_, O, _) => Some (0, s')
              | (v, _, rest) => Some (v, rest)
              end
            else let '(v, _, rest) := digits 8 0 0 s' in Some (v, rest)
        | EmptyString => Some (0, s')
        end
      else let '(v, _, rest) := digits 10 0 0 s in Some (v, rest)
  | EmptyString => None
  end.

Definition ends_well (s : string) : bool :=
  match s with
  | EmptyString => true
  | String c _ => Py.is_c_space c
  end.

(** [dots]: the dots read so far. *)
Fixpoint parts (fuel : nat) (dots : nat) (s : string) : bool :=
  match fuel with
  | O => false
  | S fuel' =>
      match number s with
      | None => false
      | Some (v, rest) =>
          match rest with
          | String "." rest' =>
              (dots <? 3)%nat && (v <=? 255) && parts fuel' (S dots) rest'
          | _ => ends_well rest && (v <=? Z.ones (8 * (4 - Z.of_nat dots)))
          end
      end
  end.

(** [true]: [inet_aton] accepts the string. *)
Definition inet_aton (s : string) : bool := parts 4 0 s.

End Libc.

(** ** Observing a state *)

(** The same environment with the clock standing at [now]: what a call
    computes if it is made at that time. *)
Definition at_time (now : Q) (env : Env) : Env :=
  {| clock := fun _ => now; poll_events := poll_events env; socket_errno := socket_errno env;
     fresh_fd := fresh_fd env; connect_result := connect_result env; platform := platform env;
     python_major := python_major env; inet_aton_accepts := inet_aton_accepts env;
     read_file := read_file env |}.

(** [now] is not earlier than any value of the clock the program has read. *)
Definition not_before_reads (env : Env) (w : World) (now : Q) : Prop :=
  forall k, (k < time_calls w)%nat -> (clock env k <= now)%Q.

(** The left-most object of the deque that is not tombstoned. *)
Fixpoint first_live (objs : gmap nat ProbeStateTcp) (q : list nat) : option nat :=
  match q with
  | [] => None
  | ps :: rest =>
      match objs !! ps with
      | Some r => if deleted r then first_live objs rest else Some ps
      | None => first_live objs rest
      end
  end.

(** An object is due: it was never sent to, or its last probe is more than
    one per-host interval old. *)
Definition due (interval : option Q) (now : Q) (r : ProbeStateTcp) : Prop :=
  match probe_sent_time r with
  | None => True
  | Some t => exists i, interval = Some i /\ (t + i < now)%Q
  end.

(** Whether a connect that ends in [outcome] leaves the loop [while not
    sent]: under Python 2 every socket error does, under Python 3 "in
    progress" and "network unreachable" do. *)
Definition connect_counts_as_sent (env : Env) (outcome : connect_outcome) : bool :=
  match outcome with
  | ConnectReturns => false
  | ConnectBlockingIOError errno =>
      (python_major env =? 2) || (errno =? 115) || (errno =? 10035)
  | ConnectOSError errno => (python_major env =? 2) || (errno =? 101)
  end.

(** Rates under which a quota can only grow with time. *)
Definition rates_nonnegative (s : ScannerTCP) : Prop :=
  (forall bw, bandwidth_bits_per_second s = Some bw -> 0 <= bw) /\
  (forall rate, packet_rate s = Some rate -> 0 <= rate) /\
  0 < packet_overhead s.

(** ** A concrete setting, for examples *)

Module Example.

(** A Linux host with Python 3 where every connect is "in progress", no
    socket ever answers, and the clock advances by a hundredth of a second
    at each reading. *)
Definition env : Env :=
  {| clock := fun k => (inject_Z (Z.of_nat k) / 100)%Q;
     poll_events := fun _ => [];
     socket_errno := fun _ => None;
     fresh_fd := fun open_fds => 1 + fold_right Z.max 2 open_fds;
     connect_result := fun _ => ConnectBlockingIOError 115;
     platform := Linux;
     python_major := 3;
     inet_aton_accepts := Libc.inet_aton;
     read_file := fun _ => None |}.

(** The scanner right after [ScannerTCP()]. *)
Definition world : World :=
  {| scanner := Scanner.init_scanner env None (clock env 0);
     container := with_poll_type "poll" Registry.empty; stdout := [];
     time_calls := 1; poll_calls := 0; socket_calls := 0; connect_calls := 0 |}.

(** The scanner configured for two hosts and two ports, with [retries + 1]
    probes per port and a per-host interval of half a second. *)
Definition scan_world (retries : Z) : World :=
  let w := Scanner.set_max_probes (retries + 1)
             (Scanner.set_rtt (1 # 2) (Scanner.add_targets ["10.0.0.1"; "10.0.0.2"] world)) in
  match Scanner.set_probes "443,80" w with
  | Ok w' => w'
  | _ => w
  end.

(** The same host with a finer clock (a four-hundredth of a second per
    reading), where the first poll reports the socket with descriptor 3,
    the one of 10.0.0.1:80, as writable: the port is open. *)
Definition answering_env : Env :=
  {| clock := fun k => (inject_Z (Z.of_nat k) / 400)%Q;
     poll_events := fun k => if (k =? 0)%nat then [(3, 4)] else [];
     socket_errno := socket_errno env; fresh_fd := fresh_fd env;
     connect_result := connect_result env; platform := platform env;
     python_major := python_major env; inet_aton_accepts := inet_aton_accepts env;
     read_file := read_file env |}.

(** Two objects in the registry: object 0 was probed at [at0] and object 1
    at [at1]; [deleted0] tombstones object 0.  Object 0 is at the left end. *)
Definition two_objects (at0 at1 : Q) (deleted0 : bool) : ProbeStateContainer :=
  {| objects :=
       <[0%nat := {| target_ip := "10.0.0.1"; probe_index := 0; probe_sent_time := Some at0;
                     probes_sent := 1; target_port := 80; socket := None;
                     deleted := deleted0; probe_id := 0 |}]>
         (<[1%nat := {| target_ip := "10.0.0.2"; probe_index := 0;
                        probe_sent_time := Some at1; probes_sent := 1; target_port := 80;
                        socket := None; deleted := false; probe_id := 1 |}]> ∅);
     probe_states := [0%nat; 1%nat]; socket_list := []; probe_states_by_fd := ∅;
     count := 2; next_probe_id := 2; poller := []; poll_type := "poll" |}.

(** A scan that started at time 1 with the default bandwidth and a
    per-host interval of half a second; the answer of 10.0.0.1, probed at
    1.4, has arrived and tombstoned its object, 10.0.0.2 was probed at 1.8
    and is still waiting.  The clock stands at 2. *)
Definition pacing_env : Env := at_time 2 env.

Definition pacing_world : World :=
  {| scanner :=
       with_sleep_reasons
         (<["port_states" := 0]> (<["bandwidth_quota" := 0]> (<["packet_quota" := 0]> ∅)))
         (with_scan_start_time_internal (Some 1%Q)
            (with_inter_packet_interval_per_host (Some (1 # 2))
               (Scanner.init_scanner env None 0)));
     container := two_objects (14 # 10) (18 # 10) true; stdout := [];
     time_calls := 3; poll_calls := 0; socket_calls := 0; connect_calls := 0 |}.

(** A sort long after a probe: object 1 is tombstoned, object 0 was probed at
    time 0 and is still live at time 2000. *)
Definition overdue : ProbeStateContainer :=
  {| objects :=
       <[0%nat := {| target_ip := "10.0.0.1"; probe_index := 0; probe_sent_time := Some 0%Q;
                     probes_sent := 1; target_port := 80; socket := None;
                     deleted := false; probe_id := 0 |}]>
         (<[1%nat := {| target_ip := "10.0.0.2"; probe_index := 0;
                        probe_sent_time := Some 1990%Q; probes_sent := 1; target_port := 80;
                        socket := None; deleted := true; probe_id := 1 |}]> ∅);
     probe_states := [1%nat; 0%nat]; socket_list := []; probe_states_by_fd := ∅;
     count := 2; next_probe_id := 2; poller := []; poll_type := "poll" |}.

End Example.


(** ** Predicates on states

    The notions the properties below are stated with. *)

(** Decimal text: every character is a digit. *)
Fixpoint all_digits (s : string) : bool :=
  match s with
  | String c s' => Py.is_digit c && all_digits s'
  | EmptyString => true
  end.

(** What follows does not start with a digit. *)
Definition no_digit_ahead (s : string) : Prop :=
  match s with
  | String c _ => Py.is_digit c = false
  | EmptyString => True
  end.

(** The fields the two quotas are computed from. *)
Definition same_budget (s s' : ScannerTCP) : Prop :=
  bandwidth_bits_per_second s' = bandwidth_bits_per_second s /\
  packet_rate s' = packet_rate s /\
  packet_overhead s' = packet_overhead s /\
  scan_start_time_internal s' = scan_start_time_internal s /\
  bytes_sent s' = bytes_sent s /\
  probes_sent_count s' = probes_sent_count s.

(** A quota computation reads the clock at most once and changes nothing
    else. *)
Definition only_clock_read (w w1 : World) : Prop :=
  w1 = w \/ w1 = with_time_calls (S (time_calls w)) w.

(** The two counters of the quota accounting and the two constants they are
    compared with. *)
Definition counters (w : World) : Z * Z * Z * Z :=
  (packet_overhead (scanner w), max_probes (scanner w),
   bytes_sent (scanner w), probes_sent_count (scanner w)).

(** What the scheduling decisions read in an object. *)
Definition essence (r : ProbeStateTcp) : Z * bool * option Q :=
  (probes_sent r, deleted r, probe_sent_time r).

(** No operation below changes the essence of any object. *)
Definition same_essence (c c' : ProbeStateContainer) : Prop :=
  forall ps, essence <$> objects c' !! ps = essence <$> objects c !! ps.

(** Nor the deque. *)
Definition same_queue (c c' : ProbeStateContainer) : Prop :=
  probe_states c' = probe_states c /\ count c' = count c.

(** Every socket an object holds is in the socket list, watched by the
    poller, and indexed under its descriptor. *)
Definition wired (c : ProbeStateContainer) : Prop :=
  poller c = socket_list c /\
  forall ps r fd,
    objects c !! ps = Some r -> socket r = Some fd ->
    In fd (socket_list c) /\ probe_states_by_fd c !! fd = Some ps.

(** No object has been probed more often than [mx] times. *)
Definition bounded (mx : Z) (c : ProbeStateContainer) : Prop :=
  forall ps r, objects c !! ps = Some r -> probes_sent r <= mx.

(** Both together. *)
Definition registry_ok (mx : Z) (c : ProbeStateContainer) : Prop :=
  bounded mx c /\ wired c.

(** The sockets the scanner has open are never handed out again. *)
Definition fd_fresh (env : Env) : Prop := forall open_fds, ~ In (fresh_fd env open_fds) open_fds.

(** The registry of a process that has not scanned yet. *)
Definition registry_is_new (c : ProbeStateContainer) : Prop :=
  objects c = ∅ /\ socket_list c = [] /\ probe_states_by_fd c = ∅.

(** The quota accounting: every probe counted is one packet overhead sent. *)
Definition budget_kept (w : World) : Prop :=
  bytes_sent (scanner w) = packet_overhead (scanner w) * probes_sent_count (scanner w).

(** The probe budget of an object, and the object a connect pass works on. *)
Definition scan_ok (mx : Z) (d : Driver.Driver) : Prop :=
  max_probes (scanner (Driver.world d)) = mx /\
  registry_ok mx (container (Driver.world d)) /\
  match Driver.pc d with
  | Driver.AtConnect _ ps =>
      exists r, objects (container (Driver.world d)) !! ps = Some r /\ probes_sent r < mx
  | _ => True
  end.

(** ** Further notions for the properties below *)

(** Text without a given character. *)
Fixpoint free_of (sep : ascii) (s : string) : Prop :=
  match s with
  | EmptyString => True
  | String c s' => Ascii.eqb c sep = false /\ free_of sep s'
  end.

(** A port number that fits the 16 bits of a TCP header and is not 0. *)
Definition valid_port (p : Z) : Prop := 0 < p < 65536.

(** The four octets of an address given as an integer. *)
Definition octets_of (ip_int : Z) : Re.ipv4 :=
  (Z.land (Z.shiftr ip_int 24) 255, Z.land (Z.shiftr ip_int 16) 255,
   Z.land (Z.shiftr ip_int 8) 255, Z.land (Z.shiftr ip_int 0) 255).

(** The text passes the pattern of a single address, [^ip_regex$]. *)
Definition is_address (t : string) : Prop := Re.matches (Re.match_ip t) = true.

(** Everything the generator yields is an address. *)
Definition yields_addresses (g : gen string) : Prop := Forall is_address (fst g).

(** The lines of a target file that are not skipped, stripped. *)
Definition kept_lines (lines : list string) : list string :=
  List.filter (fun t => negb (Driver.starts_with_hash t) && negb (String.eqb t ""))
    (map Py.strip lines).

(** ** A port spec as the user means it

    A spec is a list of port numbers and ranges.  Its text has the numbers
    in decimal, a dash inside a range and commas between the items; the
    ports it lists are the numbers and, for a range, every number from the
    lower to the upper bound, in the order of the spec. *)

Inductive port_item : Type :=
  | Port (p : Z)
  | Span (lo hi : Z).

Definition item_text (item : port_item) : string :=
  match item with
  | Port p => Py.str_of_Z p
  | Span lo hi => (Py.str_of_Z lo ++ "-" ++ Py.str_of_Z hi)%string
  end.

Fixpoint spec_text (items : list port_item) : string :=
  match items with
  | [] => EmptyString
  | item :: rest =>
      match rest with
      | [] => item_text item
      | _ :: _ => (item_text item ++ "," ++ spec_text rest)%string
      end
  end.

Fixpoint count_up (n : nat) (from : Z) : list Z :=
  match n with
  | O => []
  | S n' => from :: count_up n' (from + 1)
  end.

Definition item_ports (item : port_item) : list Z :=
  match item with
  | Port p => [p]
  | Span lo hi => count_up (Z.to_nat (hi - lo + 1)) lo
  end.

Definition spec_ports (items : list port_item) : list Z := flat_map item_ports items.

(** The numbers of a spec are not negative. *)
Definition item_ok (item : port_item) : Prop :=
  match item with
  | Port p => 0 <= p
  | Span lo hi => 0 <= lo /\ 0 <= hi
  end.

(** The popularity rank of a port: its position in the table, counted from
    0, and the last one if the table lists the port more than once; a port
    the table does not list has no rank. *)
Fixpoint last_position (p : Z) (table : list Z) (position : nat) : option nat :=
  match table with
  | [] => None
  | q :: rest =>
      match last_position p rest (S position) with
      | Some i => Some i
      | None => if p =? q then Some position else None
      end
  end.

Definition popularity_rank (p : Z) : option nat :=
  last_position p Popularity.port_popularity_nmap 0.

(** The order of probing: a ranked port before an unranked one, two ranked
    ports by rank. *)
Definition rank_le (a b : option nat) : Prop :=
  match a, b with
  | Some i, Some j => (i <= j)%nat
  | Some _, None => True
  | None, Some _ => False
  | None, None => True
  end.

(** The ports of one rank. *)
Definition has_rank (r : option nat) (p : Z) : bool := bool_decide (popularity_rank p = r).

(** The sort key that goes with a rank. *)
Definition rank_key (r : option nat) : Z :=
  match r with
  | Some i => Z.of_nat i
  | None => 100000
  end.

(** The host of [Example.env] with a peer so close that every connect
    returns at once, without an exception. *)
Definition immediate_env : Env :=
  {| clock := clock Example.env; poll_events := poll_events Example.env;
     socket_errno := socket_errno Example.env; fresh_fd := fresh_fd Example.env;
     connect_result := fun _ => ConnectReturns; platform := platform Example.env;
     python_major := python_major Example.env;
     inet_aton_accepts := inet_aton_accepts Example.env;
     read_file := read_file Example.env |}.

(** ** What a scan leaves alone, and what it counts *)

(** The configuration of a scanner: what the setters and [start_scan]'s
    preamble decide. *)
Definition configuration (s : ScannerTCP) :=
  (bandwidth_bits_per_second s, packet_rate s, max_probes s, probes s,
   target_ports_unprocessed s, inter_packet_interval s, inter_packet_interval_per_host s,
   recv_interval s, blocklist s, packet_overhead s, payload_len_estimate s,
   (host_count_high_water s, host_count_low_water s, show_closed_ports s,
    scan_start_time_internal s, target_source s, target_list_unprocessed s,
    target_filename s, scanner_poll_type s, soft_open_files_limit s,
    hard_open_files_limit s)).

(** The counters of the receive pass. *)
Definition tally (s : ScannerTCP) : Z * Z * Z :=
  (replies s, poll_result_count s, poll_deleted_packet_count s).

(** Every event polled is counted once, and at most once as a reply or as
    an event of a tombstoned object. *)
Definition tally_ok (s : ScannerTCP) : Prop :=
  0 <= replies s /\ 0 <= poll_deleted_packet_count s /\
  replies s + poll_deleted_packet_count s <= poll_result_count s.

(** What the scan loop does not write outside the receive pass: the
    configuration, the counters of the receive pass, the time slept and
    the three sleep counters. *)
Definition ledger (s : ScannerTCP) :=
  (configuration s, tally s, _sleep_total s, sleep_reasons s).

(** Two live objects probed at 1.8 before a clock that stands at 2: with a
    per-host interval of half a second neither is due. *)
Definition waiting_world : World :=
  with_container (Example.two_objects (18 # 10) (18 # 10) false) Example.pacing_world.

(** ** The queue and the sockets *)





(** [n] calls of [next()] in a row: the objects returned, in order, and the
    container after the last call. *)
Fixpoint nexts (n : nat) (c : ProbeStateContainer) : list nat * ProbeStateContainer :=
  match n with
  | O => ([], c)
  | S n' =>
      match Registry.next c with
      | (Some ps, c') => let (l, c'') := nexts n' c' in (ps :: l, c'')
      | (None, c') => nexts n' c'
      end
  end.

(** The limit [set_poll_type] applies to the sockets of a "select" poller. *)
Definition select_limit (env : Env) : Z :=
  match platform env with
  | Win32 => Driver.max_sockets_on_windows
  | _ => Driver.max_sockets_on_non_windows
  end.

(** * Properties *)

(** ** [sorted]: a stable sort *)

Section SortedFacts.
Context {A K : Type} (lt : K -> K -> bool) (key : A -> K).

Hypothesis lt_asym : forall a b, lt a b = true -> lt b a = false.
Hypothesis ge_trans : forall a b c, lt b a = false -> lt c b = false -> lt c a = false.

Lemma insert_by_perm (x : A) (l : list A) :
  Permutation (Py.insert_by lt key x l) (x :: l).
Proof.
  induction l as [|y ys IH]; simpl; [reflexivity|].
  destruct (lt (key y) (key x)); [|reflexivity].
  rewrite IH. apply perm_swap.
Qed.

Lemma sorted_perm (l : list A) : Permutation (Py.sorted lt key l) l.
Proof.
  induction l as [|x xs IH]; simpl; [reflexivity|].
  rewrite insert_by_perm. now rewrite IH.
Qed.

Lemma insert_by_sorted (x : A) (l : list A) :
  StronglySorted (Py.in_order lt key) l -> StronglySorted (Py.in_order lt key) (Py.insert_by lt key x l).
Proof.
  induction 1 as [|y ys Hs IH Hy]; simpl.
  - repeat constructor.
  - destruct (lt (key y) (key x)) eqn:E.
    + constructor; [exact IH|].
      rewrite List.Forall_forall in *. intros z Hz.
      apply (Permutation_in _ (insert_by_perm x ys)) in Hz.
      destruct Hz as [<-|Hz]; [apply lt_asym, E | now apply Hy].
    + constructor; [now constructor|].
      constructor; [exact E|].
      rewrite List.Forall_forall in *. intros z Hz.
      unfold Py.in_order. eapply ge_trans; [exact E | now apply Hy].
Qed.

Lemma sorted_sorted (l : list A) : StronglySorted (Py.in_order lt key) (Py.sorted lt key l).
Proof.
  induction l as [|x xs IH]; simpl; [constructor | now apply insert_by_sorted].
Qed.

(** Stability: the elements of one key class keep their order. *)
Lemma insert_by_filter (P : K -> bool) (x : A) (l : list A) :
  (forall a b, P a = true -> P b = true -> lt a b = false) ->
  List.filter (fun a => P (key a)) (Py.insert_by lt key x l)
  = List.filter (fun a => P (key a)) (x :: l).
Proof.
  intros Hclass. induction l as [|y ys IH]; [reflexivity|].
  simpl in *. destruct (lt (key y) (key x)) eqn:E; [|reflexivity].
  simpl. rewrite IH.
  destruct (P (key x)) eqn:Px, (P (key y)) eqn:Py; try reflexivity.
  rewrite (Hclass _ _ Py Px) in E. discriminate.
Qed.

Lemma sorted_stable (P : K -> bool) (l : list A) :
  (forall a b, P a = true -> P b = true -> lt a b = false) ->
  List.filter (fun a => P (key a)) (Py.sorted lt key l)
  = List.filter (fun a => P (key a)) l.
Proof.
  intros Hclass. induction l as [|x xs IH]; [reflexivity|].
  simpl Py.sorted. rewrite insert_by_filter by assumption.
  simpl. now rewrite IH.
Qed.
End SortedFacts.

Lemma StronglySorted_weaken {A : Type} (R R' : A -> A -> Prop) (l : list A) :
  (forall a b, R a b -> R' a b) -> StronglySorted R l -> StronglySorted R' l.
Proof.
  intros HR. induction 1 as [|x xs Hs IH Hx]; constructor; [exact IH|].
  eapply List.Forall_impl; [|exact Hx]. intros b. apply HR.
Qed.

(** ** Port lists *)

Lemma Zltb_asym (a b : Z) : (a <? b) = true -> (b <? a) = false.
Proof. lia. Qed.

Lemma Zltb_ge_trans (a b c : Z) : (b <? a) = false -> (c <? b) = false -> (c <? a) = false.
Proof. lia. Qed.

(** The list [set_probes] stores is the list it computed. *)
Lemma set_probes_probes (s : string) (w w' : World) :
  Scanner.set_probes s w = Ok w' ->
  Ports.set_probes_list s = Ok (probes (scanner w')).
Proof.
  unfold Scanner.set_probes. destruct (Ports.set_probes_list s); simpl; try discriminate.
  intros [= <-]. reflexivity.
Qed.

(** C4, as the spec states it, fails: the port that the spec lists twice is
    stored twice. *)
Lemma set_probes_keeps_duplicates :
  ~ (forall (s : string) (w w' : World),
       Scanner.set_probes s w = Ok w' -> NoDup (probes (scanner w'))).
Proof.
  intros H.
  pose (w0 := Example.world).
  destruct (Scanner.set_probes "80,443,8080-8082,80" w0) as [w'| |] eqn:E.
  - specialize (H _ _ _ E).
    apply set_probes_probes in E.
    assert (E' : Ports.set_probes_list "80,443,8080-8082,80" = Ok [80; 80; 443; 8080; 8081; 8082])
      by (vm_compute; reflexivity).
    rewrite E' in E. injection E as E. rewrite <- E in H.
    apply NoDup_cons_1_1 in H. apply H. left.
  - vm_compute in E. discriminate.
  - vm_compute in E. discriminate.
Qed.

(** C5: the help text of [-p] and the spec promise that "all" stands for
    1-65535.  [set_probes] has no case for it: the token reaches [int] and
    the call ends in a [ValueError], while the default spec "1-65535"
    expands to the 65535 ports. *)
Theorem set_probes_all_raises (w : World) :
  Scanner.set_probes "all" w = Raise ValueError /\
  exists l, Ports.set_probes_list "1-65535" = Ok l /\ Permutation l (Py.range 1 65536).
Proof.
  split; [reflexivity|].
  unfold Ports.set_probes_list.
  assert (E : Ports.ports_of_items (Py.split "," "1-65535") [] = Ok (Py.range 1 65536))
    by (lazy - [Py.range]; reflexivity).
  rewrite E. unfold bind. eexists. split; [reflexivity|]. apply sorted_perm.
Qed.

(** [set_probes] does not go through [expand_port_list]: a port that is not
    a number ends the call in a [ValueError], and a port outside 1..65535 is
    stored. *)
Lemma set_probes_bad_port :
  Ports.set_probes_list "80,http" = Raise ValueError /\
  Ports.set_probes_list "70000" = Ok [70000] /\
  Ports.expand_port_list "70000" = Exit (E_port_out_of_range 70000) 0.
Proof. repeat split; vm_compute; reflexivity. Qed.

(** ** The registry *)

(** C8: on an empty deque the four accessors return [None] and leave the
    container as it is; none of them raises. *)
Theorem accessors_on_empty_registry (c : ProbeStateContainer) :
  probe_states c = [] ->
  Registry.peekleft c = None /\
  Registry.popleft c = (None, c) /\
  Registry.pop c = (None, c) /\
  Registry.next c = (None, c).
Proof.
  intros H. unfold Registry.peekleft, Registry.popleft, Registry.pop, Registry.next.
  rewrite H. simpl. auto.
Qed.

Lemma accessors_on_empty_registry_witness :
  Registry.peekleft Registry.empty = None /\
  Registry.popleft Registry.empty = (None, Registry.empty) /\
  Registry.pop Registry.empty = (None, Registry.empty) /\
  Registry.next Registry.empty = (None, Registry.empty).
Proof. apply (accessors_on_empty_registry Registry.empty). reflexivity. Defined.

(** ** Configuration *)

(** C10: [set_rtt] stores [rtt] as the per-host interval; when [rtt] is
    below four receive intervals it lowers the receive interval to a quarter
    of [rtt], and otherwise leaves it alone.  The receive interval of a new
    scanner is a tenth of a second, which puts the threshold at 0.4 s. *)
Theorem set_rtt_quarter (rtt : Q) (w : World) :
  let w' := Scanner.set_rtt rtt w in
  inter_packet_interval_per_host (scanner w') = Some rtt /\
  ((rtt < 4 * recv_interval (scanner w))%Q ->
     recv_interval (scanner w') = (rtt / 4)%Q /\
     (recv_interval (scanner w') < recv_interval (scanner w))%Q /\
     (4 * recv_interval (scanner w') == rtt)%Q) /\
  ((4 * recv_interval (scanner w) <= rtt)%Q ->
     recv_interval (scanner w') = recv_interval (scanner w)) /\
  forall env limits now,
    (4 * recv_interval (Scanner.init_scanner env limits now) == 4 # 10)%Q.
Proof.
  unfold Scanner.set_rtt. cbv zeta.
  destruct (Qlt_le_dec rtt (recv_interval (scanner w) * 4)) as [Hlt|Hge]; simpl.
  - split; [reflexivity|]. split; [|split].
    + intros _. split; [reflexivity|]. split.
      * apply Qlt_shift_div_r; [reflexivity | exact Hlt].
      * field.
    + intros H. exfalso. apply (Qlt_irrefl rtt).
      eapply Qlt_le_trans; [exact Hlt|]. now rewrite Qmult_comm.
    + intros. reflexivity.
  - split; [reflexivity|]. split; [|split].
    + intros H. exfalso. apply (Qlt_irrefl rtt).
      eapply Qlt_le_trans; [exact H|]. now rewrite Qmult_comm.
    + reflexivity.
    + intros. reflexivity.
Qed.

Lemma set_rtt_quarter_witness :
  recv_interval (scanner (Scanner.set_rtt (2 # 10) Example.world)) = ((2 # 10) / 4)%Q /\
  recv_interval (scanner (Scanner.set_rtt (5 # 10) Example.world)) = (1 # 10)%Q.
Proof.
  split.
  - apply (set_rtt_quarter (2 # 10) Example.world). reflexivity.
  - apply (set_rtt_quarter (5 # 10) Example.world). discriminate.
Defined.

(** ** Exit statuses of configuration errors *)

Lemma Py_int_not_exit (s : string) (m : message) (c : Z) : Py.int s <> Exit m c.
Proof.
  unfold Py.int.
  now destruct (match Py.skip_right _ with EmptyString => _ | _ => _ end).
Qed.

Lemma Py_index_not_exit {A : Type} (l : list A) (i : nat) (m : message) (c : Z) :
  Py.index l i <> Exit m c.
Proof. unfold Py.index. now destruct (l !! i). Qed.

Lemma check_range_exit (l acc : list Z) (m : message) (c : Z) :
  Ports.check_range l acc = Exit m c -> c = 0.
Proof.
  revert acc. induction l as [|p l IH]; intros acc; simpl; [discriminate|].
  destruct ((0 <? p) && (p <? 65536)); [apply IH | now intros [= _ <-]].
Qed.

Lemma expand_item_exit (port : string) (acc : list Z) (m : message) (c : Z) :
  Ports.expand_item port acc = Exit m c -> c = 0.
Proof.
  unfold Ports.expand_item.
  destruct (Py.contains "-" port).
  - destruct (negb _); [now intros [= _ <-]|].
    destruct (Py.index (Py.split "-" port) 0) as [p0| |] eqn:E0; simpl; try discriminate;
      [|now apply Py_index_not_exit in E0].
    destruct (Py.int p0) as [lo| |] eqn:E1; simpl; try discriminate;
      [|now apply Py_int_not_exit in E1].
    destruct (Py.index (Py.split "-" port) 1) as [p1| |] eqn:E2; simpl; try discriminate;
      [|now apply Py_index_not_exit in E2].
    destruct (Py.int p1) as [hi| |] eqn:E3; simpl; try discriminate;
      [|now apply Py_int_not_exit in E3].
    apply check_range_exit.
  - destruct (Py.int port) as [p| |] eqn:E1; simpl; try discriminate;
      [|now apply Py_int_not_exit in E1].
    destruct ((0 <? p) && (p <? 65536)); [discriminate | now intros [= _ <-]].
Qed.

Lemma expand_port_list_exit (ports : string) (m : message) (c : Z) :
  Ports.expand_port_list ports = Exit m c -> c = 0.
Proof.
  unfold Ports.expand_port_list. generalize (@nil Z) as acc.
  induction (Py.split "," ports) as [|port items IH]; intros acc; simpl; [discriminate|].
  destruct (Ports.expand_item port acc) as [l| |] eqn:E; simpl; try discriminate.
  - apply IH.
  - intros [= <- <-]. now apply expand_item_exit in E.
Qed.

Lemma _get_targets_from_ip_range_exit (r : string) (m : message) (c : Z) :
  snd (TargetGenerator._get_targets_from_ip_range r) = GenExit m c -> c = 0.
Proof.
  unfold TargetGenerator._get_targets_from_ip_range.
  destruct (Re.match_ip_range r); [|now intros [= _ <-]].
  destruct (Py.index _ 0); try discriminate.
  destruct (Py.index _ 1); try discriminate.
  destruct (Ipaddress.ip_address a); try discriminate.
  destruct (Ipaddress.ip_address a0); discriminate.
Qed.

Lemma _get_target_ips_from_cidr_exit (cidr : string) (m : message) (c : Z) :
  snd (TargetGenerator._get_target_ips_from_cidr cidr) = GenExit m c -> c = 0.
Proof.
  unfold TargetGenerator._get_target_ips_from_cidr.
  destruct (Re.match_cidr cidr) as [[[address group1] rest]|]; [|now intros [= _ <-]].
  destruct (Py.int group1) as [n| |] eqn:En; [| now apply Py_int_not_exit in En | discriminate].
  destruct (32 <? _); [now intros [= _ <-]|].
  destruct (_ <? 8); [now intros [= _ <-]|].
  destruct rest; [|discriminate].
  now destruct (Ipaddress.ip_network _ _).
Qed.

Lemma _get_targets_from_string_exit (target : string) (m : message) (c : Z) :
  snd (TargetGenerator._get_targets_from_string target) = GenExit m c -> c = 0.
Proof.
  unfold TargetGenerator._get_targets_from_string.
  destruct (Re.matches (Re.match_ip_range target)); [apply _get_targets_from_ip_range_exit|].
  destruct (Re.matches (Re.match_ip target)); [discriminate|].
  destruct (Re.matches (Re.match_cidr target)); [apply _get_target_ips_from_cidr_exit|].
  now intros [= _ <-].
Qed.

(** C9, as stated, fails where the C library is more permissive than the
    scanner's own pattern for an address: "127.1" is not a dotted quad, yet
    [inet_aton] takes it and the entry joins the block list. *)
Lemma blocklist_accepts_short_form :
  ~ (forall (env : Env) (ip : string) (w : World),
       Re.matches (Re.match_ip ip) = false ->
       is_exit (Scanner.set_blocklist env [ip] w) = Some 1).
Proof.
  intros H.
  specialize (H Example.env "127.1" Example.world eq_refl).
  vm_compute in H. discriminate.
Qed.

(** C9 (amended): [set_blocklist] stops at the first entry that
    [socket.inet_aton] refuses, prints the entry and exits with status 1;
    when [inet_aton] takes every entry it returns.  The errors found by the
    target parser (no pattern matches, bad CIDR netmask, bad range) and by
    [expand_port_list] (port outside 1..65535, malformed range) all exit
    with status 0. *)
Theorem set_blocklist_exit_status (env : Env) (ips : list string) (w : World) :
  (forall before ip after,
      ips = before ++ ip :: after ->
      Forall (fun x => inet_aton_accepts env x = true) before ->
      inet_aton_accepts env ip = false ->
      Scanner.set_blocklist env ips w = Exit (E_invalid_blocklist_ip ip) 1) /\
  (Forall (fun x => inet_aton_accepts env x = true) ips ->
      exists w', Scanner.set_blocklist env ips w = Ok w') /\
  (forall m c, Scanner.set_blocklist env ips w = Exit m c -> c = 1) /\
  (forall target m c,
      snd (TargetGenerator._get_targets_from_string target) = GenExit m c -> c = 0) /\
  (forall target,
      Re.match_ip_range target = None -> Re.match_ip target = None ->
      Re.match_cidr target = None ->
      TargetGenerator._get_targets_from_string target = gen_exit (E_not_valid_target target) 0) /\
  (forall ports m c, Ports.expand_port_list ports = Exit m c -> c = 0).
Proof.
  split; [|split; [|split; [|split; [|split]]]].
  - intros before ip after -> Hb Hip. revert w.
    induction Hb as [|x before Hx Hb IH]; intros w; simpl.
    + unfold Scanner.add_to_blocklist. now rewrite Hip.
    + unfold Scanner.add_to_blocklist at 1. rewrite Hx.
      destruct (mem_string x _); simpl; apply IH.
  - intros Hall. revert w. induction Hall as [|x l Hx Hl IH]; intros w; simpl.
    + now exists w.
    + unfold Scanner.add_to_blocklist. rewrite Hx.
      destruct (mem_string x _); simpl; apply IH.
  - revert w. induction ips as [|x l IH]; intros w m c; simpl; [discriminate|].
    unfold Scanner.add_to_blocklist.
    destruct (inet_aton_accepts env x); [|now intros [= _ <-]].
    destruct (mem_string x _); simpl; apply IH.
  - apply _get_targets_from_string_exit.
  - intros target H1 H2 H3. unfold TargetGenerator._get_targets_from_string.
    now rewrite H1, H2, H3.
  - apply expand_port_list_exit.
Qed.

Lemma set_blocklist_exit_status_witness :
  Scanner.set_blocklist Example.env ["10.0.0.1"; "10.0.0.300"; "x"] Example.world
  = Exit (E_invalid_blocklist_ip "10.0.0.300") 1.
Proof.
  apply (set_blocklist_exit_status Example.env ["10.0.0.1"; "10.0.0.300"; "x"] Example.world)
    with (before := ["10.0.0.1"]) (after := ["x"]).
  - reflexivity.
  - repeat constructor.
  - reflexivity.
Defined.

(** ** The target enumerator on CIDR tokens *)

(** Addresses as integers. *)
Lemma lor_shiftl_small (m k y : Z) :
  0 <= k -> 0 <= y < 2 ^ k -> Z.lor (Z.shiftl m k) y = m * 2 ^ k + y.
Proof.
  intros Hk Hy. pose proof (Z.add_lor_land (Z.shiftl m k) y) as Hsum.
  assert (E : Z.land (Z.shiftl m k) y = 0).
  { apply Z.bits_inj'. intros i Hi. rewrite Z.land_spec, Z.bits_0.
    destruct (Z.lt_ge_cases i k) as [Hlt|Hge].
    - now rewrite Z.shiftl_spec_low.
    - rewrite <- (Z.mod_small y (2 ^ k)) by exact Hy.
      rewrite Z.mod_pow2_bits_high by lia. apply andb_false_r. }
  rewrite E in Hsum. rewrite !Z.shiftl_mul_pow2 in * by exact Hk. lia.
Qed.

Lemma int_of_ip_sum (a b c d : Z) :
  0 <= a < 256 -> 0 <= b < 256 -> 0 <= c < 256 -> 0 <= d < 256 ->
  Ipaddress.int_of_ip (a, b, c, d) = a * 2 ^ 24 + b * 2 ^ 16 + c * 2 ^ 8 + d.
Proof.
  intros Ha Hb Hc Hd. unfold Ipaddress.int_of_ip.
  replace (Z.shiftl a 24) with (Z.shiftl (Z.shiftl a 8) 16)
    by (rewrite Z.shiftl_shiftl by lia; reflexivity).
  rewrite <- Z.shiftl_lor, (lor_shiftl_small a 8 b) by lia.
  replace (Z.shiftl (a * 2 ^ 8 + b) 16) with (Z.shiftl (Z.shiftl (a * 2 ^ 8 + b) 8) 8)
    by (rewrite Z.shiftl_shiftl by lia; reflexivity).
  rewrite <- Z.shiftl_lor, (lor_shiftl_small _ 8 c) by lia.
  rewrite (lor_shiftl_small _ 8 d) by lia. lia.
Qed.

Lemma ip_network_arith (x n : Z) :
  0 <= x < 2 ^ 32 -> 0 <= n <= 32 ->
  let size := 2 ^ (32 - n) in
  Ipaddress.ip_network x n = (size * (x / size), size * (x / size) + size - 1).
Proof.
  intros Hx Hn size. unfold Ipaddress.ip_network, Ipaddress.netmask, Ipaddress.hostmask.
  set (k := 32 - n) in *. assert (Hk : 0 <= k <= 32) by lia.
  assert (E : Z.land x (Z.lxor (Z.ones 32) (Z.ones k)) = Z.shiftl (x / size) k).
  { apply Z.bits_inj'. intros i Hi.
    rewrite Z.land_spec, Z.lxor_spec, !Z.testbit_ones_nonneg by lia.
    destruct (Z.lt_ge_cases i k) as [Hlt|Hge].
    - rewrite Z.shiftl_spec_low by exact Hlt.
      replace (i <? 32) with true by lia. replace (i <? k) with true by lia.
      apply andb_false_r.
    - rewrite Z.shiftl_spec by exact Hi. unfold size.
      rewrite <- Z.shiftr_div_pow2, Z.shiftr_spec by lia.
      replace (i - k + k) with i by lia.
      replace (i <? k) with false by lia.
      destruct (Z.lt_ge_cases i 32) as [H32|H32].
      + replace (i <? 32) with true by lia. apply andb_true_r.
      + replace (i <? 32) with false by lia. rewrite andb_false_r.
        rewrite <- (Z.mod_small x (2 ^ 32)) by exact Hx.
        symmetry. apply Z.mod_pow2_bits_high. lia. }
  rewrite E.
  assert (Hsize : 0 < size) by (apply Z.pow_pos_nonneg; lia).
  rewrite (lor_shiftl_small (x / size) k (Z.ones k)).
  - rewrite Z.shiftl_mul_pow2 by lia. fold size. f_equal; [lia|].
    rewrite Z.ones_equiv. fold size. lia.
  - lia.
  - rewrite Z.ones_equiv. fold size. lia.
Qed.

(** Decimal text. *)
#[local] Arguments Py.is_digit : simpl never.

Lemma string_app_nil_l (s : string) : (EmptyString ++ s)%string = s.
Proof. reflexivity. Qed.

Lemma string_app_nil_r (s : string) : (s ++ EmptyString)%string = s.
Proof.
  induction s as [|c s IH]; [reflexivity|].
  change (String c (s ++ EmptyString)%string = String c s). now rewrite IH.
Qed.

Ltac string_simpl := simpl; rewrite ?string_app_nil_l.

Lemma take_digits_app (ds rest : string) :
  all_digits ds = true -> no_digit_ahead rest ->
  Re.take_digits (ds ++ rest) = (ds, rest).
Proof.
  intros Hds Hrest. induction ds as [|c ds IH]; simpl in *.
  - change (Re.take_digits rest = (EmptyString, rest)).
    destruct rest as [|c r]; [reflexivity|]. simpl in *. now rewrite Hrest.
  - apply andb_prop in Hds as [Hc Hds]. now rewrite Hc, IH.
Qed.

Lemma below_in_range (bound : nat) (a : Z) :
  0 <= a < Z.of_nat bound -> In a (map Z.of_nat (seq 0 bound)).
Proof.
  intros H. apply in_map_iff. exists (Z.to_nat a). split; [lia|].
  apply in_seq. lia.
Qed.

Lemma octet_render (a : Z) :
  0 <= a < 256 ->
  all_digits (Py.str_of_Z a) = true /\ Re.octet_of_digits (Py.str_of_Z a) = Some a.
Proof.
  intros H.
  assert (E : forallb (fun a => all_digits (Py.str_of_Z a)
                                && match Re.octet_of_digits (Py.str_of_Z a) with
                                   | Some v => v =? a
                                   | None => false
                                   end) (map Z.of_nat (seq 0 256)) = true)
    by (vm_compute; reflexivity).
  rewrite forallb_forall in E. specialize (E a (below_in_range 256 a H)).
  apply andb_prop in E as [E1 E2]. split; [exact E1|].
  destruct (Re.octet_of_digits (Py.str_of_Z a)); [|discriminate].
  f_equal. lia.
Qed.

Lemma prefix_render (n : Z) :
  0 <= n < 100 ->
  all_digits (Py.str_of_Z n) = true /\
  ((1 <=? String.length (Py.str_of_Z n)) && (String.length (Py.str_of_Z n) <=? 2))%nat = true /\
  Py.int (Py.str_of_Z n) = Ok n.
Proof.
  intros H.
  assert (E : forallb (fun n => all_digits (Py.str_of_Z n)
                                && ((1 <=? String.length (Py.str_of_Z n))
                                    && (String.length (Py.str_of_Z n) <=? 2))%nat
                                && match Py.int (Py.str_of_Z n) with
                                   | Ok v => v =? n
                                   | _ => false
                                   end)
                (map Z.of_nat (seq 0 100)) = true)
    by (vm_compute; reflexivity).
  rewrite forallb_forall in E. specialize (E n (below_in_range 100 n H)).
  apply andb_prop in E as [E E3]. apply andb_prop in E as [E1 E2].
  split; [exact E1|]. split; [exact E2|].
  destruct (Py.int (Py.str_of_Z n)); try discriminate. f_equal. lia.
Qed.

Lemma digit_char_is_digit (d : Z) : 0 <= d < 10 -> Py.is_digit (Py.digit_char d) = true.
Proof.
  intros H.
  assert (E : forallb (fun d => Py.is_digit (Py.digit_char d)) (map Z.of_nat (seq 0 10)) = true)
    by reflexivity.
  rewrite forallb_forall in E. exact (E d (below_in_range 10 d H)).
Qed.

Lemma str_of_nat_aux_digits (fuel : nat) (n : Z) (acc : string) :
  0 <= n -> all_digits acc = true -> all_digits (Py.str_of_nat_aux fuel n acc) = true.
Proof.
  revert n acc. induction fuel as [|fuel IH]; intros n acc Hn Hacc; simpl; [exact Hacc|].
  assert (Hd : all_digits (String (Py.digit_char (n mod 10)) acc) = true).
  { simpl. rewrite digit_char_is_digit, Hacc; [reflexivity|]. apply Z.mod_pos_bound. lia. }
  destruct (n / 10 =? 0); [exact Hd|].
  apply IH; [|exact Hd]. apply Z.div_pos; lia.
Qed.

Lemma str_of_nat_aux_length (fuel : nat) (n : Z) (acc : string) :
  (String.length acc <= String.length (Py.str_of_nat_aux fuel n acc))%nat.
Proof.
  revert n acc. induction fuel as [|fuel IH]; intros n acc; simpl; [lia|].
  destruct (n / 10 =? 0); simpl; [lia|].
  etransitivity; [|apply IH]. simpl. lia.
Qed.

Lemma str_of_Z_digits (n : Z) : 0 <= n -> all_digits (Py.str_of_Z n) = true.
Proof.
  intros H. unfold Py.str_of_Z. replace (n <? 0) with false by lia.
  now apply str_of_nat_aux_digits.
Qed.

Lemma str_of_Z_long (n : Z) : 100 <= n -> (3 <= String.length (Py.str_of_Z n))%nat.
Proof.
  intros H. unfold Py.str_of_Z. replace (n <? 0) with false by lia.
  assert (Hlog : 6 <= Z.log2 n) by (apply Z.log2_le_pow2; lia).
  destruct (Z.to_nat (Z.log2 n)) as [|[|f]] eqn:E; [lia..|].
  simpl.
  assert (H1 : 10 <= n / 10) by (apply Z.div_le_lower_bound; lia).
  replace (n / 10 =? 0) with false by lia.
  assert (H2 : 1 <= n / 10 / 10) by (apply Z.div_le_lower_bound; lia).
  replace (n / 10 / 10 =? 0) with false by lia.
  destruct (n / 10 / 10 / 10 =? 0); simpl; [lia|].
  etransitivity; [|apply str_of_nat_aux_length]. simpl. lia.
Qed.

(** The pattern on a rendered address. *)
Lemma octet_app (a : Z) (rest : string) :
  0 <= a < 256 -> no_digit_ahead rest ->
  Re.octet (Py.str_of_Z a ++ rest) = Some (a, rest).
Proof.
  intros Ha Hrest. destruct (octet_render a Ha) as [H1 H2].
  unfold Re.octet. now rewrite take_digits_app, H2.
Qed.

Lemma ip_app (a b c d : Z) (rest : string) :
  0 <= a < 256 -> 0 <= b < 256 -> 0 <= c < 256 -> 0 <= d < 256 -> no_digit_ahead rest ->
  Re.ip (Py.str_of_Z a ++ "." ++ Py.str_of_Z b ++ "." ++ Py.str_of_Z c ++ "."
         ++ Py.str_of_Z d ++ rest)
  = Some ((a, b, c, d), rest).
Proof.
  intros Ha Hb Hc Hd Hrest. unfold Re.ip.
  rewrite (octet_app a) by (assumption || reflexivity). string_simpl.
  rewrite (octet_app b) by (assumption || reflexivity). string_simpl.
  rewrite (octet_app c) by (assumption || reflexivity). string_simpl.
  rewrite (octet_app d) by assumption. reflexivity.
Qed.

Lemma match_cidr_token (a b c d n : Z) :
  0 <= a < 256 -> 0 <= b < 256 -> 0 <= c < 256 -> 0 <= d < 256 -> 0 <= n ->
  Re.match_cidr (Ipaddress.cidr_token a b c d n)
  = if n <? 100 then Some ((a, b, c, d), Py.str_of_Z n, EmptyString) else None.
Proof.
  intros Ha Hb Hc Hd Hn. unfold Re.match_cidr, Ipaddress.cidr_token.
  rewrite ip_app by (assumption || reflexivity). string_simpl.
  rewrite <- (string_app_nil_r (Py.str_of_Z n)) at 1.
  rewrite take_digits_app by (apply str_of_Z_digits; assumption) || exact I.
  destruct (n <? 100) eqn:E.
  - destruct (prefix_render n) as (_ & H12 & _); [lia|]. simpl in H12. now rewrite H12.
  - assert (H3 := str_of_Z_long n ltac:(lia)).
    rewrite (proj2 (Nat.leb_gt (String.length (Py.str_of_Z n)) 2)) by lia.
    now rewrite andb_false_r.
Qed.

(** C6: on the token [A.B.C.D/N] with [8 <= N <= 32] the enumerator yields
    the [2^(32-N)] addresses from the network address (the host bits of
    A.B.C.D cleared) to the broadcast address, in increasing order; for any
    other [N] it prints an error and exits with status 0 before it yields
    anything.  The dispatcher [_get_targets_from_string] hands the token to
    it when [N] has one or two digits and otherwise exits with status 0
    itself.  10.0.0.0/30 yields 10.0.0.0, 10.0.0.1, 10.0.0.2, 10.0.0.3. *)
Theorem cidr_enumeration (a b c d n : Z) :
  0 <= a < 256 -> 0 <= b < 256 -> 0 <= c < 256 -> 0 <= d < 256 -> 0 <= n ->
  let token := Ipaddress.cidr_token a b c d n in
  let address := a * 2 ^ 24 + b * 2 ^ 16 + c * 2 ^ 8 + d in
  let size := 2 ^ (32 - n) in
  let network := size * (address / size) in
  (8 <= n <= 32 ->
     TargetGenerator._get_target_ips_from_cidr token
     = gen_yield_all (map (fun i => Ipaddress.str_of_ip (network + Z.of_nat i))
                          (seq 0 (Z.to_nat size)))) /\
  (n < 8 \/ 32 < n ->
     exists m, TargetGenerator._get_target_ips_from_cidr token = gen_exit m 0) /\
  (n < 100 ->
     TargetGenerator._get_targets_from_string token
     = TargetGenerator._get_target_ips_from_cidr token) /\
  (100 <= n ->
     TargetGenerator._get_targets_from_string token = gen_exit (E_not_valid_target token) 0) /\
  TargetGenerator._get_targets_from_string "10.0.0.0/30"
  = gen_yield_all ["10.0.0.0"; "10.0.0.1"; "10.0.0.2"; "10.0.0.3"].
Proof.
  intros Ha Hb Hc Hd Hn token address size network.
  assert (Hm := match_cidr_token a b c d n Ha Hb Hc Hd Hn). fold token in Hm.
  assert (Haddr : 0 <= address < 2 ^ 32) by (unfold address; lia).
  assert (Hip : Re.ip token = Some ((a, b, c, d), ("/" ++ Py.str_of_Z n)%string))
    by (apply ip_app; assumption || reflexivity).
  assert (Hd' : forall n', (n <? 100) = n' ->
            TargetGenerator._get_targets_from_string token
            = if n' then TargetGenerator._get_target_ips_from_cidr token
              else gen_exit (E_not_valid_target token) 0).
  { intros n' <-. unfold TargetGenerator._get_targets_from_string.
    unfold Re.match_ip_range, Re.match_ip. rewrite Hip. string_simpl.
    replace (match Py.str_of_Z n with EmptyString => false | String _ _ => false end)
      with false by now destruct (Py.str_of_Z n).
    simpl. rewrite Hm. now destruct (n <? 100). }
  split; [|split; [|split; [|split]]].
  - intros H. unfold TargetGenerator._get_target_ips_from_cidr. rewrite Hm.
    replace (n <? 100) with true by lia.
    destruct (prefix_render n) as (_ & _ & ->); [lia|].
    replace (32 <? n) with false by lia. replace (n <? 8) with false by lia.
    rewrite int_of_ip_sum by assumption. fold address.
    rewrite ip_network_arith by (assumption || lia). fold size. fold network.
    unfold Py.range. rewrite map_map.
    now replace (network + size - 1 + 1 - network) with size by lia.
  - intros H. unfold TargetGenerator._get_target_ips_from_cidr. rewrite Hm.
    destruct (n <? 100) eqn:E; [|eexists; reflexivity].
    destruct (prefix_render n) as (_ & _ & ->); [lia|].
    destruct (32 <? n) eqn:E32; [eexists; reflexivity|].
    replace (n <? 8) with true by lia. eexists; reflexivity.
  - intros H. apply (Hd' true). lia.
  - intros H. apply (Hd' false). lia.
  - vm_compute. reflexivity.
Qed.

Lemma cidr_enumeration_witness :
  TargetGenerator._get_target_ips_from_cidr "192.168.1.77/31"
  = gen_yield_all ["192.168.1.76"; "192.168.1.77"] /\
  exists m, TargetGenerator._get_target_ips_from_cidr "10.1.2.3/7" = gen_exit m 0.
Proof.
  split.
  - change "192.168.1.77/31" with (Ipaddress.cidr_token 192 168 1 77 31).
    rewrite (proj1 (cidr_enumeration 192 168 1 77 31 ltac:(lia) ltac:(lia) ltac:(lia)
                      ltac:(lia) ltac:(lia))) by lia.
    reflexivity.
  - change "10.1.2.3/7" with (Ipaddress.cidr_token 10 1 2 3 7).
    apply (cidr_enumeration 10 1 2 3 7); lia.
Defined.

(** ** [sort] *)






(** C2: a tombstoned object gets the time key -1000, which is not below
    the key of a live object whose probe is more than 1000 seconds overdue.
    Here object 0 is live with time key 0 + 1/2 - 2000, object 1 is
    tombstoned, and [sort] puts the live object first. *)
Theorem sort_puts_overdue_live_first :
  exists c',
    Registry.sort (Some (1 # 2)) 2000 Example.overdue = Ok c' /\
    probe_states c' = [0%nat; 1%nat] /\
    (deleted <$> objects c' !! 0%nat) = Some false /\
    (deleted <$> objects c' !! 1%nat) = Some true /\
    Registry.keyed (Some (1 # 2)) 2000 Example.overdue (probe_states Example.overdue)
    = Ok [((-1000, 1%nat), 1%nat); ((0 + (1 # 2) - 2000, 0%nat), 0%nat)]%Q.
Proof.
  eexists. split; [vm_compute; reflexivity|].
  repeat split; vm_compute; reflexivity.
Qed.

(** ** The rate governor *)

Lemma int_of_float_pos (q : Q) : 0 < Py.int_of_float q <-> (1 <= q)%Q.
Proof.
  unfold Py.int_of_float, Qle. destruct q as [n d]. simpl.
  pose proof (Pos2Z.is_pos d) as Hd.
  split; intros H.
  - destruct (Z_lt_le_dec n (Z.pos d)) as [Hlt|Hge]; [|lia].
    exfalso. destruct (Z_lt_le_dec n 0) as [Hneg|Hpos].
    + pose proof (Z.quot_opp_l n (Z.pos d) ltac:(lia)) as E.
      assert (0 <= Z.quot (- n) (Z.pos d)) by (apply Z.quot_pos; lia). lia.
    + rewrite Z.quot_small in H by lia. lia.
  - apply Z.quot_str_pos. lia.
Qed.

Lemma inject_Z_nonneg (z : Z) : 0 <= z -> (0 <= inject_Z z)%Q.
Proof. intros H. change 0%Q with (inject_Z 0). now rewrite <- Zle_Qle. Qed.

Lemma inject_Z_pos (z : Z) : 0 < z -> (0 < inject_Z z)%Q.
Proof. intros H. change 0%Q with (inject_Z 0). now rewrite <- Zlt_Qlt. Qed.

Lemma Qdiv_8 (x : Q) : (x / 8 == x * (1 # 8))%Q.
Proof. reflexivity. Qed.

Lemma same_budget_refl (s : ScannerTCP) : same_budget s s.
Proof. repeat split. Qed.

Lemma only_clock_read_scanner (w w1 : World) :
  only_clock_read w w1 ->
  scanner w1 = scanner w /\ container w1 = container w /\
  (time_calls w <= time_calls w1)%nat.
Proof. intros [->| ->]; simpl; repeat split; lia. Qed.

Lemma bandwidth_quota_frame (env : Env) (w w1 : World) (q : Z) :
  Governor.get_available_bandwidth_quota_packets env w = Ok (q, w1) -> only_clock_read w w1.
Proof.
  unfold Governor.get_available_bandwidth_quota_packets, Governor.bytes_sent_target, time_time.
  destruct (bandwidth_bits_per_second (scanner w)) as [bw|] eqn:Ebw; [|intros [= _ <-]; now left].
  destruct (Governor.truthy _) as [t0|]; simpl.
  - rewrite Ebw. simpl. destruct (Qle_bool _ 0); [intros [= _ <-]; now right|].
    destruct (packet_overhead (scanner w) =? 0); [discriminate|]. intros [= _ <-]. now right.
  - destruct (Qle_bool _ 0); [intros [= _ <-]; now left|].
    destruct (packet_overhead (scanner w) =? 0); [discriminate|]. intros [= _ <-]. now left.
Qed.

Lemma packet_rate_quota_frame (env : Env) (w w1 : World) (q : Q) :
  Governor.get_available_packet_rate_quota_packets env w = Ok (q, w1) -> only_clock_read w w1.
Proof.
  unfold Governor.get_available_packet_rate_quota_packets, Governor.probes_sent_target, time_time.
  destruct (Governor.no_packet_rate _) eqn:En; [intros [= _ <-]; now left|].
  destruct (Governor.truthy _) as [t0|]; simpl.
  - destruct (packet_rate (scanner w)) as [rate|]; simpl; [|discriminate].
    destruct (Qle_bool _ 0); intros [= _ <-]; now right.
  - destruct (Qle_bool _ 0); intros [= _ <-]; now left.
Qed.

(** A positive bandwidth quota stays positive as time passes. *)
Lemma bandwidth_quota_later (env : Env) (w w1 w2 : World) (q : Z) (now : Q) :
  Governor.get_available_bandwidth_quota_packets env w = Ok (q, w1) ->
  0 < q ->
  rates_nonnegative (scanner w) ->
  same_budget (scanner w) (scanner w2) ->
  ((time_calls w < time_calls w1)%nat -> (clock env (time_calls w) <= now)%Q) ->
  exists q' w3,
    Governor.get_available_bandwidth_quota_packets (at_time now env) w2 = Ok (q', w3) /\ 0 < q'.
Proof.
  intros H Hq (Hbw & _ & Hov) (E1 & _ & E3 & E4 & E5 & _) Hnow.
  unfold Governor.get_available_bandwidth_quota_packets, Governor.bytes_sent_target, time_time
    in *.
  rewrite E1, E4.
  destruct (bandwidth_bits_per_second (scanner w)) as [bw|] eqn:Ebw;
    [|injection H as <- _; eauto].
  specialize (Hbw bw eq_refl).
  destruct (Governor.truthy _) as [t0|]; simpl in *; rewrite ?Ebw in H;
    rewrite ?E1, ?E3, ?E5; simpl in *; rewrite ?E3, ?E5.
  - set (t1 := clock env (time_calls w)) in *.
    destruct (Qle_bool _ 0) eqn:Ele in H; [injection H as <- _; lia|].
    destruct (packet_overhead (scanner w) =? 0) eqn:Eov; [discriminate|].
    injection H as <- <-. simpl in Hnow. specialize (Hnow ltac:(lia)).
    apply int_of_float_pos in Hq.
    assert (HB : (0 <= inject_Z bw)%Q) by (now apply inject_Z_nonneg).
    assert (HO : (0 < inject_Z (packet_overhead (scanner w)))%Q)
      by (now apply inject_Z_pos).
    assert (Hmono : (inject_Z bw * (t1 - t0) <= inject_Z bw * (now - t0))%Q).
    { rewrite !(Qmult_comm (inject_Z bw)). apply Qmult_le_compat_r; [lra | exact HB]. }
    set (S := inject_Z (bytes_sent (scanner w))) in *.
    set (X1 := (inject_Z bw * (t1 - t0))%Q) in *.
    set (X2 := (inject_Z bw * (now - t0))%Q) in *.
    assert (Hle : (8 * (X1 / 8 - S) / inject_Z (packet_overhead (scanner w))
                   <= 8 * (X2 / 8 - S) / inject_Z (packet_overhead (scanner w)))%Q).
    { apply Qmult_le_compat_r; [rewrite !Qdiv_8; lra|].
      apply Qlt_le_weak, Qinv_lt_0_compat, HO. }
    assert (Hpos : ~ (X1 / 8 - S <= 0)%Q).
    { intros Hc. apply Qle_bool_iff in Hc. congruence. }
    destruct (Qle_bool (X2 / 8 - S) 0) eqn:Ele2.
    + apply Qle_bool_iff in Ele2. exfalso. apply Hpos.
      clear -Ele2 Hmono. rewrite !Qdiv_8 in *. lra.
    + do 2 eexists. split; [reflexivity|]. apply int_of_float_pos.
      eapply Qle_trans; [exact Hq | exact Hle].
  - destruct (Qle_bool _ 0); [injection H as <- _; lia|].
    destruct (packet_overhead (scanner w) =? 0); [discriminate|].
    injection H as <- _. eauto.
Qed.

(** So does a positive packet-rate quota. *)
Lemma packet_rate_quota_later (env : Env) (w w1 w2 : World) (q : Q) (now : Q) :
  Governor.get_available_packet_rate_quota_packets env w = Ok (q, w1) ->
  (0 < q)%Q ->
  rates_nonnegative (scanner w) ->
  same_budget (scanner w) (scanner w2) ->
  ((time_calls w < time_calls w1)%nat -> (clock env (time_calls w) <= now)%Q) ->
  exists q' w3,
    Governor.get_available_packet_rate_quota_packets (at_time now env) w2 = Ok (q', w3)
    /\ (0 < q')%Q.
Proof.
  intros H Hq (_ & Hrate & _) (_ & E2 & _ & E4 & _ & E6) Hnow.
  unfold Governor.get_available_packet_rate_quota_packets, Governor.probes_sent_target,
    time_time in *.
  rewrite E2, E4.
  destruct (Governor.no_packet_rate _); [injection H as <- _; eauto|].
  destruct (Governor.truthy _) as [t0|]; simpl in *; rewrite ?E2, ?E6.
  - destruct (packet_rate (scanner w)) as [rate|] eqn:Er; simpl in *; [|discriminate].
    specialize (Hrate rate eq_refl). rewrite ?E6.
    set (t1 := clock env (time_calls w)) in *.
    destruct (Qle_bool _ 0) eqn:Ele in H; injection H as <- <-;
      [now apply Qlt_irrefl in Hq|].
    simpl in Hnow. specialize (Hnow ltac:(lia)).
    assert (HR : (0 <= inject_Z rate)%Q) by (now apply inject_Z_nonneg).
    assert (Hmono : (inject_Z rate * (t1 - t0) <= inject_Z rate * (now - t0))%Q).
    { rewrite !(Qmult_comm (inject_Z rate)). apply Qmult_le_compat_r; [lra | exact HR]. }
    destruct (Qle_bool (inject_Z rate * (now - t0) - _) 0) eqn:Ele2.
    + apply Qle_bool_iff in Ele2. exfalso. lra.
    + do 2 eexists. split; [reflexivity|]. lra.
  - destruct (Qle_bool _ 0); injection H as <- _; eauto.
Qed.

Lemma rates_nonnegative_same (s s' : ScannerTCP) :
  same_budget s s' -> rates_nonnegative s' -> rates_nonnegative s.
Proof.
  intros (E1 & E2 & E3 & _) (H1 & H2 & H3). unfold rates_nonnegative.
  rewrite <- E1, <- E2, <- E3. auto.
Qed.

(** The pass of [wait_for_quotas] that ends the call. *)
Lemma wait_pass_returns (env : Env) (w w' : World) (v : option bool) :
  Governor.wait_pass env w = Ok (Governor.Returns v, w') ->
  rates_nonnegative (scanner w') ->
  forall now, not_before_reads env w' now ->
    (exists q w'',
        Governor.get_available_bandwidth_quota_packets (at_time now env) w' = Ok (q, w'')
        /\ 0 < q) /\
    (exists q w'',
        Governor.get_available_packet_rate_quota_packets (at_time now env) w' = Ok (q, w'')
        /\ (0 < q)%Q) /\
    ((v = Some true /\ count (container w') <= 0) \/
     (v = None /\
      exists ps r,
        Registry.peekleft (container w') = Some ps /\
        objects (container w') !! ps = Some r /\
        due (inter_packet_interval_per_host (scanner w')) now r)).
Proof.
  intros Hpass Hrates now Hnow.
  assert (Hkey : exists w1 w2 q1 q2,
             Governor.get_available_bandwidth_quota_packets env w = Ok (q1, w1) /\ 0 < q1 /\
             Governor.get_available_packet_rate_quota_packets env w1 = Ok (q2, w2) /\
             (0 < q2)%Q /\
             same_budget (scanner w2) (scanner w') /\
             container w' = container w2 /\
             inter_packet_interval_per_host (scanner w')
             = inter_packet_interval_per_host (scanner w2) /\
             (time_calls w2 <= time_calls w')%nat /\
             ((v = Some true /\ count (container w2) <= 0) \/
              (v = None /\
               exists ps r,
                 Registry.peekleft (container w2) = Some ps /\
                 objects (container w2) !! ps = Some r /\
                 time_calls w' = S (time_calls w2) /\
                 match probe_sent_time r with
                 | None => True
                 | Some t => exists i, inter_packet_interval_per_host (scanner w2) = Some i /\
                                       (t + i < clock env (time_calls w2))%Q
                 end))).
  { unfold Governor.wait_pass, Governor.wait_checks in Hpass.
    destruct (Governor.get_available_bandwidth_quota_packets env w) as [[q1 w1]| |] eqn:Hb;
      simpl in Hpass; try discriminate.
    destruct (0 <? q1) eqn:Hq1; simpl in Hpass.
    2:{ destruct (Governor.count_sleep_reason _ _); simpl in Hpass; try discriminate.
        destruct (Qlt_le_dec _ _); simpl in Hpass.
        - destruct (Governor.receive_packets _ _ _); simpl in Hpass; try discriminate.
          destruct (Governor.time_sleep _ _); simpl in Hpass; discriminate.
        - destruct (Governor.time_sleep _ _); simpl in Hpass; discriminate. }
    destruct (Governor.get_available_packet_rate_quota_packets env w1) as [[q2 w2]| |] eqn:Hr;
      simpl in Hpass; try discriminate.
    destruct (Qlt_le_dec 0 q2) as [Hq2|Hq2]; simpl in Hpass.
    2:{ destruct (Governor.count_sleep_reason _ _); simpl in Hpass; try discriminate.
        destruct (Qlt_le_dec _ _); simpl in Hpass.
        - destruct (Governor.receive_packets _ _ _); simpl in Hpass; try discriminate.
          destruct (Governor.time_sleep _ _); simpl in Hpass; discriminate.
        - destruct (Governor.time_sleep _ _); simpl in Hpass; discriminate. }
    exists w1, w2, q1, q2. split; [reflexivity|]. split; [lia|].
    split; [exact Hr|]. split; [exact Hq2|].
    destruct (0 <? count (container w2)) eqn:Hc; simpl in Hpass.
    - destruct (Registry.peekleft (container w2)) as [ps|] eqn:Hpeek; simpl in Hpass;
        try discriminate.
      unfold Registry.get in Hpass.
      destruct (objects (container w2) !! ps) as [r|] eqn:Hobj; simpl in Hpass;
        try discriminate.
      destruct (probe_sent_time r) as [t|] eqn:Ht; simpl in Hpass.
      + destruct (inter_packet_interval_per_host (scanner w2)) as [i|] eqn:Hi;
          simpl in Hpass; try discriminate.
        destruct (Qlt_le_dec (t + i) (clock env (time_calls w2))) as [Hdue|Hdue];
          simpl in Hpass.
        * injection Hpass as <- <-. simpl. rewrite Hi.
          repeat split; try lia. right. split; [reflexivity|].
          exists ps, r. rewrite Ht. repeat split; try assumption. now exists i.
        * destruct (Governor.count_sleep_reason _ _); simpl in Hpass; try discriminate.
          destruct (Qlt_le_dec _ _); simpl in Hpass.
          -- destruct (Governor.receive_packets _ _ _); simpl in Hpass; try discriminate.
             destruct (Governor.time_sleep _ _); simpl in Hpass; discriminate.
          -- destruct (Governor.time_sleep _ _); simpl in Hpass; discriminate.
      + injection Hpass as <- <-. simpl.
        repeat split; try lia. right. split; [reflexivity|].
        exists ps, r. rewrite Ht. repeat split; assumption.
    - injection Hpass as <- <-. simpl.
      repeat split; try lia. left. split; [reflexivity | lia]. }
  destruct Hkey as (w1 & w2 & q1 & q2 & Hb & Hq1 & Hr & Hq2 & Hsame & Hcont & Hint & Htc & Hv).
  destruct (only_clock_read_scanner _ _ (bandwidth_quota_frame _ _ _ _ Hb)) as (Es1 & Ec1 & Ht1).
  destruct (only_clock_read_scanner _ _ (packet_rate_quota_frame _ _ _ _ Hr)) as (Es2 & Ec2 & Ht2).
  rewrite Es2, Es1 in Hsame.
  assert (Hrw : rates_nonnegative (scanner w)) by (eapply rates_nonnegative_same; eassumption).
  split; [|split].
  - eapply bandwidth_quota_later; try eassumption.
    intros Hlt. apply Hnow. lia.
  - eapply packet_rate_quota_later; try eassumption.
    + now rewrite Es1.
    + now rewrite Es1.
    + intros Hlt. apply Hnow. lia.
  - rewrite Hcont, Hint. destruct Hv as [Hv|(Hv & ps & r & Hp & Ho & Htc' & Hdue)]; [now left|].
    right. split; [exact Hv|]. exists ps, r. split; [exact Hp|]. split; [exact Ho|].
    unfold due. destruct (probe_sent_time r) as [t|]; [|exact I].
    destruct Hdue as (i & Hi & Hlt). exists i. split; [exact Hi|].
    eapply Qlt_le_trans; [exact Hlt|]. apply Hnow. lia.
Qed.

(** C1, as stated, fails when the left-most object is a tombstone: the
    per-host test looks at that object, not at the left-most live one.
    Here the tombstoned object 0 (probed at 1.4) is due at time 2, the call
    returns, and the left-most live object 1 (probed at 1.8, interval 0.5)
    is not due. *)
Lemma wait_for_quotas_head_tombstoned :
  exists w' ps r t i,
    Governor.wait_for_quotas Example.pacing_env 1 Example.pacing_world = Some (Ok (None, w')) /\
    probe_states (container w') <> [] /\
    first_live (objects (container w')) (probe_states (container w')) = Some ps /\
    objects (container w') !! ps = Some r /\
    probe_sent_time r = Some t /\
    inter_packet_interval_per_host (scanner w') = Some i /\
    (forall k, ~ (t + i <= clock Example.pacing_env k)%Q).
Proof.
  eexists. exists 1%nat. eexists. exists (18 # 10)%Q, (1 # 2)%Q.
  split; [vm_compute; reflexivity|].
  split; [discriminate|].
  split; [vm_compute; reflexivity|].
  split; [vm_compute; reflexivity|].
  split; [reflexivity|]. split; [reflexivity|].
  intros k H. vm_compute in H. apply H. reflexivity.
Qed.

(** Such a state arises in a scan: after 114 steps of the scan of two hosts
    where 10.0.0.1:80 has answered, the driver is in [wait_for_quotas], the
    tombstone of 10.0.0.1:80 is the left-most object, and the call returns
    while the left-most live object is due neither at the time the call
    read nor at the next reading of the clock. *)
Lemma tombstone_at_head_in_scan :
  exists d w' ps r t i,
    Driver.start_scan Example.answering_env 114 (Example.scan_world 1) = Ok d /\
    Driver.pc d = Driver.AtWait /\
    Governor.wait_for_quotas Example.answering_env 1 (Driver.world d) = Some (Ok (None, w')) /\
    first_live (objects (container w')) (probe_states (container w')) = Some ps /\
    objects (container w') !! ps = Some r /\
    probe_sent_time r = Some t /\
    inter_packet_interval_per_host (scanner w') = Some i /\
    ~ (t + i <= clock Example.answering_env (time_calls w' - 1))%Q /\
    ~ (t + i <= clock Example.answering_env (time_calls w'))%Q.
Proof.
  destruct (Driver.start_scan Example.answering_env 114 (Example.scan_world 1))
    as [d| |] eqn:E; [|vm_compute in E; discriminate..].
  exists d. vm_compute in E. injection E as <-.
  eexists. exists 1%nat. eexists. exists (12 # 400)%Q, (1 # 2)%Q.
  split; [reflexivity|]. split; [reflexivity|].
  split; [vm_compute; reflexivity|].
  split; [vm_compute; reflexivity|].
  split; [vm_compute; reflexivity|].
  split; [vm_compute; reflexivity|].
  split; [vm_compute; reflexivity|].
  split; intros H; vm_compute in H; apply H; reflexivity.
Qed.

(** C1 (amended): when [wait_for_quotas] returns, then at every time [now]
    not earlier than the clock values it has read, both quotas are positive
    and either it returned [True] on an empty registry ([count] not
    positive), or the left-most object of the deque, tombstoned or not, is
    due: it was never sent to, or [probe_sent_time + per_host_interval < now]. *)
Theorem wait_for_quotas_returns (env : Env) (fuel : nat) (w w' : World) (v : option bool) :
  Governor.wait_for_quotas env fuel w = Some (Ok (v, w')) ->
  rates_nonnegative (scanner w') ->
  forall now, not_before_reads env w' now ->
    (exists q w'',
        Governor.get_available_bandwidth_quota_packets (at_time now env) w' = Ok (q, w'')
        /\ 0 < q) /\
    (exists q w'',
        Governor.get_available_packet_rate_quota_packets (at_time now env) w' = Ok (q, w'')
        /\ (0 < q)%Q) /\
    ((v = Some true /\ count (container w') <= 0) \/
     (v = None /\
      exists ps r,
        Registry.peekleft (container w') = Some ps /\
        objects (container w') !! ps = Some r /\
        due (inter_packet_interval_per_host (scanner w')) now r)).
Proof.
  revert w. induction fuel as [|fuel IH]; intros w; simpl; [discriminate|].
  destruct (Governor.wait_pass env w) as [[[v0|] w1]| |] eqn:Hpass; try discriminate.
  - intros [= <- <-]. now apply wait_pass_returns with (w := w).
  - apply IH.
Qed.

Lemma wait_for_quotas_returns_witness :
  let w' := with_time_calls 5 Example.pacing_world in
  Governor.wait_for_quotas Example.pacing_env 1 Example.pacing_world = Some (Ok (None, w')) /\
  (exists q w'',
      Governor.get_available_bandwidth_quota_packets (at_time 2 Example.pacing_env) w'
      = Ok (q, w'') /\ 0 < q) /\
  (exists q w'',
      Governor.get_available_packet_rate_quota_packets (at_time 2 Example.pacing_env) w'
      = Ok (q, w'') /\ (0 < q)%Q) /\
  ((@None bool = Some true /\ count (container w') <= 0) \/
   (@None bool = None /\
    exists ps r,
      Registry.peekleft (container w') = Some ps /\
      objects (container w') !! ps = Some r /\
      due (inter_packet_interval_per_host (scanner w')) 2 r)).
Proof.
  intros w'.
  assert (E : Governor.wait_for_quotas Example.pacing_env 1 Example.pacing_world
              = Some (Ok (None, w'))) by (vm_compute; reflexivity).
  split; [exact E|].
  apply (wait_for_quotas_returns Example.pacing_env 1 Example.pacing_world w' None E).
  - split; [|split].
    + intros bw [= <-]. lia.
    + intros rate [=].
    + reflexivity.
  - intros k _. vm_compute. discriminate.
Defined.

(** ** The scan driver: the counters *)

Tactic Notation "bind_inv" hyp(H) "as" simple_intropattern(x) ident(E) :=
  match type of H with
  | bind ?r _ = Ok _ =>
      destruct r as [x| |] eqn:E; simpl in H; [|discriminate H|discriminate H]
  end.

Ltac if_inv H :=
  match type of H with
  | context [if ?b then _ else _] => destruct b eqn:?; simpl in H; try discriminate H
  end.

Lemma classify_counters (r : ProbeStateTcp) (event : Z) (w w' : World) :
  Governor.classify r event w = Ok w' ->
  counters w' = counters w /\ container w' = container w.
Proof.
  unfold Governor.classify, Governor.report_open, Governor.report_closed.
  intros H. repeat if_inv H; injection H as <-; split; reflexivity.
Qed.

Lemma handle_events_counters (events : list (Z * Z)) (w w' : World) :
  Governor.handle_events events w = Ok w' -> counters w' = counters w.
Proof.
  revert w. induction events as [|[fd event] rest IH]; intros w; simpl.
  - now intros [= <-].
  - destruct (probe_states_by_fd (container w) !! fd) as [ps|]; [|discriminate].
    intros H. bind_inv H as r Er. if_inv H.
    + apply IH in H. exact H.
    + bind_inv H as w1 Ew1. bind_inv H as c Ec. apply IH in H. rewrite H.
      apply classify_counters in Ew1 as [Ew1 _]. exact Ew1.
Qed.

Lemma receive_packets_counters (env : Env) (sl : list Z) (w w' : World) (b : bool) :
  Governor.receive_packets env sl w = Ok (b, w') -> counters w' = counters w.
Proof.
  unfold Governor.receive_packets. intros H. bind_inv H as w1 E. injection H as _ <-.
  destruct sl; [now injection E as <-|].
  now apply handle_events_counters in E.
Qed.

Lemma only_clock_read_counters (w w1 : World) : only_clock_read w w1 -> counters w1 = counters w.
Proof. now intros [->| ->]. Qed.

Lemma count_sleep_reason_counters (reason : string) (w w' : World) :
  Governor.count_sleep_reason reason w = Ok w' ->
  counters w' = counters w /\ container w' = container w.
Proof.
  unfold Governor.count_sleep_reason. destruct (_ !! reason); [|discriminate].
  now intros [= <-].
Qed.

Ltac frame := unfold counters in *; simpl in *; try split; congruence.

Lemma wait_checks_counters (env : Env) (w w' : World) (o : option Governor.pass_flags) :
  Governor.wait_checks env w = Ok (o, w') ->
  counters w' = counters w /\ container w' = container w.
Proof.
  unfold Governor.wait_checks. intros H. bind_inv H as [q1 w1] E1.
  apply bandwidth_quota_frame in E1.
  pose proof (only_clock_read_counters _ _ E1) as Ec1.
  apply only_clock_read_scanner in E1 as (_ & Ek1 & _).
  if_inv H; [|injection H as _ <-; now split].
  bind_inv H as [q2 w2] E2.
  apply packet_rate_quota_frame in E2.
  pose proof (only_clock_read_counters _ _ E2) as Ec2.
  apply only_clock_read_scanner in E2 as (_ & Ek2 & _).
  destruct (Qlt_le_dec 0 q2); [|injection H as _ <-; frame].
  if_inv H; [|injection H as _ <-; frame].
  destruct (Registry.peekleft _); [|discriminate].
  bind_inv H as r Er. unfold time_time in H.
  destruct (probe_sent_time r).
  - destruct (inter_packet_interval_per_host _); [|discriminate].
    destruct (Qlt_le_dec _ _); injection H as _ <-; frame.
  - injection H as _ <-; frame.
Qed.

Lemma time_sleep_same (d : Q) (w w' : World) : Governor.time_sleep d w = Ok w' -> w' = w.
Proof. unfold Governor.time_sleep. destruct (Qlt_le_dec d 0); [discriminate | now intros [= <-]]. Qed.

Lemma wait_pass_frame (env : Env) (w w' : World) (o : Governor.wait_outcome) :
  Governor.wait_pass env w = Ok (o, w') -> counters w' = counters w.
Proof.
  unfold Governor.wait_pass. intros H. bind_inv H as [f w1] E. simpl in H.
  apply wait_checks_counters in E as [Ec _].
  destruct f as [f|]; [|injection H as _ <-; congruence].
  bind_inv H as w2 E2.
  assert (Ew : counters w2 = counters w1).
  { destruct (Governor.force_bandwidth_quota_wait f);
      [now apply count_sleep_reason_counters in E2|].
    destruct (Governor.force_packet_quota_wait f);
      [now apply count_sleep_reason_counters in E2|].
    destruct (Governor.force_probe_state_wait f);
      [now apply count_sleep_reason_counters in E2 | now injection E2 as <-]. }
  if_inv H; [injection H as _ <-; congruence|].
  destruct (Qlt_le_dec _ _).
  - bind_inv H as [b w3] E3. simpl in H. bind_inv H as w4 E4. injection H as _ <-.
    apply time_sleep_same in E4 as ->. apply receive_packets_counters in E3. frame.
  - bind_inv H as w3 E3. injection H as _ <-. apply time_sleep_same in E3 as ->. frame.
Qed.

Lemma get_available_quota_packets_frame (env : Env) (w w' : World) (n : Z) :
  Governor.get_available_quota_packets env w = Ok (n, w') ->
  counters w' = counters w /\ container w' = container w.
Proof.
  unfold Governor.get_available_quota_packets. intros H.
  bind_inv H as [q1 w1] E1. bind_inv H as [q2 w2] E2.
  injection H as _ <-.
  apply bandwidth_quota_frame in E1. apply packet_rate_quota_frame in E2.
  pose proof (only_clock_read_counters _ _ E1). pose proof (only_clock_read_counters _ _ E2).
  apply only_clock_read_scanner in E1 as (_ & ? & _).
  apply only_clock_read_scanner in E2 as (_ & ? & _).
  split; congruence.
Qed.

(** ** The registry under the operations of the driver *)

Lemma same_essence_refl (c : ProbeStateContainer) : same_essence c c.
Proof. now intros ps. Qed.

Lemma same_essence_trans (c1 c2 c3 : ProbeStateContainer) :
  same_essence c1 c2 -> same_essence c2 c3 -> same_essence c1 c3.
Proof. intros H1 H2 ps. now rewrite H2, H1. Qed.

Lemma list_remove_In (x y : Z) (l l' : list Z) :
  list_remove x l = Some l' -> In y l -> y <> x -> In y l'.
Proof.
  revert l'. induction l as [|z l IH]; intros l'; simpl; [discriminate|].
  destruct (x =? z) eqn:E.
  - intros [= <-] [->|H] Hne; [lia | exact H].
  - destruct (list_remove x l) as [l0|]; simpl; [|discriminate].
    intros [= <-] [->|H] Hne; [now left | right; now apply IH].
Qed.

Lemma list_remove_not_In (x y : Z) (l l' : list Z) :
  list_remove x l = Some l' -> ~ In y l -> ~ In y l'.
Proof.
  revert l'. induction l as [|z l IH]; intros l'; simpl; [discriminate|].
  destruct (x =? z) eqn:E.
  - intros [= <-] Hn H. apply Hn. now right.
  - destruct (list_remove x l) as [l0|]; simpl; [|discriminate].
    intros [= <-] Hn [->|H]; [apply Hn; now left|].
    revert H. apply IH; [reflexivity|]. intros H. apply Hn. now right.
Qed.

Lemma list_remove_is_Some (x : Z) (l : list Z) : In x l -> is_Some (list_remove x l).
Proof.
  induction l as [|z l IH]; simpl; [easy|].
  destruct (x =? z) eqn:E; [eauto|].
  intros [->|H]; [lia|]. destruct (IH H) as [l' ->]. simpl. eauto.
Qed.

Lemma mem_Z_In (x : Z) (l : list Z) : mem_Z x l = true <-> In x l.
Proof.
  unfold mem_Z. rewrite existsb_exists. split.
  - intros (y & Hy & E). apply Z.eqb_eq in E. now subst.
  - intros H. exists x. split; [exact H | apply Z.eqb_refl].
Qed.

(** [delete_socket] *)
Lemma delete_socket_spec (ps : nat) (c c' : ProbeStateContainer) :
  Registry.delete_socket ps c = Ok c' ->
  same_essence c c' /\ same_queue c c' /\ poll_type c' = poll_type c /\
  (exists r, objects c !! ps = Some r /\ objects c' = <[ps := with_socket None r]> (objects c)) /\
  (forall fd, ~ In fd (socket_list c) -> ~ In fd (socket_list c')) /\
  (wired c -> wired c').
Proof.
  unfold Registry.delete_socket, Registry.get. intros H.
  destruct (objects c !! ps) as [r|] eqn:Hr; simpl in H; [|discriminate].
  destruct (socket r) as [fd|] eqn:Hfd.
  - bind_inv H as fds Eu.
    destruct (list_remove fd (socket_list c)) as [sl|] eqn:Hsl; [|discriminate].
    destruct (probe_states_by_fd c !! fd) as [owner|] eqn:Hby; [|discriminate].
    injection H as <-. simpl.
    split; [|split; [|split; [|split; [|split]]]].
    + intros ps'. simpl. destruct (decide (ps = ps')) as [<-|Hne].
      * rewrite lookup_insert_eq, Hr. reflexivity.
      * now rewrite lookup_insert_ne.
    + now split.
    + reflexivity.
    + now exists r.
    + intros fd' Hn. now apply (list_remove_not_In fd fd' _ _ Hsl).
    + intros [Hp Hw]. split; simpl.
      * unfold Poller.unregister in Eu. rewrite Hp, Hsl in Eu. now injection Eu as <-.
      * intros ps' r' fd' Hl Hs.
        destruct (decide (ps = ps')) as [<-|Hne].
        -- rewrite lookup_insert_eq in Hl. injection Hl as <-. discriminate.
        -- rewrite lookup_insert_ne in Hl by exact Hne.
           destruct (Hw ps' r' fd' Hl Hs) as [Hin Hidx].
           assert (Hfd' : fd' <> fd).
           { intros ->. destruct (Hw ps r fd Hr Hfd) as [_ Hidx']. congruence. }
           split; [now apply (list_remove_In fd fd' _ _ Hsl)|].
           now rewrite lookup_delete_ne.
  - injection H as <-.
    assert (Er : with_socket None r = r) by (destruct r; simpl in *; now subst).
    split; [apply same_essence_refl|]. split; [now split|]. split; [reflexivity|].
    split; [exists r; split; [reflexivity|]; rewrite Er; symmetry; now apply insert_id|].
    split; auto.
Qed.

(** [schedule_delete] *)
Lemma schedule_delete_spec (ps : nat) (c c' : ProbeStateContainer) :
  Registry.schedule_delete ps c = Ok c' ->
  same_queue c c' /\ poll_type c' = poll_type c /\
  (exists r, objects c !! ps = Some r /\
             objects c' = <[ps := with_deleted true (with_socket None r)]> (objects c)) /\
  (wired c -> wired c').
Proof.
  unfold Registry.schedule_delete, Registry.get. intros H.
  bind_inv H as c1 E1.
  apply delete_socket_spec in E1 as (_ & Hq & Hpt & (r & Hr & Ho) & _ & Hw).
  rewrite Ho, lookup_insert_eq in H. simpl in H. injection H as <-. simpl.
  split; [exact Hq|]. split; [exact Hpt|]. split.
  - exists r. split; [exact Hr|]. now rewrite Ho, insert_insert_eq.
  - intros Hc. destruct (Hw Hc) as [Hp Hs]. split; [exact Hp|]. simpl.
    intros ps' r' fd' Hl Hfd. destruct (decide (ps = ps')) as [<-|Hne].
    + rewrite lookup_insert_eq in Hl. injection Hl as <-. discriminate.
    + rewrite lookup_insert_ne in Hl by exact Hne. now apply (Hs ps' r' fd').
Qed.

Lemma wired_delete_socket_progress (ps : nat) (c : ProbeStateContainer) (r : ProbeStateTcp) :
  wired c -> objects c !! ps = Some r -> exists c', Registry.delete_socket ps c = Ok c'.
Proof.
  intros [Hp Hw] Hr. unfold Registry.delete_socket, Registry.get. rewrite Hr. simpl.
  destruct (socket r) as [fd|] eqn:Hfd; [|eauto].
  destruct (Hw ps r fd Hr Hfd) as [Hin Hidx].
  destruct (list_remove_is_Some fd _ Hin) as [sl Hsl].
  unfold Poller.unregister. rewrite Hp, Hsl. simpl. rewrite Hidx. eauto.
Qed.

Lemma wired_schedule_delete_progress (ps : nat) (c : ProbeStateContainer) (r : ProbeStateTcp) :
  wired c -> objects c !! ps = Some r -> exists c', Registry.schedule_delete ps c = Ok c'.
Proof.
  intros Hw Hr. destruct (wired_delete_socket_progress ps c r Hw Hr) as [c1 E1].
  unfold Registry.schedule_delete. rewrite E1. simpl.
  apply delete_socket_spec in E1 as (_ & _ & _ & (r0 & _ & Ho) & _).
  unfold Registry.get. rewrite Ho, lookup_insert_eq. simpl. eauto.
Qed.

(** [set_socket] with a descriptor that is not open yet. *)
Lemma set_socket_spec (ps : nat) (fd : Z) (c c' : ProbeStateContainer) :
  Registry.set_socket ps fd c = Ok c' ->
  same_essence c c' /\ same_queue c c' /\ poll_type c' = poll_type c /\
  (~ In fd (socket_list c) -> wired c -> wired c').
Proof.
  unfold Registry.set_socket. intros H.
  bind_inv H as r Er. bind_inv H as c1 E1. bind_inv H as r1 Er1.
  assert (H1 : same_essence c c1 /\ same_queue c c1 /\ poll_type c1 = poll_type c /\
               (forall fd, ~ In fd (socket_list c) -> ~ In fd (socket_list c1)) /\
               (wired c -> wired c1)).
  { destruct (socket r).
    - apply delete_socket_spec in E1 as (? & ? & ? & _ & ? & ?). auto.
    - injection E1 as <-. split; [apply same_essence_refl|]. split; [now split|].
      split; [reflexivity|]. split; auto. }
  destruct H1 as (He & Hq & Hpt & Hfresh & Hw).
  simpl in H. if_inv H. bind_inv H as fds Eg. injection H as <-. simpl.
  unfold Registry.get in Er1. destruct (objects c1 !! ps) as [r1'|] eqn:Hr1; [|discriminate].
  injection Er1 as ->.
  split; [|split; [|split]].
  - intros ps'. simpl. rewrite <- He. destruct (decide (ps = ps')) as [<-|Hne].
    + now rewrite lookup_insert_eq, Hr1.
    + now rewrite lookup_insert_ne.
  - exact Hq.
  - exact Hpt.
  - intros Hnew Hc. specialize (Hfresh fd Hnew). destruct (Hw Hc) as [Hp Hs].
    split; simpl.
    + unfold Poller.register in Eg. simpl in Eg.
      destruct (_ && _); [discriminate|]. injection Eg as <-. now rewrite Hp.
    + intros ps' r' fd' Hl Hfd. destruct (decide (ps = ps')) as [<-|Hne].
      * rewrite lookup_insert_eq in Hl. injection Hl as <-. simpl in Hfd.
        injection Hfd as <-. split; [apply in_or_app; right; now left|].
        now rewrite lookup_insert_eq.
      * rewrite lookup_insert_ne in Hl by exact Hne.
        destruct (Hs ps' r' fd' Hl Hfd) as [Hin Hidx].
        split; [apply in_or_app; now left|].
        rewrite lookup_insert_ne; [exact Hidx|]. intros ->. contradiction.
Qed.

(** ** The scan driver: what every reachable state satisfies *)

Lemma bounded_same_essence (mx : Z) (c c' : ProbeStateContainer) :
  same_essence c c' -> bounded mx c -> bounded mx c'.
Proof.
  intros He Hb ps r Hr. specialize (He ps). rewrite Hr in He. simpl in He.
  destruct (objects c !! ps) as [r0|] eqn:Hr0; [|discriminate].
  assert (E : probes_sent r = probes_sent r0) by (unfold essence in He; simpl in He; congruence).
  rewrite E. now apply (Hb ps).
Qed.

Lemma bounded_insert (mx : Z) (c c' : ProbeStateContainer) (ps : nat) (r : ProbeStateTcp) :
  objects c' = <[ps := r]> (objects c) -> probes_sent r <= mx -> bounded mx c -> bounded mx c'.
Proof.
  intros Ho Hr Hb ps' r' Hl. rewrite Ho in Hl. destruct (decide (ps = ps')) as [<-|Hne].
  - rewrite lookup_insert_eq in Hl. now injection Hl as <-.
  - rewrite lookup_insert_ne in Hl by exact Hne. now apply (Hb ps').
Qed.

Lemma wired_insert_same_socket (c c' : ProbeStateContainer) (ps : nat) (r r' : ProbeStateTcp) :
  objects c !! ps = Some r -> socket r' = socket r ->
  objects c' = <[ps := r']> (objects c) ->
  socket_list c' = socket_list c -> poller c' = poller c ->
  probe_states_by_fd c' = probe_states_by_fd c ->
  wired c -> wired c'.
Proof.
  intros Hr Hs Ho Hsl Hp Hby [Hpl Hw]. split; [congruence|].
  intros ps' r0 fd Hl Hfd. rewrite Hsl, Hby. rewrite Ho in Hl.
  destruct (decide (ps = ps')) as [<-|Hne].
  - rewrite lookup_insert_eq in Hl. injection Hl as <-. rewrite Hs in Hfd.
    now apply (Hw ps r fd).
  - rewrite lookup_insert_ne in Hl by exact Hne. now apply (Hw ps' r0 fd).
Qed.

Lemma wired_same (c c' : ProbeStateContainer) :
  objects c' = objects c -> socket_list c' = socket_list c -> poller c' = poller c ->
  probe_states_by_fd c' = probe_states_by_fd c -> wired c -> wired c'.
Proof.
  intros Ho Hsl Hp Hby [Hpl Hw]. split; [congruence|].
  intros ps r fd. rewrite Ho, Hsl, Hby. apply Hw.
Qed.

Lemma registry_ok_same (mx : Z) (c c' : ProbeStateContainer) :
  objects c' = objects c -> socket_list c' = socket_list c -> poller c' = poller c ->
  probe_states_by_fd c' = probe_states_by_fd c -> registry_ok mx c -> registry_ok mx c'.
Proof.
  intros Ho Hsl Hp Hby [Hb Hw]. split; [|now apply (wired_same c)].
  intros ps r. rewrite Ho. apply Hb.
Qed.

Lemma schedule_delete_ok (mx : Z) (ps : nat) (c c' : ProbeStateContainer) :
  Registry.schedule_delete ps c = Ok c' -> registry_ok mx c -> registry_ok mx c'.
Proof.
  intros H [Hb Hw]. apply schedule_delete_spec in H as (_ & _ & (r & Hr & Ho) & Hw').
  split; [|auto]. eapply bounded_insert; [exact Ho| |exact Hb]. simpl. now apply (Hb ps).
Qed.

Lemma handle_events_ok (mx : Z) (events : list (Z * Z)) (w w' : World) :
  Governor.handle_events events w = Ok w' ->
  registry_ok mx (container w) -> registry_ok mx (container w').
Proof.
  revert w. induction events as [|[fd event] rest IH]; intros w; simpl.
  - now intros [= <-].
  - destruct (probe_states_by_fd (container w) !! fd) as [ps|]; [|discriminate].
    intros H Hok. bind_inv H as r Er. if_inv H.
    + apply IH in H; [exact H | exact Hok].
    + bind_inv H as w1 Ew1. bind_inv H as c Ec.
      apply classify_counters in Ew1 as [_ Ew1]. rewrite Ew1 in Ec.
      apply IH in H; [exact H|]. simpl. now apply (schedule_delete_ok mx ps (container w)).
Qed.

Lemma receive_packets_ok (mx : Z) (env : Env) (sl : list Z) (w w' : World) (b : bool) :
  Governor.receive_packets env sl w = Ok (b, w') ->
  registry_ok mx (container w) -> registry_ok mx (container w').
Proof.
  unfold Governor.receive_packets. intros H. bind_inv H as w1 E. injection H as _ <-.
  destruct sl; [now injection E as <-|].
  intros Hok. now apply (handle_events_ok mx) in E.
Qed.

Lemma wait_pass_ok (mx : Z) (env : Env) (w w' : World) (o : Governor.wait_outcome) :
  Governor.wait_pass env w = Ok (o, w') ->
  registry_ok mx (container w) -> registry_ok mx (container w').
Proof.
  unfold Governor.wait_pass. intros H Hok. bind_inv H as [f w1] E. simpl in H.
  apply wait_checks_counters in E as [_ Ec]. rewrite <- Ec in Hok.
  destruct f as [f|]; [|now injection H as _ <-].
  bind_inv H as w2 E2.
  assert (Ew : container w2 = container w1).
  { destruct (Governor.force_bandwidth_quota_wait f);
      [now apply count_sleep_reason_counters in E2|].
    destruct (Governor.force_packet_quota_wait f);
      [now apply count_sleep_reason_counters in E2|].
    destruct (Governor.force_probe_state_wait f);
      [now apply count_sleep_reason_counters in E2 | now injection E2 as <-]. }
  rewrite <- Ew in Hok.
  if_inv H; [now injection H as _ <-|].
  destruct (Qlt_le_dec _ _).
  - bind_inv H as [b w3] E3. simpl in H. bind_inv H as w4 E4. injection H as _ <-.
    apply time_sleep_same in E4 as ->. simpl. now apply (receive_packets_ok mx) in E3.
  - bind_inv H as w3 E3. injection H as _ <-. now apply time_sleep_same in E3 as ->.
Qed.

(** The refill. *)
Lemma init_ok (mx : Z) (ip : string) (port : Z) (probe_index : nat) (c : ProbeStateContainer) :
  0 <= mx -> registry_ok mx c ->
  registry_ok mx (snd (Registry.ProbeStateTcp_init ip port probe_index c)).
Proof.
  intros Hmx [Hb [Hp Hw]]. unfold Registry.ProbeStateTcp_init, Registry.add_probe_state.
  simpl. split.
  - eapply bounded_insert; [reflexivity| |exact Hb]. exact Hmx.
  - split; [exact Hp|]. simpl. intros ps r fd Hl Hfd.
    destruct (decide (next_probe_id c = ps)) as [<-|Hne].
    + rewrite lookup_insert_eq in Hl. injection Hl as <-. discriminate.
    + rewrite lookup_insert_ne in Hl by exact Hne. now apply (Hw ps r fd).
Qed.

Lemma delete_probe_state_ok (mx : Z) (ps : nat) (c c' : ProbeStateContainer) :
  Registry.delete_probe_state ps c = Ok c' -> registry_ok mx c -> registry_ok mx c'.
Proof.
  unfold Registry.delete_probe_state. intros H [Hb Hw]. bind_inv H as c1 E1.
  destruct (list_remove_id ps (probe_states c1)); [|discriminate]. injection H as <-.
  apply delete_socket_spec in E1 as (He & _ & _ & _ & _ & Hw1).
  apply (registry_ok_same mx c1); try reflexivity.
  split; [now apply (bounded_same_essence mx c) | auto].
Qed.

Lemma sort_ok (mx : Z) (interval : option Q) (now : Q) (c c' : ProbeStateContainer) :
  Registry.sort interval now c = Ok c' -> registry_ok mx c -> registry_ok mx c'.
Proof.
  unfold Registry.sort. intros H. bind_inv H as l E. injection H as <-.
  now apply registry_ok_same.
Qed.

Lemma refill_loop_frame (mx : Z) (items rest : list (string * nat)) (stop : gen_end)
    (w w' : World) (h h' : Z) (more : bool) :
  Driver.refill_loop items stop w h = Ok (rest, more, w', h') ->
  counters w' = counters w /\
  (0 <= mx -> registry_ok mx (container w) -> registry_ok mx (container w')).
Proof.
  revert w h. induction items as [|[target probe_index] items IH]; intros w h; simpl.
  - destruct stop; try discriminate. now intros [= _ _ <- _].
  - intros H. bind_inv H as port Ep.
    unfold Registry.ProbeStateTcp_init, Registry.add_probe_state in H.
    cbv zeta in H. simpl in H.
    pose proof (init_ok mx target port probe_index (container w)) as Hinit.
    unfold Registry.ProbeStateTcp_init, Registry.add_probe_state in Hinit.
    cbv zeta in Hinit. simpl in Hinit.
    if_inv H.
    + bind_inv H as c1 E1. apply IH in H as [Hc Hr]. split; [exact Hc|].
      intros Hmx Hok. apply Hr; [exact Hmx|]. simpl.
      apply (delete_probe_state_ok mx) in E1; [exact E1|]. simpl. now apply Hinit.
    + destruct (count_in_queue _ !! probe_index) as [n|] eqn:En; [|discriminate].
      destruct (probe_index =? 0)%nat; simpl in *;
        (destruct (_ <=? _);
          [injection H as _ _ <- _; split; [reflexivity|]; simpl; intros; now apply Hinit
          |apply IH in H as [Hc Hr]; split; [exact Hc|];
           intros Hmx Hok; apply Hr; [exact Hmx|]; simpl; now apply Hinit]).
Qed.

Lemma refill_frame (mx : Z) (env : Env) (d d' : Driver.Driver) :
  Driver.refill env d = Ok d' ->
  counters (Driver.world d') = counters (Driver.world d) /\
  Driver.pc d' = Driver.pc d /\
  (0 <= mx -> registry_ok mx (container (Driver.world d)) ->
   registry_ok mx (container (Driver.world d'))).
Proof.
  unfold Driver.refill. intros H. if_inv H; [|injection H as <-; auto].
  bind_inv H as [[[rest more] w1] h1] E. unfold time_time in H.
  bind_inv H as c E2. injection H as <-. simpl.
  apply (refill_loop_frame mx) in E as [Hc Hr]. simpl in E2.
  split; [exact Hc|]. split; [reflexivity|].
  intros Hmx Hok. apply (sort_ok mx) in E2; [exact E2|]. now apply Hr.
Qed.

(** ** One step of the driver *)

Lemma set_max_sockets_frame (param : Z) (w w' : World) :
  Driver.set_max_sockets param w = Ok w' ->
  counters w' = counters w /\ container w' = container w.
Proof.
  unfold Driver.set_max_sockets. intros H. bind_inv H as suggestion E. injection H as <-.
  repeat match goal with
         | |- context [match ?x with _ => _ end] => destruct x; simpl
         end; split; reflexivity.
Qed.

Lemma start_scan_begin_frame (mx : Z) (env : Env) (w : World) (d : Driver.Driver) :
  Driver.start_scan_begin env w = Ok d ->
  counters (Driver.world d) = counters w /\
  Driver.pc d = Driver.AtLoopHead /\
  (registry_is_new (container w) -> registry_ok mx (container (Driver.world d))).
Proof.
  unfold Driver.start_scan_begin. intros H.
  destruct (probes (scanner w)); [discriminate|].
  bind_inv H as w1 E1. bind_inv H as targets E2. injection H as <-. simpl.
  unfold Driver.set_poll_type in E1. bind_inv E1 as [pt c] E0. simpl in E1.
  unfold Registry.set_poll_type in E0. if_inv E0. injection E0 as _ <-.
  assert (H1 : counters w1 = counters w /\
               objects (container w1) = objects (container w) /\
               socket_list (container w1) = socket_list (container w) /\
               probe_states_by_fd (container w1) = probe_states_by_fd (container w) /\
               poller (container w1) = []).
  { if_inv E1; [if_inv E1|].
    - apply set_max_sockets_frame in E1 as [Hc Hk]. rewrite Hc, Hk. simpl. auto.
    - injection E1 as <-. simpl. auto.
    - injection E1 as <-. simpl. auto. }
  destruct H1 as (Hc & Ho & Hsl & Hby & Hp).
  split; [exact Hc|]. split; [reflexivity|].
  intros (Hobj & Hs & Hb). split.
  - intros ps r. rewrite Ho, Hobj, lookup_empty. discriminate.
  - split; [congruence|]. intros ps r fd. rewrite Ho, Hobj, lookup_empty. discriminate.
Qed.

Lemma send_pass_frame (mx : Z) (now : Q) (k ps : nat) (d d' : Driver.Driver) :
  Driver.send_pass now k ps d = Ok d' ->
  counters (Driver.world d') = counters (Driver.world d) /\
  (registry_ok mx (container (Driver.world d)) -> registry_ok mx (container (Driver.world d'))) /\
  (Driver.pc d' = Driver.AtSend k \/ Driver.pc d' = Driver.AtRecv \/
   (Driver.pc d' = Driver.AtConnect k ps /\
    exists r, objects (container (Driver.world d')) !! ps = Some r /\
              probes_sent r < max_probes (scanner (Driver.world d')))).
Proof.
  unfold Driver.send_pass. intros H. bind_inv H as r Er. bind_inv H as expired Ee.
  bind_inv H as c Ec.
  assert (Hc : registry_ok mx (container (Driver.world d)) -> registry_ok mx c).
  { destruct expired; [now apply (schedule_delete_ok mx ps) | now injection Ec as <-]. }
  bind_inv H as r1 Er1. unfold Registry.get in Er1.
  destruct (objects c !! ps) as [r1'|] eqn:Hr1; [|discriminate]. injection Er1 as ->.
  if_inv H.
  { injection H as <-. simpl. split; [reflexivity|]. split; [|now left].
    intros Hok. unfold Registry.popleft. destruct (probe_states c); simpl; [auto|].
    apply (registry_ok_same mx c); auto. }
  if_inv H.
  { injection H as <-. simpl. split; [reflexivity|]. split; [exact Hc | right; now left]. }
  assert (Hlt : probes_sent r1 < max_probes (scanner (Driver.world d))) by lia.
  destruct (probe_sent_time r1).
  - destruct (inter_packet_interval_per_host _); [|discriminate].
    destruct (Qlt_le_dec _ _); injection H as <-; simpl;
      (split; [reflexivity|]; split; [exact Hc|]).
    + right; now left.
    + right; right. split; [reflexivity|]. now exists r1.
  - injection H as <-. simpl. split; [reflexivity|]. split; [exact Hc|].
    right; right. split; [reflexivity|]. now exists r1.
Qed.

Lemma connect_pass_frame (env : Env) (ps : nat) (d d' : Driver.Driver) (sent : bool) :
  Driver.connect_pass env ps d = Ok (sent, d') ->
  counters (Driver.world d') = counters (Driver.world d) /\
  Driver.pc d' = Driver.pc d /\
  sent = connect_counts_as_sent env (connect_result env (connect_calls (Driver.world d))) /\
  same_essence (container (Driver.world d)) (container (Driver.world d')) /\
  (fd_fresh env -> wired (container (Driver.world d)) -> wired (container (Driver.world d'))).
Proof.
  unfold Driver.connect_pass, time_time. intros H. simpl in H.
  destruct (socket_errno env _) as [errno|]; [if_inv H|].
  bind_inv H as r Er. if_inv H.
  set (outcome := connect_result env (connect_calls (Driver.world d))) in *.
  bind_inv H as [sent' w1] E1.
  assert (H1 : sent' = connect_counts_as_sent env outcome /\
               counters w1 = counters (Driver.world d) /\
               container w1 = container (Driver.world d)).
  { unfold connect_counts_as_sent.
    destruct (python_major env =? 2) eqn:Epy; simpl.
    - destruct outcome; injection E1 as <- <-; auto.
    - destruct outcome; [injection E1 as <- <-; auto| |].
      + if_inv E1. injection E1 as <- <-. auto.
      + if_inv E1. if_inv E1; injection E1 as <- <-; auto. }
  destruct H1 as (Hs & Hc & Hk).
  bind_inv H as c E2. injection H as <- <-. simpl.
  rewrite Hk in E2. simpl in E2.
  apply set_socket_spec in E2 as (He & _ & _ & Hw).
  split; [exact Hc|]. split; [reflexivity|]. split; [exact Hs|]. split; [exact He|].
  intros Hfresh. apply Hw, Hfresh.
Qed.

Lemma update_stats_spec (env : Env) (ps : nat) (w w' : World) :
  Driver.update_stats env ps w = Ok w' ->
  packet_overhead (scanner w') = packet_overhead (scanner w) /\
  max_probes (scanner w') = max_probes (scanner w) /\
  probes_sent_count (scanner w') = probes_sent_count (scanner w) + 1 /\
  bytes_sent (scanner w') = bytes_sent (scanner w) + packet_overhead (scanner w) /\
  exists r r',
    objects (container w) !! ps = Some r /\
    objects (container w') = <[ps := r']> (objects (container w)) /\
    probes_sent r' = probes_sent r + 1 /\ socket r' = socket r /\
    socket_list (container w') = socket_list (container w) /\
    poller (container w') = poller (container w) /\
    probe_states_by_fd (container w') = probe_states_by_fd (container w).
Proof.
  unfold Driver.update_stats, time_time, Registry.get. simpl. intros H.
  destruct (objects (container w) !! ps) as [r|] eqn:Hr; simpl in H; [|discriminate].
  injection H as <-. simpl.
  repeat (split; [reflexivity || lia|]).
  exists r, (with_probe_sent_time (Some (clock env (time_calls w)))
               (with_probes_sent (probes_sent r + 1) r)).
  split; [reflexivity|].
  unfold Registry.next. simpl.
  destruct (probe_states (container w)); simpl; repeat split; reflexivity.
Qed.

(** The step changes the two counters only when a connect pass ends the loop
    [while not sent], and then by one probe and one packet overhead. *)
Lemma step_counters (env : Env) (d d' : Driver.Driver) :
  Driver.step env d = Ok d' ->
  let s := scanner (Driver.world d) in
  let s' := scanner (Driver.world d') in
  packet_overhead s' = packet_overhead s /\
  max_probes s' = max_probes s /\
  match Driver.pc d with
  | Driver.AtConnect _ _ =>
      if connect_counts_as_sent env (connect_result env (connect_calls (Driver.world d)))
      then probes_sent_count s' = probes_sent_count s + 1 /\
           bytes_sent s' = bytes_sent s + packet_overhead s
      else probes_sent_count s' = probes_sent_count s /\ bytes_sent s' = bytes_sent s
  | _ => probes_sent_count s' = probes_sent_count s /\ bytes_sent s' = bytes_sent s
  end.
Proof.
  unfold Driver.step. intros H.
  assert (Hframe : forall w w' : World, counters w' = counters w ->
            packet_overhead (scanner w') = packet_overhead (scanner w) /\
            max_probes (scanner w') = max_probes (scanner w) /\
            probes_sent_count (scanner w') = probes_sent_count (scanner w) /\
            bytes_sent (scanner w') = bytes_sent (scanner w)).
  { intros w w' Hc. unfold counters in Hc. injection Hc as -> -> -> ->. auto. }
  destruct (Driver.pc d) as [| |[|k]|k ps| | |] eqn:Hpc; cbv zeta.
  - if_inv H.
    + bind_inv H as d1 E1. injection H as <-. simpl.
      apply (refill_frame 0) in E1 as (Hc & _). now apply Hframe.
    + injection H as <-. simpl. auto.
  - bind_inv H as [o w1] E1. simpl in H. apply wait_pass_frame in E1.
    destruct o.
    + bind_inv H as [n w2] E2. injection H as <-. simpl.
      apply get_available_quota_packets_frame in E2 as [E2 _].
      apply Hframe. congruence.
    + injection H as <-. simpl. now apply Hframe.
  - injection H as <-. simpl. auto.
  - unfold time_time in H. simpl in H. if_inv H.
    + destruct (Registry.peekleft _) as [ps|]; [|discriminate].
      apply (send_pass_frame 0) in H as (Hc & _). simpl in Hc. now apply Hframe in Hc.
    + if_inv H; injection H as <-; simpl; auto.
  - bind_inv H as [sent d1] E1. apply connect_pass_frame in E1 as (Hc & _ & Hs & _).
    rewrite <- Hs. apply Hframe in Hc as (Ho & Hm & Hp & Hb).
    destruct sent.
    + bind_inv H as w1 E2. injection H as <-. simpl.
      apply update_stats_spec in E2 as (Ho' & Hm' & Hp' & Hb' & _).
      repeat split; congruence.
    + injection H as <-. auto.
  - unfold time_time in H. simpl in H. destruct (Qlt_le_dec _ _).
    + bind_inv H as [b w1] E1. injection H as <-. simpl.
      apply receive_packets_counters in E1. now apply Hframe in E1.
    + injection H as <-. simpl. auto.
  - bind_inv H as [b w1] E1. simpl in H.
    destruct (Driver.last_send_time d); [|discriminate]. injection H as <-. simpl.
    apply receive_packets_counters in E1. now apply Hframe in E1.
  - injection H as <-. auto.
Qed.

(** ** The scan as a whole *)

Lemma step_budget (env : Env) (d d' : Driver.Driver) :
  Driver.step env d = Ok d' -> budget_kept (Driver.world d) -> budget_kept (Driver.world d').
Proof.
  intros H Hb. apply step_counters in H as (Ho & _ & Hc). unfold budget_kept in *.
  rewrite Ho. destruct (Driver.pc d); try (destruct Hc as [-> ->]; exact Hb).
  destruct (connect_counts_as_sent _ _); destruct Hc as [-> ->]; lia.
Qed.

Lemma run_budget (env : Env) (n : nat) (d d' : Driver.Driver) :
  Driver.run env n d = Ok d' ->
  packet_overhead (scanner (Driver.world d')) = packet_overhead (scanner (Driver.world d)) /\
  max_probes (scanner (Driver.world d')) = max_probes (scanner (Driver.world d)) /\
  (budget_kept (Driver.world d) -> budget_kept (Driver.world d')).
Proof.
  revert d. induction n as [|n IH]; intros d; simpl.
  - intros [= <-]. auto.
  - intros H. bind_inv H as d1 E1. apply IH in H as (Ho & Hm & Hb).
    pose proof (step_budget _ _ _ E1) as Hb1.
    apply step_counters in E1 as (Ho1 & Hm1 & _).
    split; [congruence|]. split; [congruence | auto].
Qed.

(** C7, as the spec states it, fails: a connect that returns without an
    exception leaves [sent] false, so the attempt is repeated with a new
    socket and neither counter moves.  On a host where every connect
    returns at once, the step from the tenth to the eleventh state of the
    scan makes the eighth connect, and after it both counters still stand
    at 0. *)
Lemma returned_connect_is_not_counted :
  exists d d',
    Driver.start_scan immediate_env 10 (Example.scan_world 1) = Ok d /\
    Driver.step immediate_env d = Ok d' /\
    connect_calls (Driver.world d) = 7%nat /\
    connect_calls (Driver.world d') = 8%nat /\
    Driver.pc d' = Driver.pc d /\
    probes_sent_count (scanner (Driver.world d')) = 0 /\
    bytes_sent (scanner (Driver.world d')) = 0.
Proof.
  destruct (Driver.start_scan immediate_env 10 (Example.scan_world 1)) as [d| |] eqn:E;
    [|vm_compute in E; discriminate..].
  destruct (Driver.step immediate_env d) as [d'| |] eqn:E';
    [|vm_compute in E; injection E as <-; vm_compute in E'; discriminate..].
  exists d, d'. split; [reflexivity|]. split; [exact E'|].
  vm_compute in E. injection E as <-. vm_compute in E'. injection E' as <-.
  repeat split; reflexivity.
Qed.

(** C7 (amended): the scanner starts with both counters at 0 and a packet
    overhead of 74 bytes, 54 on Windows.  After any number of steps of
    [start_scan] the overhead is unchanged and [bytes_sent =
    packet_overhead * probes_sent_count].  A send attempt is counted when
    its connect ends the loop [while not sent]: when it is refused with
    "in progress" or with "network unreachable", and under Python 2 with
    any socket error; the step then adds one probe and one packet
    overhead.  A connect that returns without an exception is not counted
    and is made again, and every other step leaves both counters as they
    are. *)
Theorem bytes_sent_accounting (env : Env) (w : World) (n : nat) (d : Driver.Driver) :
  budget_kept w ->
  Driver.start_scan env n w = Ok d ->
  let s := scanner (Driver.world d) in
  packet_overhead s = packet_overhead (scanner w) /\
  bytes_sent s = packet_overhead s * probes_sent_count s /\
  (forall d', Driver.step env d = Ok d' ->
     let s' := scanner (Driver.world d') in
     packet_overhead s' = packet_overhead s /\
     match Driver.pc d with
     | Driver.AtConnect _ _ =>
         if connect_counts_as_sent env (connect_result env (connect_calls (Driver.world d)))
         then probes_sent_count s' = probes_sent_count s + 1 /\
              bytes_sent s' = bytes_sent s + packet_overhead s
         else probes_sent_count s' = probes_sent_count s /\ bytes_sent s' = bytes_sent s
     | _ => probes_sent_count s' = probes_sent_count s /\ bytes_sent s' = bytes_sent s
     end) /\
  connect_counts_as_sent env (ConnectOSError 101) = true /\
  connect_counts_as_sent env ConnectReturns = false /\
  (forall limits w0,
     Scanner.init env limits = Ok w0 ->
     packet_overhead (scanner w0) = match platform env with Win32 => 54 | _ => 74 end /\
     bytes_sent (scanner w0) = 0 /\ probes_sent_count (scanner w0) = 0).
Proof.
  intros Hb H. unfold Driver.start_scan in H. bind_inv H as d0 E0.
  apply (start_scan_begin_frame 0) in E0 as (Hc & _ & _).
  apply run_budget in H as (Ho & _ & Hk). cbv zeta.
  unfold counters in Hc. injection Hc as Hc1 Hc2 Hc3 Hc4.
  split; [congruence|]. split.
  - apply Hk. unfold budget_kept in *. congruence.
  - split; [|split; [|split]].
    + intros d' Hs. apply step_counters in Hs as (Ho' & _ & Hs). split; assumption.
    + unfold connect_counts_as_sent. apply orb_true_r.
    + reflexivity.
    + intros limits w0 Hi. unfold Scanner.init in Hi. bind_inv Hi as pc E. injection Hi as <-.
      simpl. unfold Scanner.packet_overhead_for. now destruct (platform env).
Qed.

Lemma bytes_sent_accounting_witness :
  exists d,
    Driver.start_scan Example.env 30 (Example.scan_world 1) = Ok d /\
    probes_sent_count (scanner (Driver.world d)) = 4 /\
    bytes_sent (scanner (Driver.world d)) = 74 * 4.
Proof.
  destruct (Driver.start_scan Example.env 30 (Example.scan_world 1)) as [d| |] eqn:E;
    [|vm_compute in E; discriminate..].
  exists d. split; [reflexivity|].
  assert (Hn : probes_sent_count (scanner (Driver.world d)) = 4)
    by (vm_compute in E; injection E as <-; reflexivity).
  split; [exact Hn|].
  destruct (bytes_sent_accounting Example.env (Example.scan_world 1) 30 d) as (Ho & Hb & _).
  - vm_compute. reflexivity.
  - exact E.
  - rewrite Hb, Ho, Hn. vm_compute. reflexivity.
Defined.

Lemma step_scan_ok (env : Env) (mx : Z) (d d' : Driver.Driver) :
  0 <= mx -> fd_fresh env ->
  Driver.step env d = Ok d' -> scan_ok mx d -> scan_ok mx d'.
Proof.
  intros Hmx Hfresh H (Hm & Hok & Hpc).
  pose proof (step_counters _ _ _ H) as (_ & Hm' & _). cbv zeta in Hm'.
  split; [congruence|]. clear Hm'.
  unfold Driver.step in H.
  destruct (Driver.pc d) as [| |[|k]|k ps| | |] eqn:Epc.
  - if_inv H.
    + bind_inv H as d1 E1. injection H as <-. simpl.
      apply (refill_frame mx) in E1 as (_ & _ & Hr). split; [auto | rewrite ?Epc; exact I].
    + injection H as <-. simpl. split; [exact Hok | rewrite ?Epc; exact I].
  - bind_inv H as [o w1] E1. simpl in H. apply (wait_pass_ok mx) in E1; [|exact Hok].
    destruct o.
    + bind_inv H as [n w2] E2. injection H as <-. simpl.
      apply get_available_quota_packets_frame in E2 as [_ E2]. rewrite E2.
      split; [exact E1 | rewrite ?Epc; exact I].
    + injection H as <-. simpl. split; [exact E1 | rewrite ?Epc; exact I].
  - injection H as <-. simpl. split; [exact Hok | rewrite ?Epc; exact I].
  - unfold time_time in H. simpl in H. if_inv H.
    + destruct (Registry.peekleft _) as [ps|]; [|discriminate].
      apply (send_pass_frame mx) in H as (Hc & Hr & Hp). simpl in Hc, Hr.
      split; [auto|].
      destruct Hp as [->|[->|(-> & r & Hr1 & Hlt)]]; try exact I.
      exists r. split; [exact Hr1|].
      unfold counters in Hc. injection Hc as _ Hc _ _. simpl in Hc. lia.
    + if_inv H; injection H as <-; simpl; (split; [exact Hok | rewrite ?Epc; rewrite ?Epc; exact I]).
  - bind_inv H as [sent d1] E1.
    apply connect_pass_frame in E1 as (_ & Hpc1 & _ & He & Hw).
    destruct Hok as [Hb Hwired]. destruct Hpc as (r0 & Hr0 & Hlt).
    assert (Hb1 : bounded mx (container (Driver.world d1)))
      by (now apply (bounded_same_essence mx (container (Driver.world d)))).
    assert (Hr1 : exists r1, objects (container (Driver.world d1)) !! ps = Some r1 /\
                             probes_sent r1 < mx).
    { specialize (He ps). rewrite Hr0 in He. simpl in He.
      destruct (objects (container (Driver.world d1)) !! ps) as [r1|]; [|discriminate].
      exists r1. split; [reflexivity|].
      unfold essence in He. simpl in He. injection He as He _ _. lia. }
    destruct sent.
    + bind_inv H as w1 E2. injection H as <-. simpl.
      apply update_stats_spec in E2
        as (_ & _ & _ & _ & r & r' & Hr & Ho & Hs & Hsock & Hsl & Hp & Hby).
      destruct Hr1 as (r1 & Hr1 & Hlt1). rewrite Hr in Hr1. injection Hr1 as <-.
      split; [|rewrite ?Epc; exact I]. split.
      * eapply bounded_insert; [exact Ho| |exact Hb1]. lia.
      * apply (wired_insert_same_socket (container (Driver.world d1)) _ ps r r');
          auto.
    + injection H as <-. rewrite Hpc1, Epc. split; [|exact Hr1]. split; auto.
  - unfold time_time in H. simpl in H. destruct (Qlt_le_dec _ _).
    + bind_inv H as [b w1] E1. injection H as <-. simpl.
      apply (receive_packets_ok mx) in E1; [|exact Hok]. split; [exact E1 | rewrite ?Epc; exact I].
    + injection H as <-. simpl. split; [exact Hok | rewrite ?Epc; exact I].
  - bind_inv H as [b w1] E1. simpl in H.
    destruct (Driver.last_send_time d); [|discriminate]. injection H as <-. simpl.
    apply (receive_packets_ok mx) in E1; [|exact Hok]. split; [exact E1 | rewrite ?Epc; exact I].
  - injection H as <-. rewrite Epc. split; [exact Hok | rewrite ?Epc; exact I].
Qed.

Lemma run_scan_ok (env : Env) (mx : Z) (n : nat) (d d' : Driver.Driver) :
  0 <= mx -> fd_fresh env ->
  Driver.run env n d = Ok d' -> scan_ok mx d -> scan_ok mx d'.
Proof.
  intros Hmx Hfresh. revert d. induction n as [|n IH]; intros d; simpl.
  - now intros [= <-].
  - intros H Hd. bind_inv H as d1 E1. apply IH in H; [exact H|].
    now apply (step_scan_ok env mx d).
Qed.

Lemma start_scan_ok (env : Env) (w : World) (n : nat) (d : Driver.Driver) :
  0 <= max_probes (scanner w) -> fd_fresh env -> registry_is_new (container w) ->
  Driver.start_scan env n w = Ok d -> scan_ok (max_probes (scanner w)) d.
Proof.
  intros Hmx Hfresh Hnew H. unfold Driver.start_scan in H. bind_inv H as d0 E0.
  apply (start_scan_begin_frame (max_probes (scanner w))) in E0 as (Hc & Hpc & Hok).
  apply (run_scan_ok env _ n d0); try assumption.
  split; [|split; [auto|now rewrite Hpc]].
  unfold counters in Hc. now injection Hc as _ Hc _ _.
Qed.

(** C3, as stated, fails for a negative probe budget ([-r -2] gives
    [max_probes = -1]): the objects the first refill creates have
    [probes_sent = 0]. *)
Lemma probes_sent_above_negative_budget :
  exists d ps r,
    Driver.start_scan Example.env 1 (Example.scan_world (-2)) = Ok d /\
    objects (container (Driver.world d)) !! ps = Some r /\
    ~ probes_sent r <= max_probes (scanner (Driver.world d)).
Proof.
  destruct (Driver.start_scan Example.env 1 (Example.scan_world (-2))) as [d| |] eqn:E;
    [|vm_compute in E; discriminate..].
  exists d, 0%nat.
  assert (Hr : (probes_sent <$> objects (container (Driver.world d)) !! 0%nat) = Some 0 /\
               max_probes (scanner (Driver.world d)) = -1)
    by (vm_compute in E; injection E as <-; vm_compute; auto).
  destruct Hr as [Hr Hm].
  destruct (objects (container (Driver.world d)) !! 0%nat) as [r|]; [|discriminate].
  exists r. split; [reflexivity|]. split; [reflexivity|].
  simpl in Hr. injection Hr as ->. rewrite Hm. lia.
Qed.

(** C3 (amended): when [max_probes] is not negative, in every state
    [start_scan] reaches every object has [probes_sent <= max_probes]; and
    when the send loop visits an object (the left-most of the deque) with
    [probes_sent = max_probes] whose last probe is more than one per-host
    interval old, the pass succeeds, leaves the object tombstoned and
    without a socket, takes it out of the deque and goes on with the send
    loop: no probe is sent and [probes_sent] stays as it is. *)
Theorem probes_sent_bounded_and_retired (env : Env) (w : World) (n : nat) (d : Driver.Driver) :
  0 <= max_probes (scanner w) -> fd_fresh env -> registry_is_new (container w) ->
  Driver.start_scan env n w = Ok d ->
  let c := container (Driver.world d) in
  let s := scanner (Driver.world d) in
  (forall ps r, objects c !! ps = Some r -> probes_sent r <= max_probes s) /\
  (forall k ps r t i,
      Driver.pc d = Driver.AtSend (S k) ->
      0 < count c -> Registry.peekleft c = Some ps -> objects c !! ps = Some r ->
      probes_sent r = max_probes s ->
      probe_sent_time r = Some t -> inter_packet_interval_per_host s = Some i ->
      (t + i < clock env (time_calls (Driver.world d)))%Q ->
      exists d' r',
        Driver.step env d = Ok d' /\
        Driver.pc d' = Driver.AtSend k /\
        objects (container (Driver.world d')) !! ps = Some r' /\
        deleted r' = true /\
        (deleted r = false -> socket r' = None) /\
        probes_sent r' = probes_sent r /\
        probe_states (container (Driver.world d')) = tail (probe_states c) /\
        probes_sent_count (scanner (Driver.world d')) = probes_sent_count s).
Proof.
  intros Hmx Hfresh Hnew H. cbv zeta.
  pose proof (start_scan_ok env w n d Hmx Hfresh Hnew H) as (Hm & [Hb Hw] & _).
  split.
  - intros ps r Hr. rewrite Hm. now apply (Hb ps).
  - intros k ps r t i Hpc Hcount Hpeek Hr Hsent Ht Hi Hdue.
    unfold Driver.step. rewrite Hpc. unfold time_time. simpl.
    replace (0 <? count (container (Driver.world d))) with true by lia.
    rewrite Hpeek. unfold Driver.send_pass. simpl.
    unfold Registry.get at 1. rewrite Hr. simpl.
    replace (max_probes (scanner (Driver.world d)) <=? probes_sent r) with true by lia.
    rewrite Ht, Hi. simpl.
    destruct (Qlt_le_dec (t + i) (clock env (time_calls (Driver.world d)))) as [_|Hge];
      [|exfalso; apply (Qlt_irrefl (t + i)); eapply Qlt_le_trans; eassumption].
    unfold Registry.peekleft in Hpeek.
    destruct (probe_states (container (Driver.world d))) as [|ps0 q] eqn:Hq; [discriminate|].
    injection Hpeek as ->.
    destruct (deleted r) eqn:Hdel; simpl.
    + unfold Registry.get. rewrite Hr. simpl. rewrite Hdel. simpl.
      unfold Registry.popleft. rewrite Hq. simpl.
      eexists. exists r. split; [reflexivity|]. simpl.
      repeat split; try assumption; try reflexivity. discriminate.
    + destruct (wired_schedule_delete_progress ps _ r Hw Hr) as [c1 E1].
      rewrite E1. simpl.
      apply schedule_delete_spec in E1 as ((Hq1 & Hc1) & _ & (r1 & Hr1 & Ho) & _).
      rewrite Hr in Hr1. injection Hr1 as <-.
      unfold Registry.get. rewrite Ho, lookup_insert_eq. simpl.
      unfold Registry.popleft. rewrite Hq1, Hq. simpl.
      eexists. eexists. split; [reflexivity|]. simpl.
      rewrite Ho, lookup_insert_eq.
      repeat split; reflexivity.
Qed.

Lemma example_fd_fresh : fd_fresh Example.env.
Proof.
  intros open_fds Hin. unfold Example.env, fresh_fd in Hin.
  assert (Hmax : forall l x, In x l -> x <= fold_right Z.max 2 l).
  { induction l as [|y l IH]; simpl; [easy|]. intros x [->|Hx]; [lia|].
    specialize (IH x Hx). lia. }
  specialize (Hmax _ _ Hin). lia.
Defined.

Lemma probes_sent_bounded_and_retired_witness :
  exists d d' r',
    Driver.start_scan Example.env 66 (Example.scan_world 1) = Ok d /\
    (forall ps r, objects (container (Driver.world d)) !! ps = Some r ->
                  probes_sent r <= max_probes (scanner (Driver.world d))) /\
    Driver.step Example.env d = Ok d' /\
    objects (container (Driver.world d')) !! 0%nat = Some r' /\
    deleted r' = true.
Proof.
  destruct (Driver.start_scan Example.env 66 (Example.scan_world 1)) as [d| |] eqn:E;
    [|vm_compute in E; discriminate..].
  destruct (probes_sent_bounded_and_retired Example.env (Example.scan_world 1) 66 d)
    as [Hb Hretire].
  - vm_compute. discriminate.
  - exact example_fd_fresh.
  - repeat split.
  - exact E.
  - assert (Hvisit : exists r t,
               Driver.pc d = Driver.AtSend 4 /\
               0 < count (container (Driver.world d)) /\
               Registry.peekleft (container (Driver.world d)) = Some 0%nat /\
               objects (container (Driver.world d)) !! 0%nat = Some r /\
               probes_sent r = max_probes (scanner (Driver.world d)) /\
               probe_sent_time r = Some t /\
               inter_packet_interval_per_host (scanner (Driver.world d)) = Some (1 # 2) /\
               (t + (1 # 2) < clock Example.env (time_calls (Driver.world d)))%Q).
    { vm_compute in E. injection E as <-. do 2 eexists.
      repeat split; vm_compute; reflexivity. }
    destruct Hvisit as (r & t & H1 & H2 & H3 & H4 & H5 & H6 & H7 & H8).
    destruct (Hretire 3%nat 0%nat r t (1 # 2) H1 H2 H3 H4 H5 H6 H7 H8)
      as (d' & r' & Hs & _ & Hr' & Hdel & _).
    exists d, d', r'. auto.
Defined.

(** ** Decimal text, in general *)

Lemma digit_of_digit_char (d : Z) : 0 <= d < 10 -> Py.digit_of (Py.digit_char d) = Some d.
Proof.
  intros H.
  assert (E : forallb (fun d => match Py.digit_of (Py.digit_char d) with
                                | Some v => v =? d
                                | None => false
                                end) (map Z.of_nat (seq 0 10)) = true) by reflexivity.
  rewrite forallb_forall in E. specialize (E d (below_in_range 10 d H)).
  destruct (Py.digit_of (Py.digit_char d)); [|discriminate]. f_equal. lia.
Qed.

(** Reading back what [str] wrote: the digits of [n] shift the accumulator
    and add [n]. *)
Lemma int_digits_str_of_nat_aux (fuel : nat) (n : Z) (acc : string) (a : Z) (f : bool) :
  0 <= n < 10 ^ Z.of_nat (S fuel) ->
  exists k, 0 <= k /\
    Py.int_digits a f (Py.str_of_nat_aux (S fuel) n acc) = Py.int_digits (a * 10 ^ k + n) true acc.
Proof.
  revert n acc a f. induction fuel as [|fuel IH]; intros n acc a f Hn;
    (assert (Hmod : 0 <= n mod 10 < 10) by (apply Z.mod_pos_bound; lia));
    (assert (Hdiv : n = 10 * (n / 10) + n mod 10) by (apply Z.div_mod; lia)).
  - assert (E : n / 10 = 0) by (apply Z.div_small; simpl in Hn; lia).
    exists 1. split; [lia|]. simpl. rewrite E. simpl.
    rewrite digit_of_digit_char by exact Hmod. f_equal. lia.
  - remember (S fuel) as fuel1 eqn:Efuel. simpl Py.str_of_nat_aux.
    destruct (n / 10 =? 0) eqn:E.
    + exists 1. split; [lia|]. simpl Py.int_digits.
      rewrite digit_of_digit_char by exact Hmod. f_equal. lia.
    + assert (Hn' : 0 <= n / 10 < 10 ^ Z.of_nat fuel1).
      { split; [apply Z.div_pos; lia|]. apply Z.div_lt_upper_bound; [lia|].
        replace (Z.of_nat (S fuel1)) with (Z.of_nat fuel1 + 1) in Hn by lia.
        rewrite Z.pow_add_r in Hn by lia. lia. }
      subst fuel1.
      destruct (IH (n / 10) (String (Py.digit_char (n mod 10)) acc) a f Hn') as (k & Hk & ->).
      exists (k + 1). split; [lia|]. simpl Py.int_digits.
      rewrite digit_of_digit_char by exact Hmod. f_equal.
      rewrite Z.pow_add_r by lia. lia.
Qed.

Lemma digit_not_space (c : ascii) : Py.is_digit c = true -> Py.is_c_space c = false.
Proof. destruct c as [[] [] [] [] [] [] [] []]; vm_compute; congruence. Qed.

Lemma digit_is_ascii (c : ascii) : Py.is_digit c = true -> (Py.byte_value c <? 128) = true.
Proof. destruct c as [[] [] [] [] [] [] [] []]; vm_compute; congruence. Qed.

Lemma skip_left_digits (s : string) : all_digits s = true -> Py.skip_left s = s.
Proof.
  destruct s as [|c s]; [reflexivity|]. simpl. intros H. apply andb_prop in H as [H _].
  now rewrite (digit_not_space c H).
Qed.

Lemma skip_right_digits (s : string) : all_digits s = true -> Py.skip_right s = s.
Proof.
  induction s as [|c s IH]; [reflexivity|]. simpl. intros H. apply andb_prop in H as [Hc Hs].
  rewrite (IH Hs), (digit_not_space c Hc). now destruct s.
Qed.

Lemma digits_are_ascii (s : string) : all_digits s = true -> Py.is_ascii s = true.
Proof.
  induction s as [|c s IH]; [reflexivity|]. simpl. intros H. apply andb_prop in H as [Hc Hs].
  now rewrite (digit_is_ascii c Hc), (IH Hs).
Qed.

Lemma int_on_digits (s : string) :
  all_digits s = true ->
  Py.int s = match Py.int_digits 0 false s with
             | Some z => Ok z
             | None => Raise ValueError
             end.
Proof.
  intros H. unfold Py.int.
  rewrite (digits_are_ascii s H), (skip_left_digits s H), (skip_right_digits s H).
  destruct s as [|c s]; [reflexivity|].
  simpl in H. apply andb_prop in H as [Hc _].
  destruct c as [[] [] [] [] [] [] [] []]; try reflexivity; vm_compute in Hc; discriminate.
Qed.

Lemma pow10_above (n : Z) : 0 <= n -> n < 10 ^ Z.of_nat (S (Z.to_nat (Z.log2 n))).
Proof.
  intros H. rewrite Nat2Z.inj_succ, Z2Nat.id by apply Z.log2_nonneg.
  destruct (Z.eq_dec n 0) as [->|Hne]; [reflexivity|].
  apply Z.lt_le_trans with (2 ^ Z.succ (Z.log2 n)).
  - apply Z.log2_spec. lia.
  - apply Z.pow_le_mono_l. split; [lia | lia].
Qed.

(** [int(str(n)) == n] *)
Lemma int_str_of_Z (n : Z) : 0 <= n -> Py.int (Py.str_of_Z n) = Ok n.
Proof.
  intros H. rewrite int_on_digits by now apply str_of_Z_digits.
  unfold Py.str_of_Z. replace (n <? 0) with false by lia.
  destruct (int_digits_str_of_nat_aux _ n EmptyString 0 false (conj H (pow10_above n H)))
    as (k & _ & ->).
  simpl. f_equal; lia.
Qed.

Lemma str_of_Z_not_empty (n : Z) : Py.str_of_Z n <> EmptyString.
Proof.
  unfold Py.str_of_Z. destruct (n <? 0); [discriminate|].
  simpl. destruct (n / 10 =? 0); [discriminate|].
  intros E. pose proof (str_of_nat_aux_length (Z.to_nat (Z.log2 n)) (n / 10)
                          (String (Py.digit_char (n mod 10)) EmptyString)) as Hl.
  rewrite E in Hl. simpl in Hl. lia.
Qed.

Lemma digits_free_of (sep : ascii) (s : string) :
  Py.is_digit sep = false -> all_digits s = true -> free_of sep s.
Proof.
  intros Hsep. induction s as [|c s IH]; simpl; [auto|].
  intros H. apply andb_prop in H as [Hc Hs]. split; [|auto].
  destruct (Ascii.eqb_spec c sep) as [->|]; [congruence | reflexivity].
Qed.

Lemma free_of_app (sep : ascii) (s t : string) :
  free_of sep s -> free_of sep t -> free_of sep (s ++ t).
Proof.
  induction s as [|c s IH]; [now intros|].
  intros [Hc Hs] Ht. change (free_of sep (String c (s ++ t))). split; auto.
Qed.

Lemma split_free (sep : ascii) (s : string) : free_of sep s -> Py.split sep s = [s].
Proof.
  induction s as [|c s IH]; [reflexivity|]. intros [Hc Hs]. simpl.
  now rewrite Hc, (IH Hs).
Qed.

Lemma split_app (sep : ascii) (s t : string) :
  free_of sep s -> Py.split sep (s ++ String sep t) = s :: Py.split sep t.
Proof.
  induction s as [|c s IH].
  - intros _. change (Py.split sep (String sep t) = EmptyString :: Py.split sep t).
    simpl. now rewrite Ascii.eqb_refl.
  - intros [Hc Hs]. change (Py.split sep (String c (s ++ String sep t)) = String c s :: Py.split sep t).
    simpl. now rewrite Hc, (IH Hs).
Qed.

Lemma contains_free (sep : ascii) (s : string) : free_of sep s -> Py.contains sep s = false.
Proof.
  induction s as [|c s IH]; [reflexivity|]. intros [Hc Hs]. simpl.
  rewrite Ascii.eqb_sym, Hc. now apply IH.
Qed.

Lemma contains_app (sep : ascii) (s t : string) : Py.contains sep (s ++ String sep t) = true.
Proof.
  induction s as [|c s IH].
  - change (Py.contains sep (String sep t) = true). simpl. now rewrite Ascii.eqb_refl.
  - change (Py.contains sep (String c (s ++ String sep t)) = true). simpl.
    rewrite IH. apply orb_true_r.
Qed.

(** ** Port lists: ranges, bounds, and the two parsers *)

Lemma str_of_Z_free_of (sep : ascii) (n : Z) :
  Py.is_digit sep = false -> 0 <= n -> free_of sep (Py.str_of_Z n).
Proof. intros Hsep Hn. apply digits_free_of; [exact Hsep | now apply str_of_Z_digits]. Qed.

(** A range item written with [str]. *)
Lemma ports_of_item_range (lo hi : Z) :
  0 <= lo -> 0 <= hi ->
  Ports.ports_of_item (Py.str_of_Z lo ++ "-" ++ Py.str_of_Z hi) = Ok (Py.range lo (hi + 1)).
Proof.
  intros Hlo Hhi. unfold Ports.ports_of_item.
  change (Py.str_of_Z lo ++ "-" ++ Py.str_of_Z hi)%string
    with (Py.str_of_Z lo ++ String "-" (Py.str_of_Z hi))%string.
  rewrite contains_app, split_app by (apply str_of_Z_free_of; [reflexivity | exact Hlo]).
  rewrite split_free by (apply str_of_Z_free_of; [reflexivity | exact Hhi]).
  simpl. rewrite !int_str_of_Z by assumption. reflexivity.
Qed.

Lemma ports_of_item_single (p : Z) : 0 <= p -> Ports.ports_of_item (Py.str_of_Z p) = Ok [p].
Proof.
  intros Hp. unfold Ports.ports_of_item.
  rewrite contains_free by (apply str_of_Z_free_of; [reflexivity | exact Hp]).
  now rewrite int_str_of_Z.
Qed.

Lemma sorted_nil_inv {A K : Type} (lt : K -> K -> bool) (key : A -> K) (l : list A) :
  Py.sorted lt key l = [] -> l = [].
Proof.
  intros H. pose proof (sorted_perm lt key l) as Hp. rewrite H in Hp.
  now apply Permutation_nil in Hp.
Qed.

(** [set_probes] on the range [lo-hi] stores the ports from [lo] to [hi];
    when the bounds are in the wrong order it stores nothing and raises
    nothing, and [start_scan] then ends the process with "No probes set"
    and status 0. *)
Theorem set_probes_range (lo hi : Z) (w : World) :
  0 <= lo -> 0 <= hi ->
  exists w',
    Scanner.set_probes (Py.str_of_Z lo ++ "-" ++ Py.str_of_Z hi) w = Ok w' /\
    Permutation (probes (scanner w')) (Py.range lo (hi + 1)) /\
    (hi < lo ->
     probes (scanner w') = [] /\
     forall env n, Driver.start_scan env n w' = Exit E_no_probes 0).
Proof.
  intros Hlo Hhi. unfold Scanner.set_probes, Ports.set_probes_list.
  assert (Hfree : free_of "," (Py.str_of_Z lo ++ "-" ++ Py.str_of_Z hi)).
  { apply free_of_app; [apply str_of_Z_free_of; [reflexivity | exact Hlo]|].
    split; [reflexivity|]. apply str_of_Z_free_of; [reflexivity | exact Hhi]. }
  rewrite (split_free _ _ Hfree). simpl Ports.ports_of_items.
  rewrite ports_of_item_range by assumption. simpl.
  eexists. split; [reflexivity|]. simpl. split; [apply sorted_perm|].
  intros Hrev.
  assert (E : Py.range lo (hi + 1) = []).
  { unfold Py.range. replace (Z.to_nat (hi + 1 - lo)) with O by lia. reflexivity. }
  rewrite E. simpl. split; [reflexivity|].
  intros env n. reflexivity.
Qed.

Lemma set_probes_range_witness :
  exists w', Scanner.set_probes "9-3" Example.world = Ok w' /\ probes (scanner w') = [] /\
             Driver.start_scan Example.env 5 w' = Exit E_no_probes 0.
Proof.
  destruct (set_probes_range 9 3 Example.world) as (w' & H1 & _ & H3); [lia | lia |].
  exists w'. split; [exact H1|]. destruct H3 as [H3 H4]; [lia|]. split; [exact H3 | apply H4].
Defined.

(** [check_range] *)
Lemma check_range_spec (l acc out : list Z) :
  Ports.check_range l acc = Ok out -> out = acc ++ l /\ Forall valid_port l.
Proof.
  revert acc. induction l as [|p l IH]; intros acc; simpl.
  - intros [= <-]. now rewrite app_nil_r.
  - destruct ((0 <? p) && (p <? 65536)) eqn:E; [|discriminate].
    intros H. apply IH in H as [-> Hl]. rewrite <- app_assoc. split; [reflexivity|].
    constructor; [unfold valid_port; lia | exact Hl].
Qed.

Lemma expand_item_spec (port : string) (acc out : list Z) :
  Ports.expand_item port acc = Ok out ->
  exists ps, Ports.ports_of_item port = Ok ps /\ out = acc ++ ps /\ Forall valid_port ps.
Proof.
  unfold Ports.expand_item, Ports.ports_of_item.
  destruct (Py.contains "-" port).
  - destruct (negb _); [discriminate|].
    destruct (Py.index (Py.split "-" port) 0) as [p0| |]; simpl; try discriminate.
    destruct (Py.int p0) as [lo| |]; simpl; try discriminate.
    destruct (Py.index (Py.split "-" port) 1) as [p1| |]; simpl; try discriminate.
    destruct (Py.int p1) as [hi| |]; simpl; try discriminate.
    intros H. apply check_range_spec in H as [-> Hl]. eauto.
  - destruct (Py.int port) as [p| |]; simpl; try discriminate.
    destruct ((0 <? p) && (p <? 65536)) eqn:E; [|discriminate].
    intros [= <-]. exists [p]. split; [reflexivity|]. split; [reflexivity|].
    constructor; [unfold valid_port; lia | constructor].
Qed.

Lemma expand_items_spec (items : list string) (acc out : list Z) :
  Ports.expand_items items acc = Ok out ->
  Forall valid_port acc ->
  Ports.ports_of_items items acc = Ok out /\ Forall valid_port out.
Proof.
  revert acc. induction items as [|port items IH]; intros acc; simpl.
  - intros [= <-]. auto.
  - destruct (Ports.expand_item port acc) as [l| |] eqn:E; simpl; try discriminate.
    apply expand_item_spec in E as (ps & -> & -> & Hps).
    intros H Hacc. simpl. apply IH; [exact H|]. apply Forall_app. auto.
Qed.

(** Every port [expand_port_list] returns lies in 1..65535. *)
Theorem expand_port_list_in_range (ports : string) (ports_list : list Z) :
  Ports.expand_port_list ports = Ok ports_list -> Forall valid_port ports_list.
Proof.
  unfold Ports.expand_port_list. intros H.
  apply expand_items_spec in H as [_ H]; [exact H | constructor].
Qed.

Lemma expand_port_list_in_range_witness :
  Ports.expand_port_list "80,443,8080-8082" = Ok [80; 443; 8080; 8081; 8082] /\
  Forall valid_port [80; 443; 8080; 8081; 8082].
Proof.
  assert (E : Ports.expand_port_list "80,443,8080-8082" = Ok [80; 443; 8080; 8081; 8082])
    by (vm_compute; reflexivity).
  split; [exact E | exact (expand_port_list_in_range _ _ E)].
Defined.

(** Whatever [expand_port_list] accepts, [set_probes] accepts too, and it
    stores the same ports, reordered by popularity. *)
Theorem set_probes_accepts_expanded (ports : string) (ports_list : list Z) (w : World) :
  Ports.expand_port_list ports = Ok ports_list ->
  exists w', Scanner.set_probes ports w = Ok w' /\
             Permutation (probes (scanner w')) ports_list.
Proof.
  unfold Ports.expand_port_list. intros H.
  apply expand_items_spec in H as [H _]; [|constructor].
  unfold Scanner.set_probes, Ports.set_probes_list. rewrite H. simpl.
  eexists. split; [reflexivity|]. simpl. apply sorted_perm.
Qed.

Lemma set_probes_accepts_expanded_witness :
  exists w', Scanner.set_probes "443,80" Example.world = Ok w' /\
             Permutation (probes (scanner w')) [443; 80].
Proof.
  apply (set_probes_accepts_expanded "443,80" [443; 80] Example.world).
  vm_compute. reflexivity.
Defined.

(** [set_probes] checks no bound: it stores any non-negative number it is
    given, where [expand_port_list] ends the process with status 0 for a
    number outside 1..65535. *)
Theorem set_probes_checks_no_bound (p : Z) (w : World) :
  0 <= p ->
  (exists w', Scanner.set_probes (Py.str_of_Z p) w = Ok w' /\ probes (scanner w') = [p]) /\
  Ports.expand_port_list (Py.str_of_Z p)
  = if (0 <? p) && (p <? 65536) then Ok [p] else Exit (E_port_out_of_range p) 0.
Proof.
  intros Hp.
  assert (Hfree : free_of "," (Py.str_of_Z p))
    by (apply str_of_Z_free_of; [reflexivity | exact Hp]).
  split.
  - unfold Scanner.set_probes, Ports.set_probes_list.
    rewrite (split_free _ _ Hfree). simpl Ports.ports_of_items.
    rewrite ports_of_item_single by exact Hp. simpl. eexists. split; reflexivity.
  - unfold Ports.expand_port_list. rewrite (split_free _ _ Hfree). simpl.
    unfold Ports.expand_item.
    rewrite contains_free by (apply str_of_Z_free_of; [reflexivity | exact Hp]).
    rewrite int_str_of_Z by exact Hp. simpl.
    now destruct ((0 <? p) && (p <? 65536)).
Qed.

Lemma set_probes_checks_no_bound_witness :
  (exists w', Scanner.set_probes "70000" Example.world = Ok w' /\ probes (scanner w') = [70000]) /\
  Ports.expand_port_list "70000" = Exit (E_port_out_of_range 70000) 0.
Proof. apply (set_probes_checks_no_bound 70000 Example.world). lia. Defined.

(** ** [set_probes] against the port spec *)

Lemma map_seq_count_up (a : Z) (k n : nat) :
  map (fun i => a + Z.of_nat i) (seq k n) = count_up n (a + Z.of_nat k).
Proof.
  revert k. induction n as [|n IH]; intros k; [reflexivity|].
  simpl. f_equal. rewrite IH. f_equal. lia.
Qed.

Lemma range_count_up (lo hi : Z) : Py.range lo (hi + 1) = count_up (Z.to_nat (hi - lo + 1)) lo.
Proof.
  unfold Py.range. rewrite map_seq_count_up. f_equal; lia.
Qed.

Lemma ports_of_item_text (item : port_item) :
  item_ok item -> Ports.ports_of_item (item_text item) = Ok (item_ports item).
Proof.
  destruct item as [p|lo hi]; simpl.
  - apply ports_of_item_single.
  - intros [Hlo Hhi]. rewrite ports_of_item_range by assumption. now rewrite range_count_up.
Qed.

Lemma item_text_free_of_comma (item : port_item) : item_ok item -> free_of "," (item_text item).
Proof.
  destruct item as [p|lo hi]; simpl.
  - intros Hp. apply str_of_Z_free_of; [reflexivity | exact Hp].
  - intros [Hlo Hhi]. apply free_of_app; [apply str_of_Z_free_of; [reflexivity | exact Hlo]|].
    change (free_of "," (String "-" (Py.str_of_Z hi))).
    split; [reflexivity|]. apply str_of_Z_free_of; [reflexivity | exact Hhi].
Qed.

Lemma split_spec_text (items : list port_item) :
  items <> [] -> Forall item_ok items ->
  Py.split "," (spec_text items) = map item_text items.
Proof.
  induction items as [|item rest IH]; [contradiction|]. intros _ Hok.
  apply List.Forall_cons_iff in Hok as [Hitem Hrest].
  destruct rest as [|item' rest].
  - simpl. now apply split_free, item_text_free_of_comma.
  - change (spec_text (item :: item' :: rest))
      with (item_text item ++ String "," (spec_text (item' :: rest)))%string.
    rewrite split_app by now apply item_text_free_of_comma.
    rewrite IH by (assumption || discriminate). reflexivity.
Qed.

Lemma ports_of_items_texts (items : list port_item) (acc : list Z) :
  Forall item_ok items ->
  Ports.ports_of_items (map item_text items) acc = Ok (acc ++ spec_ports items).
Proof.
  revert acc. induction items as [|item rest IH]; intros acc Hok.
  - simpl. now rewrite app_nil_r.
  - apply List.Forall_cons_iff in Hok as [Hitem Hrest].
    change (map item_text (item :: rest)) with (item_text item :: map item_text rest).
    cbn [Ports.ports_of_items]. rewrite (ports_of_item_text item Hitem). cbn [bind].
    rewrite (IH _ Hrest). unfold spec_ports. cbn [flat_map]. now rewrite app_assoc.
Qed.

(** The text of a spec is parsed into the ports the spec lists. *)
Lemma set_probes_list_spec (items : list port_item) :
  items <> [] -> Forall item_ok items ->
  Ports.set_probes_list (spec_text items)
  = Ok (Py.sorted Z.ltb Ports.port_sort (spec_ports items)).
Proof.
  intros Hne Hok. unfold Ports.set_probes_list.
  rewrite (split_spec_text items Hne Hok), (ports_of_items_texts items [] Hok). reflexivity.
Qed.

(** The dict of [set_probes] and the rank. *)
Lemma last_position_bound (p : Z) (table : list Z) (position i : nat) :
  last_position p table position = Some i -> (position <= i < position + length table)%nat.
Proof.
  revert position. induction table as [|q rest IH]; intros position; simpl; [discriminate|].
  destruct (last_position p rest (S position)) as [j|] eqn:E.
  - intros [= <-]. apply IH in E. lia.
  - destruct (p =? q); [|discriminate]. intros [= <-]. lia.
Qed.

Lemma build_popularity_dict_rank (table : list Z) (position : nat) (d : gmap Z Z) (p : Z) :
  Ports.build_popularity_dict table (Z.of_nat position) d !! p
  = match last_position p table position with
    | Some i => Some (Z.of_nat i)
    | None => d !! p
    end.
Proof.
  revert position d. induction table as [|q rest IH]; intros position d; [reflexivity|].
  cbn [Ports.build_popularity_dict last_position].
  replace (Z.of_nat position + 1) with (Z.of_nat (S position)) by lia.
  rewrite IH. destruct (last_position p rest (S position)); [reflexivity|].
  destruct (Z.eqb_spec p q) as [->|Hne].
  - apply lookup_insert_eq.
  - apply lookup_insert_ne. congruence.
Qed.

Lemma table_length : Z.of_nat (length Popularity.port_popularity_nmap) = 8344.
Proof. vm_compute. reflexivity. Qed.

Lemma popularity_rank_bound (p : Z) (i : nat) : popularity_rank p = Some i -> Z.of_nat i < 8344.
Proof.
  unfold popularity_rank. intros H.
  apply last_position_bound in H. destruct H as [_ H]. apply Nat2Z.inj_lt in H.
  rewrite Nat.add_0_l, table_length in H. exact H.
Qed.

(** The key [port_sort] gives a port is the key of its rank. *)
Lemma port_sort_rank_key (p : Z) : Ports.port_sort p = rank_key (popularity_rank p).
Proof.
  unfold Ports.port_sort, Ports.port_sort_in, Ports.popularity_dict, popularity_rank.
  pose proof (build_popularity_dict_rank Popularity.port_popularity_nmap 0 ∅ p) as H.
  change (Z.of_nat 0) with 0 in H. rewrite H.
  destruct (last_position p Popularity.port_popularity_nmap 0); [reflexivity|].
  now rewrite lookup_empty.
Qed.

Lemma rank_key_le (p q : Z) :
  Ports.port_sort p <= Ports.port_sort q -> rank_le (popularity_rank p) (popularity_rank q).
Proof.
  rewrite (port_sort_rank_key p), (port_sort_rank_key q).
  destruct (popularity_rank p) as [i|] eqn:Ep, (popularity_rank q) as [j|] eqn:Eq;
    unfold rank_key, rank_le; try (intros; exact I).
  - lia.
  - apply popularity_rank_bound in Eq. lia.
Qed.

Lemma has_rank_key (r : option nat) (p : Z) :
  match r with Some i => Z.of_nat i < 8344 | None => True end ->
  has_rank r p = (Ports.port_sort p =? rank_key r).
Proof.
  intros Hr. rewrite (port_sort_rank_key p). unfold has_rank.
  destruct (popularity_rank p) as [i|] eqn:Ep.
  - apply popularity_rank_bound in Ep. destruct r as [j|]; unfold rank_key.
    + destruct (decide (i = j)) as [->|Hne].
      * rewrite bool_decide_eq_true_2 by reflexivity. lia.
      * rewrite bool_decide_eq_false_2 by congruence. lia.
    + rewrite bool_decide_eq_false_2 by discriminate. lia.
  - destruct r as [j|]; unfold rank_key.
    + rewrite bool_decide_eq_false_2 by discriminate. lia.
    + rewrite bool_decide_eq_true_2 by reflexivity. reflexivity.
Qed.

Lemma has_rank_none (i : nat) (p : Z) : 8344 <= Z.of_nat i -> has_rank (Some i) p = false.
Proof.
  intros Hi. unfold has_rank. apply bool_decide_eq_false_2. intros H.
  apply popularity_rank_bound in H. lia.
Qed.

Lemma filter_none {A : Type} (l : list A) : List.filter (fun _ => false) l = [].
Proof. induction l; [reflexivity | exact IHl]. Qed.

(** The ports of one rank keep their order in the sort. *)
Lemma sorted_keeps_rank_order (r : option nat) (l : list Z) :
  List.filter (has_rank r) (Py.sorted Z.ltb Ports.port_sort l) = List.filter (has_rank r) l.
Proof.
  assert (Hcases : match r with Some i => Z.of_nat i < 8344 | None => True end \/
                   exists i, r = Some i /\ 8344 <= Z.of_nat i).
  { destruct r as [i|]; [|now left]. destruct (Z.lt_ge_cases (Z.of_nat i) 8344); [now left|].
    right. now exists i. }
  destruct Hcases as [Hr|(i & -> & Hi)].
  - pose proof (fun l => List.filter_ext (has_rank r)
                           (fun p => Ports.port_sort p =? rank_key r)
                           (fun p => has_rank_key r p Hr) l) as Hext.
    pose proof (sorted_stable Z.ltb Ports.port_sort (fun k => k =? rank_key r) l) as Hst.
    cbv beta in Hst.
    refine (eq_trans (Hext _) _). refine (eq_trans (Hst _) _); [intros a b Ha Hb; lia|].
    symmetry. exact (Hext _).
  - pose proof (fun l => List.filter_ext (has_rank (Some i)) (fun _ => false)
                           (fun p => has_rank_none i p Hi) l) as Hext.
    refine (eq_trans (Hext _) _). rewrite filter_none. symmetry.
    refine (eq_trans (Hext _) _). apply filter_none.
Qed.

(** C4 (amended): a port spec is a list of port numbers and ranges, written
    in decimal with a dash inside a range and commas between the items.
    [set_probes] returns on its text and stores the ports the spec lists,
    sorted by popularity rank with nothing removed: the stored list is a
    permutation of the listed ports, so a port appears as often as the spec
    lists it; a port of the popularity table stands before every port the
    table does not list, and two ports of the table stand in the order of
    their positions in it; the ports of one rank, and so the ports the
    table does not list, keep the order of the spec.  On
    "80,443,8080-8082,80" it stores 80, 80, 443, 8080, 8081, 8082, and on
    "64001,8080,64000,80", where the table lists neither 64001 nor 64000,
    it stores 80, 8080, 64001, 64000. *)
Theorem set_probes_sorted_permutation (items : list port_item) (w : World) :
  items <> [] -> Forall item_ok items ->
  (exists w',
      Scanner.set_probes (spec_text items) w = Ok w' /\
      Permutation (probes (scanner w')) (spec_ports items) /\
      StronglySorted (fun a b => rank_le (popularity_rank a) (popularity_rank b))
        (probes (scanner w')) /\
      forall r, List.filter (has_rank r) (probes (scanner w'))
                = List.filter (has_rank r) (spec_ports items)) /\
  Ports.set_probes_list "80,443,8080-8082,80" = Ok [80; 80; 443; 8080; 8081; 8082] /\
  Ports.set_probes_list "64001,8080,64000,80" = Ok [80; 8080; 64001; 64000] /\
  popularity_rank 80 = Some 0%nat /\ popularity_rank 64001 = None /\
  popularity_rank 64000 = None.
Proof.
  intros Hne Hok. split; [|repeat split; vm_compute; reflexivity].
  unfold Scanner.set_probes. rewrite (set_probes_list_spec items Hne Hok). cbn [bind].
  eexists. split; [reflexivity|]. cbn [scanner probes on_scanner with_scanner with_probes].
  split; [apply sorted_perm|]. split.
  - eapply StronglySorted_weaken; [|apply (sorted_sorted Z.ltb Ports.port_sort)].
    + intros a b Hab. apply rank_key_le. unfold Py.in_order in Hab. lia.
    + apply Zltb_asym.
    + apply Zltb_ge_trans.
  - intros r. apply sorted_keeps_rank_order.
Qed.

Lemma set_probes_sorted_permutation_witness :
  exists w',
    Scanner.set_probes "64001,443,79-81,443" Example.world = Ok w' /\
    Permutation (probes (scanner w')) [64001; 443; 79; 80; 81; 443] /\
    List.filter (has_rank None) (probes (scanner w')) = [64001].
Proof.
  destruct (set_probes_sorted_permutation [Port 64001; Port 443; Span 79 81; Port 443]
              Example.world) as [(w' & E & Hp & _ & Hst) _].
  - discriminate.
  - repeat constructor; simpl; lia.
  - exists w'. split; [exact E|]. split; [exact Hp|].
    rewrite (Hst None). vm_compute. reflexivity.
Defined.

(** ** The target enumerator: ranges, single addresses, files *)

Lemma string_app_assoc (s t u : string) : ((s ++ t) ++ u)%string = (s ++ (t ++ u))%string.
Proof.
  induction s as [|c s IH]; [reflexivity|].
  change (String c ((s ++ t) ++ u)%string = String c (s ++ (t ++ u))%string). now rewrite IH.
Qed.

Lemma land_255 (x : Z) : 0 <= Z.land x 255 < 256.
Proof. change 255 with (Z.ones 8). rewrite Z.land_ones by lia. apply Z.mod_pos_bound. lia. Qed.

(** An address written by [str] is read back by the pattern, and gives the
    integer it was written from. *)
Lemma ip_str_of_ip (ip_int : Z) (rest : string) :
  no_digit_ahead rest ->
  Re.ip (Ipaddress.str_of_ip ip_int ++ rest) = Some (octets_of ip_int, rest).
Proof.
  intros Hrest. unfold Ipaddress.str_of_ip, octets_of.
  rewrite !string_app_assoc. apply ip_app; try apply land_255. exact Hrest.
Qed.

Lemma int_of_octets (ip_int : Z) :
  0 <= ip_int < 2 ^ 32 -> Ipaddress.int_of_ip (octets_of ip_int) = ip_int.
Proof.
  intros H. unfold octets_of. rewrite int_of_ip_sum by apply land_255.
  change 255 with (Z.ones 8). rewrite !Z.land_ones, !Z.shiftr_div_pow2 by lia.
  change (2 ^ 0) with 1. rewrite Z.div_1_r.
  change (2 ^ 24) with (2 ^ 8 * (2 ^ 8 * 2 ^ 8)). change (2 ^ 16) with (2 ^ 8 * 2 ^ 8).
  rewrite <- !Z.div_div by lia.
  change (2 ^ 32) with (2 ^ 8 * (2 ^ 8 * (2 ^ 8 * 2 ^ 8))) in H.
  set (m := 2 ^ 8) in *. assert (Hm : m = 256) by reflexivity.
  pose proof (Z.div_mod ip_int m). pose proof (Z.div_mod (ip_int / m) m).
  pose proof (Z.div_mod (ip_int / m / m) m). pose proof (Z.div_mod (ip_int / m / m / m) m).
  pose proof (Z.mod_pos_bound ip_int m). pose proof (Z.mod_pos_bound (ip_int / m) m).
  pose proof (Z.mod_pos_bound (ip_int / m / m) m).
  pose proof (Z.mod_pos_bound (ip_int / m / m / m) m).
  assert (ip_int / m / m / m / m = 0).
  { rewrite !Z.div_div by lia. apply Z.div_small. lia. }
  lia.
Qed.

Lemma ip_address_str_of_ip (ip_int : Z) :
  0 <= ip_int < 2 ^ 32 -> Ipaddress.ip_address (Ipaddress.str_of_ip ip_int) = Ok ip_int.
Proof.
  intros H. unfold Ipaddress.ip_address.
  rewrite <- (string_app_nil_r (Ipaddress.str_of_ip ip_int)).
  rewrite ip_str_of_ip by exact I. now rewrite int_of_octets.
Qed.

Lemma match_ip_str_of_ip (ip_int : Z) :
  Re.match_ip (Ipaddress.str_of_ip ip_int) = Some (octets_of ip_int, EmptyString).
Proof.
  unfold Re.match_ip. rewrite <- (string_app_nil_r (Ipaddress.str_of_ip ip_int)).
  rewrite ip_str_of_ip by exact I. reflexivity.
Qed.

Lemma str_of_ip_is_address (ip_int : Z) : is_address (Ipaddress.str_of_ip ip_int).
Proof. unfold is_address. now rewrite match_ip_str_of_ip. Qed.

Lemma str_of_ip_free_of_dash (ip_int : Z) : free_of "-" (Ipaddress.str_of_ip ip_int).
Proof.
  unfold Ipaddress.str_of_ip.
  assert (H : forall k, free_of "-" (Py.str_of_Z (Z.land (Z.shiftr ip_int k) 255))).
  { intros k. apply str_of_Z_free_of; [reflexivity | apply land_255]. }
  assert (Hdot : forall t, free_of "-" t -> free_of "-" ("." ++ t)).
  { intros t Ht. change (free_of "-" (String "." t)). split; [reflexivity | exact Ht]. }
  apply free_of_app; [apply H|]. apply Hdot.
  apply free_of_app; [apply H|]. apply Hdot.
  apply free_of_app; [apply H|]. apply Hdot. apply H.
Qed.

Lemma match_ip_range_str_of_ip (lo hi : Z) :
  Re.match_ip_range (Ipaddress.str_of_ip lo ++ String "-" (Ipaddress.str_of_ip hi))
  = Some (octets_of lo, octets_of hi, EmptyString).
Proof.
  unfold Re.match_ip_range. rewrite ip_str_of_ip by reflexivity.
  cbn -[Ipaddress.str_of_ip octets_of Re.ip].
  rewrite <- (string_app_nil_r (Ipaddress.str_of_ip hi)).
  rewrite ip_str_of_ip by exact I. reflexivity.
Qed.

(** A range written as two addresses joined by a dash yields the addresses
    from the first to the second, both included, in increasing order, and
    then ends normally; when the second is below the first it yields
    nothing and reports nothing.  The dispatcher hands such a token to the
    range enumerator. *)
Theorem ip_range_enumeration (lo hi : Z) :
  0 <= lo < 2 ^ 32 -> 0 <= hi < 2 ^ 32 ->
  let token := (Ipaddress.str_of_ip lo ++ "-" ++ Ipaddress.str_of_ip hi)%string in
  TargetGenerator._get_targets_from_ip_range token
  = (map Ipaddress.str_of_ip (count_up (Z.to_nat (hi - lo + 1)) lo), GenDone) /\
  TargetGenerator._get_targets_from_string token
  = TargetGenerator._get_targets_from_ip_range token.
Proof.
  intros Hlo Hhi token.
  assert (Et : token = (Ipaddress.str_of_ip lo ++ String "-" (Ipaddress.str_of_ip hi))%string)
    by reflexivity.
  split.
  - rewrite <- range_count_up.
    unfold TargetGenerator._get_targets_from_ip_range. rewrite Et.
    rewrite match_ip_range_str_of_ip.
    rewrite split_app by apply str_of_ip_free_of_dash.
    rewrite split_free by apply str_of_ip_free_of_dash.
    cbn -[Ipaddress.str_of_ip Ipaddress.ip_address Py.range].
    rewrite (ip_address_str_of_ip lo Hlo), (ip_address_str_of_ip hi Hhi). reflexivity.
  - unfold TargetGenerator._get_targets_from_string. rewrite Et.
    now rewrite match_ip_range_str_of_ip.
Qed.

Lemma ip_range_enumeration_witness :
  TargetGenerator._get_targets_from_string "10.0.0.254-10.0.1.1"
  = (["10.0.0.254"; "10.0.0.255"; "10.0.1.0"; "10.0.1.1"], GenDone) /\
  TargetGenerator._get_targets_from_string "10.0.1.1-10.0.0.254" = ([], GenDone).
Proof.
  split.
  - destruct (ip_range_enumeration 167772414 167772417) as (H1 & H2); [lia | lia |].
    exact (eq_trans H2 H1).
  - destruct (ip_range_enumeration 167772417 167772414) as (H1 & H2); [lia | lia |].
    exact (eq_trans H2 H1).
Defined.

(** What the pattern reads is a dotted quad of bytes. *)
Lemma digit_of_bound (c : ascii) (d : Z) : Py.digit_of c = Some d -> 0 <= d <= 9.
Proof.
  unfold Py.digit_of. destruct (_ && _) eqn:E; [|discriminate]. intros [= <-].
  apply andb_prop in E as [E1 E2]. apply Nat.leb_le in E1, E2. lia.
Qed.

Lemma digit_or_zero_bound (c : ascii) :
  0 <= match Py.digit_of c with Some d => d | None => 0 end <= 9.
Proof.
  destruct (Py.digit_of c) as [d|] eqn:E; [now apply (digit_of_bound c) | lia].
Qed.

Lemma octet_of_digits_bound (ds : string) (v : Z) :
  Re.octet_of_digits ds = Some v -> 0 <= v < 256.
Proof.
  unfold Re.octet_of_digits.
  destruct ds as [|c1 [|c2 [|c3 [|c4 ds]]]]; simpl; try discriminate.
  - intros [= <-]. pose proof (digit_or_zero_bound c1). lia.
  - pose proof (digit_or_zero_bound c1). pose proof (digit_or_zero_bound c2).
    destruct (10 <=? _); [|discriminate]. intros [= <-]. lia.
  - destruct (_ && _) eqn:E; [|discriminate]. intros [= <-]. lia.
Qed.

Lemma octet_bound (s rest : string) (v : Z) : Re.octet s = Some (v, rest) -> 0 <= v < 256.
Proof.
  unfold Re.octet. destruct (Re.take_digits s) as [ds r].
  destruct (Re.octet_of_digits ds) as [v'|] eqn:E; [|discriminate].
  intros [= <- _]. now apply (octet_of_digits_bound ds).
Qed.

Lemma ip_bound (s rest : string) (x : Re.ipv4) :
  Re.ip s = Some (x, rest) -> 0 <= Ipaddress.int_of_ip x < 2 ^ 32.
Proof.
  unfold Re.ip. intros H.
  destruct (Re.octet s) as [[a s1]|] eqn:Ea; simpl in H; [|discriminate].
  destruct (Re.literal "." s1) as [s1'|]; simpl in H; [|discriminate].
  destruct (Re.octet s1') as [[b s2]|] eqn:Eb; simpl in H; [|discriminate].
  destruct (Re.literal "." s2) as [s2'|]; simpl in H; [|discriminate].
  destruct (Re.octet s2') as [[c s3]|] eqn:Ec; simpl in H; [|discriminate].
  destruct (Re.literal "." s3) as [s3'|]; simpl in H; [|discriminate].
  destruct (Re.octet s3') as [[d s4]|] eqn:Ed; simpl in H; [|discriminate].
  injection H as <- _.
  apply octet_bound in Ea, Eb, Ec, Ed. rewrite int_of_ip_sum by assumption.
  change (2 ^ 32) with 4294967296. change (2 ^ 24) with 16777216.
  change (2 ^ 16) with 65536. change (2 ^ 8) with 256. lia.
Qed.

Lemma ip_address_bound (s : string) (v : Z) :
  Ipaddress.ip_address s = Ok v -> 0 <= v < 2 ^ 32.
Proof.
  unfold Ipaddress.ip_address. destruct (Re.ip s) as [[x rest]|] eqn:E; [|discriminate].
  destruct rest; [|discriminate]. intros [= <-]. now apply (ip_bound s EmptyString).
Qed.

Lemma in_range (a b x : Z) : In x (Py.range a b) -> a <= x < b.
Proof.
  unfold Py.range. rewrite in_map_iff. intros (i & <- & Hi). apply in_seq in Hi. lia.
Qed.

Lemma yields_addresses_range (a b : Z) :
  yields_addresses (gen_yield_all (map Ipaddress.str_of_ip (Py.range a b))).
Proof.
  unfold yields_addresses. simpl. apply List.Forall_forall. intros t Ht.
  apply in_map_iff in Ht as (x & <- & _). apply str_of_ip_is_address.
Qed.

Lemma yields_addresses_nothing (stop : gen_end) : yields_addresses ([], stop).
Proof. constructor. Qed.

Lemma _get_targets_from_ip_range_addresses (ip_range : string) :
  yields_addresses (TargetGenerator._get_targets_from_ip_range ip_range).
Proof.
  unfold TargetGenerator._get_targets_from_ip_range.
  destruct (Re.match_ip_range ip_range); [|apply yields_addresses_nothing].
  destruct (Py.index _ 0); try apply yields_addresses_nothing.
  destruct (Py.index _ 1); try apply yields_addresses_nothing.
  destruct (Ipaddress.ip_address a); try apply yields_addresses_nothing.
  destruct (Ipaddress.ip_address a0); try apply yields_addresses_nothing.
  apply yields_addresses_range.
Qed.

Lemma _get_target_ips_from_cidr_addresses (cidr : string) :
  yields_addresses (TargetGenerator._get_target_ips_from_cidr cidr).
Proof.
  unfold TargetGenerator._get_target_ips_from_cidr.
  destruct (Re.match_cidr cidr) as [[[address group1] rest]|]; [|apply yields_addresses_nothing].
  destruct (Py.int group1) as [n| |]; try apply yields_addresses_nothing.
  destruct (32 <? n); [apply yields_addresses_nothing|].
  destruct (n <? 8); [apply yields_addresses_nothing|].
  destruct rest; [|apply yields_addresses_nothing].
  destruct (Ipaddress.ip_network _ n). apply yields_addresses_range.
Qed.

Lemma _get_targets_from_string_addresses (target : string) :
  yields_addresses (TargetGenerator._get_targets_from_string target).
Proof.
  unfold TargetGenerator._get_targets_from_string.
  destruct (Re.matches (Re.match_ip_range target));
    [apply _get_targets_from_ip_range_addresses|].
  destruct (Re.matches (Re.match_ip target)) eqn:E.
  - constructor; [exact E | constructor].
  - destruct (Re.matches (Re.match_cidr target));
      [apply _get_target_ips_from_cidr_addresses | apply yields_addresses_nothing].
Qed.

Lemma gen_seq_addresses (g1 g2 : gen string) :
  yields_addresses g1 -> yields_addresses g2 -> yields_addresses (gen_seq g1 g2).
Proof.
  unfold yields_addresses, gen_seq. destruct g1 as [l1 []]; simpl; auto.
  intros H1 H2. apply Forall_app. auto.
Qed.

Lemma gen_for_addresses {A : Type} (xs : list A) (body : A -> gen string) :
  (forall x, yields_addresses (body x)) -> yields_addresses (gen_for xs body).
Proof.
  intros H. induction xs as [|x xs IH]; simpl; [constructor|].
  apply gen_seq_addresses; auto.
Qed.

(** Whatever the targets on the command line or in the file are, every
    target the enumerator hands to the scanner passes the pattern of a
    single IPv4 address; a token that is no address, range or CIDR block
    ends the enumeration instead. *)
Theorem targets_are_addresses (env : Env) (s : ScannerTCP) (g : gen string) :
  Driver._get_targets env s = Ok g -> yields_addresses g.
Proof.
  unfold Driver._get_targets. intros H.
  destruct (target_source s) as [[]|]; [| |discriminate].
  - destruct (target_list_unprocessed s) as [|t ts] eqn:E; [discriminate|].
    injection H as <-. apply gen_for_addresses. apply _get_targets_from_string_addresses.
  - destruct (target_filename s) as [file|]; [|discriminate].
    destruct (String.eqb file ""); [discriminate|]. injection H as <-.
    unfold Driver._get_targets_from_file.
    destruct (read_file env file); [|apply yields_addresses_nothing].
    apply gen_for_addresses. intros line. unfold Driver.targets_of_line.
    destruct (Driver.starts_with_hash _); [constructor|].
    destruct (String.eqb _ ""); [constructor|].
    apply _get_targets_from_string_addresses.
Qed.

Lemma targets_are_addresses_witness :
  yields_addresses
    (TargetGenerator._get_targets_from_list ["10.0.0.1"; "10.0.0.8/30"; "bogus"; "10.0.0.9"]).
Proof.
  apply (targets_are_addresses Example.env
           (with_target_list_unprocessed ["10.0.0.1"; "10.0.0.8/30"; "bogus"; "10.0.0.9"]
              (with_target_source (Some SourceList) (scanner Example.world)))).
  reflexivity.
Defined.

(** A single address is yielded as it is. *)
Lemma _get_targets_from_string_single (ip_int : Z) :
  TargetGenerator._get_targets_from_string (Ipaddress.str_of_ip ip_int)
  = gen_yield_all [Ipaddress.str_of_ip ip_int].
Proof.
  unfold TargetGenerator._get_targets_from_string.
  assert (E : Re.match_ip_range (Ipaddress.str_of_ip ip_int) = None).
  { unfold Re.match_ip_range. rewrite <- (string_app_nil_r (Ipaddress.str_of_ip ip_int)).
    rewrite ip_str_of_ip by exact I. reflexivity. }
  now rewrite E, match_ip_str_of_ip.
Qed.

(** ** Target files *)

Lemma gen_seq_nothing {A : Type} (g : gen A) : gen_seq (gen_yield_all []) g = g.
Proof. now destruct g. Qed.

Lemma gen_for_kept_lines (lines : list string) :
  gen_for lines Driver.targets_of_line
  = TargetGenerator._get_targets_from_list (kept_lines lines).
Proof.
  unfold TargetGenerator._get_targets_from_list, kept_lines.
  induction lines as [|line lines IH]; [reflexivity|].
  change (gen_for (line :: lines) Driver.targets_of_line)
    with (gen_seq (Driver.targets_of_line line) (gen_for lines Driver.targets_of_line)).
  change (map Py.strip (line :: lines)) with (Py.strip line :: map Py.strip lines).
  cbn [List.filter]. unfold Driver.targets_of_line at 1.
  destruct (Driver.starts_with_hash (Py.strip line)); cbn [negb andb].
  - rewrite gen_seq_nothing. exact IH.
  - destruct (String.eqb (Py.strip line) ""); cbn [negb andb].
    + rewrite gen_seq_nothing. exact IH.
    + cbn [gen_for]. now rewrite IH.
Qed.

(** Reading targets from a file gives what the same lines give on the
    command line once they are stripped and the comment lines and the
    blank lines are dropped; a file that does not exist ends the process
    with status 0 before anything is yielded. *)
Theorem targets_from_file (env : Env) (file : string) :
  match read_file env file with
  | Some lines =>
      Driver._get_targets_from_file env file
      = TargetGenerator._get_targets_from_list (kept_lines lines)
  | None => Driver._get_targets_from_file env file = ([], GenExit (E_file_does_not_exist file) 0)
  end.
Proof.
  unfold Driver._get_targets_from_file. destruct (read_file env file); [|reflexivity].
  apply gen_for_kept_lines.
Qed.

(** ** The scan loop and the scanner's fields *)

Ltac ledger_frame := unfold ledger, configuration, tally in *; simpl in *; congruence.

Lemma ledger_parts (s s' : ScannerTCP) :
  ledger s' = ledger s ->
  configuration s' = configuration s /\ tally s' = tally s /\
  _sleep_total s' = _sleep_total s /\ sleep_reasons s' = sleep_reasons s.
Proof.
  unfold ledger. intros H.
  split; [exact (f_equal (fun x => fst (fst (fst x))) H)|].
  split; [exact (f_equal (fun x => snd (fst (fst x))) H)|].
  split; [exact (f_equal (fun x => snd (fst x)) H) | exact (f_equal snd H)].
Qed.

Lemma configuration_parts (s s' : ScannerTCP) :
  configuration s' = configuration s ->
  recv_interval s' = recv_interval s /\
  inter_packet_interval s' = inter_packet_interval s /\
  inter_packet_interval_per_host s' = inter_packet_interval_per_host s /\
  max_probes s' = max_probes s /\
  packet_overhead s' = packet_overhead s /\
  host_count_high_water s' = host_count_high_water s /\
  host_count_low_water s' = host_count_low_water s /\
  blocklist s' = blocklist s /\
  probes s' = probes s.
Proof.
  unfold configuration. intros H. inversion H. repeat split; assumption.
Qed.

Lemma only_clock_read_ledger (w w1 : World) :
  only_clock_read w w1 -> ledger (scanner w1) = ledger (scanner w).
Proof. now intros [->| ->]. Qed.

Lemma get_available_quota_packets_ledger (env : Env) (w w' : World) (n : Z) :
  Governor.get_available_quota_packets env w = Ok (n, w') ->
  ledger (scanner w') = ledger (scanner w).
Proof.
  unfold Governor.get_available_quota_packets. intros H.
  bind_inv H as [q1 w1] E1. bind_inv H as [q2 w2] E2. injection H as _ <-.
  apply bandwidth_quota_frame, only_clock_read_ledger in E1.
  apply packet_rate_quota_frame, only_clock_read_ledger in E2. congruence.
Qed.

Lemma wait_checks_ledger (env : Env) (w w' : World) (o : option Governor.pass_flags) :
  Governor.wait_checks env w = Ok (o, w') -> ledger (scanner w') = ledger (scanner w).
Proof.
  unfold Governor.wait_checks. intros H. bind_inv H as [q1 w1] E1.
  apply bandwidth_quota_frame in E1.
  pose proof (only_clock_read_ledger _ _ E1) as El1.
  apply only_clock_read_scanner in E1 as (_ & Ek1 & _).
  if_inv H; [|injection H as _ <-; exact El1].
  bind_inv H as [q2 w2] E2.
  apply packet_rate_quota_frame in E2.
  pose proof (only_clock_read_ledger _ _ E2) as El2.
  apply only_clock_read_scanner in E2 as (_ & Ek2 & _).
  destruct (Qlt_le_dec 0 q2); [|injection H as _ <-; congruence].
  if_inv H; [|injection H as _ <-; ledger_frame].
  destruct (Registry.peekleft _); [|discriminate].
  bind_inv H as r Er. unfold time_time in H.
  destruct (probe_sent_time r).
  - destruct (inter_packet_interval_per_host _); [|discriminate].
    destruct (Qlt_le_dec _ _); injection H as _ <-; ledger_frame.
  - injection H as _ <-; ledger_frame.
Qed.

(** The flags [wait_checks] returns never ask for a "packet_quota" count:
    [force_packet_quota_wait] is cleared before the packet rate is looked
    at. *)
Lemma wait_checks_flags (env : Env) (w w' : World) (f : Governor.pass_flags) :
  Governor.wait_checks env w = Ok (Some f, w') ->
  Governor.force_bandwidth_quota_wait f = true \/ Governor.force_packet_quota_wait f = false.
Proof.
  unfold Governor.wait_checks. intros H. bind_inv H as [q1 w1] E1.
  if_inv H; [|injection H as <- _; now left].
  bind_inv H as [q2 w2] E2.
  destruct (Qlt_le_dec 0 q2); [|injection H as <- _; now right].
  if_inv H.
  destruct (Registry.peekleft _); [|discriminate].
  bind_inv H as r Er. unfold time_time in H.
  destruct (probe_sent_time r).
  - destruct (inter_packet_interval_per_host _); [|discriminate].
    destruct (Qlt_le_dec _ _); injection H as <- _; now right.
  - injection H as <- _; now right.
Qed.

Lemma classify_ledger (r : ProbeStateTcp) (event : Z) (w w' : World) :
  Governor.classify r event w = Ok w' ->
  configuration (scanner w') = configuration (scanner w) /\
  _sleep_total (scanner w') = _sleep_total (scanner w) /\
  sleep_reasons (scanner w') = sleep_reasons (scanner w) /\
  poll_result_count (scanner w') = poll_result_count (scanner w) /\
  poll_deleted_packet_count (scanner w') = poll_deleted_packet_count (scanner w) /\
  replies (scanner w) <= replies (scanner w') <= replies (scanner w) + 1.
Proof.
  unfold Governor.classify, Governor.report_open, Governor.report_closed.
  intros H. repeat if_inv H; injection H as <-; simpl; repeat split; lia.
Qed.

Lemma handle_events_ledger (events : list (Z * Z)) (w w' : World) :
  Governor.handle_events events w = Ok w' ->
  configuration (scanner w') = configuration (scanner w) /\
  _sleep_total (scanner w') = _sleep_total (scanner w) /\
  sleep_reasons (scanner w') = sleep_reasons (scanner w) /\
  (tally_ok (scanner w) -> tally_ok (scanner w')).
Proof.
  revert w. induction events as [|[fd event] rest IH]; intros w; simpl.
  - intros [= <-]. auto.
  - destruct (probe_states_by_fd (container w) !! fd) as [ps|]; [|discriminate].
    intros H. bind_inv H as r Er. if_inv H.
    + apply IH in H as (Hc & Hs & Hr & Ht). simpl in *.
      repeat (split; [assumption|]). intros Hok. apply Ht.
      unfold tally_ok in *. simpl. lia.
    + bind_inv H as w1 Ew1. bind_inv H as c Ec.
      apply IH in H as (Hc & Hs & Hr & Ht). simpl in *.
      apply classify_ledger in Ew1 as (Hc1 & Hs1 & Hr1 & Hp1 & Hd1 & Hre1). simpl in *.
      split; [rewrite Hc, Hc1; reflexivity|]. split; [congruence|]. split; [congruence|].
      intros Hok. apply Ht. unfold tally_ok in *. lia.
Qed.

Lemma receive_packets_ledger (env : Env) (sl : list Z) (w w' : World) (b : bool) :
  Governor.receive_packets env sl w = Ok (b, w') ->
  configuration (scanner w') = configuration (scanner w) /\
  _sleep_total (scanner w') = _sleep_total (scanner w) /\
  sleep_reasons (scanner w') = sleep_reasons (scanner w) /\
  (tally_ok (scanner w) -> tally_ok (scanner w')).
Proof.
  unfold Governor.receive_packets. intros H. bind_inv H as w1 E. injection H as _ <-.
  destruct sl; [injection E as <-; auto|].
  now apply handle_events_ledger in E.
Qed.

Lemma count_sleep_reason_ledger (reason : string) (w w' : World) :
  Governor.count_sleep_reason reason w = Ok w' ->
  configuration (scanner w') = configuration (scanner w) /\
  tally (scanner w') = tally (scanner w) /\
  _sleep_total (scanner w') = _sleep_total (scanner w) /\
  forall other, other <> reason ->
    sleep_reasons (scanner w') !! other = sleep_reasons (scanner w) !! other.
Proof.
  unfold Governor.count_sleep_reason. destruct (_ !! reason); [|discriminate].
  intros [= <-]. simpl. repeat split. intros other Hne. now apply lookup_insert_ne.
Qed.

Lemma tally_ok_same (s s' : ScannerTCP) : tally s' = tally s -> tally_ok s -> tally_ok s'.
Proof. unfold tally, tally_ok. intros [= -> -> ->]. auto. Qed.

(** One pass of the wait loop: the configuration stays, the receive
    counters stay in step, "packet_quota" is not counted, and the time
    slept grows by the sleep of the pass, which is at most one receive
    interval. *)
Lemma wait_pass_ledger (env : Env) (w w' : World) (o : Governor.wait_outcome) :
  Governor.wait_pass env w = Ok (o, w') ->
  configuration (scanner w') = configuration (scanner w) /\
  (tally_ok (scanner w) -> tally_ok (scanner w')) /\
  sleep_reasons (scanner w') !! "packet_quota" = sleep_reasons (scanner w) !! "packet_quota" /\
  match o with
  | Governor.Returns _ => _sleep_total (scanner w') = _sleep_total (scanner w)
  | Governor.Loops =>
      exists slept,
        _sleep_total (scanner w') = (_sleep_total (scanner w) + slept)%Q /\
        (0 <= slept)%Q /\ (slept <= recv_interval (scanner w))%Q /\
        ((inter_packet_interval (scanner w) <= recv_interval (scanner w))%Q ->
         (inter_packet_interval (scanner w) <= slept)%Q)
  end.
Proof.
  unfold Governor.wait_pass. intros H. bind_inv H as [f w1] E. simpl in H.
  pose proof (wait_checks_ledger _ _ _ _ E) as El.
  apply ledger_parts in El as (Hc1 & Ht1 & Hs1 & Hr1).
  destruct f as [f|].
  2:{ injection H as <- <-. split; [exact Hc1|]. split; [now apply tally_ok_same|].
      split; [now rewrite Hr1 | exact Hs1]. }
  apply wait_checks_flags in E.
  bind_inv H as w2 E2.
  assert (H2 : configuration (scanner w2) = configuration (scanner w1) /\
               tally (scanner w2) = tally (scanner w1) /\
               _sleep_total (scanner w2) = _sleep_total (scanner w1) /\
               sleep_reasons (scanner w2) !! "packet_quota"
               = sleep_reasons (scanner w1) !! "packet_quota").
  { destruct (Governor.force_bandwidth_quota_wait f) eqn:Ef.
    - apply count_sleep_reason_ledger in E2 as (? & ? & ? & Hx).
      repeat (split; [assumption|]). now apply Hx.
    - destruct E as [E|E]; [discriminate|]. rewrite E in E2.
      destruct (Governor.force_probe_state_wait f).
      + apply count_sleep_reason_ledger in E2 as (? & ? & ? & Hx).
        repeat (split; [assumption|]). now apply Hx.
      + injection E2 as <-. auto. }
  destruct H2 as (Hc2 & Ht2 & Hs2 & Hr2).
  assert (Hcw : configuration (scanner w2) = configuration (scanner w)) by congruence.
  pose proof (configuration_parts _ _ Hcw) as (Hri & Hipi & _).
  if_inv H.
  { injection H as <- <-. split; [exact Hcw|].
    split; [intros Hok; apply (tally_ok_same (scanner w1)); [exact Ht2|];
            now apply (tally_ok_same (scanner w))|].
    split; congruence. }
  unfold Governor.py_max in H.
  destruct (Qlt_le_dec (recv_interval (scanner w2)) _) as [Hlong|Hshort].
  - bind_inv H as [b w3] E3. simpl in H. bind_inv H as w4 E4. injection H as <- <-.
    apply receive_packets_ledger in E3 as (Hc3 & Hs3 & Hr3 & Ht3).
    unfold Governor.time_sleep in E4.
    destruct (Qlt_le_dec _ 0) as [|Hnn]; [discriminate|]. injection E4 as <-.
    assert (Hcw3 : configuration (scanner w3) = configuration (scanner w)) by congruence.
    pose proof (configuration_parts _ _ Hcw3) as (Hri3 & _).
    split; [exact Hcw3|].
    split; [intros Hok; apply (tally_ok_same (scanner w3)); [reflexivity|];
            apply Ht3, (tally_ok_same (scanner w1)); [exact Ht2|];
            now apply (tally_ok_same (scanner w))|].
    split; [change (sleep_reasons (scanner w3) !! "packet_quota"
                    = sleep_reasons (scanner w) !! "packet_quota"); congruence|].
    exists (recv_interval (scanner w)).
    split; [change (_sleep_total (scanner w3) + recv_interval (scanner w3)
                    = _sleep_total (scanner w) + recv_interval (scanner w))%Q;
            rewrite Hs3, Hs2, Hs1, Hri3; reflexivity|].
    split; [rewrite <- Hri3; exact Hnn|]. split; [apply Qle_refl|]. auto.
  - bind_inv H as w3 E3. injection H as <- <-.
    unfold Governor.time_sleep in E3. simpl in E3.
    destruct (Qlt_le_dec _ 0) as [|Hnn]; [discriminate|]. injection E3 as <-.
    simpl. split; [exact Hcw|].
    split; [intros Hok; apply (tally_ok_same (scanner w1)); [exact Ht2|];
            now apply (tally_ok_same (scanner w))|].
    split; [congruence|].
    eexists. split; [rewrite Hs2, Hs1; reflexivity|].
    rewrite Hri, Hipi in *. split; [exact Hnn|]. split; [exact Hshort|].
    intros _. destruct (Qlt_le_dec (inter_packet_interval (scanner w)) (Governor.wait_time f));
      [now apply Qlt_le_weak | apply Qle_refl].
Qed.

(** The refill, the send pass, the connect pass and the update of the
    statistics write none of these fields. *)
Lemma refill_loop_ledger (items rest : list (string * nat)) (stop : gen_end)
    (w w' : World) (h h' : Z) (more : bool) :
  Driver.refill_loop items stop w h = Ok (rest, more, w', h') ->
  ledger (scanner w') = ledger (scanner w).
Proof.
  revert w h. induction items as [|[target probe_index] items IH]; intros w h; simpl.
  - destruct stop; try discriminate. now intros [= _ _ <- _].
  - intros H. bind_inv H as port Ep.
    unfold Registry.ProbeStateTcp_init, Registry.add_probe_state in H.
    cbv zeta in H. simpl in H.
    if_inv H.
    + bind_inv H as c1 E1. apply IH in H. exact H.
    + destruct (count_in_queue _ !! probe_index) as [n|] eqn:En; [|discriminate].
      destruct (probe_index =? 0)%nat; simpl in *;
        (destruct (_ <=? _);
          [injection H as _ _ <- _; reflexivity | apply IH in H; exact H]).
Qed.

Lemma refill_ledger (env : Env) (d d' : Driver.Driver) :
  Driver.refill env d = Ok d' ->
  ledger (scanner (Driver.world d')) = ledger (scanner (Driver.world d)).
Proof.
  unfold Driver.refill. intros H. if_inv H; [|now injection H as <-].
  bind_inv H as [[[rest more] w1] h1] E. unfold time_time in H.
  bind_inv H as c E2. injection H as <-. simpl.
  now apply refill_loop_ledger in E.
Qed.

Lemma send_pass_scanner (now : Q) (k ps : nat) (d d' : Driver.Driver) :
  Driver.send_pass now k ps d = Ok d' ->
  scanner (Driver.world d') = scanner (Driver.world d).
Proof.
  unfold Driver.send_pass. intros H. bind_inv H as r Er. bind_inv H as expired Ee.
  bind_inv H as c Ec. bind_inv H as r1 Er1.
  if_inv H; [now injection H as <-|].
  if_inv H; [now injection H as <-|].
  destruct (probe_sent_time r1).
  - destruct (inter_packet_interval_per_host _); [|discriminate].
    destruct (Qlt_le_dec _ _); now injection H as <-.
  - now injection H as <-.
Qed.

Lemma connect_pass_ledger (env : Env) (ps : nat) (d d' : Driver.Driver) (sent : bool) :
  Driver.connect_pass env ps d = Ok (sent, d') ->
  ledger (scanner (Driver.world d')) = ledger (scanner (Driver.world d)).
Proof.
  unfold Driver.connect_pass, time_time. intros H. simpl in H.
  destruct (socket_errno env _) as [errno|]; [if_inv H|].
  bind_inv H as r Er. if_inv H.
  bind_inv H as [sent' w1] E1.
  assert (H1 : ledger (scanner w1) = ledger (scanner (Driver.world d))).
  { destruct (python_major env =? 2).
    - destruct (connect_result env _); injection E1 as _ <-; reflexivity.
    - destruct (connect_result env _); [injection E1 as _ <-; reflexivity| |].
      + if_inv E1. injection E1 as _ <-. reflexivity.
      + if_inv E1. if_inv E1; injection E1 as _ <-; reflexivity. }
  bind_inv H as c E2. injection H as _ <-. exact H1.
Qed.

Lemma update_stats_ledger (env : Env) (ps : nat) (w w' : World) :
  Driver.update_stats env ps w = Ok w' -> ledger (scanner w') = ledger (scanner w).
Proof.
  unfold Driver.update_stats, time_time. simpl. intros H. bind_inv H as r Er.
  now injection H as <-.
Qed.

(** One step of the scan. *)
Lemma step_ledger (env : Env) (d d' : Driver.Driver) :
  Driver.step env d = Ok d' ->
  let s := scanner (Driver.world d) in
  let s' := scanner (Driver.world d') in
  configuration s' = configuration s /\
  (tally_ok s -> tally_ok s') /\
  sleep_reasons s' !! "packet_quota" = sleep_reasons s !! "packet_quota".
Proof.
  unfold Driver.step. intros H. cbv zeta.
  assert (Hframe : forall s s' : ScannerTCP, ledger s' = ledger s ->
            configuration s' = configuration s /\ (tally_ok s -> tally_ok s') /\
            sleep_reasons s' !! "packet_quota" = sleep_reasons s !! "packet_quota").
  { intros s s' Hl. apply ledger_parts in Hl as (Hc & Ht & _ & Hr).
    split; [exact Hc|]. split; [now apply tally_ok_same | now rewrite Hr]. }
  destruct (Driver.pc d) as [| |[|k]|k ps| | |] eqn:Hpc.
  - if_inv H.
    + bind_inv H as d1 E1. injection H as <-. simpl. apply Hframe.
      now apply refill_ledger in E1.
    + injection H as <-. simpl. now apply Hframe.
  - bind_inv H as [o w1] E1. simpl in H.
    apply wait_pass_ledger in E1 as (Hc & Ht & Hr & _).
    destruct o.
    + bind_inv H as [n w2] E2. injection H as <-. simpl.
      apply get_available_quota_packets_ledger in E2.
      apply Hframe in E2 as (Hc2 & Ht2 & Hr2).
      split; [congruence|]. split; [auto | congruence].
    + injection H as <-. simpl. auto.
  - injection H as <-. simpl. now apply Hframe.
  - unfold time_time in H. simpl in H. if_inv H.
    + destruct (Registry.peekleft _) as [ps|]; [|discriminate].
      apply send_pass_scanner in H. simpl in H. rewrite H. now apply Hframe.
    + if_inv H; injection H as <-; simpl; now apply Hframe.
  - bind_inv H as [sent d1] E1. apply connect_pass_ledger in E1.
    destruct sent.
    + bind_inv H as w1 E2. injection H as <-. simpl.
      apply update_stats_ledger in E2. apply Hframe. congruence.
    + injection H as <-. now apply Hframe.
  - unfold time_time in H. simpl in H. destruct (Qlt_le_dec _ _).
    + bind_inv H as [b w1] E1. injection H as <-. simpl.
      apply receive_packets_ledger in E1 as (Hc & _ & Hr & Ht). simpl in *.
      split; [exact Hc|]. split; [exact Ht | now rewrite Hr].
    + injection H as <-. simpl. now apply Hframe.
  - bind_inv H as [b w1] E1. simpl in H.
    destruct (Driver.last_send_time d); [|discriminate]. injection H as <-. simpl.
    apply receive_packets_ledger in E1 as (Hc & _ & Hr & Ht).
    split; [exact Hc|]. split; [exact Ht | now rewrite Hr].
  - injection H as <-. now apply Hframe.
Qed.

Lemma run_ledger (env : Env) (n : nat) (d d' : Driver.Driver) :
  Driver.run env n d = Ok d' ->
  let s := scanner (Driver.world d) in
  let s' := scanner (Driver.world d') in
  configuration s' = configuration s /\
  (tally_ok s -> tally_ok s') /\
  sleep_reasons s' !! "packet_quota" = sleep_reasons s !! "packet_quota".
Proof.
  revert d. induction n as [|n IH]; intros d; simpl.
  - intros [= <-]. auto.
  - intros H. bind_inv H as d1 E1. apply IH in H as (Hc & Ht & Hr).
    apply step_ledger in E1 as (Hc1 & Ht1 & Hr1).
    split; [congruence|]. split; [auto | congruence].
Qed.

(** What the preamble of [start_scan] leaves alone, and what it sets. *)
Lemma set_max_sockets_scanner (param : Z) (w w' : World) :
  Driver.set_max_sockets param w = Ok w' ->
  tally (scanner w') = tally (scanner w) /\
  max_probes (scanner w') = max_probes (scanner w) /\
  probes (scanner w') = probes (scanner w) /\
  blocklist (scanner w') = blocklist (scanner w) /\
  recv_interval (scanner w') = recv_interval (scanner w) /\
  inter_packet_interval (scanner w') = inter_packet_interval (scanner w) /\
  inter_packet_interval_per_host (scanner w') = inter_packet_interval_per_host (scanner w) /\
  sleep_reasons (scanner w') = sleep_reasons (scanner w).
Proof.
  unfold Driver.set_max_sockets. intros H. bind_inv H as suggestion E. injection H as <-.
  repeat match goal with
         | |- context [match ?x with _ => _ end] => destruct x; simpl
         end; repeat split; reflexivity.
Qed.

Lemma start_scan_begin_ledger (env : Env) (w : World) (d : Driver.Driver) :
  Driver.start_scan_begin env w = Ok d ->
  let s := scanner w in
  let s' := scanner (Driver.world d) in
  tally s' = tally s /\
  max_probes s' = max_probes s /\ probes s' = probes s /\ blocklist s' = blocklist s /\
  recv_interval s' = recv_interval s /\
  inter_packet_interval s' = inter_packet_interval s /\
  inter_packet_interval_per_host s' = inter_packet_interval_per_host s /\
  sleep_reasons s' !! "packet_quota" = Some 0 /\
  sleep_reasons s' !! "bandwidth_quota" = Some 0 /\
  sleep_reasons s' !! "port_states" = Some 0.
Proof.
  unfold Driver.start_scan_begin. intros H.
  destruct (probes (scanner w)) eqn:Ep; [discriminate|].
  bind_inv H as w1 E1. bind_inv H as targets E2. injection H as <-. cbv zeta. simpl.
  unfold Driver.set_poll_type in E1. bind_inv E1 as [pt c] E0. simpl in E1.
  assert (H1 : tally (scanner w1) = tally (scanner w) /\
               max_probes (scanner w1) = max_probes (scanner w) /\
               probes (scanner w1) = probes (scanner w) /\
               blocklist (scanner w1) = blocklist (scanner w) /\
               recv_interval (scanner w1) = recv_interval (scanner w) /\
               inter_packet_interval (scanner w1) = inter_packet_interval (scanner w) /\
               inter_packet_interval_per_host (scanner w1)
               = inter_packet_interval_per_host (scanner w)).
  { if_inv E1; [if_inv E1|].
    - apply set_max_sockets_scanner in E1 as (? & ? & ? & ? & ? & ? & ? & _). simpl in *.
      repeat split; assumption.
    - injection E1 as <-. simpl. repeat split; reflexivity.
    - injection E1 as <-. simpl. repeat split; reflexivity. }
  destruct H1 as (H1 & H2 & H3 & H4 & H5 & H6 & H7).
  rewrite Ep in H3.
  repeat (split; [assumption|]).
  split; [|split].
  - rewrite lookup_insert_ne by discriminate. rewrite lookup_insert_ne by discriminate.
    apply lookup_insert_eq.
  - rewrite lookup_insert_ne by discriminate. apply lookup_insert_eq.
  - apply lookup_insert_eq.
Qed.

(** ** What a scan never changes, and what it counts *)

(** Once [start_scan] has entered its loop, no step changes the
    configuration: bandwidth and packet rate, the probe budget, the ports,
    the intervals, the blocklist, the packet overhead, the two water marks,
    the start time, the targets and the poll type all stay what the setters
    and the preamble of [start_scan] left; the budget, the ports, the
    blocklist and the intervals are still those of the scanner that was
    handed to [start_scan]. *)
Theorem scan_keeps_configuration (env : Env) (w : World) (n : nat) (d0 d : Driver.Driver) :
  Driver.start_scan env 0 w = Ok d0 ->
  Driver.start_scan env n w = Ok d ->
  let s := scanner (Driver.world d) in
  configuration s = configuration (scanner (Driver.world d0)) /\
  max_probes s = max_probes (scanner w) /\
  probes s = probes (scanner w) /\
  blocklist s = blocklist (scanner w) /\
  recv_interval s = recv_interval (scanner w) /\
  inter_packet_interval s = inter_packet_interval (scanner w) /\
  inter_packet_interval_per_host s = inter_packet_interval_per_host (scanner w).
Proof.
  unfold Driver.start_scan. intros H0 H.
  destruct (Driver.start_scan_begin env w) as [d1| |] eqn:E; simpl in *; try discriminate.
  injection H0 as <-.
  apply run_ledger in H as (Hc & _). cbv zeta. split; [exact Hc|].
  apply configuration_parts in Hc as (Hri & Hipi & Hiph & Hm & _ & _ & _ & Hb & Hp).
  apply start_scan_begin_ledger in E as (_ & Em & Ep & Eb & Eri & Eipi & Eiph & _).
  repeat split; congruence.
Qed.

Lemma scan_keeps_configuration_witness :
  exists d0 d,
    Driver.start_scan Example.env 0 (Example.scan_world 1) = Ok d0 /\
    Driver.start_scan Example.env 200 (Example.scan_world 1) = Ok d /\
    configuration (scanner (Driver.world d)) = configuration (scanner (Driver.world d0)).
Proof.
  destruct (Driver.start_scan Example.env 0 (Example.scan_world 1)) as [d0| |] eqn:E0;
    [|vm_compute in E0; discriminate..].
  destruct (Driver.start_scan Example.env 200 (Example.scan_world 1)) as [d| |] eqn:E;
    [|vm_compute in E; discriminate..].
  exists d0, d. split; [reflexivity|]. split; [reflexivity|].
  exact (proj1 (scan_keeps_configuration Example.env (Example.scan_world 1) 200 d0 d E0 E)).
Defined.

(** The receive pass counts every event it is handed once in
    [poll_result_count], and at most once more: as a reply, or as an event
    of a tombstoned object.  So in every state of a scan the replies do
    not exceed the events polled, and the number of resets that the final
    line reports, [poll_result_count - replies], is not negative. *)
Theorem replies_within_poll_results (env : Env) (w : World) (n : nat) (d : Driver.Driver) :
  tally_ok (scanner w) ->
  Driver.start_scan env n w = Ok d ->
  let s := scanner (Driver.world d) in
  0 <= replies s /\ 0 <= poll_deleted_packet_count s /\
  replies s + poll_deleted_packet_count s <= poll_result_count s /\
  0 <= poll_result_count s - replies s.
Proof.
  unfold Driver.start_scan. intros Hok H. bind_inv H as d0 E0.
  apply run_ledger in H as (_ & Ht & _).
  apply start_scan_begin_ledger in E0 as (Et & _).
  assert (Hd : tally_ok (scanner (Driver.world d)))
    by (apply Ht; now apply (tally_ok_same (scanner w))).
  unfold tally_ok in Hd. cbv zeta. lia.
Qed.

Lemma replies_within_poll_results_witness :
  exists d,
    Driver.start_scan Example.answering_env 30 (Example.scan_world 1) = Ok d /\
    replies (scanner (Driver.world d)) = 1 /\
    0 <= poll_result_count (scanner (Driver.world d)) - replies (scanner (Driver.world d)).
Proof.
  destruct (Driver.start_scan Example.answering_env 30 (Example.scan_world 1)) as [d| |] eqn:E;
    [|vm_compute in E; discriminate..].
  exists d. split; [reflexivity|].
  destruct (replies_within_poll_results Example.answering_env (Example.scan_world 1) 30 d)
    as (_ & _ & _ & H).
  - vm_compute. repeat split; discriminate.
  - exact E.
  - split; [|exact H]. vm_compute in E. injection E as <-. reflexivity.
Defined.

(** The sleep counter "packet_quota" is never incremented: [start_scan]
    sets it to 0 and it is 0 in every state of the scan.  (In
    [wait_for_quotas] the flag [force_packet_quota_wait] is cleared before
    the packet rate is looked at, so a wait that the packet rate forces is
    counted under "port_states".) *)
Theorem packet_quota_sleeps_stay_zero (env : Env) (w : World) (n : nat) (d : Driver.Driver) :
  Driver.start_scan env n w = Ok d ->
  sleep_reasons (scanner (Driver.world d)) !! "packet_quota" = Some 0.
Proof.
  unfold Driver.start_scan. intros H. bind_inv H as d0 E0.
  apply run_ledger in H as (_ & _ & Hr).
  apply start_scan_begin_ledger in E0 as (_ & _ & _ & _ & _ & _ & _ & E0 & _).
  congruence.
Qed.

Lemma packet_quota_sleeps_stay_zero_witness :
  exists d,
    Driver.start_scan Example.env 200 (Example.scan_world 1) = Ok d /\
    sleep_reasons (scanner (Driver.world d)) !! "packet_quota" = Some 0 /\
    sleep_reasons (scanner (Driver.world d)) !! "port_states" = Some 40.
Proof.
  destruct (Driver.start_scan Example.env 200 (Example.scan_world 1)) as [d| |] eqn:E;
    [|vm_compute in E; discriminate..].
  exists d. split; [reflexivity|].
  split; [exact (packet_quota_sleeps_stay_zero Example.env (Example.scan_world 1) 200 d E)|].
  vm_compute in E. injection E as <-. reflexivity.
Defined.

(** A pass of the loop of [wait_for_quotas] that does not let the caller
    go on sleeps once, for a time that is not negative and not longer than
    the receive interval, and not shorter than the send interval when that
    is the shorter one; it adds that time to the time slept, leaves the
    configuration as it is and does not count a "packet_quota" sleep. *)
Theorem wait_pass_sleeps (env : Env) (w w' : World) :
  Governor.wait_pass env w = Ok (Governor.Loops, w') ->
  configuration (scanner w') = configuration (scanner w) /\
  sleep_reasons (scanner w') !! "packet_quota" = sleep_reasons (scanner w) !! "packet_quota" /\
  exists slept,
    _sleep_total (scanner w') = (_sleep_total (scanner w) + slept)%Q /\
    (0 <= slept)%Q /\ (slept <= recv_interval (scanner w))%Q /\
    ((inter_packet_interval (scanner w) <= recv_interval (scanner w))%Q ->
     (inter_packet_interval (scanner w) <= slept)%Q).
Proof.
  intros H. apply wait_pass_ledger in H as (Hc & _ & Hr & Hs). auto.
Qed.

Lemma wait_pass_sleeps_witness :
  exists w',
    Governor.wait_pass Example.pacing_env waiting_world = Ok (Governor.Loops, w') /\
    exists slept,
      _sleep_total (scanner w') = (_sleep_total (scanner waiting_world) + slept)%Q /\
      (slept <= recv_interval (scanner waiting_world))%Q.
Proof.
  destruct (Governor.wait_pass Example.pacing_env waiting_world) as [[o w']| |] eqn:E;
    [|vm_compute in E; discriminate..].
  assert (Ho : o = Governor.Loops) by (vm_compute in E; now injection E as <- _).
  subst o. exists w'. split; [reflexivity|].
  destruct (wait_pass_sleeps Example.pacing_env waiting_world w' E)
    as (_ & _ & slept & H1 & _ & H2 & _).
  exists slept. split; assumption.
Defined.

(** ** The queue and the sockets under the operations of the driver *)
















(** ** The queue and the sockets during a scan *)













(** ** The registry during a scan, and the two water marks *)





Lemma set_max_sockets_high (param : Z) (w w' : World) :
  Driver.set_max_sockets param w = Ok w' ->
  let s' := scanner w' in
  host_count_high_water s' <= param /\
  host_count_low_water s' = Py.int_of_float ((9 # 10) * inject_Z (host_count_high_water s')) /\
  scanner_poll_type s' = scanner_poll_type (scanner w) /\
  (host_count_high_water s' = param \/
   exists soft, soft_open_files_limit (scanner w) = Some soft /\ soft < param /\
                host_count_high_water s' = soft - 10).
Proof.
  unfold Driver.set_max_sockets. intros H. bind_inv H as suggestion E. injection H as <-.
  cbv zeta. simpl.
  destruct (soft_open_files_limit (scanner w)) as [soft|] eqn:Es; simpl.
  - destruct (hard_open_files_limit (scanner w)) as [hard|]; simpl.
    + destruct (negb (soft =? 0) && negb (hard =? 0) && (soft <? param)) eqn:Eb; simpl.
      * apply andb_prop in Eb as [_ Eb]. apply Z.ltb_lt in Eb.
        repeat match goal with
               | |- context [match ?x with _ => _ end] => destruct x; simpl
               end;
          (split; [lia|]; split; [reflexivity|]; split; [reflexivity|];
           right; exists soft; repeat split; lia).
      * repeat match goal with
               | |- context [match ?x with _ => _ end] => destruct x; simpl
               end;
          (split; [lia|]; split; [reflexivity|]; split; [reflexivity|]; now left).
    + repeat match goal with
             | |- context [match ?x with _ => _ end] => destruct x; simpl
             end;
        (split; [lia|]; split; [reflexivity|]; split; [reflexivity|]; now left).
  - repeat match goal with
           | |- context [match ?x with _ => _ end] => destruct x; simpl
           end;
      (split; [lia|]; split; [reflexivity|]; split; [reflexivity|]; now left).
Qed.



(** With a "select" poller, [set_poll_type] leaves at most 1021 sockets
    (511 on Windows) as the high water mark, whatever it was before. *)
Theorem select_caps_max_sockets (env : Env) (poll_type : string) (w w' : World) :
  Driver.set_poll_type env poll_type w = Ok w' ->
  scanner_poll_type (scanner w') = "select" ->
  host_count_high_water (scanner w') <= select_limit env /\
  select_limit env <= 1021.
Proof.
  unfold Driver.set_poll_type. intros H Hsel. bind_inv H as [pt c] E0. simpl in H.
  assert (Hlim : select_limit env <= 1021)
    by (unfold select_limit, Driver.max_sockets_on_windows,
          Driver.max_sockets_on_non_windows; destruct (platform env); lia).
  split; [|exact Hlim]. fold (select_limit env) in H.
  destruct (String.eqb pt "select") eqn:Ept.
  - destruct (select_limit env <? host_count_high_water (scanner w)) eqn:Elt.
    + now apply set_max_sockets_high in H as (Hle & _).
    + injection H as <-. simpl. lia.
  - injection H as <-. simpl in Hsel. subst pt. discriminate.
Qed.

Lemma select_caps_max_sockets_witness :
  exists w',
    Driver.set_poll_type Example.env "select"
      (on_scanner (with_host_count_high_water 5000) (Example.scan_world 1)) = Ok w' /\
    host_count_high_water (scanner w') <= 1021.
Proof.
  destruct (Driver.set_poll_type Example.env "select"
              (on_scanner (with_host_count_high_water 5000) (Example.scan_world 1)))
    as [w'| |] eqn:E; [|vm_compute in E; discriminate..].
  exists w'. split; [reflexivity|].
  destruct (select_caps_max_sockets Example.env "select" _ w' E) as [H1 H2].
  - vm_compute in E. injection E as <-. reflexivity.
  - lia.
Defined.

Lemma nexts_rotation (a b : list nat) (c : ProbeStateContainer) :
  probe_states c = a ++ b ->
  nexts (length a) c = (a, with_probe_states (b ++ a) c).
Proof.
  revert b c. induction a as [|x a IH]; intros b c Hq; simpl.
  - rewrite List.app_nil_r. simpl in Hq. rewrite <- Hq. now destruct c.
  - unfold Registry.next. rewrite Hq. simpl.
    rewrite (IH (b ++ [x])); [|simpl; now rewrite <- List.app_assoc].
    simpl. now rewrite <- List.app_assoc.
Qed.

(** [next()] called once for each queued object returns the objects in the
    order of the deque and leaves the container as it was: a caller can walk
    the whole queue with it.  Called fewer times, it returns the objects at
    the left end and moves them, in order, to the right end; it never
    changes [count]. *)
Theorem next_walks_the_queue (c : ProbeStateContainer) :
  nexts (length (probe_states c)) c = (probe_states c, c) /\
  forall a b : list nat,
    nexts (length a) (with_probe_states (a ++ b) c) = (a, with_probe_states (b ++ a) c) /\
    count (snd (nexts (length a) (with_probe_states (a ++ b) c))) = count c.
Proof.
  split.
  - rewrite (nexts_rotation (probe_states c) [] c) by now rewrite List.app_nil_r.
    simpl. now destruct c.
  - intros a b. now rewrite (nexts_rotation a b (with_probe_states (a ++ b) c) eq_refl).
Qed.
